(** * kan-mcp: the task collector, the priority analyzer and the trend analyzer

    A shallow embedding of [internal/handlers] (tasks.go, priorities.go,
    analytics.go) together with the parts of Go's standard library the
    handlers lean on ([time], [strings], [sort]), and the properties the
    specification states about them. *)

From Stdlib Require Import ZArith List Bool Lia String Ascii.
From Stdlib Require Import Permutation Sorted PeanoNat.
From Stdlib Require Import Floats Uint63.
Import ListNotations.

Local Open Scope string_scope.
Local Open Scope list_scope.
Local Open Scope Z_scope.

(* ================================================================== *)
(** * Go strings: bytes, decimal numbers, comparison *)
(* ================================================================== *)

Module GoString.

(** A Go string is a sequence of bytes; [string] holds one byte per
    character. *)
Definition byte (c : ascii) : Z := Z.of_N (N_of_ascii c).
Definition chr (n : Z) : ascii := ascii_of_N (Z.to_N n).

Definition isDigitChar (c : ascii) : bool := (48 <=? byte c) && (byte c <=? 57).
Definition digitVal (c : ascii) : Z := byte c - 48.

(** [len(s)] *)
Definition len (s : string) : Z := Z.of_nat (String.length s).

(** Decimal digits of a natural number, most significant first. *)
Fixpoint digitsFuel (fuel : nat) (n : Z) (acc : string) : string :=
  match fuel with
  | O => acc
  | S fuel' =>
      let acc' := String (chr (48 + n mod 10)) acc in
      if n <? 10 then acc' else digitsFuel fuel' (n / 10) acc'
  end.

Definition digits (n : Z) : string :=
  digitsFuel (S (Z.to_nat (Z.log2 n))) n "".

(** [fmt.Sprintf("%d", n)] and [strconv.Itoa]. *)
Definition itoa (n : Z) : string :=
  if n <? 0 then String "-" (digits (- n)) else digits n.

Fixpoint zeros (k : nat) : string :=
  match k with O => "" | S k' => String "0" (zeros k') end.

(** Zero padding to [width] digits, as [appendInt] of package time does:
    the sign comes first and does not count. *)
Definition appendInt (x : Z) (width : nat) : string :=
  let u := digits (Z.abs x) in
  let body := (zeros (width - String.length u) ++ u)%string in
  if x <? 0 then String "-" body else body.

(** [s < t] on Go strings: byte-wise lexicographic order. *)
Definition lt (s t : string) : bool := String.ltb s t.

End GoString.

(* ================================================================== *)
(** * Go integers *)
(* ================================================================== *)

Module GoInt.

(** [int] on a 64-bit platform: two's complement, so arithmetic wraps
    around.  [math.MinInt] and [math.MaxInt]. *)
Definition MinInt : Z := - 2 ^ 63.
Definition MaxInt : Z := 2 ^ 63 - 1.

(** The [int] a mathematical result comes out as. *)
Definition wrap (x : Z) : Z := (x + 2 ^ 63) mod 2 ^ 64 - 2 ^ 63.

(** [-x]: every [int] but [MinInt] has its negation; [-MinInt] is
    [MinInt] again. *)
Definition neg (x : Z) : Z := wrap (- x).

End GoInt.

(* ================================================================== *)
(** * Go time: instants, the civil calendar, Format and Parse *)
(* ================================================================== *)

Module GoTime.
Import GoString.

(** [time.Time]: an instant (seconds and nanoseconds since the Unix
    epoch) presented in a zone with a fixed offset east of UTC. *)
Record Time : Set := mkTime {
  unixSec : Z;
  nsec : Z;
  zoneOffset : Z
}.

Definition nsPerSecond : Z := 1000000000.
Definition secondsPerDay : Z := 86400.
Definition nsPerHour : Z := 3600 * nsPerSecond.
Definition nsPerDay : Z := 24 * nsPerHour.

(** The zero [Time]: January 1, year 1, 00:00:00 UTC. *)
Definition unixOfYearOne : Z := -62135596800.
Definition zeroTime : Time := mkTime unixOfYearOne 0 0.

Definition IsZero (t : Time) : bool :=
  (unixSec t =? unixOfYearOne) && (nsec t =? 0).

(** The instant in nanoseconds since the Unix epoch, as an unbounded
    integer. *)
Definition instant (t : Time) : Z := unixSec t * nsPerSecond + nsec t.

Definition Before (t u : Time) : bool := instant t <? instant u.
Definition After (t u : Time) : bool := instant u <? instant t.

(** [time.Duration]: nanoseconds in an int64; [Sub] saturates. *)
Definition minDuration : Z := - 2 ^ 63.
Definition maxDuration : Z := 2 ^ 63 - 1.

Definition Sub (t u : Time) : Z :=
  Z.max minDuration (Z.min maxDuration (instant t - instant u)).

(** [int(d.Hours() / 24)]: whole days in a duration, rounded toward
    zero.  Go goes through float64 ([Hours] returns one); the quotient
    is taken exactly here.  The two agree in sign and are both monotone
    in [d]; the values can differ only for a duration within float64
    rounding distance (microseconds) of a whole number of days. *)
Definition wholeDays (d : Z) : Z := Z.quot d nsPerDay.

(** ** The proleptic Gregorian calendar *)

Definition isLeap (year : Z) : bool :=
  (year mod 4 =? 0) && (negb (year mod 100 =? 0) || (year mod 400 =? 0)).

Definition daysIn (month year : Z) : Z :=
  if month =? 2 then (if isLeap year then 29 else 28)
  else if (month =? 4) || (month =? 6) || (month =? 9) || (month =? 11) then 30
  else 31.

(** Days from 1970-01-01 to the given civil date ([month] in 1..12; any
    [day], days beyond the month run on into the next ones). *)
Definition daysFromCivil (year month day : Z) : Z :=
  let y := if month <=? 2 then year - 1 else year in
  let era := y / 400 in
  let yoe := y - era * 400 in
  let mp := if 2 <? month then month - 3 else month + 9 in
  let doy := (153 * mp + 2) / 5 + day - 1 in
  let doe := yoe * 365 + yoe / 4 - yoe / 100 + doy in
  era * 146097 + doe - 719468.

(** The civil date of a day number: (year, month, day). *)
Definition civilFromDays (z : Z) : Z * Z * Z :=
  let z := z + 719468 in
  let era := z / 146097 in
  let doe := z - era * 146097 in
  let yoe := (doe - doe / 1460 + doe / 36524 - doe / 146096) / 365 in
  let doy := doe - (365 * yoe + yoe / 4 - yoe / 100) in
  let mp := (5 * doy + 2) / 153 in
  let d := doy - (153 * mp + 2) / 5 + 1 in
  let m := if mp <? 10 then mp + 3 else mp - 9 in
  let y := yoe + era * 400 in
  (if m <=? 2 then y + 1 else y, m, d).

(** The wall clock of [t] in its own zone. *)
Definition wallSec (t : Time) : Z := unixSec t + zoneOffset t.

Definition Date_of (t : Time) : Z * Z * Z := civilFromDays (wallSec t / secondsPerDay).
Definition Clock_of (t : Time) : Z * Z * Z :=
  let s := wallSec t mod secondsPerDay in
  (s / 3600, (s mod 3600) / 60, s mod 60).

(** [time.Date(year, month, day, hour, min, sec, nsec, loc)] for a zone
    with a fixed offset: months outside 1..12 carry into the year, days
    and clock fields outside their range carry on. *)
Definition Date (year month day hour min sec ns offset : Z) : Time :=
  let m0 := month - 1 in
  let year' := year + m0 / 12 in
  let month' := m0 mod 12 + 1 in
  let wall := daysFromCivil year' month' day * secondsPerDay
              + hour * 3600 + min * 60 + sec in
  let total := (wall - offset) * nsPerSecond + ns in
  mkTime (total / nsPerSecond) (total mod nsPerSecond) offset.

(** [t.AddDate(years, months, days)], for a zone with a fixed offset: the
    result keeps the offset of [t].  In a zone with daylight saving Go
    looks the offset up again on the day it arrives at, so that a day
    added is not always 24 hours. *)
Definition AddDate (t : Time) (years months days : Z) : Time :=
  let '(y, m, d) := Date_of t in
  let '(hh, mm, ss) := Clock_of t in
  Date (y + years) (m + months) (d + days) hh mm ss (nsec t) (zoneOffset t).

(** [time.Unix(sec, 0).UTC()] *)
Definition Unix (sec : Z) : Time := mkTime sec 0 0.

(** ** Format and Parse for the two layouts the handlers use *)

Inductive Layout : Set :=
| LayoutStamp   (* "2006-01-02T15:04:05Z": the trailing Z is a literal *)
| LayoutDate.   (* "2006-01-02" *)

Definition formatDate (t : Time) : string :=
  let '(y, m, d) := Date_of t in
  (appendInt y 4 ++ "-" ++ appendInt m 2 ++ "-" ++ appendInt d 2)%string.

Definition formatClock (t : Time) : string :=
  let '(hh, mm, ss) := Clock_of t in
  (appendInt hh 2 ++ ":" ++ appendInt mm 2 ++ ":" ++ appendInt ss 2)%string.

Definition Format (t : Time) (layout : Layout) : string :=
  match layout with
  | LayoutStamp => (formatDate t ++ "T" ++ formatClock t ++ "Z")%string
  | LayoutDate => formatDate t
  end.

(** [getnum(s, fixed)]: one or two leading digits; two are required when
    [fixed]. *)
Definition getnum (s : string) (fixed : bool) : option (Z * string) :=
  match s with
  | String c0 rest =>
      if isDigitChar c0 then
        match rest with
        | String c1 rest' =>
            if isDigitChar c1 then Some (digitVal c0 * 10 + digitVal c1, rest')
            else if fixed then None else Some (digitVal c0, rest)
        | EmptyString => if fixed then None else Some (digitVal c0, rest)
        end
      else None
  | EmptyString => None
  end.

(** The four-digit year of layout element "2006". *)
Definition getYear (s : string) : option (Z * string) :=
  match s with
  | String a (String b (String c (String d rest))) =>
      if isDigitChar a && isDigitChar b && isDigitChar c && isDigitChar d
      then Some (((digitVal a * 10 + digitVal b) * 10 + digitVal c) * 10 + digitVal d, rest)
      else None
  | _ => None
  end.

(** [skip(value, prefix)] for a one-byte literal of the layout. *)
Definition skipChar (c : ascii) (s : string) : option string :=
  match s with
  | String c' rest => if Ascii.eqb c c' then Some rest else None
  | EmptyString => None
  end.

Fixpoint spanDigits (s : string) : string * string :=
  match s with
  | String c rest =>
      if isDigitChar c then let '(ds, r) := spanDigits rest in (String c ds, r)
      else ("", s)
  | EmptyString => ("", "")
  end.

Fixpoint natOfDigits (s : string) (acc : Z) : Z :=
  match s with
  | String c rest => natOfDigits rest (acc * 10 + digitVal c)
  | EmptyString => acc
  end.

Fixpoint takeStr (n : nat) (s : string) : string :=
  match n, s with
  | S n', String c rest => String c (takeStr n' rest)
  | _, _ => ""
  end.

(** A fractional second in the input right after the seconds field is
    read even though the layout has none ([Parse] does so): at most nine
    digits count, scaled to nanoseconds. *)
Definition parseFraction (s : string) : Z * string :=
  match s with
  | String p (String c rest) =>
      if (Ascii.eqb p "." || Ascii.eqb p ",") && isDigitChar c then
        let '(ds, r) := spanDigits (String c rest) in
        let kept := takeStr 9 ds in
        (natOfDigits kept 0 * 10 ^ (9 - Z.of_nat (String.length kept)), r)
      else (0, s)
  | _ => (0, s)
  end.

Definition parseDatePart (s : string) : option (Z * Z * Z * string) :=
  match getYear s with
  | None => None
  | Some (year, s) =>
  match skipChar "-" s with
  | None => None
  | Some s =>
  match getnum s true with
  | None => None
  | Some (month, s) =>
  if (month <=? 0) || (12 <? month) then None else
  match skipChar "-" s with
  | None => None
  | Some s =>
  match getnum s true with
  | None => None
  | Some (day, s) => Some (year, month, day, s)
  end end end end end.

Definition dayInRange (year month day : Z) : bool :=
  (1 <=? day) && (day <=? daysIn month year).

(** [time.Parse(layout, s)]: [None] is an error.  The result is in UTC. *)
Definition Parse (layout : Layout) (s : string) : option Time :=
  match parseDatePart s with
  | None => None
  | Some (year, month, day, s) =>
    match layout with
    | LayoutDate =>
        match s with
        | EmptyString =>
            if dayInRange year month day
            then Some (Date year month day 0 0 0 0 0) else None
        | _ => None
        end
    | LayoutStamp =>
        match skipChar "T" s with
        | None => None
        | Some s =>
        match getnum s false with
        | None => None
        | Some (hour, s) =>
        if 24 <=? hour then None else
        match skipChar ":" s with
        | None => None
        | Some s =>
        match getnum s true with
        | None => None
        | Some (min, s) =>
        if 60 <=? min then None else
        match skipChar ":" s with
        | None => None
        | Some s =>
        match getnum s true with
        | None => None
        | Some (sec, s) =>
        if 60 <=? sec then None else
        let '(ns, s) := parseFraction s in
        match skipChar "Z" s with
        | Some EmptyString =>
            if dayInRange year month day
            then Some (Date year month day hour min sec ns 0) else None
        | _ => None
        end end end end end end end
    end
  end.

End GoTime.

(** ** What the proofs about the calendar and the stamps speak of *)

Module GoTimeInv.
Import GoString GoTime.

(** Days in the years before year [y], counted from year 0 of an era. *)
Definition daysBeforeYear (y : Z) : Z := 365 * y + y / 4 - y / 100 + y / 400.

(** Days of a year that starts in March before its month [mp]
    (0 is March, 11 is February). *)
Definition daysBeforeMonth (mp : Z) : Z := (153 * mp + 2) / 5.

(** A civil date as one number that orders dates as the calendar does. *)
Definition dateKey (date : Z * Z * Z) : Z :=
  let '(y, m, d) := date in y * 10000 + m * 100 + d.

(** [z] is day [d] of month [mp] of year [yoe] of era [era]: eras of 400
    years start on 1 March of year 0, years in March. *)
Definition Civil (z era yoe mp d : Z) : Prop :=
  0 <= yoe < 400 /\ 0 <= mp <= 11
  /\ 1 <= d <= daysBeforeMonth (mp + 1) - daysBeforeMonth mp
  /\ daysBeforeMonth mp + d - 1 < daysBeforeYear (yoe + 1) - daysBeforeYear yoe
  /\ z + 719468 = era * 146097 + daysBeforeYear yoe + daysBeforeMonth mp + d - 1.

Definition civilDate (era yoe mp d : Z) : Z * Z * Z :=
  (if mp <? 10 then yoe + era * 400 else yoe + era * 400 + 1,
   if mp <? 10 then mp + 3 else mp - 9,
   d).

(** The years a four-digit year field can hold, in seconds of the wall
    clock: 0000-01-01T00:00:00 to 9999-12-31T23:59:59. *)
Definition firstStampSecond : Z := -62167219200.
Definition lastStampSecond : Z := 253402300799.

Definition fourDigitYear (t : Time) : Prop :=
  firstStampSecond <= wallSec t <= lastStampSecond.

(** One decimal digit as a byte, and fields of two and four digits. *)
Definition digitChar (k : Z) : ascii := chr (48 + k).

Definition twoDigits (x : Z) (rest : string) : string :=
  String (digitChar (x / 10)) (String (digitChar (x mod 10)) rest).

Definition fourDigits (x : Z) (rest : string) : string :=
  String (digitChar (x / 1000)) (String (digitChar (x / 100 mod 10))
    (String (digitChar (x / 10 mod 10)) (String (digitChar (x mod 10)) rest))).

(** The fields of a stamp as one number. *)
Definition stampKey (t : Time) : Z :=
  let '(hh, mm, ss) := Clock_of t in
  dateKey (Date_of t) * 1000000 + hh * 10000 + mm * 100 + ss.

End GoTimeInv.

(* ================================================================== *)
(** * Go sort: [sort.Slice] *)
(* ================================================================== *)

(** [sort.Slice(x, less)] runs the pattern-defeating quicksort of
    package sort (zsortfunc.go, Go 1.19 and later) over the slice, through
    [data.Less(i, j)] and [data.Swap(i, j)] only.  The slice is a list,
    indices are naturals; [less] compares two elements, as every closure
    the handlers pass does. *)
Module GoSort.
Local Open Scope nat_scope.

Inductive sortedHint : Set := unknownHint | increasingHint | decreasingHint.

Section Pdqsort.
Variable A : Type.
Variable less : A -> A -> bool.

Definition Less (data : list A) (i j : nat) : bool :=
  match nth_error data i, nth_error data j with
  | Some x, Some y => less x y
  | _, _ => false
  end.

(** [data[i] = x]; an index out of range leaves the list alone (the
    sort never produces one). *)
Fixpoint store (data : list A) (i : nat) (x : A) : list A :=
  match data, i with
  | [], _ => []
  | _ :: t, O => x :: t
  | h :: t, S i' => h :: store t i' x
  end.

Definition Swap (data : list A) (i j : nat) : list A :=
  match nth_error data i, nth_error data j with
  | Some x, Some y => store (store data i y) j x
  | _, _ => data
  end.

(** The inner loop of insertion sort:
    [for j := i; j > a && data.Less(j, j-1); j-- { data.Swap(j, j-1) }] *)
Fixpoint insertDown (data : list A) (a j : nat) : list A :=
  match j with
  | O => data
  | S j' =>
      if (a <? j) && Less data j j'
      then insertDown (Swap data j j') a j'
      else data
  end.

Definition insertionSort (data : list A) (a b : nat) : list A :=
  fold_left (fun d i => insertDown d a i) (seq (a + 1) (b - (a + 1))) data.

(** [siftDown(data, lo, hi, first)]; the root moves down at most [hi]
    times. *)
Fixpoint siftDownLoop (fuel : nat) (data : list A) (root hi first : nat) : list A :=
  match fuel with
  | O => data
  | S fuel' =>
      let child := 2 * root + 1 in
      if hi <=? child then data
      else
        let child :=
          if (child + 1 <? hi) && Less data (first + child) (first + child + 1)
          then child + 1 else child in
        if negb (Less data (first + root) (first + child)) then data
        else siftDownLoop fuel' (Swap data (first + root) (first + child)) child hi first
  end.

Definition siftDown (data : list A) (lo hi first : nat) : list A :=
  siftDownLoop hi data lo hi first.

(** [i, i-1, ..., 0] *)
Definition downFrom (i : nat) : list nat := rev (seq 0 (S i)).

Definition heapSort (data : list A) (a b : nat) : list A :=
  let first := a in
  let lo := 0 in
  let hi := b - a in
  let data :=
    fold_left (fun d i => siftDown d i hi first) (downFrom ((hi - 1) / 2)) data in
  fold_left (fun d i => siftDown (Swap d first (first + i)) lo i first)
            (rev (seq 0 hi)) data.

(** [for i <= j && data.Less(i, a) { i++ }] *)
Fixpoint scanLess (fuel : nat) (data : list A) (a i j : nat) : nat :=
  match fuel with
  | O => i
  | S fuel' =>
      if (i <=? j) && Less data i a then scanLess fuel' data a (i + 1) j else i
  end.

(** [for i <= j && !data.Less(j, a) { j-- }] *)
Fixpoint scanNotLess (data : list A) (a i j : nat) : nat :=
  match j with
  | O => O
  | S j' =>
      if (i <=? j) && negb (Less data j a) then scanNotLess data a i j' else j
  end.

Fixpoint partitionLoop (fuel : nat) (data : list A) (a i j : nat) : list A * nat :=
  match fuel with
  | O => (data, j)
  | S fuel' =>
      let i := scanLess (S j - i) data a i j in
      let j := scanNotLess data a i j in
      if j <? i then (data, j)
      else partitionLoop fuel' (Swap data i j) a (i + 1) (j - 1)
  end.

(** [partition(data, a, b, pivot)]: (data, newpivot, alreadyPartitioned) *)
Definition partition (data : list A) (a b pivot : nat) : list A * nat * bool :=
  let data := Swap data a pivot in
  let i := a + 1 in
  let j := b - 1 in
  let i := scanLess (S j - i) data a i j in
  let j := scanNotLess data a i j in
  if j <? i then (Swap data j a, j, true)
  else
    let data := Swap data i j in
    let '(data, j) := partitionLoop (b - a) data a (i + 1) (j - 1) in
    (Swap data j a, j, false).

(** [for i <= j && !data.Less(a, i) { i++ }] *)
Fixpoint scanNotGreater (fuel : nat) (data : list A) (a i j : nat) : nat :=
  match fuel with
  | O => i
  | S fuel' =>
      if (i <=? j) && negb (Less data a i) then scanNotGreater fuel' data a (i + 1) j else i
  end.

(** [for i <= j && data.Less(a, j) { j-- }] *)
Fixpoint scanGreater (data : list A) (a i j : nat) : nat :=
  match j with
  | O => O
  | S j' =>
      if (i <=? j) && Less data a j then scanGreater data a i j' else j
  end.

Fixpoint partitionEqualLoop (fuel : nat) (data : list A) (a i j : nat) : list A * nat :=
  match fuel with
  | O => (data, i)
  | S fuel' =>
      let i := scanNotGreater (S j - i) data a i j in
      let j := scanGreater data a i j in
      if j <? i then (data, i)
      else partitionEqualLoop fuel' (Swap data i j) a (i + 1) (j - 1)
  end.

Definition partitionEqual (data : list A) (a b pivot : nat) : list A * nat :=
  let data := Swap data a pivot in
  partitionEqualLoop (S (b - a)) data a (a + 1) (b - 1).

(** [for i < b && !data.Less(i, i-1) { i++ }] *)
Fixpoint scanOrdered (fuel : nat) (data : list A) (i b : nat) : nat :=
  match fuel with
  | O => i
  | S fuel' =>
      if (i <? b) && negb (Less data i (i - 1)) then scanOrdered fuel' data (i + 1) b else i
  end.

(** [for j := i - 1; j >= 1; j-- { if !data.Less(j, j-1) { break }; data.Swap(j, j-1) }] *)
Fixpoint shiftLeft (data : list A) (j : nat) : list A :=
  match j with
  | O => data
  | S j' => if negb (Less data j j') then data else shiftLeft (Swap data j j') j'
  end.

(** [for j := i + 1; j < b; j++ { if !data.Less(j, j-1) { break }; data.Swap(j, j-1) }] *)
Fixpoint shiftRight (fuel : nat) (data : list A) (j b : nat) : list A :=
  match fuel with
  | O => data
  | S fuel' =>
      if j <? b then
        if negb (Less data j (j - 1)) then data
        else shiftRight fuel' (Swap data j (j - 1)) (j + 1) b
      else data
  end.

Definition maxSteps : nat := 5.
Definition shortestShifting : nat := 50.

Fixpoint partialInsertionLoop (steps : nat) (data : list A) (a b i : nat) : list A * bool :=
  match steps with
  | O => (data, false)
  | S steps' =>
      let i := scanOrdered (b - i) data i b in
      if i =? b then (data, true)
      else if b - a <? shortestShifting then (data, false)
      else
        let data := Swap data i (i - 1) in
        let data := if 2 <=? i - a then shiftLeft data (i - 1) else data in
        let data := if 2 <=? b - i then shiftRight (b - i) data (i + 1) b else data in
        partialInsertionLoop steps' data a b i
  end.

Definition partialInsertionSort (data : list A) (a b : nat) : list A * bool :=
  partialInsertionLoop maxSteps data a b (a + 1).

(** [bits.Len(uint(n))] *)
Definition bitsLen (n : nat) : nat :=
  match n with O => 0 | _ => S (Nat.log2 n) end.

(** [xorshift.Next] on a uint64. *)
Definition xorshiftNext (r : Z) : Z :=
  let m := (2 ^ 64)%Z in
  let r := Z.lxor r (Z.shiftl r 13 mod m) in
  let r := Z.lxor r (Z.shiftr r 7) in
  Z.lxor r (Z.shiftl r 17 mod m).

Definition nextPowerOfTwo (length : nat) : Z := Z.shiftl 1 (Z.of_nat (bitsLen length)).

Definition breakPatterns (data : list A) (a b : nat) : list A :=
  let length := b - a in
  if 8 <=? length then
    let modulus := nextPowerOfTwo length in
    let idx := a + (length / 4) * 2 - 1 in
    let step (st : list A * Z) (i : nat) : list A * Z :=
      let '(d, random) := st in
      let random := xorshiftNext random in
      let other := Z.to_nat (Z.land random (modulus - 1)) in
      let other := if length <=? other then other - length else other in
      (Swap d (idx - 1 + i) (a + other), random) in
    fst (fold_left step (seq 0 3) (data, Z.of_nat length))
  else data.

(** [order2]: the indices in order, and the swap count. *)
Definition order2 (data : list A) (a b swaps : nat) : nat * nat * nat :=
  if Less data b a then (b, a, S swaps) else (a, b, swaps).

(** [median]: the index of the median of three, and the swap count. *)
Definition median (data : list A) (a b c swaps : nat) : nat * nat :=
  let '(a, b, swaps) := order2 data a b swaps in
  let '(b, c, swaps) := order2 data b c swaps in
  let '(a, b, swaps) := order2 data a b swaps in
  (b, swaps).

Definition medianAdjacent (data : list A) (a swaps : nat) : nat * nat :=
  median data (a - 1) a (a + 1) swaps.

Definition shortestNinther : nat := 50.
Definition maxSwaps : nat := 4 * 3.

Definition choosePivot (data : list A) (a b : nat) : nat * sortedHint :=
  let l := b - a in
  let swaps := 0 in
  let i := a + l / 4 * 1 in
  let j := a + l / 4 * 2 in
  let k := a + l / 4 * 3 in
  let '(j, swaps) :=
    if 8 <=? l then
      let '(i, j, k, swaps) :=
        if shortestNinther <=? l then
          let '(i, swaps) := medianAdjacent data i swaps in
          let '(j, swaps) := medianAdjacent data j swaps in
          let '(k, swaps) := medianAdjacent data k swaps in
          (i, j, k, swaps)
        else (i, j, k, swaps) in
      median data i j k swaps
    else (j, swaps) in
  if swaps =? 0 then (j, increasingHint)
  else if swaps =? maxSwaps then (j, decreasingHint)
  else (j, unknownHint).

(** [for i < j { data.Swap(i, j); i++; j-- }] *)
Fixpoint reverseLoop (fuel : nat) (data : list A) (i j : nat) : list A :=
  match fuel with
  | O => data
  | S fuel' =>
      if i <? j then reverseLoop fuel' (Swap data i j) (i + 1) (j - 1) else data
  end.

Definition reverseRange (data : list A) (a b : nat) : list A :=
  reverseLoop (b - a) data a (b - 1).

Definition maxInsertion : nat := 12.

Definition hintIs (h k : sortedHint) : bool :=
  match h, k with
  | unknownHint, unknownHint | increasingHint, increasingHint
  | decreasingHint, decreasingHint => true
  | _, _ => false
  end.

(** [pdqsort(data, a, b, limit)].  One unit of fuel pays for one turn of
    the function's outer loop; the recursive call starts with both flags
    set, the next turn of the loop carries them on. *)
Fixpoint pdqsort (fuel : nat) (data : list A) (a b limit : nat)
                 (wasBalanced wasPartitioned : bool) : list A :=
  match fuel with
  | O => data
  | S fuel' =>
      let length := b - a in
      if length <=? maxInsertion then insertionSort data a b
      else if limit =? 0 then heapSort data a b
      else
        let '(data, limit) :=
          if negb wasBalanced then (breakPatterns data a b, limit - 1)
          else (data, limit) in
        let '(pivot, hint) := choosePivot data a b in
        let '(data, pivot, hint) :=
          if hintIs hint decreasingHint
          then (reverseRange data a b, (b - 1) - (pivot - a), increasingHint)
          else (data, pivot, hint) in
        let '(data, sorted) :=
          if wasBalanced && wasPartitioned && hintIs hint increasingHint
          then partialInsertionSort data a b else (data, false) in
        if sorted then data
        else if (0 <? a) && negb (Less data (a - 1) pivot) then
          let '(data, mid) := partitionEqual data a b pivot in
          pdqsort fuel' data mid b limit wasBalanced wasPartitioned
        else
          let '(data, mid, alreadyPartitioned) := partition data a b pivot in
          let leftLen := mid - a in
          let rightLen := b - mid in
          let balanceThreshold := length / 8 in
          if leftLen <? rightLen then
            let data := pdqsort fuel' data a mid limit true true in
            pdqsort fuel' data (mid + 1) b limit
                    (balanceThreshold <=? leftLen) alreadyPartitioned
          else
            let data := pdqsort fuel' data (mid + 1) b limit true true in
            pdqsort fuel' data a mid limit
                    (balanceThreshold <=? rightLen) alreadyPartitioned
  end.

(** [sort.Slice(x, less)] *)
Definition Slice (x : list A) : list A :=
  let length := List.length x in
  let limit := bitsLen length in
  pdqsort (S length) x 0 length limit true true.

End Pdqsort.

Arguments Less {A}.
Arguments Swap {A}.
Arguments Slice {A}.

End GoSort.

(** ** What the proofs about [sort.Slice] speak of *)

Module GoSortInv.
Local Open Scope nat_scope.

Section Invariants.
Variable A : Type.
Variable less : A -> A -> bool.

(** [Shuffled a b l l']: [l'] comes from [l] by exchanging positions of
    [a..b-1] only. *)
Inductive Shuffled (a b : nat) : list A -> list A -> Prop :=
| Shuffled_refl (l : list A) : Shuffled a b l l
| Shuffled_swap (l l' : list A) (i j : nat) :
    a <= i < b -> a <= j < b ->
    Shuffled a b (GoSort.Swap l i j) l' -> Shuffled a b l l'.

(** The elements found in a range. *)
Definition InRange (l : list A) (a b : nat) (x : A) : Prop :=
  exists k, a <= k < b /\ nth_error l k = Some x.

(** [SortedR l a b]: positions [a..b-1] of [l] are in order. *)
Definition SortedR (l : list A) (a b : nat) : Prop :=
  forall i j x y, a <= i -> i < j -> j < b ->
    nth_error l i = Some x -> nth_error l j = Some y -> less y x = false.

(** Positions [a..t] are in order but for the one at [j], which is
    known not to exceed what follows it. *)
Definition SortedBut (l : list A) (a j t : nat) : Prop :=
  (forall i k x y, a <= i -> i < k -> k <= t -> i <> j -> k <> j ->
     nth_error l i = Some x -> nth_error l k = Some y -> less y x = false)
  /\ (forall k x y, j < k -> k <= t ->
        nth_error l j = Some x -> nth_error l k = Some y -> less y x = false).

Definition child (p c : nat) : Prop := c = 2 * p + 1 \/ c = 2 * p + 2.

(** In the window that starts at [first], every node from [lo] on
    dominates its children below [hi]. *)
Definition HeapFrom (l : list A) (first lo hi : nat) : Prop :=
  forall p c x y, lo <= p -> child p c -> c < hi ->
    nth_error l (first + p) = Some x -> nth_error l (first + c) = Some y ->
    less x y = false.

(** The same but for the node [r], whose children are dominated by
    the parent of [r] instead. *)
Definition HeapBut (l : list A) (first lo hi r : nat) : Prop :=
  (forall p c x y, lo <= p -> p <> r -> child p c -> c < hi ->
     nth_error l (first + p) = Some x -> nth_error l (first + c) = Some y ->
     less x y = false)
  /\ (forall q c x y, lo <= q -> child q r -> child r c -> c < hi ->
        nth_error l (first + q) = Some x -> nth_error l (first + c) = Some y ->
        less x y = false).

(** The state of a partition in progress: the pivot sits at [a], what
    lies left of [i] is below it, what lies right of [j] is not. *)
Definition Parted (l : list A) (a b i j : nat) : Prop :=
  (forall k, a < k -> k < i -> GoSort.Less less l k a = true)
  /\ (forall k, j < k -> k < b -> GoSort.Less less l k a = false).

(** What [partition] leaves behind: the pivot at [mid], smaller elements
    before it and no smaller element after it. *)
Definition PartitionedAt (l : list A) (a b mid : nat) : Prop :=
  exists p, nth_error l mid = Some p
    /\ (forall k x, a <= k -> k < mid -> nth_error l k = Some x -> less x p = true)
    /\ (forall k x, mid < k -> k < b -> nth_error l k = Some x -> less x p = false).

Definition PartedEq (l : list A) (a b i j : nat) : Prop :=
  (forall k, a < k -> k < i -> GoSort.Less less l a k = false)
  /\ (forall k, j < k -> k < b -> GoSort.Less less l a k = true).

(** What [partitionEqual] leaves behind: up to [mid], nothing above the
    pivot; from [mid] on, only what is above it. *)
Definition SplitAt (l : list A) (a b mid : nat) (p : A) : Prop :=
  (forall k x, a <= k -> k < mid -> nth_error l k = Some x -> less p x = false)
  /\ (forall k x, mid <= k -> k < b -> nth_error l k = Some x -> less p x = true).

(** Two elements the order does not tell apart. *)
Definition sameRank (x y : A) : bool := negb (less x y) && negb (less y x).

(** [l'] has the elements of every rank in the order [l] has them. *)
Definition KeepsOrder (l l' : list A) : Prop :=
  forall z, filter (sameRank z) l' = filter (sameRank z) l.

(** Nothing in [a..b-1] is below the element just before [a]. *)
Definition LowerBound (l : list A) (a b : nat) : Prop :=
  forall k x y, 0 < a -> a <= k -> k < b ->
    nth_error l (a - 1) = Some y -> nth_error l k = Some x -> less x y = false.

End Invariants.

Arguments Shuffled {A}.
Arguments Shuffled_refl {A}.
Arguments Shuffled_swap {A}.
Arguments InRange {A}.
Arguments SortedR {A}.
Arguments SortedBut {A}.
Arguments HeapFrom {A}.
Arguments HeapBut {A}.
Arguments Parted {A}.
Arguments PartitionedAt {A}.
Arguments PartedEq {A}.
Arguments SplitAt {A}.
Arguments LowerBound {A}.
Arguments sameRank {A}.
Arguments KeepsOrder {A}.

End GoSortInv.

(* ================================================================== *)
(** * Go strings: UTF-8 and [strings.EqualFold] *)
(* ================================================================== *)

Module GoStrings.
Import GoString.

Definition RuneError : Z := 65533.
Definition RuneSelf : Z := 128.

Definition isCont (c : ascii) (lo hi : Z) : bool := (lo <=? byte c) && (byte c <=? hi).
Definition low6 (c : ascii) : Z := Z.land (byte c) 63.

(** [utf8.DecodeRuneInString(s)]: the first rune and its width in
    bytes; an invalid or truncated encoding is [RuneError] of width 1
    (width 0 on the empty string).  Ranging over a string decodes it
    the same way. *)
Definition DecodeRuneInString (s : string) : Z * nat :=
  match s with
  | EmptyString => (RuneError, 0%nat)
  | String c0 rest =>
      let b0 := byte c0 in
      if b0 <? RuneSelf then (b0, 1%nat)
      else if (194 <=? b0) && (b0 <=? 223) then
        match rest with
        | String c1 _ =>
            if isCont c1 128 191
            then (Z.lor (Z.shiftl (Z.land b0 31) 6) (low6 c1), 2%nat)
            else (RuneError, 1%nat)
        | _ => (RuneError, 1%nat)
        end
      else if (224 <=? b0) && (b0 <=? 239) then
        let lo := if b0 =? 224 then 160 else 128 in
        let hi := if b0 =? 237 then 159 else 191 in
        match rest with
        | String c1 (String c2 _) =>
            if isCont c1 lo hi && isCont c2 128 191
            then (Z.lor (Z.shiftl (Z.land b0 15) 12)
                        (Z.lor (Z.shiftl (low6 c1) 6) (low6 c2)), 3%nat)
            else (RuneError, 1%nat)
        | _ => (RuneError, 1%nat)
        end
      else if (240 <=? b0) && (b0 <=? 244) then
        let lo := if b0 =? 240 then 144 else 128 in
        let hi := if b0 =? 244 then 143 else 191 in
        match rest with
        | String c1 (String c2 (String c3 _)) =>
            if isCont c1 lo hi && isCont c2 128 191 && isCont c3 128 191
            then (Z.lor (Z.shiftl (Z.land b0 7) 18)
                        (Z.lor (Z.shiftl (low6 c1) 12)
                               (Z.lor (Z.shiftl (low6 c2) 6) (low6 c3))), 4%nat)
            else (RuneError, 1%nat)
        | _ => (RuneError, 1%nat)
        end
      else (RuneError, 1%nat)
  end.

Fixpoint dropStr (n : nat) (s : string) : string :=
  match n, s with
  | S n', String _ rest => dropStr n' rest
  | _, _ => s
  end.

Definition isUpperASCII (r : Z) : bool := (65 <=? r) && (r <=? 90).
Definition isLowerASCII (r : Z) : bool := (97 <=? r) && (r <=? 122).

(** [unicode.SimpleFold(r)] on the case orbits that meet ASCII: a letter
    and its other case, with U+212A (Kelvin sign) in the orbit of K and
    U+017F (long s) in the orbit of S.  The table of package unicode is
    not reproduced beyond them ([r] is returned): [EqualFold] asks for
    the orbit of the smaller of two differing runes, and the handlers
    always compare against an ASCII word. *)
Definition SimpleFold (r : Z) : Z :=
  if r =? 75 then 107
  else if r =? 107 then 8490
  else if r =? 8490 then 75
  else if r =? 83 then 115
  else if r =? 115 then 383
  else if r =? 383 then 83
  else if isUpperASCII r then r + 32
  else if isLowerASCII r then r - 32
  else r.

(** [r := SimpleFold(sr); for r != sr && r < tr { r = SimpleFold(r) }] *)
Fixpoint foldUpTo (fuel : nat) (r sr tr : Z) : Z :=
  match fuel with
  | O => r
  | S fuel' =>
      if negb (r =? sr) && (r <? tr) then foldUpTo fuel' (SimpleFold r) sr tr else r
  end.

(** Two runes that differ: equal under simple case folding? *)
Definition foldEqual (sr tr : Z) : bool :=
  let '(sr, tr) := if tr <? sr then (tr, sr) else (sr, tr) in
  if tr <? RuneSelf then isUpperASCII sr && (tr =? sr + 32)
  else foldUpTo 4 (SimpleFold sr) sr tr =? tr.

(** The rune-by-rune loop of [EqualFold] (label [hasUnicode]). *)
Fixpoint equalFoldRunes (fuel : nat) (s t : string) : bool :=
  match fuel with
  | O => false
  | S fuel' =>
      match s with
      | EmptyString => (String.length t =? 0)%nat
      | String _ _ =>
          let '(sr, n) := DecodeRuneInString s in
          match t with
          | EmptyString => false
          | String tc trest =>
              let '(tr, t') :=
                if byte tc <? RuneSelf then (byte tc, trest)
                else let '(r, size) := DecodeRuneInString t in (r, dropStr size t) in
              if (tr =? sr) || foldEqual sr tr
              then equalFoldRunes fuel' (dropStr n s) t'
              else false
          end
      end
  end.

(** [strings.EqualFold(s, t)]: the byte loop over the common ASCII
    prefix, then the rune loop from the first byte outside ASCII. *)
Fixpoint EqualFold (s t : string) : bool :=
  match s, t with
  | String sc s', String tc t' =>
      let sr := byte sc in
      let tr := byte tc in
      if RuneSelf <=? Z.lor sr tr then equalFoldRunes (S (String.length s)) s t
      else if tr =? sr then EqualFold s' t'
      else
        let '(sr, tr) := if tr <? sr then (tr, sr) else (sr, tr) in
        if isUpperASCII sr && (tr =? sr + 32) then EqualFold s' t' else false
  | _, _ => (String.length s =? String.length t)%nat
  end.

End GoStrings.

(* ================================================================== *)
(** * internal/models: what the Kanboard client hands over *)
(* ================================================================== *)

Module Models.
Import GoTime.

(** [models.Task], the fields the handlers read.  A [KanboardTime] is a
    [time.Time]; an absent or unreadable timestamp is the zero time. *)
Record Task : Set := mkTask {
  Task_ID : Z;
  Task_Title : string;
  Task_Description : string;
  Task_DateCreation : Time;
  Task_ColumnID : Z;
  Task_OwnerID : Z;
  Task_DateDue : Time;
  Task_DateModified : Time;
  Task_DateStarted : Time;
  Task_TimeSpent : float;
  Task_TimeEstimated : float;
  Task_SwimlaneID : Z
}.

Record Column : Set := mkColumn { Column_ID : Z; Column_Title : string }.
Record Swimlane : Set := mkSwimlane { Swimlane_ID : Z; Swimlane_Name : string }.
Record KanboardUser : Set := mkKanboardUser {
  User_ID : Z; User_Username : string; User_Name : string
}.

End Models.

(* ================================================================== *)
(** * internal/handlers: the records of tasks.go *)
(* ================================================================== *)

Module Handlers.
Import GoString GoTime GoStrings Models.

Definition MaxResponseSize : Z := 200 * 1024.
Definition WarningResponseSize : Z := 150 * 1024.
Definition MaxTasksHardLimit : Z := 100.

Record DateRange : Set := mkDateRange { Start : string; End_ : string }.

Record TasksRequest : Set := mkTasksRequest {
  ProjectIDs : list string;
  AssigneeIDs : list string;
  StatusFilter : string;
  DueDateRange : option DateRange;
  IncludeOverdue : bool;
  IncludeTimeTracking : bool;
  SortBy : string;
  Limit : Z;
  SummaryMode : bool
}.

Record UserInfo : Set := mkUserInfo {
  UserInfo_ID : string; UserInfo_Username : string; UserInfo_Name : string
}.

Record ProjectInfo : Set := mkProjectInfo {
  ProjectInfo_ID : string; ProjectInfo_Name : string
}.

Record TaskStatus : Set := mkTaskStatus { Column : string; Swimlane : string }.

Record TaskDates : Set := mkTaskDates {
  Created : string; Due : string; Modified : string; Started : string
}.

Record TimeTracking : Set := mkTimeTracking {
  EstimatedHours : float; SpentHours : float; RemainingHours : float
}.

(** [TaskDetail], the canonical task record.  A nil pointer is [None]. *)
Record TaskDetail : Set := mkTaskDetail {
  ID : string;
  Title : string;
  Description : string;
  Project : ProjectInfo;
  Assignee : option UserInfo;
  Status : TaskStatus;
  Dates : TaskDates;
  TaskTimeTracking : option TimeTracking;
  Priority : string;
  Category : string;
  Tags : list string;
  URL : string;
  IsOverdue : bool;
  DaysUntilDue : option Z
}.

Record TaskSummary : Set := mkTaskSummary {
  Sum_ID : string;
  Sum_Title : string;
  Sum_Project : ProjectInfo;
  Sum_Assignee : option UserInfo;
  Sum_Status : string;
  Sum_DueDate : string;
  Sum_IsOverdue : bool;
  Sum_DaysUntilDue : option Z
}.

Record TasksSummary : Set := mkTasksSummary {
  TotalTasks : Z; OverdueTasks : Z; DueThisWeek : Z; UnassignedTasks : Z
}.

Record TasksResponse : Set := mkTasksResponse {
  Summary : TasksSummary;
  Tasks : list TaskDetail;
  TaskSummaries : list TaskSummary;
  Truncated : bool;
  TruncatedAt : Z;
  ResponseSize : Z
}.

Record ProjectData : Set := mkProjectData {
  ProjectData_ID : Z; ProjectData_Name : string
}.

(** What a handler call comes to: a value, a returned error, or a
    run-time panic. *)
Inductive outcome (T : Type) : Type :=
| Ok (v : T)
| Err (msg : string)
| Panic.
Arguments Ok {T}.
Arguments Err {T}.
Arguments Panic {T}.

(** [encoding/json] over a [TasksResponse].  The byte-level output of
    the encoder is not reproduced: the handlers take it as a parameter.
    [None] is a returned error. *)
Record Encoder : Type := mkEncoder {
  Marshal : TasksResponse -> option string;
  MarshalIndent : TasksResponse -> option string
}.

(** A Go [map[int]V] read with [m[k]]. *)
Definition intMap (V : Type) : Type := Z -> option V.
Definition emptyMap {V : Type} : intMap V := fun _ => None.
Definition mapStore {V : Type} (m : intMap V) (k : Z) (v : V) : intMap V :=
  fun k' => if k' =? k then Some v else m k'.
Definition mapString (m : intMap string) (k : Z) : string :=
  match m k with Some v => v | None => "" end.

End Handlers.

(* ================================================================== *)
(** * TasksHandler (tasks.go) *)
(* ================================================================== *)

Module TasksHandler.
Import GoString GoTime GoStrings Models Handlers.

(** [formatKanboardTime] *)
Definition formatKanboardTime (kt : Time) : string :=
  if IsZero kt then "" else Format kt LayoutStamp.

(** [calculateDueDateInfo], with the clock read handed in as [now]. *)
Definition calculateDueDateInfo (now : Time) (dueDateStr : string) : bool * option Z :=
  if String.eqb dueDateStr "" then (false, None)
  else
    let parsed :=
      match Parse LayoutStamp dueDateStr with
      | Some d => Some d
      | None => Parse LayoutDate dueDateStr
      end in
    match parsed with
    | None => (false, None)
    | Some dueDate =>
        let days := wholeDays (Sub dueDate now) in
        let isOverdue := Before dueDate now in
        (isOverdue, Some days)
    end.

(** [buildTaskDetail] *)
Definition buildTaskDetail (now : Time) (task : Task) (project : ProjectData)
    (columnMap swimlaneMap : intMap string) (userMap : intMap UserInfo)
    (baseURL : string) (includeTimeTracking : bool) : TaskDetail :=
  let assignee :=
    if 0 <? Task_OwnerID task then userMap (Task_OwnerID task) else None in
  let dates := {|
    Created := formatKanboardTime (Task_DateCreation task);
    Due := formatKanboardTime (Task_DateDue task);
    Modified := formatKanboardTime (Task_DateModified task);
    Started := formatKanboardTime (Task_DateStarted task)
  |} in
  let '(isOverdue, daysUntilDue) :=
    if negb (IsZero (Task_DateDue task))
    then calculateDueDateInfo now (Format (Task_DateDue task) LayoutStamp)
    else (false, None) in
  let timeTracking :=
    if includeTimeTracking then
      Some {| EstimatedHours := Task_TimeEstimated task;
              SpentHours := Task_TimeSpent task;
              RemainingHours := (Task_TimeEstimated task - Task_TimeSpent task)%float |}
    else None in
  {| ID := itoa (Task_ID task);
     Title := Task_Title task;
     Description := Task_Description task;
     Project := {| ProjectInfo_ID := itoa (ProjectData_ID project);
                   ProjectInfo_Name := ProjectData_Name project |};
     Assignee := assignee;
     Status := {| Column := mapString columnMap (Task_ColumnID task);
                  Swimlane := mapString swimlaneMap (Task_SwimlaneID task) |};
     Dates := dates;
     TaskTimeTracking := timeTracking;
     Priority := "normal";
     Category := "";
     Tags := [];
     URL := (baseURL ++ "/?controller=TaskViewController&action=show&task_id="
             ++ itoa (Task_ID task) ++ "&project_id=" ++ itoa (ProjectData_ID project))%string;
     IsOverdue := isOverdue;
     DaysUntilDue := daysUntilDue |}.

(** What the four client calls of [getProjectTasks] returned for one
    project; [None] is a failed call. *)
Record ProjectFetch : Set := mkProjectFetch {
  fetchedTasks : option (list Task);
  fetchedColumns : option (list Models.Column);
  fetchedSwimlanes : option (list Models.Swimlane);
  fetchedUsers : option (list KanboardUser)
}.

(** [getProjectTasks] *)
Definition getProjectTasks (now : Time) (project : ProjectData) (fetch : ProjectFetch)
    (baseURL : string) (includeTimeTracking : bool) : option (list TaskDetail) :=
  match fetchedTasks fetch with
  | None => None
  | Some tasks =>
  match fetchedColumns fetch with
  | None => None
  | Some columns =>
  let columnMap :=
    fold_left (fun m col => mapStore m (Column_ID col) (Column_Title col)) columns emptyMap in
  match fetchedSwimlanes fetch with
  | None => None
  | Some swimlanes =>
  let swimlaneMap :=
    fold_left (fun m lane => mapStore m (Swimlane_ID lane) (Swimlane_Name lane))
              swimlanes emptyMap in
  match fetchedUsers fetch with
  | None => None
  | Some users =>
  let userMap :=
    fold_left (fun m user =>
                 mapStore m (User_ID user)
                          {| UserInfo_ID := itoa (User_ID user);
                             UserInfo_Username := User_Username user;
                             UserInfo_Name := User_Name user |})
              users emptyMap in
  Some (map (fun task => buildTaskDetail now task project columnMap swimlaneMap
                                         userMap baseURL includeTimeTracking) tasks)
  end end end end.

(** [collectTasks]: the projects in the order their goroutines finish;
    one failed project fails the request.  The clock reads of one
    request are taken as a single instant [now]. *)
Fixpoint collectTasks (now : Time) (projects : list (ProjectData * ProjectFetch))
    (baseURL : string) (includeTimeTracking : bool) : option (list TaskDetail) :=
  match projects with
  | [] => Some []
  | (proj, fetch) :: rest =>
      match getProjectTasks now proj fetch baseURL includeTimeTracking,
            collectTasks now rest baseURL includeTimeTracking with
      | Some projectTasks, Some more => Some (projectTasks ++ more)
      | _, _ => None
      end
  end.

Definition completedColumns : list string := ["Done"; "Completed"; "Closed"; "Finished"].

(** [TasksHandler.isTaskCompleted] *)
Definition isTaskCompleted (task : TaskDetail) : bool :=
  existsb (fun col => EqualFold (Column (Status task)) col) completedColumns.

(** [isTaskInDateRange] *)
Definition isTaskInDateRange (task : TaskDetail) (dateRange : DateRange) : bool :=
  if String.eqb (Due (Dates task)) "" then false
  else
    match Parse LayoutStamp (Due (Dates task)) with
    | None => false
    | Some dueDate =>
        let startOk :=
          if negb (String.eqb (Start dateRange) "") then
            match Parse LayoutDate (Start dateRange) with
            | None => false
            | Some startDate => negb (Before dueDate startDate)
            end
          else true in
        if negb startOk then false
        else if negb (String.eqb (End_ dateRange) "") then
          match Parse LayoutDate (End_ dateRange) with
          | None => false
          | Some endDate => negb (After dueDate endDate)
          end
        else true
    end.

(** [shouldIncludeTask] *)
Definition shouldIncludeTask (task : TaskDetail) (req : TasksRequest) : bool :=
  if String.eqb (StatusFilter req) "active" && isTaskCompleted task then false
  else if String.eqb (StatusFilter req) "completed" && negb (isTaskCompleted task) then false
  else if
    match AssigneeIDs req with
    | [] => false
    | ids =>
        match Assignee task with
        | None => true
        | Some u => negb (existsb (fun assigneeID => String.eqb (UserInfo_ID u) assigneeID) ids)
        end
    end then false
  else if negb (IncludeOverdue req) && IsOverdue task then false
  else
    match DueDateRange req with
    | Some dateRange => isTaskInDateRange task dateRange
    | None => true
    end.

(** [filterTasks] *)
Definition filterTasks (tasks : list TaskDetail) (req : TasksRequest) : list TaskDetail :=
  filter (fun task => shouldIncludeTask task req) tasks.

(** [getPriorityValue] *)
Definition getPriorityValue (priority : string) : Z :=
  if String.eqb priority "urgent" then 3
  else if String.eqb priority "high" then 2
  else if String.eqb priority "normal" then 1
  else if String.eqb priority "low" then 0
  else 1.

(** The three [less] closures of [sortTasks]. *)
Definition lessDueDate (x y : TaskDetail) : bool :=
  if String.eqb (Due (Dates x)) "" && String.eqb (Due (Dates y)) "" then false
  else if String.eqb (Due (Dates x)) "" then false
  else if String.eqb (Due (Dates y)) "" then true
  else GoString.lt (Due (Dates x)) (Due (Dates y)).

Definition lessPriority (x y : TaskDetail) : bool :=
  getPriorityValue (Priority y) <? getPriorityValue (Priority x).

Definition lessCreated (x y : TaskDetail) : bool :=
  GoString.lt (Created (Dates y)) (Created (Dates x)).

(** [sortTasks]: a copy of the slice, sorted in place by [sort.Slice]. *)
Definition sortTasks (tasks : list TaskDetail) (sortBy : string) : list TaskDetail :=
  if String.eqb sortBy "due_date" then GoSort.Slice lessDueDate tasks
  else if String.eqb sortBy "priority" then GoSort.Slice lessPriority tasks
  else if String.eqb sortBy "created" then GoSort.Slice lessCreated tasks
  else GoSort.Slice lessDueDate tasks.

(** [calculateTasksSummary] *)
Definition calculateTasksSummary (now : Time) (tasks : list TaskDetail) : TasksSummary :=
  let weekFromNow := AddDate now 0 0 7 in
  let count (p : TaskDetail -> bool) := Z.of_nat (List.length (filter p tasks)) in
  {| TotalTasks := Z.of_nat (List.length tasks);
     OverdueTasks := count IsOverdue;
     DueThisWeek :=
       count (fun task =>
                if String.eqb (Due (Dates task)) "" then false
                else match Parse LayoutStamp (Due (Dates task)) with
                     | Some dueDate => Before dueDate weekFromNow && After dueDate now
                     | None => false
                     end);
     UnassignedTasks :=
       count (fun task => match Assignee task with None => true | Some _ => false end) |}.

(** [tasks[:limit]] when [len(tasks) > limit]: a negative bound panics. *)
Definition cutTo (T : Type) (tasks : list T) (limit : Z) : outcome (list T) :=
  if limit <? Z.of_nat (List.length tasks) then
    if limit <? 0 then Panic else Ok (firstn (Z.to_nat limit) tasks)
  else Ok tasks.
Arguments cutTo {T}.

Definition summaryOf (task : TaskDetail) : TaskSummary :=
  {| Sum_ID := ID task;
     Sum_Title := Title task;
     Sum_Project := Project task;
     Sum_Assignee :=
       match Assignee task with
       | Some u => Some {| UserInfo_ID := UserInfo_ID u;
                           UserInfo_Username := UserInfo_Username u;
                           UserInfo_Name := UserInfo_Name u |}
       | None => None
       end;
     Sum_Status := Column (Status task);
     Sum_DueDate := Due (Dates task);
     Sum_IsOverdue := IsOverdue task;
     Sum_DaysUntilDue := DaysUntilDue task |}.

(** [createTaskSummaries] *)
Definition createTaskSummaries (tasks : list TaskDetail) (limit : Z)
    : outcome (list TaskSummary) :=
  match cutTo tasks limit with
  | Ok tasks => Ok (map summaryOf tasks)
  | Err e => Err e
  | Panic => Panic
  end.

Definition emptySummary : TasksSummary := mkTasksSummary 0 0 0 0.

(** The response [applyResponseSizeLimits] measures: the tasks alone,
    under a zero summary. *)
Definition testResponse (testTasks : list TaskDetail) : TasksResponse :=
  {| Summary := emptySummary; Tasks := testTasks; TaskSummaries := [];
     Truncated := false; TruncatedAt := 0; ResponseSize := 0 |}.

(** [for limit := len(tasks); limit > 0; limit-- { ... }] and the return
    after the loop. *)
Fixpoint sizeLoop (json : Encoder) (tasks : list TaskDetail) (limit : nat)
    : list TaskDetail * bool * Z :=
  match limit with
  | O => ([], true, 0)
  | S limit' =>
      let testTasks := firstn limit tasks in
      match Marshal json (testResponse testTasks) with
      | None => sizeLoop json tasks limit'
      | Some testJSON =>
          if len testJSON <=? MaxResponseSize then
            if (limit <? List.length tasks)%nat
            then (testTasks, true, Z.of_nat limit)
            else (testTasks, false, 0)
          else sizeLoop json tasks limit'
      end
  end.

(** [applyResponseSizeLimits] *)
Definition applyResponseSizeLimits (json : Encoder) (tasks : list TaskDetail)
    (requestedLimit : Z) : outcome (list TaskDetail * bool * Z) :=
  match cutTo tasks requestedLimit with
  | Ok tasks => Ok (sizeLoop json tasks (List.length tasks))
  | Err e => Err e
  | Panic => Panic
  end.

(** The two caps [Handle] puts on [req.Limit], in its order. *)
Definition capLimit (summaryMode : bool) (limit : Z) : Z :=
  let limit := if MaxTasksHardLimit <? limit then MaxTasksHardLimit else limit in
  if summaryMode && (MaxTasksHardLimit * 2 <? limit) then MaxTasksHardLimit * 2 else limit.

(** [Handle] from the decoded request on, given the tasks [collectTasks]
    returned: the two caps on the limit, then everything from the filter
    to the text sent.  The steps before it are not part of this
    definition: decoding the request, authentication, the token,
    [getFilteredProjects] and [collectTasks] each return an error of
    their own, and the type assertion in [getFilteredProjects] can
    panic. *)
Definition Handle (json : Encoder) (now : Time) (req : TasksRequest)
    (tasks : list TaskDetail) : outcome (TasksResponse * string) :=
  let limit := capLimit (SummaryMode req) (Limit req) in
  let filteredTasks := filterTasks tasks req in
  let sortedTasks := sortTasks filteredTasks (SortBy req) in
  let summary := calculateTasksSummary now sortedTasks in
  let shaped : outcome TasksResponse :=
    if SummaryMode req then
      match createTaskSummaries sortedTasks limit with
      | Ok taskSummaries =>
          Ok {| Summary := summary; Tasks := []; TaskSummaries := taskSummaries;
                Truncated := false; TruncatedAt := 0; ResponseSize := 0 |}
      | Err e => Err e
      | Panic => Panic
      end
    else
      match applyResponseSizeLimits json sortedTasks limit with
      | Ok (finalTasks, truncated, truncatedAt) =>
          Ok {| Summary := summary; Tasks := finalTasks; TaskSummaries := [];
                Truncated := truncated; TruncatedAt := truncatedAt; ResponseSize := 0 |}
      | Err e => Err e
      | Panic => Panic
      end in
  match shaped with
  | Ok response =>
      match MarshalIndent json response with
      | None => Err "failed to marshal tasks response"
      | Some responseJSON =>
          let response := {| Summary := Summary response; Tasks := Tasks response;
                             TaskSummaries := TaskSummaries response;
                             Truncated := Truncated response;
                             TruncatedAt := TruncatedAt response;
                             ResponseSize := len responseJSON |} in
          let responseJSON :=
            if WarningResponseSize <? ResponseSize response then
              match MarshalIndent json response with
              | Some again => again
              | None => ""
              end
            else responseJSON in
          Ok (response, responseJSON)
      end
  | Err e => Err e
  | Panic => Panic
  end.

End TasksHandler.

(* ================================================================== *)
(** * PrioritiesHandler (priorities.go) *)
(* ================================================================== *)

Module PrioritiesHandler.
Import GoString GoTime GoStrings Models Handlers.

Record PrioritiesRequest : Set := mkPrioritiesRequest {
  UserID : string;
  Req_ProjectIDs : list string;
  TimeHorizon : string;
  IncludeRecommendations : bool
}.

Record UrgentItem : Set := mkUrgentItem {
  TaskID : string;
  Item_Title : string;
  UrgencyScore : Z;
  Reason : string;
  Item_Project : string;
  DaysOverdue : Z
}.

(** The request [Handle] sends to the tasks handler. *)
Definition tasksParams (req : PrioritiesRequest) : TasksRequest :=
  {| ProjectIDs := Req_ProjectIDs req;
     AssigneeIDs := [];
     StatusFilter := "all";
     DueDateRange := None;
     IncludeOverdue := true;
     IncludeTimeTracking := true;
     SortBy := "due_date";
     Limit := 200;
     SummaryMode := false |}.

(** The tasks [Handle] passes to [analyseWorkload]: the [tasks] field of
    the tasks handler's response text, read back.  Decoding the text
    just encoded is taken to return the records encoded. *)
Definition analysedTasks (json : Encoder) (now : Time) (req : PrioritiesRequest)
    (collected : list TaskDetail) : outcome (list TaskDetail) :=
  match TasksHandler.Handle json now (tasksParams req) collected with
  | Ok (tasksData, _) => Ok (Tasks tasksData)
  | Err e => Err e
  | Panic => Panic
  end.

(** The [switch task.Priority] of [calculateUrgencyScore]. *)
Definition priorityBonus (priority : string) : Z :=
  if String.eqb priority "urgent" then 25
  else if String.eqb priority "high" then 15
  else if String.eqb priority "normal" then 5
  else 0.

(** [calculateUrgencyScore] *)
Definition calculateUrgencyScore (task : TaskDetail) (now timeLimit : Time) : Z :=
  let score := 0 in
  let score := if negb (String.eqb (Due (Dates task)) "") then score + 20 else score in
  let score :=
    if IsOverdue task then
      let score := score + 40 in
      match DaysUntilDue task with
      | Some days =>
          let daysOverdue := GoInt.neg days in
          if 7 <? daysOverdue then score + 30
          else if 3 <? daysOverdue then score + 20
          else score + 10
      | None => score
      end
    else score in
  let score :=
    if negb (IsOverdue task) && negb (String.eqb (Due (Dates task)) "") then
      match Parse LayoutStamp (Due (Dates task)) with
      | Some dueDate =>
          if Before dueDate timeLimit then
            let daysUntil := wholeDays (Sub dueDate now) in
            if daysUntil <=? 1 then score + 25
            else if daysUntil <=? 3 then score + 15
            else if daysUntil <=? 7 then score + 10
            else score
          else score
      | None => score
      end
    else score in
  let score := score + priorityBonus (Priority task) in
  let score := match Assignee task with None => score + 15 | Some _ => score end in
  score.

(** [getUrgencyReason] *)
Definition getUrgencyReason (task : TaskDetail) (now : Time) : string :=
  let reasons : list string :=
    if IsOverdue task then
      match DaysUntilDue task with
      | Some days =>
          let daysOverdue := GoInt.neg days in
          if daysOverdue =? 1 then ["Overdue by 1 day"]
          else [("Overdue by " ++ itoa daysOverdue ++ " days")%string]
      | None => ["Task is overdue"]
      end
    else if negb (String.eqb (Due (Dates task)) "") then
      match Parse LayoutStamp (Due (Dates task)) with
      | Some dueDate =>
          let daysUntil := wholeDays (Sub dueDate now) in
          if daysUntil =? 0 then ["Due today"]
          else if daysUntil =? 1 then ["Due tomorrow"]
          else if daysUntil <=? 3 then [("Due in " ++ itoa daysUntil ++ " days")%string]
          else []
      | None => []
      end
    else [] in
  let reasons :=
    if String.eqb (Priority task) "urgent" then reasons ++ ["marked as urgent priority"]
    else if String.eqb (Priority task) "high" then reasons ++ ["marked as high priority"]
    else reasons in
  let reasons :=
    match Assignee task with
    | None => reasons ++ ["unassigned task needs attention"]
    | Some _ => reasons
    end in
  match reasons with
  | [] => "High priority task"
  | r :: _ => r
  end.

Definition timeLimitOf (now : Time) (timeHorizon : string) : Time :=
  if String.eqb timeHorizon "today" then AddDate now 0 0 1
  else if String.eqb timeHorizon "week" then AddDate now 0 0 7
  else if String.eqb timeHorizon "month" then AddDate now 0 1 0
  else AddDate now 0 0 7.

Definition urgentItemOf (task : TaskDetail) (now : Time) (urgencyScore : Z) : UrgentItem :=
  {| TaskID := ID task;
     Item_Title := Title task;
     UrgencyScore := urgencyScore;
     Reason := getUrgencyReason task now;
     Item_Project := ProjectInfo_Name (Project task);
     DaysOverdue :=
       match DaysUntilDue task with
       | Some days => if IsOverdue task then GoInt.neg days else 0
       | None => 0
       end |}.

Definition lessUrgency (x y : UrgentItem) : bool := UrgencyScore y <? UrgencyScore x.

(** [findUrgentItems] *)
Definition findUrgentItems (tasks : list TaskDetail) (timeHorizon : string) (now : Time)
    : list UrgentItem :=
  let timeLimit := timeLimitOf now timeHorizon in
  let urgentItems :=
    flat_map (fun task =>
                let urgencyScore := calculateUrgencyScore task now timeLimit in
                if 70 <=? urgencyScore then [urgentItemOf task now urgencyScore] else [])
             tasks in
  let urgentItems := GoSort.Slice lessUrgency urgentItems in
  if (10 <? List.length urgentItems)%nat then firstn 10 urgentItems else urgentItems.

End PrioritiesHandler.

(* ================================================================== *)
(** * AnalyticsHandler (analytics.go) *)
(* ================================================================== *)

Module AnalyticsHandler.
Import GoString GoTime GoStrings Models Handlers.

Record CycleTimeMetric : Set := mkCycleTimeMetric {
  Metric_Column : string;
  Metric_Project : string;
  AvgDays : float;
  MinDays : float;
  MaxDays : float;
  TaskCount : Z;
  Efficiency : string
}.

Definition completedColumns : list string := ["Done"; "Completed"; "Closed"; "Finished"].

(** [AnalyticsHandler.isTaskCompleted] *)
Definition isTaskCompleted (task : TaskDetail) : bool :=
  existsb (fun col => String.eqb (Column (Status task)) col) completedColumns.

(** [float64(n)] for an integer of magnitude below 2^63. *)
Definition float64OfInt (n : Z) : float :=
  if n <? 0 then PrimFloat.opp (PrimFloat.of_uint63 (Uint63.of_Z (- n)))
  else PrimFloat.of_uint63 (Uint63.of_Z n).

(** [Duration.Hours]: whole hours plus the remainder over 3.6e12. *)
Definition Hours (d : Z) : float :=
  (float64OfInt (Z.quot d nsPerHour)
   + float64OfInt (Z.rem d nsPerHour) / float64OfInt nsPerHour)%float.

(** [calculateAverage], [calculateMin], [calculateMax] *)
Definition calculateAverage (values : list float) : float :=
  match values with
  | [] => PrimFloat.zero
  | _ => (fold_left PrimFloat.add values PrimFloat.zero
          / float64OfInt (Z.of_nat (List.length values)))%float
  end.

Definition calculateMin (values : list float) : float :=
  match values with
  | [] => PrimFloat.zero
  | v0 :: _ => fold_left (fun m v => if PrimFloat.ltb v m then v else m) values v0
  end.

Definition calculateMax (values : list float) : float :=
  match values with
  | [] => PrimFloat.zero
  | v0 :: _ => fold_left (fun m v => if PrimFloat.ltb m v then v else m) values v0
  end.

(** [columnMap[key] = append(columnMap[key], v)] on a map kept as a list
    of entries in the order the keys first came. *)
Fixpoint appendAt (m : list (string * list float)) (key : string) (v : float)
    : list (string * list float) :=
  match m with
  | [] => [(key, [v])]
  | (k, vs) :: rest =>
      if String.eqb k key then (k, vs ++ [v]) :: rest
      else (k, vs) :: appendAt rest key v
  end.

(** The cycle time of one task in days, when it counts. *)
Definition cycleDaysOf (task : TaskDetail) : option float :=
  if negb (isTaskCompleted task) then None
  else
    let start : option Time :=
      if negb (String.eqb (Started (Dates task)) "")
      then Parse LayoutStamp (Started (Dates task))
      else if negb (String.eqb (Created (Dates task)) "")
      then Parse LayoutStamp (Created (Dates task))
      else Some zeroTime in
    match start with
    | None => None
    | Some startTime =>
        if String.eqb (Modified (Dates task)) "" then None
        else
          match Parse LayoutStamp (Modified (Dates task)) with
          | None => None
          | Some endTime =>
              let cycleDays := (Hours (Sub endTime startTime) / float64OfInt 24)%float in
              if PrimFloat.ltb PrimFloat.zero cycleDays then Some cycleDays else None
          end
    end.

Definition metricOf (entry : string * list float) : CycleTimeMetric :=
  let '(key, times) := entry in
  let keyParts := key in
  let '(project, column) :=
    if (0 <? String.length keyParts)%nat then ("Project", "Column")
    else ("Unknown", "Unknown") in
  let avg := calculateAverage times in
  let efficiency :=
    if PrimFloat.ltb (float64OfInt 14) avg then "Poor"
    else if PrimFloat.ltb (float64OfInt 7) avg then "Average"
    else "Good" in
  {| Metric_Column := column;
     Metric_Project := project;
     AvgDays := avg;
     MinDays := calculateMin times;
     MaxDays := calculateMax times;
     TaskCount := Z.of_nat (List.length times);
     Efficiency := efficiency |}.

Definition lessAvgDays (x y : CycleTimeMetric) : bool := PrimFloat.ltb (AvgDays y) (AvgDays x).

(** [analyseCycleTime].  Go ranges over the map in an unspecified order;
    the entries are taken in the order their keys first came, and the
    metrics are then sorted. *)
Definition analyseCycleTime (tasks : list TaskDetail) : list CycleTimeMetric :=
  let columnMap :=
    fold_left (fun m task =>
                 match cycleDaysOf task with
                 | Some cycleDays =>
                     appendAt m (ProjectInfo_Name (Project task) ++ ":"
                                 ++ Column (Status task))%string cycleDays
                 | None => m
                 end)
              tasks [] in
  let metrics :=
    flat_map (fun entry => match snd entry with [] => [] | _ => [metricOf entry] end)
             columnMap in
  GoSort.Slice lessAvgDays metrics.

End AnalyticsHandler.


(* ================================================================== *)
(** * The specification's vocabulary and the inputs of the examples *)
(* ================================================================== *)

Module Spec.
Import GoString GoTime GoStrings Models Handlers.

(** The due date a canonical record carries: the instant its [Due]
    field denotes; an empty or unreadable field is no due date. *)
Definition dueDateOf (task : TaskDetail) : option Time :=
  if String.eqb (Due (Dates task)) "" then None
  else match Parse LayoutStamp (Due (Dates task)) with
       | Some d => Some d
       | None => Parse LayoutDate (Due (Dates task))
       end.

(** A due field the collector wrote for a wall clock whose year has
    four digits. *)
Definition stampedDue (task : TaskDetail) : Prop :=
  exists t, GoTimeInv.fourDigitYear t /\ Due (Dates task) = Format t LayoutStamp.

(** An upstream task with nothing but an identifier and a due date. *)
Definition rawTask (id : Z) (due : Time) : Task :=
  {| Task_ID := id; Task_Title := "task"; Task_Description := "";
     Task_DateCreation := zeroTime; Task_ColumnID := 1; Task_OwnerID := 0;
     Task_DateDue := due; Task_DateModified := zeroTime; Task_DateStarted := zeroTime;
     Task_TimeSpent := PrimFloat.zero; Task_TimeEstimated := PrimFloat.zero;
     Task_SwimlaneID := 1 |}.

Definition board : ProjectData := mkProjectData 1 "Alpha".
Definition boardColumns : intMap string := mapStore emptyMap 1 "Backlog".
Definition boardSwimlanes : intMap string := mapStore emptyMap 1 "Default".

(** A record as the collector builds it on that board. *)
Definition collected (now : Time) (task : Task) : TaskDetail :=
  TasksHandler.buildTaskDetail now task board boardColumns boardSwimlanes
                               emptyMap "https://kb.example" false.

(** Variants of a record that differ from it in one respect. *)
Definition withDue (task : TaskDetail) (due : string) : TaskDetail :=
  {| ID := ID task; Title := Title task; Description := Description task;
     Project := Project task; Assignee := Assignee task; Status := Status task;
     Dates := {| Created := Created (Dates task); Due := due;
                 Modified := Modified (Dates task); Started := Started (Dates task) |};
     TaskTimeTracking := TaskTimeTracking task; Priority := Priority task;
     Category := Category task; Tags := Tags task; URL := URL task;
     IsOverdue := IsOverdue task; DaysUntilDue := DaysUntilDue task |}.

Definition withPriority (task : TaskDetail) (priority : string) : TaskDetail :=
  {| ID := ID task; Title := Title task; Description := Description task;
     Project := Project task; Assignee := Assignee task; Status := Status task;
     Dates := Dates task; TaskTimeTracking := TaskTimeTracking task;
     Priority := priority;
     Category := Category task; Tags := Tags task; URL := URL task;
     IsOverdue := IsOverdue task; DaysUntilDue := DaysUntilDue task |}.

Definition withAssignee (task : TaskDetail) (assignee : option UserInfo) : TaskDetail :=
  {| ID := ID task; Title := Title task; Description := Description task;
     Project := Project task; Assignee := assignee; Status := Status task;
     Dates := Dates task; TaskTimeTracking := TaskTimeTracking task;
     Priority := Priority task;
     Category := Category task; Tags := Tags task; URL := URL task;
     IsOverdue := IsOverdue task; DaysUntilDue := DaysUntilDue task |}.

(** The record as it stands when its due date lies [days] whole days
    behind: overdue, with [days_until_due = - days]. *)
Definition overdueBy (days : Z) (task : TaskDetail) : TaskDetail :=
  {| ID := ID task; Title := Title task; Description := Description task;
     Project := Project task; Assignee := Assignee task; Status := Status task;
     Dates := Dates task; TaskTimeTracking := TaskTimeTracking task;
     Priority := Priority task;
     Category := Category task; Tags := Tags task; URL := URL task;
     IsOverdue := true; DaysUntilDue := Some (- days) |}.

(** The priority tiers, lowest first. *)
Inductive Tier : Set := low | normal | high | urgent.

Definition tierName (t : Tier) : string :=
  match t with
  | low => "low" | normal => "normal" | high => "high" | urgent => "urgent"
  end.

Definition tierRank (t : Tier) : Z :=
  match t with low => 0 | normal => 1 | high => 2 | urgent => 3 end.

(** The completed-column vocabulary. *)
Definition vocabulary : list string := ["Done"; "Completed"; "Closed"; "Finished"].

(** The runes of a string. *)
Fixpoint runesFuel (fuel : nat) (s : string) : list Z :=
  match fuel with
  | O => []
  | S fuel' =>
      match s with
      | EmptyString => []
      | String _ _ =>
          let '(r, n) := DecodeRuneInString s in r :: runesFuel fuel' (dropStr n s)
      end
  end.

Definition runes (s : string) : list Z := runesFuel (String.length s) s.

(** A rune brought to lower case, for the runes whose lower case is an
    ASCII letter: the capitals, the Kelvin sign and the long s. *)
Definition toLower (r : Z) : Z :=
  if isUpperASCII r then r + 32
  else if r =? 8490 then 107
  else if r =? 383 then 115
  else r.

(** Two strings are equal case-insensitively when they are the same
    rune for rune once brought to lower case. *)
Definition caseInsensitiveEq (s t : string) : Prop :=
  map toLower (runes s) = map toLower (runes t).

Definition isASCII (s : string) : bool :=
  forallb (fun c => byte c <? RuneSelf) (list_ascii_of_string s).

(** A record with nothing but an identifier and a due field. *)
Definition plainTask (id : Z) (due : string) : TaskDetail :=
  {| ID := itoa id; Title := "task"; Description := "";
     Project := {| ProjectInfo_ID := "1"; ProjectInfo_Name := "Alpha" |};
     Assignee := None;
     Status := {| Column := "Backlog"; Swimlane := "Default" |};
     Dates := {| Created := ""; Due := due; Modified := ""; Started := "" |};
     TaskTimeTracking := None; Priority := "normal"; Category := ""; Tags := [];
     URL := ""; IsOverdue := false; DaysUntilDue := None |}.

(** [first, first+1, ..., first+count-1] *)
Definition idsFrom (first : Z) (count : nat) : list Z :=
  map (fun k => first + Z.of_nat k) (seq 0 count).

(** Two tasks the due-date comparison does not tell apart. *)
Definition sameDueRank (x y : TaskDetail) : bool :=
  GoSortInv.sameRank TasksHandler.lessDueDate x y.

(** A sort is stable when tasks that compare equal keep the order they
    came in. *)
Definition keepsOrderOfEquals (input output : list TaskDetail) : Prop :=
  forall x, filter (sameDueRank x) output = filter (sameDueRank x) input.

(** Four tasks, two of them without a due date. *)
Definition mixedTasks : list TaskDetail :=
  [plainTask 0 ""; plainTask 1 "2024-01-02T00:00:00Z";
   plainTask 2 ""; plainTask 3 "2024-01-01T00:00:00Z"].

(** Twelve tasks without a due date, then one with. *)
Definition twelveUndatedThenOneDated : list TaskDetail :=
  map (fun id => plainTask id "") (idsFrom 0 12)
  ++ [plainTask 12 "2024-01-01T00:00:00Z"].

(** An encoder under which every response takes no bytes: nothing is
    ever dropped for its size. *)
Definition tinyEncoder : Encoder :=
  {| Marshal := fun _ => Some ""; MarshalIndent := fun _ => Some "" |}.

(** A request that filters nothing out. *)
Definition listAll (summaryMode : bool) (limit : Z) : TasksRequest :=
  {| ProjectIDs := []; AssigneeIDs := []; StatusFilter := "all";
     DueDateRange := None; IncludeOverdue := true; IncludeTimeTracking := true;
     SortBy := "due_date"; Limit := limit; SummaryMode := summaryMode |}.

Definition someInstant : Time := Unix 1000864000.

(** Tasks that fell due at 2001-09-09T01:46:40Z, as the collector builds
    them ten days later: overdue, unassigned, priority "normal". *)
Definition overdueBatch (count : nat) : list TaskDetail :=
  map (fun id => collected someInstant (rawTask id (Unix 1000000000))) (idsFrom 1 count).

(** A finished task of project Alpha, created on 1 January 2024 and last
    modified two and a half days later. *)
Definition finishedTask : TaskDetail :=
  {| ID := "1"; Title := "task"; Description := "";
     Project := {| ProjectInfo_ID := "1"; ProjectInfo_Name := "Alpha" |};
     Assignee := None;
     Status := {| Column := "Done"; Swimlane := "Default" |};
     Dates := {| Created := "2024-01-01T00:00:00Z"; Due := "";
                 Modified := "2024-01-03T12:00:00Z"; Started := "" |};
     TaskTimeTracking := None; Priority := "normal"; Category := ""; Tags := [];
     URL := ""; IsOverdue := false; DaysUntilDue := None |}.

End Spec.

#[local] Set Warnings "-inexact-float".

(* ================================================================== *)
(** * Requests that differ in one respect *)
(* ================================================================== *)

Module Variants.
Import Handlers.

Definition withStatusFilter (req : TasksRequest) (statusFilter : string) : TasksRequest :=
  {| ProjectIDs := ProjectIDs req; AssigneeIDs := AssigneeIDs req;
     StatusFilter := statusFilter; DueDateRange := DueDateRange req;
     IncludeOverdue := IncludeOverdue req;
     IncludeTimeTracking := IncludeTimeTracking req;
     SortBy := SortBy req; Limit := Limit req; SummaryMode := SummaryMode req |}.

(** What a request asks of a task, criterion by criterion. *)
Definition passes (req : TasksRequest) (task : TaskDetail) : Prop :=
  (StatusFilter req = "active" -> TasksHandler.isTaskCompleted task = false)
  /\ (StatusFilter req = "completed" -> TasksHandler.isTaskCompleted task = true)
  /\ (AssigneeIDs req <> [] ->
      exists u, Assignee task = Some u /\ In (UserInfo_ID u) (AssigneeIDs req))
  /\ (IncludeOverdue req = false -> IsOverdue task = false)
  /\ (forall dateRange, DueDateRange req = Some dateRange ->
        TasksHandler.isTaskInDateRange task dateRange = true).

(** The second a day starts with, on the wall clock of [t]. *)
Definition midnight (t : GoTime.Time) : Z :=
  GoTime.wallSec t / GoTime.secondsPerDay * GoTime.secondsPerDay.

End Variants.

(* ================================================================== *)
(** * Go strconv and Go maps *)
(* ================================================================== *)

Module StrConv.
Import GoString GoTime.

Definition minInt : Z := - 2 ^ 63.
Definition maxInt : Z := 2 ^ 63 - 1.

Fixpoint allDigits (s : string) : bool :=
  match s with
  | EmptyString => true
  | String c rest => isDigitChar c && allDigits rest
  end.

(** [strconv.Atoi] where [int] has 64 bits, and [strconv.ParseInt(s, 10,
    64)]: an optional sign, then one decimal digit or more and nothing
    else; a value outside the range of the type is an error.  ([Atoi]
    has a fast path for short strings and goes through [ParseInt]
    otherwise; the two accept the same strings.)  [None] is a returned
    error. *)
Definition Atoi (s : string) : option Z :=
  match s with
  | EmptyString => None
  | String c rest =>
      let negative := Ascii.eqb c "-" in
      let body := if negative || Ascii.eqb c "+" then rest else s in
      match body with
      | EmptyString => None
      | String _ _ =>
          if allDigits body then
            let n := natOfDigits body 0 in
            let n := if negative then - n else n in
            if (minInt <=? n) && (n <=? maxInt) then Some n else None
          else None
      end
  end.

Definition ParseInt : string -> option Z := Atoi.

(** [strconv.Itoa] *)
Definition Itoa : Z -> string := itoa.

End StrConv.

Module GoMap.

Section Maps.
Variable V : Type.

(** [m[key]] *)
Fixpoint lookup (m : list (string * V)) (key : string) : option V :=
  match m with
  | [] => None
  | (k, v) :: rest => if String.eqb k key then Some v else lookup rest key
  end.

(** [if _, exists := m[key]; !exists { m[key] = fresh }] followed by an
    update [f] of the entry under [key].  A map is the list of its
    entries with the keys in the order they first came. *)
Fixpoint upsert (m : list (string * V)) (key : string) (fresh : V) (f : V -> V)
    : list (string * V) :=
  match m with
  | [] => [(key, f fresh)]
  | (k, v) :: rest =>
      if String.eqb k key then (k, f v) :: rest
      else (k, v) :: upsert rest key fresh f
  end.

End Maps.

Arguments lookup {V}.
Arguments upsert {V}.

(** [for key, value := range m]: Go leaves the order unspecified.  An
    iteration hands the entries of a map over in an order of its
    choice. *)
Record Iteration : Type := mkIteration {
  range : forall V : Type, list (string * V) -> list (string * V)
}.

(** An iteration that visits every entry once. *)
Definition visitsAll (it : Iteration) : Prop :=
  forall (V : Type) (m : list (string * V)), Permutation (range it V m) m.

(** The iteration that follows the order the keys first came in. *)
Definition inOrder : Iteration := {| range := fun _ m => m |}.

(** Grouping the elements of a slice in a map: each element with a key
    starts the entry of its key when there is none, then updates it. *)
Section Grouping.
Variables (A V : Type).
Variable keyOf : A -> option string.
Variable fresh : A -> V.
Variable bump : A -> V -> V.

Definition visit (m : list (string * V)) (x : A) : list (string * V) :=
  match keyOf x with
  | None => m
  | Some key => upsert m key (fresh x) (bump x)
  end.

Definition group (l : list A) : list (string * V) := fold_left visit l [].

(** The elements that go under [key], in the order of the slice, and
    the entry they come to: started by the first, updated by each. *)
Definition hasKey (key : string) (x : A) : bool :=
  match keyOf x with
  | Some k => String.eqb k key
  | None => false
  end.

Definition members (key : string) (l : list A) : list A := filter (hasKey key) l.

Definition entryOf (xs : list A) : option V :=
  match xs with
  | [] => None
  | first :: _ => Some (fold_left (fun v x => bump x v) xs (fresh first))
  end.

End Grouping.

Arguments visit {A V}.
Arguments group {A V}.
Arguments hasKey {A}.
Arguments members {A}.
Arguments entryOf {A V}.

End GoMap.

(* ================================================================== *)
(** * PrioritiesHandler (priorities.go): workloads, bottlenecks,
      recommendations *)
(* ================================================================== *)

Module PrioritiesAnalysis.
Import GoString GoTime GoStrings Models Handlers PrioritiesHandler StrConv GoMap.

Record UserWorkload : Set := mkUserWorkload {
  Workload_UserID : string;
  Workload_Username : string;
  Workload_Name : string;
  AssignedTasks : Z;
  Workload_OverdueTasks : Z;
  TotalEstimatedHours : float;
  CapacityUtilization : string;
  Workload_Status : string
}.

Record Bottleneck : Set := mkBottleneck {
  Bottleneck_Column : string;
  Bottleneck_Project : string;
  StuckTasks : Z;
  AvgWaitTimeDays : float;
  Bottleneck_TaskIDs : list string
}.

Record Recommendation : Set := mkRecommendation {
  Rec_Type : string;
  Message : string;
  Rec_TaskIDs : list string;
  SuggestedAssignee : string;
  AffectedTasks : list string;
  Confidence : float
}.

Record PrioritiesAnalysis : Set := mkPrioritiesAnalysis {
  RequestingUser : option UserWorkload;
  TeamWorkloads : list UserWorkload;
  UrgentItems : list UrgentItem;
  Bottlenecks : list Bottleneck
}.

(** [fmt.Sprintf] with a verb [%.Nf]: the digits [fmt] prints for a
    float64 are not reproduced; the handlers take the printer as a
    parameter, precision first. *)
Definition FloatPrinter : Type := nat -> float -> string.

(** [matchesUserID] *)
Definition matchesUserID (assigneeID targetUserID : string) : bool :=
  if String.eqb assigneeID targetUserID then true
  else
    match Atoi assigneeID, Atoi targetUserID with
    | Some assigneeInt, Some targetInt => assigneeInt =? targetInt
    | Some assigneeInt, None => String.eqb (Itoa assigneeInt) targetUserID
    | None, Some targetInt => String.eqb assigneeID (Itoa targetInt)
    | None, None => false
    end.

(** The first loop of [analyseTeamWorkloads]: the entry a task starts
    for its assignee, and what the task adds to the entry. *)
Definition assigneeOf (task : TaskDetail) : option string :=
  match Assignee task with
  | Some u => Some (UserInfo_ID u)
  | None => None
  end.

Definition newWorkload (task : TaskDetail) : UserWorkload :=
  match Assignee task with
  | Some u =>
      {| Workload_UserID := UserInfo_ID u; Workload_Username := UserInfo_Username u;
         Workload_Name := UserInfo_Name u; AssignedTasks := 0;
         Workload_OverdueTasks := 0; TotalEstimatedHours := PrimFloat.zero;
         CapacityUtilization := ""; Workload_Status := "" |}
  | None =>
      {| Workload_UserID := ""; Workload_Username := ""; Workload_Name := "";
         AssignedTasks := 0; Workload_OverdueTasks := 0;
         TotalEstimatedHours := PrimFloat.zero;
         CapacityUtilization := ""; Workload_Status := "" |}
  end.

Definition addTask (task : TaskDetail) (workload : UserWorkload) : UserWorkload :=
  {| Workload_UserID := Workload_UserID workload;
     Workload_Username := Workload_Username workload;
     Workload_Name := Workload_Name workload;
     AssignedTasks := AssignedTasks workload + 1;
     Workload_OverdueTasks :=
       if IsOverdue task then Workload_OverdueTasks workload + 1
       else Workload_OverdueTasks workload;
     TotalEstimatedHours :=
       match TaskTimeTracking task with
       | Some tracking => (TotalEstimatedHours workload + EstimatedHours tracking)%float
       | None => TotalEstimatedHours workload
       end;
     CapacityUtilization := CapacityUtilization workload;
     Workload_Status := Workload_Status workload |}.

(** The second loop: utilization against a week of 40 hours, and the
    status it gives. *)
Definition rate (printf : FloatPrinter) (workload : UserWorkload) : UserWorkload :=
  let weeklyCapacity := 40%float in
  let utilization := (TotalEstimatedHours workload / weeklyCapacity * 100)%float in
  {| Workload_UserID := Workload_UserID workload;
     Workload_Username := Workload_Username workload;
     Workload_Name := Workload_Name workload;
     AssignedTasks := AssignedTasks workload;
     Workload_OverdueTasks := Workload_OverdueTasks workload;
     TotalEstimatedHours := TotalEstimatedHours workload;
     CapacityUtilization := (printf 0%nat utilization ++ "%")%string;
     Workload_Status :=
       if PrimFloat.ltb 120 utilization then "severely_overloaded"
       else if PrimFloat.ltb 100 utilization then "overloaded"
       else if PrimFloat.ltb 80 utilization then "at_capacity"
       else if PrimFloat.ltb 50 utilization then "normal"
       else "underutilized" |}.

(** [fmt.Sprintf("%v", ids)] for a slice of strings *)
Definition printStrings (ids : list string) : string :=
  ("[" ++ String.concat " " ids ++ "]")%string.

Definition lessHours (x y : UserWorkload) : bool :=
  PrimFloat.ltb (TotalEstimatedHours y) (TotalEstimatedHours x).

(** [analyseTeamWorkloads] *)
Definition analyseTeamWorkloads (printf : FloatPrinter) (it : Iteration)
    (tasks : list TaskDetail) : list UserWorkload :=
  let userMap := group assigneeOf newWorkload addTask tasks in
  let allAssigneeIDs :=
    flat_map (fun task => match Assignee task with
                          | Some u => [UserInfo_ID u]
                          | None => []
                          end) tasks in
  let workloads := map (fun entry => rate printf (snd entry)) (range it _ userMap) in
  let workloads :=
    if (List.length workloads =? 0)%nat && (0 <? List.length allAssigneeIDs)%nat then
      let uniqueIDs := fold_left (fun m id => upsert m id true (fun _ => true))
                                 allAssigneeIDs [] in
      let debugIDs := map fst (range it _ uniqueIDs) in
      workloads ++
      [ {| Workload_UserID := "debug";
           Workload_Username :=
             ("DEBUG: Found " ++ itoa (Z.of_nat (List.length allAssigneeIDs))
              ++ " tasks with assignee IDs: " ++ printStrings debugIDs)%string;
           Workload_Name := "Debug Info";
           AssignedTasks := 0; Workload_OverdueTasks := 0;
           TotalEstimatedHours := PrimFloat.zero;
           CapacityUtilization := ""; Workload_Status := "" |} ]
    else workloads in
  GoSort.Slice lessHours workloads.

(** [findBottlenecks]: what one task adds to the wait of its column. *)
Definition waitDaysOf (now : Time) (task : TaskDetail) : option float :=
  if String.eqb (Modified (Dates task)) "" then None
  else
    match Parse LayoutStamp (Modified (Dates task)) with
    | Some modifiedDate =>
        let waitDays :=
          (AnalyticsHandler.Hours (Sub now modifiedDate) / 24)%float in
        if PrimFloat.ltb 2 waitDays then Some waitDays else None
    | None => None
    end.

Definition countWaiting (now : Time) (acc : float * Z * list string) (task : TaskDetail)
    : float * Z * list string :=
  let '(totalWaitDays, validTasks, taskIDs) := acc in
  match waitDaysOf now task with
  | Some waitDays => ((totalWaitDays + waitDays)%float, validTasks + 1, taskIDs ++ [ID task])
  | None => acc
  end.

(** The body of the two nested loops, for one column of one project. *)
Definition bottleneckOf (now : Time) (project column : string)
    (columnTasks : list TaskDetail) : list Bottleneck :=
  if (List.length columnTasks <? 3)%nat then []
  else
    let '(totalWaitDays, validTasks, taskIDs) :=
      fold_left (countWaiting now) columnTasks (PrimFloat.zero, 0, []) in
    if 3 <=? validTasks then
      let avgWaitTime := (totalWaitDays / AnalyticsHandler.float64OfInt validTasks)%float in
      if PrimFloat.ltb 3 avgWaitTime then
        [ {| Bottleneck_Column := column; Bottleneck_Project := project;
             StuckTasks := validTasks; AvgWaitTimeDays := avgWaitTime;
             Bottleneck_TaskIDs := taskIDs |} ]
      else []
    else [].

Definition lessWait (x y : Bottleneck) : bool :=
  PrimFloat.ltb (AvgWaitTimeDays y) (AvgWaitTimeDays x).

(** The map of maps [columnStats]: per project name, per column name,
    the tasks in the order they came. *)
Definition columnStatsOf (tasks : list TaskDetail)
    : list (string * list (string * list TaskDetail)) :=
  fold_left
    (fun stats task =>
       upsert stats (ProjectInfo_Name (Project task)) []
              (fun columns =>
                 upsert columns (Column (Status task)) [] (fun ts => ts ++ [task])))
    tasks [].

(** [findBottlenecks] *)
Definition findBottlenecks (it : Iteration) (tasks : list TaskDetail) (now : Time)
    : list Bottleneck :=
  let columnStats := columnStatsOf tasks in
  let bottlenecks :=
    flat_map
      (fun projectEntry =>
         flat_map
           (fun columnEntry =>
              bottleneckOf now (fst projectEntry) (fst columnEntry) (snd columnEntry))
           (range it _ (snd projectEntry)))
      (range it _ columnStats) in
  GoSort.Slice lessWait bottlenecks.

(** [analyseWorkload]; [findUrgentItems] and [findBottlenecks] read the
    clock one after the other: [now] and [later]. *)
Definition analyseWorkload (printf : FloatPrinter) (it : Iteration)
    (tasks : list TaskDetail) (req : PrioritiesRequest) (now later : Time)
    : PrioritiesAnalysis :=
  let teamWorkloads := analyseTeamWorkloads printf it tasks in
  {| RequestingUser :=
       find (fun workload => matchesUserID (Workload_UserID workload) (UserID req))
            teamWorkloads;
     TeamWorkloads := teamWorkloads;
     UrgentItems := findUrgentItems tasks (TimeHorizon req) now;
     Bottlenecks := findBottlenecks it tasks later |}.

Definition isOverloaded (workload : UserWorkload) : bool :=
  String.eqb (Workload_Status workload) "overloaded"
  || String.eqb (Workload_Status workload) "severely_overloaded".

Definition hasSlack (workload : UserWorkload) : bool :=
  String.eqb (Workload_Status workload) "underutilized"
  || String.eqb (Workload_Status workload) "normal".

(** The four recommendations [generateRecommendations] writes. *)
Definition priorityRecommendation (topUrgent : UrgentItem) : Recommendation :=
  {| Rec_Type := "priority";
     Message := ("Focus on '" ++ Item_Title topUrgent
                 ++ "' first - urgency score: " ++ itoa (UrgencyScore topUrgent)
                 ++ " (" ++ Reason topUrgent ++ ")")%string;
     Rec_TaskIDs := [TaskID topUrgent];
     SuggestedAssignee := ""; AffectedTasks := [];
     Confidence := 0.92%float |}.

Definition workloadRecommendation (user : UserWorkload) : Recommendation :=
  {| Rec_Type := "workload";
     Message := ("Your workload is " ++ Workload_Status user ++ " ("
                 ++ CapacityUtilization user
                 ++ " utilization) - consider delegating or deferring lower priority tasks")%string;
     Rec_TaskIDs := []; SuggestedAssignee := ""; AffectedTasks := [];
     Confidence := 0.85%float |}.

Definition delegationRecommendation (busy idle : UserWorkload) : Recommendation :=
  {| Rec_Type := "delegation";
     Message := ("Consider redistributing tasks from " ++ Workload_Name busy
                 ++ " (" ++ CapacityUtilization busy ++ ") to "
                 ++ Workload_Name idle ++ " (" ++ CapacityUtilization idle
                 ++ ")")%string;
     Rec_TaskIDs := []; SuggestedAssignee := Workload_UserID idle;
     AffectedTasks := [];
     Confidence := 0.78%float |}.

Definition processRecommendation (printf : FloatPrinter) (bottleneck : Bottleneck)
    : Recommendation :=
  {| Rec_Type := "process";
     Message := ("'" ++ Bottleneck_Column bottleneck ++ "' column in "
                 ++ Bottleneck_Project bottleneck ++ " has bottleneck - "
                 ++ itoa (StuckTasks bottleneck) ++ " tasks waiting "
                 ++ printf 1%nat (AvgWaitTimeDays bottleneck)
                 ++ " days on average")%string;
     Rec_TaskIDs := []; SuggestedAssignee := "";
     AffectedTasks := Bottleneck_TaskIDs bottleneck;
     Confidence := 0.85%float |}.

(** [generateRecommendations]; the task list it is handed is not read. *)
Definition generateRecommendations (printf : FloatPrinter) (analysis : PrioritiesAnalysis)
    (tasks : list TaskDetail) : list Recommendation :=
  let recommendations :=
    match UrgentItems analysis with
    | topUrgent :: _ => [priorityRecommendation topUrgent]
    | [] => []
    end in
  let recommendations :=
    match RequestingUser analysis with
    | Some user =>
        if isOverloaded user then recommendations ++ [workloadRecommendation user]
        else recommendations
    | None => recommendations
    end in
  let recommendations :=
    if (1 <? List.length (TeamWorkloads analysis))%nat then
      let overloaded := filter isOverloaded (TeamWorkloads analysis) in
      let underutilized :=
        filter (fun w => negb (isOverloaded w) && hasSlack w) (TeamWorkloads analysis) in
      match overloaded, underutilized with
      | busy :: _, idle :: _ => recommendations ++ [delegationRecommendation busy idle]
      | _, _ => recommendations
      end
    else recommendations in
  fold_left
    (fun recommendations bottleneck =>
       if 3 <=? StuckTasks bottleneck
       then recommendations ++ [processRecommendation printf bottleneck]
       else recommendations)
    (Bottlenecks analysis) recommendations.

End PrioritiesAnalysis.

(* ================================================================== *)
(** * AnalyticsHandler (analytics.go): the time range, trends,
      velocity, aging, the summary *)
(* ================================================================== *)

(** The other layouts [getPeriodKey] formats with.  In "2006-W15" the
    package reads "2006" as the year, "-W" as literal text and "15" as
    the hour of the day; in "2006-01", the year and the month. *)
Module GoTimeLayouts.
Import GoString GoTime.

Definition formatYearHour (t : Time) : string :=
  let '(y, _, _) := Date_of t in
  let '(hh, _, _) := Clock_of t in
  (appendInt y 4 ++ "-W" ++ appendInt hh 2)%string.

Definition formatYearMonth (t : Time) : string :=
  let '(y, m, _) := Date_of t in
  (appendInt y 4 ++ "-" ++ appendInt m 2)%string.

End GoTimeLayouts.

Module Analytics.
Import GoString GoTime GoStrings Models Handlers AnalyticsHandler GoMap GoTimeLayouts.

Record AnalyticsRequest : Set := mkAnalyticsRequest {
  Analytics_ProjectIDs : list string;
  TimeRange : string;
  AnalysisTypes : list string;
  GroupBy : string
}.

Record CompletionTrend : Set := mkCompletionTrend {
  Trend_Period : string;
  Trend_TasksCompleted : Z;
  TasksCreated : Z;
  CompletionRate : float
}.

Record VelocityMetric : Set := mkVelocityMetric {
  Velocity_Period : string;
  Velocity_TasksCompleted : Z;
  StoryPoints : Z;
  Velocity_EstimatedHours : float;
  ActualHours : float;
  VelocityScore : float;
  EfficiencyRating : string
}.

Record TaskAgingAnalysis : Set := mkTaskAgingAnalysis {
  AgeGroup : string;
  Aging_TaskCount : Z;
  Percentage : float;
  AvgAgeDays : float;
  OldestTask : string
}.

Record AnalyticsSummary : Set := mkAnalyticsSummary {
  AnalysisPeriod : string;
  Summary_TotalTasks : Z;
  CompletedTasks : Z;
  OverallVelocity : float;
  AvgCycleTime : float;
  ProductivityTrend : string;
  KeyInsights : list string
}.

(** The request [Handle] sends to the tasks handler. *)
Definition tasksParams (req : AnalyticsRequest) : TasksRequest :=
  {| ProjectIDs := Analytics_ProjectIDs req;
     AssigneeIDs := [];
     StatusFilter := "all";
     DueDateRange := None;
     IncludeOverdue := true;
     IncludeTimeTracking := true;
     SortBy := "created";
     Limit := 500;
     SummaryMode := false |}.

(** The tasks [Handle] passes to [performAnalysis]: the [tasks] field of
    the tasks handler's response text, read back.  Decoding the text
    just encoded is taken to return the records encoded. *)
Definition analysedTasks (json : Encoder) (now : Time) (req : AnalyticsRequest)
    (collected : list TaskDetail) : outcome (list TaskDetail) :=
  match TasksHandler.Handle json now (tasksParams req) collected with
  | Ok (tasksData, _) => Ok (Tasks tasksData)
  | Err e => Err e
  | Panic => Panic
  end.

(** [getTimeRangeStart] *)
Definition getTimeRangeStart (now : Time) (timeRange : string) : Time :=
  if String.eqb timeRange "7_days" then AddDate now 0 0 (-7)
  else if String.eqb timeRange "14_days" then AddDate now 0 0 (-14)
  else if String.eqb timeRange "30_days" then AddDate now 0 0 (-30)
  else if String.eqb timeRange "60_days" then AddDate now 0 0 (-60)
  else if String.eqb timeRange "90_days" then AddDate now 0 0 (-90)
  else if String.eqb timeRange "6_months" then AddDate now 0 (-6) 0
  else if String.eqb timeRange "1_year" then AddDate now (-1) 0 0
  else AddDate now 0 0 (-30).

(** [t.Equal(u)] *)
Definition Equal (t u : Time) : bool := instant t =? instant u.

(** [filterTasksByTimeRange] *)
Definition createdSince (startTime : Time) (task : TaskDetail) : bool :=
  if String.eqb (Created (Dates task)) "" then false
  else
    match Parse LayoutStamp (Created (Dates task)) with
    | Some createdDate => After createdDate startTime || Equal createdDate startTime
    | None => false
    end.

Definition filterTasksByTimeRange (tasks : list TaskDetail) (startTime : Time)
    : list TaskDetail :=
  filter (createdSince startTime) tasks.

(** [getPeriodKey] *)
Definition getPeriodKey (date : Time) (timeRange : string) : string :=
  if String.eqb timeRange "7_days" || String.eqb timeRange "14_days"
  then Format date LayoutDate
  else if String.eqb timeRange "30_days" || String.eqb timeRange "60_days"
          || String.eqb timeRange "90_days"
  then formatYearHour date
  else formatYearMonth date.

(** [analyseCompletionTrends]: the period a task is counted in, the
    entry it starts and what it adds to the entry. *)
Definition createdPeriod (timeRange : string) (task : TaskDetail) : option string :=
  if String.eqb (Created (Dates task)) "" then None
  else
    match Parse LayoutStamp (Created (Dates task)) with
    | Some createdDate => Some (getPeriodKey createdDate timeRange)
    | None => None
    end.

Definition periodOr (key : option string) : string :=
  match key with Some period => period | None => "" end.

Definition newTrend (timeRange : string) (task : TaskDetail) : CompletionTrend :=
  {| Trend_Period := periodOr (createdPeriod timeRange task);
     Trend_TasksCompleted := 0; TasksCreated := 0; CompletionRate := PrimFloat.zero |}.

Definition countCreated (task : TaskDetail) (trend : CompletionTrend) : CompletionTrend :=
  {| Trend_Period := Trend_Period trend;
     Trend_TasksCompleted :=
       if isTaskCompleted task then Trend_TasksCompleted trend + 1
       else Trend_TasksCompleted trend;
     TasksCreated := TasksCreated trend + 1;
     CompletionRate := CompletionRate trend |}.

Definition rateTrend (trend : CompletionTrend) : CompletionTrend :=
  {| Trend_Period := Trend_Period trend;
     Trend_TasksCompleted := Trend_TasksCompleted trend;
     TasksCreated := TasksCreated trend;
     CompletionRate :=
       if 0 <? TasksCreated trend
       then (float64OfInt (Trend_TasksCompleted trend)
             / float64OfInt (TasksCreated trend) * 100)%float
       else CompletionRate trend |}.

Definition lessTrendPeriod (x y : CompletionTrend) : bool :=
  GoString.lt (Trend_Period x) (Trend_Period y).

Definition analyseCompletionTrends (it : Iteration) (tasks : list TaskDetail)
    (timeRange : string) : list CompletionTrend :=
  let periodMap := group (createdPeriod timeRange) (newTrend timeRange) countCreated tasks in
  let trends := map (fun entry => rateTrend (snd entry)) (range it _ periodMap) in
  GoSort.Slice lessTrendPeriod trends.

(** [analyseVelocity] *)
Definition completedPeriod (timeRange : string) (task : TaskDetail) : option string :=
  if negb (isTaskCompleted task) then None
  else if String.eqb (Modified (Dates task)) "" then None
  else
    match Parse LayoutStamp (Modified (Dates task)) with
    | Some completedDate => Some (getPeriodKey completedDate timeRange)
    | None => None
    end.

Definition newVelocity (timeRange : string) (task : TaskDetail) : VelocityMetric :=
  {| Velocity_Period := periodOr (completedPeriod timeRange task);
     Velocity_TasksCompleted := 0; StoryPoints := 0;
     Velocity_EstimatedHours := PrimFloat.zero; ActualHours := PrimFloat.zero;
     VelocityScore := PrimFloat.zero; EfficiencyRating := "" |}.

Definition countCompleted (task : TaskDetail) (metric : VelocityMetric) : VelocityMetric :=
  {| Velocity_Period := Velocity_Period metric;
     Velocity_TasksCompleted := Velocity_TasksCompleted metric + 1;
     StoryPoints := StoryPoints metric + 1;
     Velocity_EstimatedHours :=
       match TaskTimeTracking task with
       | Some tracking => (Velocity_EstimatedHours metric + EstimatedHours tracking)%float
       | None => Velocity_EstimatedHours metric
       end;
     ActualHours :=
       match TaskTimeTracking task with
       | Some tracking => (ActualHours metric + SpentHours tracking)%float
       | None => ActualHours metric
       end;
     VelocityScore := VelocityScore metric;
     EfficiencyRating := EfficiencyRating metric |}.

Definition rateVelocity (metric : VelocityMetric) : VelocityMetric :=
  {| Velocity_Period := Velocity_Period metric;
     Velocity_TasksCompleted := Velocity_TasksCompleted metric;
     StoryPoints := StoryPoints metric;
     Velocity_EstimatedHours := Velocity_EstimatedHours metric;
     ActualHours := ActualHours metric;
     VelocityScore := float64OfInt (Velocity_TasksCompleted metric);
     EfficiencyRating :=
       if PrimFloat.ltb 0 (Velocity_EstimatedHours metric) then
         let efficiency := (ActualHours metric / Velocity_EstimatedHours metric)%float in
         if PrimFloat.leb efficiency 1.1 then "Excellent"
         else if PrimFloat.leb efficiency 1.3 then "Good"
         else if PrimFloat.leb efficiency 1.5 then "Average"
         else "Poor"
       else EfficiencyRating metric |}.

Definition lessVelocityPeriod (x y : VelocityMetric) : bool :=
  GoString.lt (Velocity_Period x) (Velocity_Period y).

Definition analyseVelocity (it : Iteration) (tasks : list TaskDetail)
    (timeRange : string) : list VelocityMetric :=
  let periodMap :=
    group (completedPeriod timeRange) (newVelocity timeRange) countCompleted tasks in
  let metrics := map (fun entry => rateVelocity (snd entry)) (range it _ periodMap) in
  GoSort.Slice lessVelocityPeriod metrics.

(** [analyseTaskAging].  The five groups are entries of a map of
    pointers; a task changes the group its age selects. *)
Definition emptyGroup (name : string) : string * TaskAgingAnalysis :=
  (name, {| AgeGroup := name; Aging_TaskCount := 0; Percentage := PrimFloat.zero;
            AvgAgeDays := PrimFloat.zero; OldestTask := "" |}).

Definition ageGroups : list (string * TaskAgingAnalysis) :=
  [ emptyGroup "0-7 days"; emptyGroup "8-14 days"; emptyGroup "15-30 days";
    emptyGroup "31-60 days"; emptyGroup "60+ days" ].

(** The [switch] on the age. *)
Definition groupOfAge (age : float) : string :=
  if PrimFloat.leb age 7 then "0-7 days"
  else if PrimFloat.leb age 14 then "8-14 days"
  else if PrimFloat.leb age 30 then "15-30 days"
  else if PrimFloat.leb age 60 then "31-60 days"
  else "60+ days".

(** The age in days of an active task with a creation stamp that reads
    back. *)
Definition ageOf (now : Time) (task : TaskDetail) : option float :=
  if isTaskCompleted task then None
  else if String.eqb (Created (Dates task)) "" then None
  else
    match Parse LayoutStamp (Created (Dates task)) with
    | Some createdDate => Some (Hours (Sub now createdDate) / 24)%float
    | None => None
    end.

Definition addAge (age : float) (group : TaskAgingAnalysis) : TaskAgingAnalysis :=
  let taskCount := Aging_TaskCount group + 1 in
  {| AgeGroup := AgeGroup group;
     Aging_TaskCount := taskCount;
     Percentage := Percentage group;
     AvgAgeDays := ((AvgAgeDays group * float64OfInt (taskCount - 1) + age)
                    / float64OfInt taskCount)%float;
     OldestTask := OldestTask group |}.

(** [group := ageGroups[name]; group.TaskCount++; ...]: the entry under
    [name] is changed in place. *)
Definition changeAt (groups : list (string * TaskAgingAnalysis)) (name : string)
    (f : TaskAgingAnalysis -> TaskAgingAnalysis) : list (string * TaskAgingAnalysis) :=
  map (fun entry => if String.eqb (fst entry) name then (fst entry, f (snd entry))
                    else entry) groups.

Record AgingState : Set := mkAgingState {
  groups : list (string * TaskAgingAnalysis);
  activeTasks : Z;
  oldestTaskTitle : string;
  maxAge : float
}.

Definition ageStep (now : Time) (st : AgingState) (task : TaskDetail) : AgingState :=
  if isTaskCompleted task then st
  else
    match ageOf now task with
    | Some age =>
        {| groups := changeAt (groups st) (groupOfAge age) (addAge age);
           activeTasks := activeTasks st + 1;
           oldestTaskTitle := if PrimFloat.ltb (maxAge st) age then Title task
                              else oldestTaskTitle st;
           maxAge := if PrimFloat.ltb (maxAge st) age then age else maxAge st |}
    | None =>
        {| groups := groups st; activeTasks := activeTasks st + 1;
           oldestTaskTitle := oldestTaskTitle st; maxAge := maxAge st |}
    end.

Definition closeGroup (st : AgingState) (group : TaskAgingAnalysis)
    : list TaskAgingAnalysis :=
  if 0 <? Aging_TaskCount group then
    [ {| AgeGroup := AgeGroup group;
         Aging_TaskCount := Aging_TaskCount group;
         Percentage := (float64OfInt (Aging_TaskCount group)
                        / float64OfInt (activeTasks st) * 100)%float;
         AvgAgeDays := AvgAgeDays group;
         OldestTask :=
           if String.eqb (AgeGroup group) "60+ days"
              && negb (String.eqb (oldestTaskTitle st) "")
           then oldestTaskTitle st else OldestTask group |} ]
  else [].

Definition lessAvgAge (x y : TaskAgingAnalysis) : bool :=
  PrimFloat.ltb (AvgAgeDays x) (AvgAgeDays y).

Definition analyseTaskAging (it : Iteration) (tasks : list TaskDetail) (now : Time)
    : list TaskAgingAnalysis :=
  let st :=
    fold_left (ageStep now) tasks
              {| groups := ageGroups; activeTasks := 0; oldestTaskTitle := "";
                 maxAge := PrimFloat.zero |} in
  let analysis := flat_map (fun entry => closeGroup st (snd entry)) (range it _ (groups st)) in
  GoSort.Slice lessAvgAge analysis.

(** [generateSummary] *)
Definition generateSummary (tasks : list TaskDetail) (timeRange : string)
    : AnalyticsSummary :=
  let totalTasks := Z.of_nat (List.length tasks) in
  let completedTasks :=
    fold_left (fun n task => if isTaskCompleted task then n + 1 else n) tasks 0 in
  let insights :=
    if 0 <? totalTasks then
      let completionRate :=
        (float64OfInt completedTasks / float64OfInt totalTasks * 100)%float in
      if PrimFloat.ltb 80 completionRate
      then ["High completion rate indicates strong delivery performance"]
      else if PrimFloat.ltb completionRate 50
      then ["Low completion rate may indicate process bottlenecks"]
      else []
    else [] in
  {| AnalysisPeriod := timeRange;
     Summary_TotalTasks := totalTasks;
     CompletedTasks := completedTasks;
     OverallVelocity := float64OfInt completedTasks;
     AvgCycleTime := 7.5%float;
     ProductivityTrend := "Stable";
     KeyInsights := insights |}.

(** [generateBurndownData] *)
Record BurndownData : Set := mkBurndownData {
  Burndown_Date : string;
  RemainingTasks : Z;
  Burndown_CompletedTasks : Z;
  IdealRemaining : Z;
  TrendProjection : Z
}.

(** [t.Add(d)] for a duration in nanoseconds. *)
Definition Add (t : Time) (d : Z) : Time :=
  let total := instant t + d in
  mkTime (total / nsPerSecond) (total mod nsPerSecond) (zoneOffset t).

Definition burndownInterval (timeRange : string) : Z :=
  if String.eqb timeRange "7_days" || String.eqb timeRange "14_days" then 24 * nsPerHour
  else if String.eqb timeRange "30_days" || String.eqb timeRange "60_days"
  then 24 * nsPerHour
  else 7 * 24 * nsPerHour.

(** [for date := timeRangeStart; date.Before(now) || date.Equal(now);
    date = date.Add(interval)]: the dates the loop appends, for at
    most [fuel] rounds. *)
Fixpoint datesLoop (fuel : nat) (date now : Time) (interval : Z) : list Time :=
  match fuel with
  | O => []
  | S fuel' =>
      if Before date now || Equal date now
      then date :: datesLoop fuel' (Add date interval) now interval
      else []
  end.

(** The rounds the loop can take: the intervals that fit between the
    two instants, and one. *)
Definition roundsBetween (start now : Time) (interval : Z) : nat :=
  S (Z.to_nat ((instant now - instant start) / interval)).

Definition notAfter (stamp : string) (date : Time) : bool :=
  if String.eqb stamp "" then false
  else
    match Parse LayoutStamp stamp with
    | Some parsed => Before parsed date || Equal parsed date
    | None => false
    end.

Definition createdBy (date : Time) (task : TaskDetail) : bool :=
  notAfter (Created (Dates task)) date.

Definition completedBy (date : Time) (task : TaskDetail) : bool :=
  isTaskCompleted task && notAfter (Modified (Dates task)) date.

Definition countOf (p : TaskDetail -> bool) (tasks : list TaskDetail) : Z :=
  fold_left (fun n task => if p task then n + 1 else n) tasks 0.

(** One round of the loop over the dates; [i] counts the rounds, [n] is
    [len(dates)], and [truncate] is the conversion [int(x)] of a float64,
    which the language leaves to the implementation where [x] is out of
    range or not a number. *)
Definition burndownStep (truncate : float -> Z) (tasks : list TaskDetail)
    (totalTasks n : Z) (acc : Z * list BurndownData) (date : Time)
    : Z * list BurndownData :=
  let '(i, burndownData) := acc in
  let completedByDate := countOf (completedBy date) tasks in
  let createdByDate := countOf (createdBy date) tasks in
  let currentTotal := totalTasks + createdByDate in
  let remainingTasks := currentTotal - completedByDate in
  let progress := (float64OfInt i / float64OfInt (n - 1))%float in
  let idealRemaining := truncate (float64OfInt totalTasks * (1 - progress))%float in
  let trendProjection :=
    if (0 <? i) && (0 <? List.length burndownData)%nat then
      match nth_error burndownData (Z.to_nat (i - 1)) with
      | Some previous =>
          let velocity := RemainingTasks previous - remainingTasks in
          let remainingDays := n - i - 1 in
          let projected := remainingTasks - velocity * remainingDays in
          if projected <? 0 then 0 else projected
      | None => remainingTasks
      end
    else remainingTasks in
  (i + 1,
   burndownData ++
   [ {| Burndown_Date := Format date LayoutDate;
        RemainingTasks := remainingTasks;
        Burndown_CompletedTasks := completedByDate;
        IdealRemaining := idealRemaining;
        TrendProjection := trendProjection |} ]).

(** [generateBurndownData]; the clock is read for the start of the range
    ([clock]) and again for the end of the loop ([now]). *)
Definition generateBurndownData (truncate : float -> Z) (clock now : Time)
    (tasks : list TaskDetail) (timeRange : string) : list BurndownData :=
  let timeRangeStart := getTimeRangeStart clock timeRange in
  let interval := burndownInterval timeRange in
  let dates := datesLoop (roundsBetween timeRangeStart now interval)
                         timeRangeStart now interval in
  match dates with
  | [] => []
  | _ =>
      let totalTasks := countOf (createdBy timeRangeStart) tasks in
      snd (fold_left (burndownStep truncate tasks totalTasks (Z.of_nat (List.length dates)))
                     dates (0, []))
  end.

(** [analyseProjectHealth] *)
Record ProjectHealthMetric : Set := mkProjectHealthMetric {
  Health_ProjectID : string;
  Health_ProjectName : string;
  HealthScore : float;
  Health_CompletionRate : float;
  OnTimeDelivery : float;
  TeamUtilisation : float;
  QualityIndicator : string;
  RiskLevel : string
}.

(** The anonymous struct of [projectStats]. *)
Record ProjectStats : Set := mkProjectStats {
  totalTasks : Z;
  completedTasks : Z;
  overdueTasks : Z;
  onTimeTasks : Z;
  totalHours : float;
  spentHours : float
}.

Definition healthKey (task : TaskDetail) : option string :=
  Some (ProjectInfo_ID (Project task)).

Definition newHealth (task : TaskDetail) : ProjectHealthMetric :=
  {| Health_ProjectID := ProjectInfo_ID (Project task);
     Health_ProjectName := ProjectInfo_Name (Project task);
     HealthScore := PrimFloat.zero; Health_CompletionRate := PrimFloat.zero;
     OnTimeDelivery := PrimFloat.zero; TeamUtilisation := PrimFloat.zero;
     QualityIndicator := ""; RiskLevel := "" |}.

Definition newStats (task : TaskDetail) : ProjectStats :=
  {| totalTasks := 0; completedTasks := 0; overdueTasks := 0; onTimeTasks := 0;
     totalHours := PrimFloat.zero; spentHours := PrimFloat.zero |}.

(** A completed task delivered on time: due and modification stamps
    that read back, the second not after the first. *)
Definition onTime (task : TaskDetail) : bool :=
  if negb (String.eqb (Due (Dates task)) "")
     && negb (String.eqb (Modified (Dates task)) "")
  then
    match Parse LayoutStamp (Due (Dates task)) with
    | Some dueDate =>
        match Parse LayoutStamp (Modified (Dates task)) with
        | Some modifiedDate => Before modifiedDate dueDate || Equal modifiedDate dueDate
        | None => false
        end
    | None => false
    end
  else false.

Definition addToStats (task : TaskDetail) (stats : ProjectStats) : ProjectStats :=
  {| totalTasks := totalTasks stats + 1;
     completedTasks :=
       if isTaskCompleted task then completedTasks stats + 1 else completedTasks stats;
     overdueTasks :=
       if IsOverdue task then overdueTasks stats + 1 else overdueTasks stats;
     onTimeTasks :=
       if isTaskCompleted task && onTime task then onTimeTasks stats + 1
       else onTimeTasks stats;
     totalHours :=
       match TaskTimeTracking task with
       | Some tracking => (totalHours stats + EstimatedHours tracking)%float
       | None => totalHours stats
       end;
     spentHours :=
       match TaskTimeTracking task with
       | Some tracking => (spentHours stats + SpentHours tracking)%float
       | None => spentHours stats
       end |}.

(** The body of the second loop. *)
Definition rateHealth (metric : ProjectHealthMetric) (stats : ProjectStats)
    : ProjectHealthMetric :=
  let completionRate :=
    if 0 <? totalTasks stats
    then (float64OfInt (completedTasks stats) / float64OfInt (totalTasks stats) * 100)%float
    else Health_CompletionRate metric in
  let onTimeDelivery :=
    if 0 <? completedTasks stats
    then (float64OfInt (onTimeTasks stats) / float64OfInt (completedTasks stats) * 100)%float
    else OnTimeDelivery metric in
  let teamUtilisation :=
    if PrimFloat.ltb 0 (totalHours stats) then
      let utilisation := (spentHours stats / totalHours stats * 100)%float in
      if PrimFloat.ltb 100 utilisation then 100%float else utilisation
    else TeamUtilisation metric in
  let healthScore :=
    (0 + completionRate * 0.4 + onTimeDelivery * 0.3 + teamUtilisation * 0.3)%float in
  let overduePercent :=
    if 0 <? totalTasks stats
    then (float64OfInt (overdueTasks stats) / float64OfInt (totalTasks stats) * 100)%float
    else PrimFloat.zero in
  {| Health_ProjectID := Health_ProjectID metric;
     Health_ProjectName := Health_ProjectName metric;
     HealthScore := healthScore;
     Health_CompletionRate := completionRate;
     OnTimeDelivery := onTimeDelivery;
     TeamUtilisation := teamUtilisation;
     QualityIndicator :=
       if PrimFloat.leb 90 healthScore then "Excellent"
       else if PrimFloat.leb 75 healthScore then "Good"
       else if PrimFloat.leb 60 healthScore then "Fair"
       else "Poor";
     RiskLevel :=
       if PrimFloat.ltb 30 overduePercent || PrimFloat.ltb healthScore 50 then "High"
       else if PrimFloat.ltb 15 overduePercent || PrimFloat.ltb healthScore 70
       then "Medium"
       else "Low" |}.

Definition lessHealth (x y : ProjectHealthMetric) : bool :=
  PrimFloat.ltb (HealthScore y) (HealthScore x).

(** The second loop reads [projectStats[projectKey]] through a pointer:
    a key without statistics would be a nil dereference. *)
Fixpoint rateAll (projectStats : list (string * ProjectStats))
    (entries : list (string * ProjectHealthMetric)) : outcome (list ProjectHealthMetric) :=
  match entries with
  | [] => Ok []
  | (projectKey, metric) :: rest =>
      match lookup projectStats projectKey with
      | None => Panic
      | Some stats =>
          match rateAll projectStats rest with
          | Ok health => Ok (rateHealth metric stats :: health)
          | Err e => Err e
          | Panic => Panic
          end
      end
  end.

Definition analyseProjectHealth (it : Iteration) (tasks : list TaskDetail)
    : outcome (list ProjectHealthMetric) :=
  let projectMap := group healthKey newHealth (fun _ metric => metric) tasks in
  let projectStats := group healthKey newStats addToStats tasks in
  match rateAll projectStats (range it _ projectMap) with
  | Ok health => Ok (GoSort.Slice lessHealth health)
  | Err e => Err e
  | Panic => Panic
  end.

End Analytics.

(* ================================================================== *)
(** * The Kanboard values (models/kanboard.go) and the raw fields of
      the overview *)
(* ================================================================== *)

Module Kanboard.
Import GoString GoTime StrConv.

(** The byte of a double quote. *)
Definition quote : ascii := ascii_of_nat 34.

Fixpoint lastByte (s : string) : option ascii :=
  match s with
  | EmptyString => None
  | String c EmptyString => Some c
  | String _ rest => lastByte rest
  end.

Fixpoint dropLast (s : string) : string :=
  match s with
  | EmptyString => EmptyString
  | String _ EmptyString => EmptyString
  | String c rest => String c (dropLast rest)
  end.

(** [if len(str) >= 2 && str[0] == '"' && str[len(str)-1] == '"'
    { str = str[1 : len(str)-1] }] *)
Definition unquote (str : string) : string :=
  match str with
  | String first rest =>
      if (2 <=? String.length str)%nat && Ascii.eqb first quote
         && match lastByte str with Some c => Ascii.eqb c quote | None => false end
      then dropLast rest
      else str
  | EmptyString => str
  end.

(** [KanboardTime.UnmarshalJSON]; it returns no error.  The layout
    [time.RFC3339] is not among the two modelled: its parser is a
    parameter. *)
Definition UnmarshalJSON (rfc3339 : string -> option Time) (data : string) : Time :=
  let str := unquote data in
  if String.eqb str "" || String.eqb str "0" then zeroTime
  else
    match ParseInt str with
    | Some timestamp => Unix timestamp
    | None =>
        match rfc3339 str with
        | Some t => t
        | None =>
            match Parse LayoutDate str with
            | Some t => t
            | None => zeroTime
            end
        end
    end.

(** What [json.Unmarshal] stores in an [interface{}]; what an array or
    an object holds is not read. *)
Inductive Value : Set :=
| Null
| Bool (b : bool)
| Number (x : float)
| Str (s : string)
| Array
| Object.

(** The switch of [KanboardBool.UnmarshalJSON] on the decoded value. *)
Definition KanboardBool (v : Value) : bool :=
  match v with
  | Bool value => value
  | Number value => negb (PrimFloat.eqb value 0)
  | Str value => String.eqb value "1" || String.eqb value "true"
  | _ => false
  end.

(** [OverviewHandler.getString] and [OverviewHandler.getBool] on a raw
    project, a [map[string]interface{}]. *)
Definition getString (data : list (string * Value)) (key : string) : string :=
  match GoMap.lookup data key with
  | Some (Str str) => str
  | _ => ""
  end.

Definition getBool (data : list (string * Value)) (key : string) : bool :=
  match GoMap.lookup data key with
  | Some (Bool v) => v
  | Some (Str v) => String.eqb v "1" || String.eqb v "true"
  | Some (Number v) => PrimFloat.eqb v 1
  | _ => false
  end.

End Kanboard.

(* ================================================================== *)
(** * OverviewHandler (overview.go): task counts and the summary *)
(* ================================================================== *)

Module OverviewHandler.
Import GoString Models Handlers GoMap.

Record OverviewRequest : Set := mkOverviewRequest {
  IncludeTaskCounts : bool;
  IncludeInactiveProjects : bool
}.

(** [ColumnInfo] and [ProjectOverview], the fields the counts, the
    filter and the summary read. *)
Record ColumnInfo : Set := mkColumnInfo {
  ColumnInfo_ID : string;
  ColumnInfo_Title : string
}.

Record ProjectOverview : Set := mkProjectOverview {
  Overview_ID : string;
  Overview_Name : string;
  Overview_IsActive : bool;
  Overview_Columns : list ColumnInfo;
  TaskCounts : list (string * Z)
}.

Record OverviewSummary : Set := mkOverviewSummary {
  TotalProjects : Z;
  ActiveProjects : Z;
  InactiveProjects : Z;
  Overview_TotalTasks : Z
}.

(** [getProjectColumns], from the columns fetched on. *)
Definition columnInfos (columns : list Models.Column) : list ColumnInfo :=
  map (fun col => {| ColumnInfo_ID := itoa (Column_ID col);
                     ColumnInfo_Title := Column_Title col |}) columns.

(** The inner loop of [getProjectTaskCounts]: the first column with the
    id of the task's column. *)
Definition columnOf (columns : list ColumnInfo) (task : Task) : option ColumnInfo :=
  let columnID := itoa (Task_ColumnID task) in
  find (fun col => String.eqb (ColumnInfo_ID col) columnID) columns.

(** [getProjectTaskCounts], from the tasks fetched on. *)
Definition getProjectTaskCounts (tasks : list Task) (columns : list ColumnInfo)
    : list (string * Z) :=
  let counts :=
    fold_left (fun counts col => upsert counts (ColumnInfo_Title col) 0 (fun _ => 0))
              columns [] in
  fold_left
    (fun counts task =>
       match columnOf columns task with
       | Some col => upsert counts (ColumnInfo_Title col) 0 (fun n => n + 1)
       | None => counts
       end)
    tasks counts.

(** The filter of [Handle]. *)
Definition shown (req : OverviewRequest) (projectOverviews : list ProjectOverview)
    : list ProjectOverview :=
  if negb (IncludeInactiveProjects req)
  then filter Overview_IsActive projectOverviews
  else projectOverviews.

(** [calculateSummary] *)
Definition calculateSummary (it : Iteration) (projects : list ProjectOverview)
    (includeTaskCounts : bool) : OverviewSummary :=
  fold_left
    (fun summary project =>
       let summary :=
         if Overview_IsActive project
         then {| TotalProjects := TotalProjects summary;
                 ActiveProjects := ActiveProjects summary + 1;
                 InactiveProjects := InactiveProjects summary;
                 Overview_TotalTasks := Overview_TotalTasks summary |}
         else {| TotalProjects := TotalProjects summary;
                 ActiveProjects := ActiveProjects summary;
                 InactiveProjects := InactiveProjects summary + 1;
                 Overview_TotalTasks := Overview_TotalTasks summary |} in
       if includeTaskCounts then
         fold_left
           (fun summary entry =>
              {| TotalProjects := TotalProjects summary;
                 ActiveProjects := ActiveProjects summary;
                 InactiveProjects := InactiveProjects summary;
                 Overview_TotalTasks := Overview_TotalTasks summary + snd entry |})
           (range it _ (TaskCounts project)) summary
       else summary)
    projects
    {| TotalProjects := Z.of_nat (List.length projects);
       ActiveProjects := 0; InactiveProjects := 0; Overview_TotalTasks := 0 |}.

End OverviewHandler.

(* ================================================================== *)
(** * What the analyses come to *)
(* ================================================================== *)

Module Tally.
Import Models Handlers PrioritiesAnalysis.

(** The tasks assigned to the user with this id, in the order given. *)
Definition assignedTo (id : string) (tasks : list TaskDetail) : list TaskDetail :=
  GoMap.members assigneeOf id tasks.

(** The sum [workload.TotalEstimatedHours += ...] runs over the tasks
    that carry time tracking. *)
Definition addEstimate (hours : float) (task : TaskDetail) : float :=
  match TaskTimeTracking task with
  | Some tracking => (hours + EstimatedHours tracking)%float
  | None => hours
  end.

(** The workload of user [u] over the tasks [mine], before it is rated. *)
Definition tallyOf (u : UserInfo) (mine : list TaskDetail) : UserWorkload :=
  {| Workload_UserID := UserInfo_ID u;
     Workload_Username := UserInfo_Username u;
     Workload_Name := UserInfo_Name u;
     AssignedTasks := Z.of_nat (List.length mine);
     Workload_OverdueTasks := Z.of_nat (List.length (filter IsOverdue mine));
     TotalEstimatedHours := fold_left addEstimate mine PrimFloat.zero;
     CapacityUtilization := "";
     Workload_Status := "" |}.

(** The tasks of one column of one project, in the order given; those
    of them that have waited (a modification stamp that reads back, more
    than two days old); and the bottleneck the column makes. *)
Definition inColumn (project column : string) (tasks : list TaskDetail)
    : list TaskDetail :=
  filter (fun task => String.eqb (ProjectInfo_Name (Project task)) project
                      && String.eqb (Column (Status task)) column) tasks.

Definition waits (now : GoTime.Time) (task : TaskDetail) : bool :=
  match waitDaysOf now task with
  | Some _ => true
  | None => false
  end.

Definition addWait (now : GoTime.Time) (total : float) (task : TaskDetail) : float :=
  match waitDaysOf now task with
  | Some waitDays => (total + waitDays)%float
  | None => total
  end.

Definition stuckIn (now : GoTime.Time) (project column : string)
    (tasks : list TaskDetail) : list TaskDetail :=
  filter (waits now) (inColumn project column tasks).

Definition bottleneckFor (now : GoTime.Time) (project column : string)
    (tasks : list TaskDetail) : Bottleneck :=
  let stuck := stuckIn now project column tasks in
  {| Bottleneck_Column := column;
     Bottleneck_Project := project;
     StuckTasks := Z.of_nat (List.length stuck);
     AvgWaitTimeDays :=
       (fold_left (addWait now) stuck PrimFloat.zero
        / AnalyticsHandler.float64OfInt (Z.of_nat (List.length stuck)))%float;
     Bottleneck_TaskIDs := map ID stuck |}.

Definition placeOf (bottleneck : Bottleneck) : string * string :=
  (Bottleneck_Project bottleneck, Bottleneck_Column bottleneck).

(** The keys of the two levels of [columnStats]. *)
Definition projectKey (task : TaskDetail) : option string :=
  Some (ProjectInfo_Name (Project task)).

Definition columnKey (task : TaskDetail) : option string :=
  Some (Column (Status task)).

(** The time ranges [getTimeRangeStart] has a case for. *)
Definition knownRanges : list string :=
  ["7_days"; "14_days"; "30_days"; "60_days"; "90_days"; "6_months"; "1_year"].

(** The tasks counted in a period of the completion trends, and the
    trend they come to. *)
Definition createdIn (timeRange period : string) (tasks : list TaskDetail)
    : list TaskDetail :=
  GoMap.members (Analytics.createdPeriod timeRange) period tasks.

Definition trendOf (period : string) (counted : list TaskDetail)
    : Analytics.CompletionTrend :=
  Analytics.rateTrend
    {| Analytics.Trend_Period := period;
       Analytics.Trend_TasksCompleted :=
         Z.of_nat (List.length (filter AnalyticsHandler.isTaskCompleted counted));
       Analytics.TasksCreated := Z.of_nat (List.length counted);
       Analytics.CompletionRate := PrimFloat.zero |}.

(** The tasks counted in a period of the velocity, and the metric they
    come to. *)
Definition completedIn (timeRange period : string) (tasks : list TaskDetail)
    : list TaskDetail :=
  GoMap.members (Analytics.completedPeriod timeRange) period tasks.

Definition addSpent (hours : float) (task : TaskDetail) : float :=
  match TaskTimeTracking task with
  | Some tracking => (hours + SpentHours tracking)%float
  | None => hours
  end.

Definition velocityOf (period : string) (counted : list TaskDetail)
    : Analytics.VelocityMetric :=
  Analytics.rateVelocity
    {| Analytics.Velocity_Period := period;
       Analytics.Velocity_TasksCompleted := Z.of_nat (List.length counted);
       Analytics.StoryPoints := Z.of_nat (List.length counted);
       Analytics.Velocity_EstimatedHours := fold_left addEstimate counted PrimFloat.zero;
       Analytics.ActualHours := fold_left addSpent counted PrimFloat.zero;
       Analytics.VelocityScore := PrimFloat.zero;
       Analytics.EfficiencyRating := "" |}.

(** The active tasks whose age falls in a group. *)
Definition ageGroupOf (now : GoTime.Time) (task : TaskDetail) : option string :=
  match Analytics.ageOf now task with
  | Some age => Some (Analytics.groupOfAge age)
  | None => None
  end.

Definition agedIn (now : GoTime.Time) (name : string) (tasks : list TaskDetail)
    : list TaskDetail :=
  GoMap.members (ageGroupOf now) name tasks.

Definition hasAge (now : GoTime.Time) (task : TaskDetail) : bool :=
  match Analytics.ageOf now task with
  | Some _ => true
  | None => false
  end.

Definition sumZ (l : list Z) : Z := fold_right Z.add 0 l.

(** The tasks of a project, the statistics they come to and the health
    entry of the project. *)
Definition inProject (id : string) (tasks : list TaskDetail) : list TaskDetail :=
  GoMap.members Analytics.healthKey id tasks.

Definition statsOf (mine : list TaskDetail) : Analytics.ProjectStats :=
  {| Analytics.totalTasks := Z.of_nat (List.length mine);
     Analytics.completedTasks :=
       Z.of_nat (List.length (filter AnalyticsHandler.isTaskCompleted mine));
     Analytics.overdueTasks := Z.of_nat (List.length (filter IsOverdue mine));
     Analytics.onTimeTasks :=
       Z.of_nat (List.length
                   (filter (fun task => AnalyticsHandler.isTaskCompleted task
                                        && Analytics.onTime task) mine));
     Analytics.totalHours := fold_left addEstimate mine PrimFloat.zero;
     Analytics.spentHours := fold_left addSpent mine PrimFloat.zero |}.

Definition healthOf (first : TaskDetail) (mine : list TaskDetail)
    : Analytics.ProjectHealthMetric :=
  Analytics.rateHealth (Analytics.newHealth first) (statsOf mine).

(** The burndown chart in closed form: the date of round [k], the tasks
    remaining at a date over a baseline of [total], and the entry of
    round [k] of [n]. *)
Definition dateAt (start : GoTime.Time) (interval : Z) (k : nat) : GoTime.Time :=
  Analytics.Add start (Z.of_nat k * interval).

Definition remainingAt (tasks : list TaskDetail) (total : Z) (date : GoTime.Time) : Z :=
  total + Analytics.countOf (Analytics.createdBy date) tasks
  - Analytics.countOf (Analytics.completedBy date) tasks.

Definition entryAt (truncate : float -> Z) (tasks : list TaskDetail) (total n : Z)
    (start : GoTime.Time) (interval : Z) (k : nat) : Analytics.BurndownData :=
  let date := dateAt start interval k in
  let remaining := remainingAt tasks total date in
  {| Analytics.Burndown_Date := GoTime.Format date GoTime.LayoutDate;
     Analytics.RemainingTasks := remaining;
     Analytics.Burndown_CompletedTasks :=
       Analytics.countOf (Analytics.completedBy date) tasks;
     Analytics.IdealRemaining :=
       truncate (AnalyticsHandler.float64OfInt total
                 * (1 - AnalyticsHandler.float64OfInt (Z.of_nat k)
                        / AnalyticsHandler.float64OfInt (n - 1)))%float;
     Analytics.TrendProjection :=
       match k with
       | O => remaining
       | S j =>
           let velocity := remainingAt tasks total (dateAt start interval j) - remaining in
           Z.max 0 (remaining - velocity * (n - Z.of_nat k - 1))
       end |}.

(** The rounds of the burndown loop. *)
Definition burndownRounds (start now : GoTime.Time) (interval : Z) : Z :=
  if GoTime.instant start <=? GoTime.instant now
  then (GoTime.instant now - GoTime.instant start) / interval + 1
  else 0.

(** The year and the hour of the day a time shows. *)
Definition yearOf (t : GoTime.Time) : Z := fst (fst (GoTime.Date_of t)).
Definition hourOf (t : GoTime.Time) : Z := fst (fst (GoTime.Clock_of t)).

(** The title a task is counted under in the overview: that of the
    first column with the id of its column; and the tasks counted under
    a title. *)
Definition countedUnder (columns : list OverviewHandler.ColumnInfo) (task : Task)
    : option string :=
  match OverviewHandler.columnOf columns task with
  | Some col => Some (OverviewHandler.ColumnInfo_Title col)
  | None => None
  end.

Definition inTitle (columns : list OverviewHandler.ColumnInfo) (title : string)
    (tasks : list Task) : list Task :=
  GoMap.members (countedUnder columns) title tasks.

Definition listed (columns : list OverviewHandler.ColumnInfo) (task : Task) : bool :=
  match OverviewHandler.columnOf columns task with
  | Some _ => true
  | None => false
  end.

(** The passes of [getProjectTaskCounts] over the columns and over the
    tasks as one pass. *)
Definition countKey (columns : list OverviewHandler.ColumnInfo)
    (x : OverviewHandler.ColumnInfo + Task) : option string :=
  match x with
  | inl col => Some (OverviewHandler.ColumnInfo_Title col)
  | inr task => countedUnder columns task
  end.

(** All the task counts of the projects, added up. *)
Definition allCounts (projects : list OverviewHandler.ProjectOverview) : Z :=
  sumZ (map (fun project => sumZ (map snd (OverviewHandler.TaskCounts project))) projects).

Definition countBump (x : OverviewHandler.ColumnInfo + Task) (n : Z) : Z :=
  match x with
  | inl _ => 0
  | inr _ => n + 1
  end.

End Tally.

(* ================================================================== *)
(** * Inputs of the examples *)
(* ================================================================== *)

Module Samples.
Import GoString GoTime Models Handlers.

Definition alice : UserInfo :=
  {| UserInfo_ID := "7"; UserInfo_Username := "alice"; UserInfo_Name := "Alice" |}.

Definition bob : UserInfo :=
  {| UserInfo_ID := "8"; UserInfo_Username := "bob"; UserInfo_Name := "Bob" |}.

(** A task of project Alpha. *)
Definition task (id : Z) (column : string) (assignee : option UserInfo)
    (created modified : string) (hours : float) (overdue : bool) : TaskDetail :=
  {| ID := itoa id; Title := "task"; Description := "";
     Project := {| ProjectInfo_ID := "1"; ProjectInfo_Name := "Alpha" |};
     Assignee := assignee;
     Status := {| Column := column; Swimlane := "Default" |};
     Dates := {| Created := created; Due := ""; Modified := modified; Started := "" |};
     TaskTimeTracking :=
       Some {| EstimatedHours := hours; SpentHours := hours;
               RemainingHours := PrimFloat.zero |};
     Priority := "normal"; Category := ""; Tags := [];
     URL := ""; IsOverdue := overdue; DaysUntilDue := None |}.

(** 2024-01-01T00:00:00Z and 2024-01-11T00:00:00Z. *)
Definition newYear : Time := Unix 1704067200.
Definition today : Time := Unix 1704931200.

(** Three tasks under review since the first days of January, one done. *)
Definition team : list TaskDetail :=
  [ task 1 "Review" (Some alice) "2024-01-01T00:00:00Z" "2024-01-02T00:00:00Z" 30 true;
    task 2 "Review" (Some bob) "2024-01-02T09:00:00Z" "2024-01-03T00:00:00Z" 8 false;
    task 3 "Review" None "2024-01-03T09:00:00Z" "2024-01-04T00:00:00Z" 0 false;
    task 4 "Done" (Some alice) "2024-01-04T10:00:00Z" "2024-01-09T00:00:00Z" 25 false ].

(** A printer that prints nothing. *)
Definition plainPrinter : PrioritiesAnalysis.FloatPrinter := fun _ _ => "".

Definition request : PrioritiesHandler.PrioritiesRequest :=
  {| PrioritiesHandler.UserID := "07"; PrioritiesHandler.Req_ProjectIDs := [];
     PrioritiesHandler.TimeHorizon := "week";
     PrioritiesHandler.IncludeRecommendations := true |}.

(** What the client fetched for project Alpha, and the tasks collected
    from it. *)
Definition fetched : TasksHandler.ProjectFetch :=
  {| TasksHandler.fetchedTasks :=
       Some [Spec.rawTask 1 (Unix 1000000000); Spec.rawTask 2 zeroTime];
     TasksHandler.fetchedColumns := Some [mkColumn 1 "Backlog"];
     TasksHandler.fetchedSwimlanes := Some [mkSwimlane 1 "Default"];
     TasksHandler.fetchedUsers := Some [] |}.

Definition collectedOnce : list TaskDetail :=
  match TasksHandler.collectTasks Spec.someInstant [(Spec.board, fetched)]
                                  "https://kb.example" false with
  | Some collected => collected
  | None => []
  end.

(** Two projects of the overview, one of them inactive. *)
Definition overviews : list OverviewHandler.ProjectOverview :=
  [ {| OverviewHandler.Overview_ID := "1"; OverviewHandler.Overview_Name := "Alpha";
       OverviewHandler.Overview_IsActive := true;
       OverviewHandler.Overview_Columns := [];
       OverviewHandler.TaskCounts := [("Backlog", 2); ("Done", 1)] |};
    {| OverviewHandler.Overview_ID := "2"; OverviewHandler.Overview_Name := "Beta";
       OverviewHandler.Overview_IsActive := false;
       OverviewHandler.Overview_Columns := [];
       OverviewHandler.TaskCounts := [("Backlog", 4)] |} ].

End Samples.

(* ================================================================== *)
(** * Properties *)
(* ================================================================== *)

(** ** The calendar, and stamps read back *)

Module GoTimeFacts.
Import GoString GoTime GoTimeInv.

(** *** The civil calendar *)

Lemma year_of_era (doe : Z) :
  0 <= doe < 146097 ->
  let yoe := (doe - doe / 1460 + doe / 36524 - doe / 146096) / 365 in
  0 <= yoe < 400 /\ daysBeforeYear yoe <= doe < daysBeforeYear (yoe + 1).
Proof.
  intros H yoe. unfold daysBeforeYear. subst yoe.
  assert (C : doe / 36524 = 0 \/ doe / 36524 = 1 \/ doe / 36524 = 2
              \/ doe / 36524 = 3 \/ doe / 36524 = 4)
    by (Z.to_euclidean_division_equations; lia).
  destruct C as [C|[C|[C|[C|C]]]]; rewrite C;
    Z.to_euclidean_division_equations; lia.
Qed.

Lemma year_length (y : Z) :
  daysBeforeYear (y + 1) - daysBeforeYear y = if isLeap (y + 1) then 366 else 365.
Proof.
  unfold daysBeforeYear, isLeap.
  destruct (Z.eqb_spec ((y + 1) mod 4) 0); destruct (Z.eqb_spec ((y + 1) mod 100) 0);
    destruct (Z.eqb_spec ((y + 1) mod 400) 0); cbn [andb orb negb];
    Z.to_euclidean_division_equations; lia.
Qed.

Lemma isLeap_era (y era : Z) : isLeap (y + era * 400) = isLeap y.
Proof.
  unfold isLeap.
  replace ((y + era * 400) mod 4) with (y mod 4)
    by (Z.to_euclidean_division_equations; lia).
  replace ((y + era * 400) mod 100) with (y mod 100)
    by (Z.to_euclidean_division_equations; lia).
  replace ((y + era * 400) mod 400) with (y mod 400)
    by (Z.to_euclidean_division_equations; lia).
  reflexivity.
Qed.

Lemma month_of_year (doy : Z) :
  0 <= doy <= 365 ->
  let mp := (5 * doy + 2) / 153 in
  0 <= mp <= 11 /\ daysBeforeMonth mp <= doy < daysBeforeMonth (mp + 1).
Proof.
  intros H mp. unfold daysBeforeMonth. subst mp.
  Z.to_euclidean_division_equations; lia.
Qed.

Lemma civilFromDays_Civil (z : Z) :
  exists era yoe mp d,
    Civil z era yoe mp d /\ civilFromDays z = civilDate era yoe mp d.
Proof.
  unfold civilFromDays. cbv zeta.
  set (z' := z + 719468).
  set (era := z' / 146097).
  set (doe := z' - era * 146097).
  assert (Hdoe : 0 <= doe < 146097)
    by (subst doe era; Z.to_euclidean_division_equations; lia).
  destruct (year_of_era doe Hdoe) as [Hyoe Hd]. cbv zeta in Hyoe, Hd.
  set (yoe := (doe - doe / 1460 + doe / 36524 - doe / 146096) / 365) in *.
  assert (Hflat : daysBeforeYear yoe = 365 * yoe + yoe / 4 - yoe / 100).
  { unfold daysBeforeYear. rewrite (Z.div_small yoe 400) by lia. lia. }
  set (doy := doe - (365 * yoe + yoe / 4 - yoe / 100)).
  assert (Hlen : daysBeforeYear (yoe + 1) - daysBeforeYear yoe <= 366).
  { rewrite year_length. destruct (isLeap (yoe + 1)); lia. }
  assert (Hdoy : 0 <= doy <= 365) by (subst doy; lia).
  destruct (month_of_year doy Hdoy) as [Hmp Hm]. cbv zeta in Hmp, Hm.
  set (mp := (5 * doy + 2) / 153) in *.
  exists era, yoe, mp, (doy - (153 * mp + 2) / 5 + 1).
  fold (daysBeforeMonth mp). split.
  - unfold Civil. repeat split; try lia.
  - unfold civilDate.
    destruct (Z.ltb_spec mp 10) as [Hlt|Hge].
    + destruct (Z.leb_spec (mp + 3) 2); [lia | reflexivity].
    + destruct (Z.leb_spec (mp - 9) 2); [reflexivity | lia].
Qed.

Lemma daysBeforeYear_mono (y y' : Z) :
  y <= y' -> daysBeforeYear y <= daysBeforeYear y'.
Proof. unfold daysBeforeYear. intros H. Z.to_euclidean_division_equations; lia. Qed.

Lemma daysBeforeMonth_mono (mp mp' : Z) :
  mp <= mp' -> daysBeforeMonth mp <= daysBeforeMonth mp'.
Proof. unfold daysBeforeMonth. intros H. Z.to_euclidean_division_equations; lia. Qed.

Lemma month_length_bound (mp : Z) :
  daysBeforeMonth (mp + 1) - daysBeforeMonth mp <= 31.
Proof. unfold daysBeforeMonth. Z.to_euclidean_division_equations; lia. Qed.

Lemma Civil_day_of_era (z era yoe mp d : Z) :
  Civil z era yoe mp d ->
  0 <= daysBeforeYear yoe + daysBeforeMonth mp + d - 1 < 146097.
Proof.
  intros (Hy & Hm & Hd & Hdoy & Hz).
  pose proof (daysBeforeYear_mono 0 yoe ltac:(lia)) as H0.
  pose proof (daysBeforeYear_mono (yoe + 1) 400 ltac:(lia)) as H1.
  pose proof (daysBeforeMonth_mono 0 mp ltac:(lia)) as H2.
  change (daysBeforeYear 0) with 0 in H0.
  change (daysBeforeYear 400) with 146097 in H1.
  change (daysBeforeMonth 0) with 0 in H2.
  lia.
Qed.

(** Later days have later dates. *)
Lemma civilFromDays_mono (z1 z2 : Z) :
  z1 < z2 -> dateKey (civilFromDays z1) < dateKey (civilFromDays z2).
Proof.
  intros Hlt.
  destruct (civilFromDays_Civil z1) as (e1 & y1 & m1 & d1 & C1 & ->).
  destruct (civilFromDays_Civil z2) as (e2 & y2 & m2 & d2 & C2 & ->).
  pose proof (Civil_day_of_era _ _ _ _ _ C1) as R1.
  pose proof (Civil_day_of_era _ _ _ _ _ C2) as R2.
  destruct C1 as (Hy1 & Hm1 & Hd1 & Hdoy1 & Hz1).
  destruct C2 as (Hy2 & Hm2 & Hd2 & Hdoy2 & Hz2).
  pose proof (month_length_bound m1) as B1.
  pose proof (month_length_bound m2) as B2.
  assert (HY : y2 < y1 -> daysBeforeYear (y2 + 1) <= daysBeforeYear y1)
    by (intros; apply daysBeforeYear_mono; lia).
  assert (HM : m2 < m1 -> daysBeforeMonth (m2 + 1) <= daysBeforeMonth m1)
    by (intros; apply daysBeforeMonth_mono; lia).
  pose proof (daysBeforeMonth_mono 0 m1 ltac:(lia)) as P1.
  pose proof (daysBeforeMonth_mono 0 m2 ltac:(lia)) as P2.
  change (daysBeforeMonth 0) with 0 in P1, P2.
  unfold dateKey, civilDate.
  destruct (Z.lt_trichotomy y1 y2) as [Hy|[Hy|Hy]];
    [| subst y2; destruct (Z.lt_trichotomy m1 m2) as [Hm|[Hm|Hm]];
       [| subst m2 |] |];
    repeat match goal with
           | |- context [?a <? 10] => destruct (Z.ltb_spec a 10)
           end; lia.
Qed.

Lemma daysIn_bound (month year : Z) : daysIn month year <= 31.
Proof.
  unfold daysIn. destruct (month =? 2); [destruct (isLeap year); lia|].
  destruct ((month =? 4) || (month =? 6) || (month =? 9) || (month =? 11)); lia.
Qed.

Lemma month_length (mp year : Z) :
  0 <= mp <= 10 ->
  daysIn (if mp <? 10 then mp + 3 else mp - 9) year
  = daysBeforeMonth (mp + 1) - daysBeforeMonth mp.
Proof.
  intros H.
  assert (Hcases : mp = 0 \/ mp = 1 \/ mp = 2 \/ mp = 3 \/ mp = 4 \/ mp = 5
                   \/ mp = 6 \/ mp = 7 \/ mp = 8 \/ mp = 9 \/ mp = 10)
    by lia.
  destruct Hcases as [E|[E|[E|[E|[E|[E|[E|[E|[E|[E|E]]]]]]]]]]; subst mp; reflexivity.
Qed.

(** The date of a day is a date of the calendar, and it is the date of
    that day only. *)
Lemma civilFromDays_valid (z : Z) :
  let '(y, m, d) := civilFromDays z in
  1 <= m <= 12 /\ 1 <= d <= daysIn m y /\ daysFromCivil y m d = z.
Proof.
  destruct (civilFromDays_Civil z) as (era & yoe & mp & d & C & ->).
  destruct C as (Hy & Hm & Hd & Hdoy & Hz).
  unfold civilDate.
  assert (Hflat : daysBeforeYear yoe = 365 * yoe + yoe / 4 - yoe / 100).
  { unfold daysBeforeYear. rewrite (Z.div_small yoe 400) by lia. lia. }
  split; [destruct (Z.ltb_spec mp 10); lia|]. split.
  - destruct (Z.eq_dec mp 11) as [->|N].
    + rewrite year_length in Hdoy.
      change (daysBeforeMonth 11) with 337 in Hdoy.
      change (if 11 <? 10 then 11 + 3 else 11 - 9) with 2.
      change (if 11 <? 10 then yoe + era * 400 else yoe + era * 400 + 1)
        with (yoe + era * 400 + 1).
      unfold daysIn. change (2 =? 2) with true. cbv iota.
      replace (yoe + era * 400 + 1) with (yoe + 1 + era * 400) by lia.
      rewrite isLeap_era. destruct (isLeap (yoe + 1)); lia.
    + rewrite (month_length mp) by lia. lia.
  - unfold daysFromCivil. cbv zeta.
    destruct (Z.ltb_spec mp 10) as [Hlt|Hge].
    + destruct (Z.leb_spec (mp + 3) 2); [lia|].
      destruct (Z.ltb_spec 2 (mp + 3)); [|lia].
      replace ((yoe + era * 400) / 400) with era
        by (Z.to_euclidean_division_equations; lia).
      replace (yoe + era * 400 - era * 400) with yoe by lia.
      replace (mp + 3 - 3) with mp by lia.
      fold (daysBeforeMonth mp). lia.
    + destruct (Z.leb_spec (mp - 9) 2); [|lia].
      destruct (Z.ltb_spec 2 (mp - 9)); [lia|].
      replace ((yoe + era * 400 + 1 - 1) / 400) with era
        by (Z.to_euclidean_division_equations; lia).
      replace (yoe + era * 400 + 1 - 1 - era * 400) with yoe by lia.
      replace (mp - 9 + 9) with mp by lia.
      fold (daysBeforeMonth mp). lia.
Qed.

(** Within the seconds a four-digit year can show, the year has four
    digits. *)
Lemma civilFromDays_year (z : Z) :
  -719528 <= z <= 2932896 ->
  let '(y, m, d) := civilFromDays z in 0 <= y <= 9999.
Proof.
  intros [Hlo Hhi].
  pose proof (civilFromDays_valid z) as V.
  assert (L : dateKey (civilFromDays (-719528)) <= dateKey (civilFromDays z)).
  { destruct (Z.eq_dec (-719528) z) as [<-|N]; [lia|].
    apply Z.lt_le_incl, civilFromDays_mono. lia. }
  assert (U : dateKey (civilFromDays z) <= dateKey (civilFromDays 2932896)).
  { destruct (Z.eq_dec z 2932896) as [->|N]; [lia|].
    apply Z.lt_le_incl, civilFromDays_mono. lia. }
  change (dateKey (civilFromDays (-719528))) with 101 in L.
  change (dateKey (civilFromDays 2932896)) with 99991231 in U.
  destruct (civilFromDays z) as [[y m] d]. cbn [dateKey] in L, U.
  destruct V as (Hm & Hd & _). pose proof (daysIn_bound m y). lia.
Qed.

(** *** The clock *)

Lemma Clock_of_spec (t : Time) :
  let '(hh, mm, ss) := Clock_of t in
  0 <= hh < 24 /\ 0 <= mm < 60 /\ 0 <= ss < 60
  /\ (wallSec t / secondsPerDay) * secondsPerDay + hh * 3600 + mm * 60 + ss = wallSec t.
Proof.
  unfold Clock_of, secondsPerDay. cbv zeta.
  Z.to_euclidean_division_equations; lia.
Qed.

Lemma Date_plain (year month day hour min sec : Z) :
  1 <= month <= 12 ->
  Date year month day hour min sec 0 0
  = Unix (daysFromCivil year month day * secondsPerDay + hour * 3600 + min * 60 + sec).
Proof.
  intros Hm. unfold Date, Unix. cbv zeta.
  replace (year + (month - 1) / 12) with year
    by (Z.to_euclidean_division_equations; lia).
  replace ((month - 1) mod 12 + 1) with month
    by (Z.to_euclidean_division_equations; lia).
  rewrite Z.sub_0_r, Z.add_0_r.
  unfold nsPerSecond. rewrite Z.div_mul, Z.mod_mul by lia. reflexivity.
Qed.

(** *** Decimal fields *)

Lemma digitsFuel_small (fuel : nat) (n : Z) (acc : string) :
  0 <= n < 10 -> digitsFuel (S fuel) n acc = String (digitChar n) acc.
Proof.
  intros H. cbn [digitsFuel]. destruct (Z.ltb_spec n 10); [|lia].
  rewrite Z.mod_small by lia. reflexivity.
Qed.

Lemma digitsFuel_step (fuel : nat) (n : Z) (acc : string) :
  10 <= n ->
  digitsFuel (S fuel) n acc = digitsFuel fuel (n / 10) (String (digitChar (n mod 10)) acc).
Proof.
  intros H. cbn [digitsFuel]. destruct (Z.ltb_spec n 10); [lia|]. reflexivity.
Qed.

Lemma digits_fuel (x : Z) (k : nat) :
  2 ^ Z.of_nat k <= x -> exists f, S (Z.to_nat (Z.log2 x)) = (S k + f)%nat.
Proof.
  intros H.
  assert (Hpos : 0 < 2 ^ Z.of_nat k) by (apply Z.pow_pos_nonneg; lia).
  assert (Hlog : Z.of_nat k <= Z.log2 x).
  { apply Z.log2_le_pow2; lia. }
  exists (Z.to_nat (Z.log2 x) - k)%nat. lia.
Qed.

Lemma digits_1 (x : Z) : 0 <= x < 10 -> digits x = String (digitChar x) "".
Proof. intros H. unfold digits. apply digitsFuel_small. exact H. Qed.

Lemma digits_2 (x : Z) : 10 <= x < 100 -> digits x = twoDigits x "".
Proof.
  intros H. unfold digits, twoDigits.
  destruct (digits_fuel x 1 ltac:(cbn; lia)) as [f ->]. cbn [Nat.add].
  rewrite digitsFuel_step by lia.
  apply digitsFuel_small. Z.to_euclidean_division_equations; lia.
Qed.

Lemma digits_3 (x : Z) :
  100 <= x < 1000 ->
  digits x = String (digitChar (x / 100)) (twoDigits (x mod 100) "").
Proof.
  intros H. unfold digits, twoDigits.
  destruct (digits_fuel x 2 ltac:(cbn; lia)) as [f ->]. cbn [Nat.add].
  rewrite digitsFuel_step by lia.
  rewrite digitsFuel_step by (Z.to_euclidean_division_equations; lia).
  rewrite digitsFuel_small by (Z.to_euclidean_division_equations; lia).
  replace (x / 10 / 10) with (x / 100) by (Z.to_euclidean_division_equations; lia).
  replace (x / 10 mod 10) with (x mod 100 / 10)
    by (Z.to_euclidean_division_equations; lia).
  replace (x mod 100 mod 10) with (x mod 10)
    by (Z.to_euclidean_division_equations; lia).
  reflexivity.
Qed.

Lemma digits_4 (x : Z) : 1000 <= x < 10000 -> digits x = fourDigits x "".
Proof.
  intros H. unfold digits, fourDigits.
  destruct (digits_fuel x 3 ltac:(cbn; lia)) as [f ->]. cbn [Nat.add].
  rewrite digitsFuel_step by lia.
  rewrite digitsFuel_step by (Z.to_euclidean_division_equations; lia).
  rewrite digitsFuel_step by (Z.to_euclidean_division_equations; lia).
  rewrite digitsFuel_small by (Z.to_euclidean_division_equations; lia).
  replace (x / 10 / 10 / 10) with (x / 1000)
    by (Z.to_euclidean_division_equations; lia).
  replace (x / 10 / 10 mod 10) with (x / 100 mod 10)
    by (Z.to_euclidean_division_equations; lia).
  reflexivity.
Qed.

Lemma appendInt_2 (x : Z) : 0 <= x < 100 -> appendInt x 2 = twoDigits x "".
Proof.
  intros H. unfold appendInt. cbv zeta.
  rewrite Z.abs_eq by lia. destruct (Z.ltb_spec x 0); [lia|].
  destruct (Z_lt_le_dec x 10) as [Hs|Hb].
  - rewrite digits_1 by lia. unfold twoDigits.
    rewrite Z.div_small, Z.mod_small by lia. reflexivity.
  - rewrite digits_2 by lia. reflexivity.
Qed.

Lemma appendInt_4 (x : Z) : 0 <= x < 10000 -> appendInt x 4 = fourDigits x "".
Proof.
  intros H. unfold appendInt. cbv zeta.
  rewrite Z.abs_eq by lia. destruct (Z.ltb_spec x 0); [lia|].
  destruct (Z_lt_le_dec x 10) as [H1|H1];
    [|destruct (Z_lt_le_dec x 100) as [H2|H2];
      [|destruct (Z_lt_le_dec x 1000) as [H3|H3]]].
  - rewrite digits_1 by lia. unfold fourDigits.
    replace (x / 1000) with 0 by (Z.to_euclidean_division_equations; lia).
    replace (x / 100 mod 10) with 0 by (Z.to_euclidean_division_equations; lia).
    replace (x / 10 mod 10) with 0 by (Z.to_euclidean_division_equations; lia).
    replace (x mod 10) with x by (Z.to_euclidean_division_equations; lia).
    reflexivity.
  - rewrite digits_2 by lia. unfold fourDigits, twoDigits.
    replace (x / 1000) with 0 by (Z.to_euclidean_division_equations; lia).
    replace (x / 100 mod 10) with 0 by (Z.to_euclidean_division_equations; lia).
    replace (x / 10 mod 10) with (x / 10) by (Z.to_euclidean_division_equations; lia).
    reflexivity.
  - rewrite digits_3 by lia. unfold fourDigits, twoDigits.
    replace (x / 1000) with 0 by (Z.to_euclidean_division_equations; lia).
    replace (x / 100 mod 10) with (x / 100) by (Z.to_euclidean_division_equations; lia).
    replace (x mod 100 / 10) with (x / 10 mod 10)
      by (Z.to_euclidean_division_equations; lia).
    replace (x mod 100 mod 10) with (x mod 10)
      by (Z.to_euclidean_division_equations; lia).
    reflexivity.
  - rewrite digits_4 by lia. reflexivity.
Qed.

Lemma digitChar_digit (k : Z) :
  0 <= k <= 9 -> isDigitChar (digitChar k) = true /\ digitVal (digitChar k) = k.
Proof.
  intros H.
  assert (C : k = 0 \/ k = 1 \/ k = 2 \/ k = 3 \/ k = 4 \/ k = 5 \/ k = 6
              \/ k = 7 \/ k = 8 \/ k = 9) by lia.
  destruct C as [E|[E|[E|[E|[E|[E|[E|[E|[E|E]]]]]]]]]; subst k; split; reflexivity.
Qed.

Lemma getnum_twoDigits (x : Z) (rest : string) (fixed : bool) :
  0 <= x < 100 -> getnum (twoDigits x rest) fixed = Some (x, rest).
Proof.
  intros H. unfold twoDigits. cbn [getnum].
  destruct (digitChar_digit (x / 10)) as [-> ->];
    [Z.to_euclidean_division_equations; lia|].
  destruct (digitChar_digit (x mod 10)) as [-> ->];
    [Z.to_euclidean_division_equations; lia|].
  do 2 f_equal. Z.to_euclidean_division_equations; lia.
Qed.

Lemma getYear_fourDigits (x : Z) (rest : string) :
  0 <= x < 10000 -> getYear (fourDigits x rest) = Some (x, rest).
Proof.
  intros H. unfold fourDigits. cbn [getYear].
  destruct (digitChar_digit (x / 1000)) as [-> ->];
    [Z.to_euclidean_division_equations; lia|].
  destruct (digitChar_digit (x / 100 mod 10)) as [-> ->];
    [Z.to_euclidean_division_equations; lia|].
  destruct (digitChar_digit (x / 10 mod 10)) as [-> ->];
    [Z.to_euclidean_division_equations; lia|].
  destruct (digitChar_digit (x mod 10)) as [-> ->];
    [Z.to_euclidean_division_equations; lia|].
  cbn [andb]. do 2 f_equal. Z.to_euclidean_division_equations; lia.
Qed.

(** *** A stamp reads back as written *)

Lemma fourDigitYear_day (t : Time) :
  fourDigitYear t -> -719528 <= wallSec t / secondsPerDay <= 2932896.
Proof.
  unfold fourDigitYear, firstStampSecond, lastStampSecond, secondsPerDay.
  intros H. Z.to_euclidean_division_equations; lia.
Qed.

(** The stamp of [t], field by field. *)
Lemma Format_stamp (t : Time) :
  fourDigitYear t ->
  let '(y, m, d) := Date_of t in
  let '(hh, mm, ss) := Clock_of t in
  Format t LayoutStamp
  = fourDigits y (String "-" (twoDigits m (String "-" (twoDigits d
      (String "T" (twoDigits hh (String ":" (twoDigits mm (String ":"
         (twoDigits ss "Z")))))))))).
Proof.
  intros H. unfold Format, formatDate, formatClock.
  pose proof (civilFromDays_valid (wallSec t / secondsPerDay)) as V.
  pose proof (civilFromDays_year _ (fourDigitYear_day t H)) as Y.
  pose proof (Clock_of_spec t) as C.
  unfold Date_of.
  destruct (civilFromDays (wallSec t / secondsPerDay)) as [[y m] d].
  destruct (Clock_of t) as [[hh mm] ss].
  destruct V as (Hm & Hd & _). destruct C as (Hh & Hmi & Hs & _).
  pose proof (daysIn_bound m y).
  rewrite (appendInt_4 y), !appendInt_2 by lia.
  reflexivity.
Qed.

Lemma Parse_Format_stamp (t : Time) :
  fourDigitYear t ->
  Parse LayoutStamp (Format t LayoutStamp) = Some (Unix (wallSec t)).
Proof.
  intros H. pose proof (Format_stamp t H) as F.
  pose proof (civilFromDays_valid (wallSec t / secondsPerDay)) as V.
  pose proof (civilFromDays_year _ (fourDigitYear_day t H)) as Y.
  pose proof (Clock_of_spec t) as C.
  unfold Date_of in F.
  destruct (civilFromDays (wallSec t / secondsPerDay)) as [[y m] d].
  destruct (Clock_of t) as [[hh mm] ss].
  destruct V as (Hm & Hd & Hz). destruct C as (Hh & Hmi & Hs & Hw).
  pose proof (daysIn_bound m y).
  rewrite F. unfold Parse, parseDatePart.
  rewrite getYear_fourDigits by lia. cbn [skipChar Ascii.eqb Bool.eqb].
  rewrite getnum_twoDigits by lia.
  destruct (Z.leb_spec m 0); [lia|]. destruct (Z.ltb_spec 12 m); [lia|].
  cbn [orb skipChar Ascii.eqb Bool.eqb].
  rewrite getnum_twoDigits by lia. cbn [skipChar Ascii.eqb Bool.eqb].
  rewrite getnum_twoDigits by lia.
  destruct (Z.leb_spec 24 hh); [lia|]. cbn [skipChar Ascii.eqb Bool.eqb].
  rewrite getnum_twoDigits by lia.
  destruct (Z.leb_spec 60 mm); [lia|]. cbn [skipChar Ascii.eqb Bool.eqb].
  rewrite getnum_twoDigits by lia.
  destruct (Z.leb_spec 60 ss); [lia|].
  cbn [parseFraction skipChar Ascii.eqb Bool.eqb].
  unfold dayInRange.
  destruct (Z.leb_spec 1 d); [|lia]. destruct (Z.leb_spec d (daysIn m y)); [|lia].
  cbn [andb]. rewrite Date_plain by lia. rewrite Hz, Hw. reflexivity.
Qed.

End GoTimeFacts.

(** ** [sort.Slice] sorts *)

Module GoSortFacts.
Import GoSort.
Local Open Scope nat_scope.

Section Facts.
Variable A : Type.
Variable less : A -> A -> bool.

Abbreviation Less := (GoSort.Less less).
Abbreviation Swap := (@GoSort.Swap A).
Abbreviation store := (@GoSort.store A).
Abbreviation Shuffled := (@GoSortInv.Shuffled A).
Abbreviation Shuffled_refl := (@GoSortInv.Shuffled_refl A).
Abbreviation Shuffled_swap := (@GoSortInv.Shuffled_swap A).
Abbreviation InRange := (@GoSortInv.InRange A).
Abbreviation child := GoSortInv.child.
Abbreviation SortedR := (GoSortInv.SortedR less).
Abbreviation SortedBut := (GoSortInv.SortedBut less).
Abbreviation HeapFrom := (GoSortInv.HeapFrom less).
Abbreviation HeapBut := (GoSortInv.HeapBut less).
Abbreviation Parted := (GoSortInv.Parted less).
Abbreviation PartitionedAt := (GoSortInv.PartitionedAt less).
Abbreviation PartedEq := (GoSortInv.PartedEq less).
Abbreviation SplitAt := (GoSortInv.SplitAt less).
Abbreviation LowerBound := (GoSortInv.LowerBound less).

(** *** Reading and writing by index *)

Lemma store_length (l : list A) (i : nat) (x : A) :
  List.length (store l i x) = List.length l.
Proof.
  revert i. induction l as [|h t IH]; intros [|i]; cbn; auto.
Qed.

Lemma nth_error_store_eq (l : list A) (i : nat) (x : A) :
  i < List.length l -> nth_error (store l i x) i = Some x.
Proof.
  revert i. induction l as [|h t IH]; intros [|i] H; cbn in *; try lia; auto.
  apply IH. lia.
Qed.

Lemma nth_error_store_ne (l : list A) (i k : nat) (x : A) :
  k <> i -> nth_error (store l i x) k = nth_error l k.
Proof.
  revert i k. induction l as [|h t IH]; intros [|i] [|k] H; cbn; auto; try lia.
Qed.

Lemma Swap_length (l : list A) (i j : nat) :
  List.length (Swap l i j) = List.length l.
Proof.
  unfold GoSort.Swap. destruct (nth_error l i), (nth_error l j); auto.
  now rewrite !store_length.
Qed.

Lemma nth_error_in_range (l : list A) (i : nat) :
  i < List.length l -> exists x, nth_error l i = Some x.
Proof.
  intros H. destruct (nth_error l i) eqn:E; eauto.
  apply nth_error_None in E. lia.
Qed.

(** [Swap] exchanges the two positions and leaves the others. *)
Lemma nth_error_Swap (l : list A) (i j k : nat) :
  i < List.length l -> j < List.length l ->
  nth_error (Swap l i j) k =
  if k =? j then nth_error l i else if k =? i then nth_error l j else nth_error l k.
Proof.
  intros Hi Hj. unfold GoSort.Swap.
  destruct (nth_error_in_range l i Hi) as [x Ex].
  destruct (nth_error_in_range l j Hj) as [y Ey].
  rewrite Ex, Ey.
  destruct (Nat.eqb_spec k j) as [->|Nj].
  - apply nth_error_store_eq. now rewrite store_length.
  - rewrite nth_error_store_ne by assumption.
    destruct (Nat.eqb_spec k i) as [->|Ni].
    + now apply nth_error_store_eq.
    + now apply nth_error_store_ne.
Qed.

Lemma Swap_out_of_range (l : list A) (i j : nat) :
  List.length l <= i \/ List.length l <= j -> Swap l i j = l.
Proof.
  intros H. unfold GoSort.Swap.
  destruct (nth_error l i) eqn:Ei; [|reflexivity].
  destruct (nth_error l j) eqn:Ej; [|reflexivity].
  assert (i < List.length l) by (apply nth_error_Some; congruence).
  assert (j < List.length l) by (apply nth_error_Some; congruence).
  lia.
Qed.

Lemma Swap_perm (l : list A) (i j : nat) : Permutation (Swap l i j) l.
Proof.
  destruct (Nat.lt_ge_cases i (List.length l)) as [Hi|Hi];
    [|rewrite Swap_out_of_range by lia; reflexivity].
  destruct (Nat.lt_ge_cases j (List.length l)) as [Hj|Hj];
    [|rewrite Swap_out_of_range by lia; reflexivity].
  apply Permutation_sym, Permutation_nth_error. split.
  - now rewrite Swap_length.
  - exists (fun k => if k =? j then i else if k =? i then j else k). split.
    + intros x y.
      destruct (Nat.eqb_spec x j), (Nat.eqb_spec x i),
               (Nat.eqb_spec y j), (Nat.eqb_spec y i); lia.
    + intros k. rewrite nth_error_Swap by assumption.
      destruct (k =? j); [reflexivity|]. destruct (k =? i); reflexivity.
Qed.

(** *** Lists that differ by swaps inside a range *)

Lemma Shuffled_trans (a b : nat) (l1 l2 l3 : list A) :
  Shuffled a b l1 l2 -> Shuffled a b l2 l3 -> Shuffled a b l1 l3.
Proof.
  intros H1. induction H1; intros H3; [assumption|].
  eapply Shuffled_swap; [| |apply IHShuffled, H3]; assumption.
Qed.

Lemma Shuffled_one (a b : nat) (l : list A) (i j : nat) :
  a <= i < b -> a <= j < b -> Shuffled a b l (Swap l i j).
Proof.
  intros Hi Hj. apply (Shuffled_swap a b l _ i j Hi Hj). apply Shuffled_refl.
Qed.

Lemma Shuffled_weaken (a b a' b' : nat) (l l' : list A) :
  a' <= a -> b <= b' -> Shuffled a b l l' -> Shuffled a' b' l l'.
Proof.
  intros Ha Hb. induction 1; [apply Shuffled_refl|].
  eapply Shuffled_swap; [| |eassumption]; lia.
Qed.

Lemma Shuffled_length (a b : nat) (l l' : list A) :
  Shuffled a b l l' -> List.length l' = List.length l.
Proof. induction 1; [reflexivity|]. now rewrite IHShuffled, Swap_length. Qed.

Lemma Shuffled_perm (a b : nat) (l l' : list A) :
  Shuffled a b l l' -> Permutation l' l.
Proof.
  induction 1; [reflexivity|].
  etransitivity; [eassumption | apply Swap_perm].
Qed.

Lemma Swap_outside (l : list A) (i j k : nat) :
  k <> i -> k <> j -> nth_error (Swap l i j) k = nth_error l k.
Proof.
  intros Hi Hj.
  destruct (Nat.lt_ge_cases i (List.length l)) as [Li|Li];
    [|rewrite Swap_out_of_range by lia; reflexivity].
  destruct (Nat.lt_ge_cases j (List.length l)) as [Lj|Lj];
    [|rewrite Swap_out_of_range by lia; reflexivity].
  rewrite nth_error_Swap by assumption.
  destruct (Nat.eqb_spec k j); [lia|]. destruct (Nat.eqb_spec k i); [lia|]. reflexivity.
Qed.

Lemma Shuffled_outside (a b : nat) (l l' : list A) (k : nat) :
  Shuffled a b l l' -> k < a \/ b <= k -> nth_error l' k = nth_error l k.
Proof.
  induction 1; intros Hk; [reflexivity|].
  rewrite IHShuffled by assumption. apply Swap_outside; lia.
Qed.

Lemma Swap_InRange (l : list A) (a b i j : nat) (x : A) :
  a <= i < b -> a <= j < b -> InRange (Swap l i j) a b x -> InRange l a b x.
Proof.
  intros Hi Hj (k & Hk & E).
  destruct (Nat.lt_ge_cases i (List.length l)) as [Li|Li];
    [|rewrite Swap_out_of_range in E by lia; exists k; auto].
  destruct (Nat.lt_ge_cases j (List.length l)) as [Lj|Lj];
    [|rewrite Swap_out_of_range in E by lia; exists k; auto].
  rewrite nth_error_Swap in E by assumption.
  destruct (k =? j); [exists i; auto|].
  destruct (k =? i); [exists j; auto|]. exists k; auto.
Qed.

Lemma Shuffled_InRange (a b a' b' : nat) (l l' : list A) (x : A) :
  Shuffled a b l l' -> a' <= a -> b <= b' ->
  InRange l' a' b' x -> InRange l a' b' x.
Proof.
  induction 1; intros Ha Hb Hin; [assumption|].
  apply (Swap_InRange l a' b' i j); try lia. auto.
Qed.

(** A property of every element of a range survives a shuffle of a
    part of it. *)
Lemma Shuffled_all (P : A -> Prop) (a b a' b' : nat) (l l' : list A) :
  Shuffled a b l l' -> a' <= a -> b <= b' ->
  (forall k x, a' <= k < b' -> nth_error l k = Some x -> P x) ->
  (forall k x, a' <= k < b' -> nth_error l' k = Some x -> P x).
Proof.
  intros Hs Ha Hb Hall k x Hk E.
  destruct (Shuffled_InRange a b a' b' l l' x Hs Ha Hb) as (k' & Hk' & E').
  - exists k; auto.
  - eapply Hall; eauto.
Qed.

Lemma Less_Swap_unmoved (l : list A) (i j p q : nat) :
  p <> i -> p <> j -> q <> i -> q <> j ->
  Less (Swap l i j) p q = Less l p q.
Proof.
  intros. unfold GoSort.Less. now rewrite !Swap_outside.
Qed.


(** *** Every step of the sort is a permutation *)

Lemma fold_left_perm (B : Type) (f : list A -> B -> list A) (xs : list B) :
  (forall d i, Permutation (f d i) d) ->
  forall d, Permutation (fold_left f xs d) d.
Proof.
  intros Hf. induction xs as [|x xs IH]; intros d; cbn [fold_left]; [reflexivity|].
  etransitivity; [apply IH | apply Hf].
Qed.

Lemma insertDown_perm (a : nat) :
  forall (j : nat) (l : list A), Permutation (insertDown A less l a j) l.
Proof.
  induction j as [|j IH]; intros l; cbn [insertDown]; [reflexivity|].
  destruct ((a <? S j) && Less l (S j) j); [|reflexivity].
  etransitivity; [apply IH | apply Swap_perm].
Qed.

Lemma insertionSort_perm (l : list A) (a b : nat) :
  Permutation (insertionSort A less l a b) l.
Proof.
  unfold insertionSort. apply fold_left_perm. intros d i. apply insertDown_perm.
Qed.

Lemma siftDownLoop_perm (hi first : nat) :
  forall (fuel : nat) (l : list A) (root : nat),
    Permutation (siftDownLoop A less fuel l root hi first) l.
Proof.
  induction fuel as [|fuel IH]; intros l root; cbn [siftDownLoop]; [reflexivity|].
  cbv zeta. destruct (hi <=? 2 * root + 1); [reflexivity|].
  destruct (negb _); [reflexivity|].
  etransitivity; [apply IH | apply Swap_perm].
Qed.

Lemma heapSort_perm (l : list A) (a b : nat) :
  Permutation (heapSort A less l a b) l.
Proof.
  unfold heapSort. cbv zeta.
  etransitivity; [apply fold_left_perm | apply fold_left_perm].
  - intros d i. unfold siftDown.
    etransitivity; [apply siftDownLoop_perm | apply Swap_perm].
  - intros d i. apply siftDownLoop_perm.
Qed.

Lemma partitionLoop_perm (a : nat) :
  forall (fuel : nat) (l : list A) (i j : nat),
    Permutation (fst (partitionLoop A less fuel l a i j)) l.
Proof.
  induction fuel as [|fuel IH]; intros l i j; cbn [partitionLoop]; [reflexivity|].
  cbv zeta. destruct (_ <? _); [reflexivity|].
  etransitivity; [apply IH | apply Swap_perm].
Qed.

Lemma partition_perm (l : list A) (a b pivot : nat) :
  Permutation (fst (fst (partition A less l a b pivot))) l.
Proof.
  unfold partition. cbv zeta. destruct (_ <? _); cbn [fst].
  - etransitivity; apply Swap_perm.
  - match goal with
    | |- context [partitionLoop A less ?f ?d ?x ?i ?j] =>
        pose proof (partitionLoop_perm x f d i j) as H;
        destruct (partitionLoop A less f d x i j) as [l3 j3]
    end.
    cbn [fst] in *.
    etransitivity; [apply Swap_perm|].
    etransitivity; [exact H|].
    etransitivity; apply Swap_perm.
Qed.

Lemma partitionEqualLoop_perm (a : nat) :
  forall (fuel : nat) (l : list A) (i j : nat),
    Permutation (fst (partitionEqualLoop A less fuel l a i j)) l.
Proof.
  induction fuel as [|fuel IH]; intros l i j; cbn [partitionEqualLoop]; [reflexivity|].
  cbv zeta. destruct (_ <? _); [reflexivity|].
  etransitivity; [apply IH | apply Swap_perm].
Qed.

Lemma partitionEqual_perm (l : list A) (a b pivot : nat) :
  Permutation (fst (partitionEqual A less l a b pivot)) l.
Proof.
  unfold partitionEqual. cbv zeta.
  etransitivity; [apply partitionEqualLoop_perm | apply Swap_perm].
Qed.

Lemma shiftLeft_perm :
  forall (j : nat) (l : list A), Permutation (shiftLeft A less l j) l.
Proof.
  induction j as [|j IH]; intros l; cbn [shiftLeft]; [reflexivity|].
  destruct (negb _); [reflexivity|].
  etransitivity; [apply IH | apply Swap_perm].
Qed.

Lemma shiftRight_perm (b : nat) :
  forall (fuel : nat) (l : list A) (j : nat),
    Permutation (shiftRight A less fuel l j b) l.
Proof.
  induction fuel as [|fuel IH]; intros l j; cbn [shiftRight]; [reflexivity|].
  destruct (j <? b); [|reflexivity]. destruct (negb _); [reflexivity|].
  etransitivity; [apply IH | apply Swap_perm].
Qed.

Lemma partialInsertionLoop_perm (a b : nat) :
  forall (steps : nat) (l : list A) (i : nat),
    Permutation (fst (partialInsertionLoop A less steps l a b i)) l.
Proof.
  induction steps as [|steps IH]; intros l i; cbn [partialInsertionLoop];
    [reflexivity|].
  cbv zeta. destruct (_ =? _); [reflexivity|]. destruct (_ <? _); [reflexivity|].
  etransitivity; [apply IH|].
  etransitivity;
    [destruct (2 <=? b - _); [apply shiftRight_perm | reflexivity]|].
  etransitivity;
    [destruct (2 <=? _ - a); [apply shiftLeft_perm | reflexivity]|].
  apply Swap_perm.
Qed.

Lemma breakPatterns_perm (l : list A) (a b : nat) :
  Permutation (breakPatterns A l a b) l.
Proof.
  unfold breakPatterns. cbv zeta. destruct (8 <=? b - a); [|reflexivity].
  cbn [seq fold_left fst].
  etransitivity; [apply Swap_perm|].
  etransitivity; apply Swap_perm.
Qed.

Lemma reverseLoop_perm :
  forall (fuel : nat) (l : list A) (i j : nat),
    Permutation (reverseLoop A fuel l i j) l.
Proof.
  induction fuel as [|fuel IH]; intros l i j; cbn [reverseLoop]; [reflexivity|].
  destruct (i <? j); [|reflexivity].
  etransitivity; [apply IH | apply Swap_perm].
Qed.

Lemma pdqsort_perm :
  forall (fuel : nat) (l : list A) (a b limit : nat) (wb wp : bool),
    Permutation (pdqsort A less fuel l a b limit wb wp) l.
Proof.
  induction fuel as [|fuel IH]; intros l a b limit wb wp; cbn [pdqsort];
    [reflexivity|].
  cbv zeta.
  destruct (b - a <=? maxInsertion); [apply insertionSort_perm|].
  destruct (limit =? 0); [apply heapSort_perm|].
  assert (H1 : Permutation
                 (fst (if negb wb then (breakPatterns A l a b, limit - 1)
                       else (l, limit))) l).
  { destruct (negb wb); cbn [fst]; [apply breakPatterns_perm | reflexivity]. }
  destruct (if negb wb then (breakPatterns A l a b, limit - 1) else (l, limit))
    as [l1 limit1]. cbn [fst] in H1.
  destruct (choosePivot A less l1 a b) as [pivot hint].
  assert (H2 : Permutation
                 (fst (fst (if hintIs hint decreasingHint
                            then (reverseRange A l1 a b, b - 1 - (pivot - a),
                                  increasingHint)
                            else (l1, pivot, hint)))) l1).
  { destruct (hintIs hint decreasingHint); cbn [fst];
      [apply reverseLoop_perm | reflexivity]. }
  destruct (if hintIs hint decreasingHint
            then (reverseRange A l1 a b, b - 1 - (pivot - a), increasingHint)
            else (l1, pivot, hint)) as [[l2 pivot2] hint2]. cbn [fst] in H2.
  assert (H3 : Permutation
                 (fst (if wb && wp && hintIs hint2 increasingHint
                       then partialInsertionSort A less l2 a b else (l2, false))) l2).
  { destruct (wb && wp && hintIs hint2 increasingHint); cbn [fst];
      [apply partialInsertionLoop_perm | reflexivity]. }
  destruct (if wb && wp && hintIs hint2 increasingHint
            then partialInsertionSort A less l2 a b else (l2, false)) as [l3 sorted].
  cbn [fst] in H3.
  assert (H13 : Permutation l3 l)
    by (etransitivity; [exact H3|]; etransitivity; eassumption).
  destruct sorted; [exact H13|].
  destruct ((0 <? a) && negb (Less l3 (a - 1) pivot2)).
  - pose proof (partitionEqual_perm l3 a b pivot2) as H4.
    destruct (partitionEqual A less l3 a b pivot2) as [l4 mid]. cbn [fst] in H4.
    etransitivity; [apply IH|]. etransitivity; eassumption.
  - pose proof (partition_perm l3 a b pivot2) as H4.
    destruct (partition A less l3 a b pivot2) as [[l4 mid] ap]. cbn [fst] in H4.
    destruct (mid - a <? b - mid);
      (etransitivity; [apply IH|]; etransitivity; [apply IH|];
       etransitivity; eassumption).
Qed.

(** [sort.Slice] returns a permutation of the slice, whatever [less]
    is. *)
Lemma Slice_perm (x : list A) : Permutation (Slice less x) x.
Proof. unfold Slice. apply pdqsort_perm. Qed.

Lemma Slice_length (x : list A) : List.length (Slice less x) = List.length x.
Proof. apply Permutation_length, Slice_perm. Qed.

(** *** The order *)

(** [less] is a strict weak order: irreflexive, transitive, and so is
    "not less". *)
Hypothesis less_irrefl : forall x, less x x = false.
Hypothesis less_trans :
  forall x y z, less x y = true -> less y z = true -> less x z = true.
Hypothesis less_negtrans :
  forall x y z, less x y = false -> less y z = false -> less x z = false.

Lemma less_asym (x y : A) : less x y = true -> less y x = false.
Proof.
  intros H. destruct (less y x) eqn:E; [|reflexivity].
  rewrite <- (less_irrefl x). symmetry. eapply less_trans; eauto.
Qed.

Lemma less_le_trans (x y z : A) :
  less x y = true -> less z y = false -> less x z = true.
Proof.
  intros H1 H2. destruct (less x z) eqn:E; [reflexivity|].
  rewrite (less_negtrans x z y E H2) in H1. discriminate.
Qed.

Lemma le_less_trans (x y z : A) :
  less y x = false -> less y z = true -> less x z = true.
Proof.
  intros H1 H2. destruct (less x z) eqn:E; [reflexivity|].
  rewrite (less_negtrans y x z H1 E) in H2. discriminate.
Qed.

Lemma SortedR_small (l : list A) (a b : nat) : b <= a + 1 -> SortedR l a b.
Proof. intros H i j x y Hi Hij Hj. lia. Qed.

Lemma SortedR_sub (l : list A) (a b a' b' : nat) :
  a <= a' -> b' <= b -> SortedR l a b -> SortedR l a' b'.
Proof. intros Ha Hb H i j x y Hi Hij Hj. apply H; lia. Qed.

Lemma Less_at (l : list A) (i j : nat) (x y : A) :
  nth_error l i = Some x -> nth_error l j = Some y -> Less l i j = less x y.
Proof. intros Ei Ej. unfold GoSort.Less. now rewrite Ei, Ej. Qed.

(** *** Insertion sort *)

Lemma insertDown_sorted (a t : nat) :
  forall (j : nat) (l : list A),
    a <= j -> j <= t -> t < List.length l -> SortedBut l a j t ->
    SortedR (insertDown A less l a j) a (t + 1)
    /\ Shuffled a (t + 1) l (insertDown A less l a j).
Proof.
  induction j as [|j' IH]; intros l Ha Ht Hlen [E1 E2].
  - cbn [insertDown]. split; [|apply Shuffled_refl].
    intros i k x y Hi Hik Hk Ei Ek.
    destruct (Nat.eq_dec i 0) as [->|Ni].
    + eapply E2; eauto; lia.
    + eapply (E1 i k); eauto; lia.
  - cbn [insertDown].
    destruct (nth_error_in_range l (S j') ltac:(lia)) as [x Ex].
    destruct (nth_error_in_range l j' ltac:(lia)) as [y Ey].
    rewrite (Less_at l (S j') j' x y Ex Ey).
    destruct (Nat.ltb_spec a (S j')) as [Haj|Haj]; cbn [andb].
    + destruct (less x y) eqn:Lxy.
      * (* the element moves one down *)
        assert (Hn : forall k, nth_error (Swap l (S j') j') k =
                       if k =? j' then Some x else if k =? S j' then Some y
                       else nth_error l k).
        { intros k. rewrite nth_error_Swap by lia. rewrite Ex, Ey. reflexivity. }
        destruct (IH (Swap l (S j') j')) as [Hs Hsh]; try lia.
        { rewrite Swap_length. lia. }
        { split.
          - intros i k x' y' Hi Hik Hk Ni Nk Ei Ek. rewrite Hn in Ei, Ek.
            destruct (Nat.eqb_spec i j'); [lia|]. destruct (Nat.eqb_spec k j'); [lia|].
            destruct (Nat.eqb_spec k (S j')) as [->|Nk'].
            + destruct (Nat.eqb_spec i (S j')); [lia|].
              inversion Ek; subst y'. eapply (E1 i j'); eauto; lia.
            + destruct (Nat.eqb_spec i (S j')) as [->|Ni'].
              * inversion Ei; subst x'. eapply (E1 j' k); eauto; lia.
              * eapply (E1 i k); eauto; lia.
          - intros k x' y' Hjk Hk Ej Ek. rewrite Hn in Ej, Ek.
            rewrite Nat.eqb_refl in Ej. inversion Ej; subst x'.
            destruct (Nat.eqb_spec k j'); [lia|].
            destruct (Nat.eqb_spec k (S j')) as [->|Nk'].
            + inversion Ek; subst y'. now apply less_asym.
            + eapply (E2 k); eauto; lia. }
        split; [exact Hs|].
        apply (Shuffled_swap a (t + 1) l _ (S j') j'); [lia|lia|exact Hsh].
      * (* it stays: everything below is not above it *)
        split; [|apply Shuffled_refl].
        intros i k x' y' Hi Hik Hk Ei Ek.
        destruct (Nat.eq_dec k (S j')) as [->|Nk].
        -- rewrite Ex in Ek. inversion Ek; subst y'.
           destruct (Nat.eq_dec i j') as [->|Ni].
           ++ rewrite Ey in Ei. inversion Ei; subst x'. exact Lxy.
           ++ apply (less_negtrans x y x'); [exact Lxy|].
              eapply (E1 i j'); eauto; lia.
        -- destruct (Nat.eq_dec i (S j')) as [->|Ni].
           ++ eapply E2; eauto; lia.
           ++ eapply (E1 i k); eauto; lia.
    + (* j = a *)
      split; [|apply Shuffled_refl].
      intros i k x' y' Hi Hik Hk Ei Ek.
      destruct (Nat.eq_dec i (S j')) as [->|Ni].
      * eapply E2; eauto; lia.
      * eapply (E1 i k); eauto; lia.
Qed.

Lemma insertion_steps (a : nat) :
  forall (n i : nat) (l : list A),
    a <= i -> i + n <= List.length l -> SortedR l a i ->
    let l' := fold_left (fun d i => insertDown A less d a i) (seq i n) l in
    SortedR l' a (i + n) /\ Shuffled a (i + n) l l'.
Proof.
  induction n as [|n IH]; intros i l Hi Hlen Hs; cbn [seq fold_left].
  - rewrite Nat.add_0_r. split; [assumption | apply Shuffled_refl].
  - destruct (insertDown_sorted a i i l) as [Hs1 Hsh1]; try lia.
    { split.
      - intros j k x y Hj Hjk Hk Nj Nk. apply Hs; lia.
      - intros k x y Hk1 Hk2. lia. }
    destruct (IH (S i) (insertDown A less l a i)) as [Hs2 Hsh2]; try lia.
    { rewrite (Shuffled_length _ _ _ _ Hsh1). lia. }
    { replace (S i) with (i + 1) by lia. exact Hs1. }
    replace (i + S n) with (S i + n) by lia. split; [exact Hs2|].
    eapply Shuffled_trans; [|exact Hsh2].
    eapply Shuffled_weaken; [| |exact Hsh1]; lia.
Qed.

Lemma insertionSort_spec (l : list A) (a b : nat) :
  a <= b -> b <= List.length l ->
  SortedR (insertionSort A less l a b) a b
  /\ Shuffled a b l (insertionSort A less l a b).
Proof.
  intros Hab Hb. unfold insertionSort.
  destruct (Nat.le_gt_cases b (a + 1)) as [Hsmall|Hbig].
  - replace (b - (a + 1)) with 0 by lia. cbn [seq fold_left].
    split; [apply SortedR_small; lia | apply Shuffled_refl].
  - destruct (insertion_steps a (b - (a + 1)) (a + 1) l) as [Hs Hsh]; try lia.
    { apply SortedR_small; lia. }
    replace (a + 1 + (b - (a + 1))) with b in * by lia. split; assumption.
Qed.

(** *** Heap sort *)

Lemma siftDownLoop_spec (first lo hi : nat) :
  forall (fuel r : nat) (l : list A),
    hi <= r + fuel -> lo <= r -> first + hi <= List.length l ->
    HeapBut l first lo hi r ->
    HeapFrom (siftDownLoop A less fuel l r hi first) first lo hi
    /\ Shuffled first (first + hi) l (siftDownLoop A less fuel l r hi first).
Proof.
  induction fuel as [|fuel IH]; intros r l Hfuel Hlo Hlen [H1 H2].
  - cbn [siftDownLoop]. split; [|apply Shuffled_refl].
    intros p c x y Hp Hc Hhi. destruct (Nat.eq_dec p r) as [->|Np].
    + destruct Hc; lia.
    + now apply H1.
  - cbn [siftDownLoop]. cbv zeta.
    destruct (Nat.leb_spec hi (2 * r + 1)) as [Hleaf|Hkid].
    { split; [|apply Shuffled_refl].
      intros p c x y Hp Hc Hhi. destruct (Nat.eq_dec p r) as [->|Np].
      - destruct Hc; lia.
      - now apply H1. }
    set (c1 := 2 * r + 1) in *.
    destruct (nth_error_in_range l (first + r) ltac:(lia)) as [xr Er].
    destruct (nth_error_in_range l (first + c1) ltac:(lia)) as [x1 E1].
    (* the larger child [c], its value [xc], and that it dominates its sibling *)
    assert (Hpick : exists c xc,
               (if (c1 + 1 <? hi) && Less l (first + c1) (first + c1 + 1)
                then c1 + 1 else c1) = c
               /\ child r c /\ c < hi /\ nth_error l (first + c) = Some xc
               /\ (forall c' y, child r c' -> c' < hi ->
                     nth_error l (first + c') = Some y -> less xc y = false)).
    { destruct (Nat.ltb_spec (c1 + 1) hi) as [H2k|H1k]; cbn [andb].
      - destruct (nth_error_in_range l (first + c1 + 1) ltac:(lia)) as [x2 E2].
        rewrite (Less_at l _ _ x1 x2 E1 E2).
        destruct (less x1 x2) eqn:L12.
        + exists (c1 + 1), x2. split; [reflexivity|].
          split; [right; unfold c1; lia|]. split; [lia|].
          split; [rewrite Nat.add_assoc; exact E2|].
          intros c' y [->| ->] Hc' Ey.
          * fold c1 in Ey. rewrite E1 in Ey. inversion Ey; subst y.
            now apply less_asym.
          * replace (first + (2 * r + 2)) with (first + c1 + 1) in Ey by (unfold c1; lia).
            rewrite E2 in Ey. inversion Ey; subst y. apply less_irrefl.
        + exists c1, x1. split; [reflexivity|].
          split; [left; reflexivity|]. split; [lia|]. split; [exact E1|].
          intros c' y [->| ->] Hc' Ey.
          * fold c1 in Ey. rewrite E1 in Ey. inversion Ey; subst y. apply less_irrefl.
          * replace (first + (2 * r + 2)) with (first + c1 + 1) in Ey by (unfold c1; lia).
            rewrite E2 in Ey. inversion Ey; subst y. exact L12.
      - exists c1, x1. split; [reflexivity|].
        split; [left; reflexivity|]. split; [lia|]. split; [exact E1|].
        intros c' y [->| ->] Hc' Ey.
        + fold c1 in Ey. rewrite E1 in Ey. inversion Ey; subst y. apply less_irrefl.
        + unfold c1 in H1k. lia. }
    destruct Hpick as (c & xc & -> & Hrc & Hchi & Ec & Hmax).
    rewrite (Less_at l _ _ xr xc Er Ec).
    destruct (less xr xc) eqn:Lrc; cbn [negb].
    + (* the root goes down to [c] *)
      assert (Hcr : r < c) by (destruct Hrc; lia).
      assert (Hn : forall k, nth_error (Swap l (first + r) (first + c)) k =
                     if k =? first + c then Some xr
                     else if k =? first + r then Some xc else nth_error l k).
      { intros k. rewrite nth_error_Swap by lia. rewrite Er, Ec. reflexivity. }
      destruct (IH c (Swap l (first + r) (first + c))) as [Hh Hsh]; try lia.
      { rewrite Swap_length. lia. }
      { split.
        - intros p c' x y Hp Npc Hpc Hc' Ep Ec'. rewrite Hn in Ep, Ec'.
          destruct (Nat.eqb_spec (first + p) (first + c)); [lia|].
          destruct (Nat.eqb_spec (first + p) (first + r)) as [Epr|Npr].
          + assert (p = r) by lia. subst p. inversion Ep; subst x.
            destruct (Nat.eqb_spec (first + c') (first + c)) as [Ecc|Ncc].
            * inversion Ec'; subst y. now apply less_asym.
            * destruct (Nat.eqb_spec (first + c') (first + r)); [destruct Hpc; lia|].
              apply (Hmax c' y); assumption.
          + assert (p <> r) by lia.
            destruct (Nat.eqb_spec (first + c') (first + c)) as [Ecc|Ncc].
            * assert (c' = c) by lia. subst c'. destruct Hpc, Hrc; lia.
            * destruct (Nat.eqb_spec (first + c') (first + r)) as [Ecr|Ncr].
              -- assert (c' = r) by lia. subst c'. inversion Ec'; subst y.
                 apply (H2 p c x xc); assumption.
              -- apply (H1 p c' x y); assumption.
        - intros q c' x y Hq Hqc Hcc Hc' Eq Ec'.
          assert (q = r) by (destruct Hqc, Hrc; lia). subst q.
          rewrite Hn in Eq, Ec'.
          destruct (Nat.eqb_spec (first + r) (first + c)); [lia|].
          rewrite Nat.eqb_refl in Eq. inversion Eq; subst x.
          destruct (Nat.eqb_spec (first + c') (first + c)); [destruct Hcc; lia|].
          destruct (Nat.eqb_spec (first + c') (first + r)); [destruct Hcc; lia|].
          apply (H1 c c' xc y); try assumption; lia. }
      split; [exact Hh|].
      apply (Shuffled_swap _ _ l _ (first + r) (first + c)); [lia|lia|exact Hsh].
    + (* the root dominates its larger child: done *)
      split; [|apply Shuffled_refl].
      intros p c' x y Hp Hpc Hc' Ep Ec'.
      destruct (Nat.eq_dec p r) as [->|Np].
      * rewrite Er in Ep. inversion Ep; subst x.
        apply (less_negtrans xr xc y); [exact Lrc|].
        apply (Hmax c' y); assumption.
      * apply (H1 p c' x y); assumption.
Qed.

Lemma siftDown_spec (first lo hi : nat) (l : list A) :
  first + hi <= List.length l -> HeapBut l first lo hi lo ->
  HeapFrom (siftDown A less l lo hi first) first lo hi
  /\ Shuffled first (first + hi) l (siftDown A less l lo hi first).
Proof.
  intros Hlen Hb. unfold siftDown. apply siftDownLoop_spec; auto; lia.
Qed.

(** The root of a heap dominates the whole heap. *)
Lemma heap_root_max (l : list A) (first hi : nat) (x : A) :
  HeapFrom l first 0 hi -> first + hi <= List.length l ->
  nth_error l first = Some x ->
  forall c y, c < hi -> nth_error l (first + c) = Some y -> less x y = false.
Proof.
  intros Hh Hlen Ex c. induction c as [c IH] using lt_wf_ind. intros y Hc Ey.
  destruct c as [|c'].
  - rewrite Nat.add_0_r, Ex in Ey. inversion Ey; subst y. apply less_irrefl.
  - set (p := c' / 2).
    assert (Hpc : child p (S c')).
    { unfold child, p. pose proof (Nat.div_mod_eq c' 2) as Hdm.
      pose proof (Nat.mod_upper_bound c' 2 ltac:(lia)). lia. }
    assert (Hp : p < S c') by (destruct Hpc; lia).
    destruct (nth_error_in_range l (first + p) ltac:(lia)) as [z Ez].
    apply (less_negtrans x z y).
    + apply (IH p Hp z); [lia | exact Ez].
    + apply (Hh p (S c') z y); auto; lia.
Qed.

(** Building the heap: [siftDown] from the last parent down to 0. *)
Lemma heap_build (first hi : nat) :
  forall (n : nat) (l : list A),
    first + hi <= List.length l -> HeapFrom l first n hi ->
    let l' := fold_left (fun d i => siftDown A less d i hi first) (rev (seq 0 n)) l in
    HeapFrom l' first 0 hi /\ Shuffled first (first + hi) l l'.
Proof.
  induction n as [|n IH]; intros l Hlen Hh.
  - cbn. split; [assumption | apply Shuffled_refl].
  - rewrite seq_S, rev_app_distr. cbn [rev app fold_left Nat.add].
    destruct (siftDown_spec first n hi l Hlen) as [Hh1 Hsh1].
    { split.
      - intros p c x y Hp Np. apply Hh. lia.
      - intros q c x y Hq Hqn. destruct Hqn; lia. }
    destruct (IH (siftDown A less l n hi first)) as [Hh2 Hsh2].
    { rewrite (Shuffled_length _ _ _ _ Hsh1). exact Hlen. }
    { exact Hh1. }
    split; [exact Hh2 | eapply Shuffled_trans; eassumption].
Qed.

(** Popping the heap, largest first, into the end of the window. *)
Lemma heap_pop (first hi : nat) :
  forall (n : nat) (l : list A),
    n <= hi -> first + hi <= List.length l ->
    HeapFrom l first 0 n ->
    SortedR l (first + n) (first + hi) ->
    (forall i j x y, i < n -> n <= j -> j < hi ->
       nth_error l (first + i) = Some x -> nth_error l (first + j) = Some y ->
       less y x = false) ->
    let l' := fold_left (fun d i => siftDown A less (Swap d first (first + i)) 0 i first)
                        (rev (seq 0 n)) l in
    SortedR l' first (first + hi) /\ Shuffled first (first + hi) l l'.
Proof.
  induction n as [|n IH]; intros l Hn Hlen Hh Hs Hcross.
  - cbn. rewrite Nat.add_0_r in Hs. split; [assumption | apply Shuffled_refl].
  - rewrite seq_S, rev_app_distr. cbn [rev app fold_left Nat.add].
    destruct (nth_error_in_range l first ltac:(lia)) as [xr Er].
    destruct (nth_error_in_range l (first + n) ltac:(lia)) as [xn En].
    pose proof (heap_root_max l first (S n) xr Hh ltac:(lia) Er) as Hmax.
    set (l1 := Swap l first (first + n)).
    assert (Hn1 : forall k, nth_error l1 k =
                    if k =? first + n then Some xr
                    else if k =? first then Some xn else nth_error l k).
    { intros k. unfold l1. rewrite nth_error_Swap by lia. rewrite Er, En. reflexivity. }
    assert (Hlen1 : List.length l1 = List.length l) by apply Swap_length.
    assert (Hsh1 : Shuffled first (first + hi) l l1)
      by (apply Shuffled_one; lia).
    destruct (siftDown_spec first 0 n l1 ltac:(lia)) as [Hh2 Hsh2].
    { split.
      - intros p c x y Hp Np Hpc Hc Ep Ec. rewrite Hn1 in Ep, Ec.
        destruct (Nat.eqb_spec (first + p) (first + n)); [destruct Hpc; lia|].
        destruct (Nat.eqb_spec (first + p) first); [lia|].
        destruct (Nat.eqb_spec (first + c) (first + n)); [lia|].
        destruct (Nat.eqb_spec (first + c) first); [destruct Hpc; lia|].
        apply (Hh p c x y); auto; lia.
      - intros q c x y Hq Hq0. destruct Hq0; lia. }
    set (l2 := siftDown A less l1 0 n first) in *.
    assert (Hlen2 : List.length l2 = List.length l1)
      by apply (Shuffled_length _ _ _ _ Hsh2).
    assert (Hout2 : forall k, first + n <= k -> nth_error l2 k = nth_error l1 k).
    { intros k Hk. apply (Shuffled_outside _ _ _ _ k Hsh2). lia. }
    (* what sits in the heap part of [l2] sat in the heap part of [l] *)
    assert (Hin2 : forall i x, i < n -> nth_error l2 (first + i) = Some x ->
                     exists i', i' < S n /\ nth_error l (first + i') = Some x).
    { intros i x Hi Ex.
      destruct (Shuffled_InRange _ _ first (first + n) l1 l2 x Hsh2)
        as (k & Hk & Ek); try lia.
      { exists (first + i). split; [lia | exact Ex]. }
      rewrite Hn1 in Ek.
      destruct (Nat.eqb_spec k (first + n)); [lia|].
      destruct (Nat.eqb_spec k first) as [->|Nk].
      - exists n. split; [lia|]. congruence.
      - exists (k - first). split; [lia|].
        replace (first + (k - first)) with k by lia. exact Ek. }
    destruct (IH l2) as [Hs3 Hsh3]; try lia.
    { exact Hh2. }
    { intros i j x y Hi Hij Hj Ei Ej.
      rewrite Hout2, Hn1 in Ei by lia. rewrite Hout2, Hn1 in Ej by lia.
      destruct (Nat.eqb_spec j (first + n)); [lia|].
      destruct (Nat.eqb_spec j first); [lia|].
      destruct (Nat.eqb_spec i (first + n)) as [->|Ni].
      - inversion Ei; subst x.
        apply (Hcross 0 (j - first) xr y); try lia.
        + now rewrite Nat.add_0_r.
        + replace (first + (j - first)) with j by lia. exact Ej.
      - destruct (Nat.eqb_spec i first); [lia|].
        apply (Hs i j x y); auto; lia. }
    { intros i j x y Hi Hnj Hj Ei Ej.
      destruct (Hin2 i x Hi Ei) as (i' & Hi' & Ei').
      rewrite Hout2, Hn1 in Ej by lia.
      destruct (Nat.eqb_spec (first + j) (first + n)) as [Ejn|Njn].
      - inversion Ej; subst y. apply (Hmax i' x); assumption.
      - destruct (Nat.eqb_spec (first + j) first); [lia|].
        apply (Hcross i' j x y); auto; lia. }
    split; [exact Hs3|].
    eapply Shuffled_trans; [exact Hsh1|].
    eapply Shuffled_trans; [|exact Hsh3].
    eapply Shuffled_weaken; [| |exact Hsh2]; lia.
Qed.

Lemma heapSort_spec (l : list A) (a b : nat) :
  a <= b -> b <= List.length l ->
  SortedR (heapSort A less l a b) a b /\ Shuffled a b l (heapSort A less l a b).
Proof.
  intros Hab Hb. unfold heapSort. cbv zeta. unfold downFrom.
  set (hi := b - a).
  destruct (heap_build a hi (S ((hi - 1) / 2)) l) as [Hh Hsh]; [lia| |].
  { intros p c x y Hp Hpc Hc.
    pose proof (Nat.div_mod_eq (hi - 1) 2).
    pose proof (Nat.mod_upper_bound (hi - 1) 2 ltac:(lia)).
    destruct Hpc; lia. }
  cbv zeta in Hh, Hsh.
  set (l1 := fold_left (fun d i => siftDown A less d i hi a)
                       (rev (seq 0 (S ((hi - 1) / 2)))) l) in *.
  assert (Hlen1 : a + hi <= List.length l1)
    by (rewrite (Shuffled_length _ _ _ _ Hsh); unfold hi; lia).
  assert (Hs1 : SortedR l1 (a + hi) (a + hi)) by (apply SortedR_small; lia).
  assert (Hc1 : forall i j x y, i < hi -> hi <= j -> j < hi ->
                  nth_error l1 (a + i) = Some x -> nth_error l1 (a + j) = Some y ->
                  less y x = false) by (intros; lia).
  destruct (heap_pop a hi hi l1 (Nat.le_refl hi) Hlen1 Hh Hs1 Hc1) as [Hs2 Hsh2].
  cbv zeta in Hs2, Hsh2.
  replace (a + hi) with b in * by (unfold hi; lia).
  split; [exact Hs2 | eapply Shuffled_trans; eassumption].
Qed.

(** *** Partitioning *)

Lemma scanLess_spec (l : list A) (a j : nat) :
  forall (fuel i : nat),
    j + 1 <= i + fuel -> i <= j + 1 ->
    let i' := scanLess A less fuel l a i j in
    i <= i' /\ i' <= j + 1
    /\ (forall k, i <= k -> k < i' -> Less l k a = true)
    /\ (i' <= j -> Less l i' a = false).
Proof.
  induction fuel as [|fuel IH]; intros i Hfuel Hi; cbn [scanLess].
  - repeat split; try lia.
  - destruct (Nat.leb_spec i j) as [Hij|Hij]; cbn [andb].
    + destruct (Less l i a) eqn:L.
      * destruct (IH (i + 1)) as (H1 & H2 & H3 & H4); try lia.
        repeat split; try lia; auto.
        intros k Hk1 Hk2. destruct (Nat.eq_dec k i) as [->|N]; [exact L|].
        apply H3; lia.
      * repeat split; try lia; auto.
    + repeat split; try lia.
Qed.

Lemma scanNotLess_spec (l : list A) (a i : nat) :
  forall (j : nat),
    1 <= i -> i <= j + 1 ->
    let j' := scanNotLess A less l a i j in
    j' <= j /\ i <= j' + 1
    /\ (forall k, j' < k -> k <= j -> Less l k a = false)
    /\ (i <= j' -> Less l j' a = true).
Proof.
  induction j as [|j IH]; intros Hi Hij; cbn [scanNotLess].
  - repeat split; try lia.
  - destruct (Nat.leb_spec i (S j)) as [Hle|Hgt]; cbn [andb].
    + destruct (Less l (S j) a) eqn:L; cbn [negb].
      * repeat split; try lia; auto.
      * destruct IH as (H1 & H2 & H3 & H4); try lia.
        repeat split; try lia; auto.
        intros k Hk1 Hk2. destruct (Nat.eq_dec k (S j)) as [->|N]; [exact L|].
        apply H3; lia.
    + repeat split; try lia.
Qed.

Lemma Parted_Swap (l : list A) (a b i j : nat) :
  a < i -> i < j -> j < b -> b <= List.length l ->
  Parted l a b i j -> Less l i a = false -> Less l j a = true ->
  Parted (Swap l i j) a b (i + 1) (j - 1).
Proof.
  intros Hai Hij Hjb Hlen [P1 P2] Li Lj.
  assert (Hn : forall k, nth_error (Swap l i j) k =
                 if k =? j then nth_error l i
                 else if k =? i then nth_error l j else nth_error l k)
    by (intros k; apply nth_error_Swap; lia).
  assert (Hl : forall k, Less (Swap l i j) k a =
                 if k =? j then Less l i a else if k =? i then Less l j a
                 else Less l k a).
  { intros k. unfold GoSort.Less. rewrite !Hn.
    destruct (Nat.eqb_spec a j); [lia|]. destruct (Nat.eqb_spec a i); [lia|].
    destruct (k =? j); [reflexivity|]. destruct (k =? i); reflexivity. }
  split; intros k Hk1 Hk2; rewrite Hl.
  - destruct (Nat.eqb_spec k j); [lia|].
    destruct (Nat.eqb_spec k i); [exact Lj|]. apply P1; lia.
  - destruct (Nat.eqb_spec k j); [exact Li|].
    destruct (Nat.eqb_spec k i); [lia|]. apply P2; lia.
Qed.

Lemma partitionLoop_spec (a b : nat) :
  forall (fuel : nat) (l : list A) (i j : nat),
    j + 1 < i + fuel -> a < i -> i <= j + 1 -> j < b -> b <= List.length l ->
    Parted l a b i j ->
    let '(l', j') := partitionLoop A less fuel l a i j in
    Shuffled (a + 1) b l l' /\ a <= j' /\ j' < b /\ Parted l' a b (j' + 1) j'.
Proof.
  induction fuel as [|fuel IH]; intros l i j Hfuel Hai Hij Hjb Hlen HP; [lia|].
  cbn [partitionLoop]. cbv zeta.
  destruct (scanLess_spec l a j (S j - i) i) as (I1 & I2 & I3 & I4); try lia.
  set (i' := scanLess A less (S j - i) l a i j) in *.
  destruct (scanNotLess_spec l a i' j) as (J1 & J2 & J3 & J4); try lia.
  set (j' := scanNotLess A less l a i' j) in *.
  destruct HP as [P1 P2].
  assert (HP' : Parted l a b i' j').
  { split; intros k Hk1 Hk2.
    - destruct (Nat.lt_ge_cases k i); [apply P1; lia | apply I3; lia].
    - destruct (Nat.lt_ge_cases j k); [apply P2; lia | apply J3; lia]. }
  destruct (Nat.ltb_spec j' i') as [Hdone|Hmore].
  - split; [apply Shuffled_refl|]. split; [lia|]. split; [lia|].
    replace (j' + 1) with i' by lia. exact HP'.
  - assert (Li : Less l i' a = false) by (apply I4; lia).
    assert (Lj : Less l j' a = true) by (apply J4; lia).
    assert (Hne : i' <> j') by (intros E; rewrite E in Li; congruence).
    pose proof (Parted_Swap l a b i' j' ltac:(lia) ltac:(lia) ltac:(lia) Hlen HP' Li Lj)
      as HP2.
    specialize (IH (Swap l i' j') (i' + 1) (j' - 1)).
    destruct (partitionLoop A less fuel (Swap l i' j') a (i' + 1) (j' - 1)) as [l2 j2].
    destruct IH as (S2 & A2 & B2 & P3); try lia.
    { rewrite Swap_length. exact Hlen. }
    { exact HP2. }
    split; [|auto].
    apply (Shuffled_swap _ _ l _ i' j'); [lia|lia|exact S2].
Qed.

Lemma Parted_finish (l : list A) (a b j : nat) :
  a <= j -> j < b -> b <= List.length l ->
  Parted l a b (j + 1) j -> PartitionedAt (Swap l j a) a b j.
Proof.
  intros Haj Hjb Hlen [P1 P2].
  destruct (nth_error_in_range l a ltac:(lia)) as [p Ep].
  destruct (nth_error_in_range l j ltac:(lia)) as [xj Ej].
  assert (Hn : forall k, nth_error (Swap l j a) k =
                 if k =? a then Some xj else if k =? j then Some p else nth_error l k).
  { intros k. rewrite nth_error_Swap by lia. rewrite Ej, Ep. reflexivity. }
  exists p. split; [|split].
  - rewrite Hn. destruct (Nat.eqb_spec j a) as [E|N].
    + subst j. congruence.
    + now rewrite Nat.eqb_refl.
  - intros k x Hk1 Hk2 Ek. rewrite Hn in Ek.
    destruct (Nat.eqb_spec k a) as [->|Na].
    + inversion Ek; subst x. rewrite <- (Less_at l j a xj p Ej Ep). apply P1; lia.
    + destruct (Nat.eqb_spec k j); [lia|].
      rewrite <- (Less_at l k a x p Ek Ep). apply P1; lia.
  - intros k x Hk1 Hk2 Ek. rewrite Hn in Ek.
    destruct (Nat.eqb_spec k a); [lia|]. destruct (Nat.eqb_spec k j); [lia|].
    rewrite <- (Less_at l k a x p Ek Ep). apply P2; lia.
Qed.

Lemma partition_spec (l : list A) (a b pivot : nat) :
  a <= pivot -> pivot < b -> b <= List.length l ->
  let '(l', mid, _) := partition A less l a b pivot in
  Shuffled a b l l' /\ a <= mid /\ mid < b /\ PartitionedAt l' a b mid.
Proof.
  intros Hap Hpb Hlen. unfold partition. cbv zeta.
  set (l1 := Swap l a pivot).
  assert (Hlen1 : List.length l1 = List.length l) by apply Swap_length.
  assert (Hsh1 : Shuffled a b l l1) by (apply Shuffled_one; lia).
  destruct (scanLess_spec l1 a (b - 1) (S (b - 1) - (a + 1)) (a + 1))
    as (I1 & I2 & I3 & I4); try lia.
  set (i := scanLess A less (S (b - 1) - (a + 1)) l1 a (a + 1) (b - 1)) in *.
  destruct (scanNotLess_spec l1 a i (b - 1)) as (J1 & J2 & J3 & J4); try lia.
  set (j := scanNotLess A less l1 a i (b - 1)) in *.
  assert (HP : Parted l1 a b i j).
  { split; intros k Hk1 Hk2; [apply I3 | apply J3]; lia. }
  destruct (Nat.ltb_spec j i) as [Hdone|Hmore].
  - split; [|split; [lia|split; [lia|]]].
    + eapply Shuffled_trans; [exact Hsh1 | apply Shuffled_one; lia].
    + apply Parted_finish; try lia. replace (j + 1) with i by lia. exact HP.
  - assert (Li : Less l1 i a = false) by (apply I4; lia).
    assert (Lj : Less l1 j a = true) by (apply J4; lia).
    assert (Hne : i <> j) by (intros E; rewrite E in Li; congruence).
    pose proof (Parted_Swap l1 a b i j ltac:(lia) ltac:(lia) ltac:(lia) ltac:(lia)
                            HP Li Lj) as HP2.
    pose proof (partitionLoop_spec a b (b - a) (Swap l1 i j) (i + 1) (j - 1)) as HL.
    destruct (partitionLoop A less (b - a) (Swap l1 i j) a (i + 1) (j - 1)) as [l3 j3].
    destruct HL as (S3 & A3 & B3 & P3); try lia.
    { rewrite Swap_length. lia. }
    { exact HP2. }
    assert (Hlen3 : List.length l3 = List.length l).
    { rewrite (Shuffled_length _ _ _ _ S3), Swap_length. exact Hlen1. }
    split; [|split; [lia|split; [lia|]]].
    + eapply Shuffled_trans; [exact Hsh1|].
      apply (Shuffled_swap _ _ l1 _ i j); [lia|lia|].
      eapply Shuffled_trans; [eapply Shuffled_weaken; [| |exact S3]; lia|].
      apply Shuffled_one; lia.
    + apply Parted_finish; try lia. exact P3.
Qed.

(** *** Partitioning around a pivot equal to the minimum *)

Lemma scanNotGreater_spec (l : list A) (a j : nat) :
  forall (fuel i : nat),
    j + 1 <= i + fuel -> i <= j + 1 ->
    let i' := scanNotGreater A less fuel l a i j in
    i <= i' /\ i' <= j + 1
    /\ (forall k, i <= k -> k < i' -> Less l a k = false)
    /\ (i' <= j -> Less l a i' = true).
Proof.
  induction fuel as [|fuel IH]; intros i Hfuel Hi; cbn [scanNotGreater].
  - repeat split; try lia.
  - destruct (Nat.leb_spec i j) as [Hij|Hij]; cbn [andb].
    + destruct (Less l a i) eqn:L; cbn [negb].
      * repeat split; try lia; auto.
      * destruct (IH (i + 1)) as (H1 & H2 & H3 & H4); try lia.
        repeat split; try lia; auto.
        intros k Hk1 Hk2. destruct (Nat.eq_dec k i) as [->|N]; [exact L|].
        apply H3; lia.
    + repeat split; try lia.
Qed.

Lemma scanGreater_spec (l : list A) (a i : nat) :
  forall (j : nat),
    1 <= i -> i <= j + 1 ->
    let j' := scanGreater A less l a i j in
    j' <= j /\ i <= j' + 1
    /\ (forall k, j' < k -> k <= j -> Less l a k = true)
    /\ (i <= j' -> Less l a j' = false).
Proof.
  induction j as [|j IH]; intros Hi Hij; cbn [scanGreater].
  - repeat split; try lia.
  - destruct (Nat.leb_spec i (S j)) as [Hle|Hgt]; cbn [andb].
    + destruct (Less l a (S j)) eqn:L.
      * destruct IH as (H1 & H2 & H3 & H4); try lia.
        repeat split; try lia; auto.
        intros k Hk1 Hk2. destruct (Nat.eq_dec k (S j)) as [->|N]; [exact L|].
        apply H3; lia.
      * repeat split; try lia; auto.
    + repeat split; try lia.
Qed.

Lemma PartedEq_Swap (l : list A) (a b i j : nat) :
  a < i -> i < j -> j < b -> b <= List.length l ->
  PartedEq l a b i j -> Less l a i = true -> Less l a j = false ->
  PartedEq (Swap l i j) a b (i + 1) (j - 1).
Proof.
  intros Hai Hij Hjb Hlen [P1 P2] Li Lj.
  assert (Hn : forall k, nth_error (Swap l i j) k =
                 if k =? j then nth_error l i
                 else if k =? i then nth_error l j else nth_error l k)
    by (intros k; apply nth_error_Swap; lia).
  assert (Hl : forall k, Less (Swap l i j) a k =
                 if k =? j then Less l a i else if k =? i then Less l a j
                 else Less l a k).
  { intros k. unfold GoSort.Less. rewrite !Hn.
    destruct (Nat.eqb_spec a j); [lia|]. destruct (Nat.eqb_spec a i); [lia|].
    destruct (k =? j); [reflexivity|]. destruct (k =? i); reflexivity. }
  split; intros k Hk1 Hk2; rewrite Hl.
  - destruct (Nat.eqb_spec k j); [lia|].
    destruct (Nat.eqb_spec k i); [exact Lj|]. apply P1; lia.
  - destruct (Nat.eqb_spec k j); [exact Li|].
    destruct (Nat.eqb_spec k i); [lia|]. apply P2; lia.
Qed.

Lemma partitionEqualLoop_spec (a b : nat) :
  forall (fuel : nat) (l : list A) (i j : nat),
    j + 1 < i + fuel -> a < i -> i <= j + 1 -> j < b -> b <= List.length l ->
    PartedEq l a b i j ->
    let '(l', mid) := partitionEqualLoop A less fuel l a i j in
    Shuffled (a + 1) b l l' /\ a < mid /\ mid <= b /\ PartedEq l' a b mid (mid - 1).
Proof.
  induction fuel as [|fuel IH]; intros l i j Hfuel Hai Hij Hjb Hlen HP; [lia|].
  cbn [partitionEqualLoop]. cbv zeta.
  destruct (scanNotGreater_spec l a j (S j - i) i) as (I1 & I2 & I3 & I4); try lia.
  set (i' := scanNotGreater A less (S j - i) l a i j) in *.
  destruct (scanGreater_spec l a i' j) as (J1 & J2 & J3 & J4); try lia.
  set (j' := scanGreater A less l a i' j) in *.
  destruct HP as [P1 P2].
  assert (HP' : PartedEq l a b i' j').
  { split; intros k Hk1 Hk2.
    - destruct (Nat.lt_ge_cases k i); [apply P1; lia | apply I3; lia].
    - destruct (Nat.lt_ge_cases j k); [apply P2; lia | apply J3; lia]. }
  destruct (Nat.ltb_spec j' i') as [Hdone|Hmore].
  - split; [apply Shuffled_refl|]. split; [lia|]. split; [lia|].
    replace (i' - 1) with j' by lia. exact HP'.
  - assert (Li : Less l a i' = true) by (apply I4; lia).
    assert (Lj : Less l a j' = false) by (apply J4; lia).
    assert (Hne : i' <> j') by (intros E; rewrite E in Li; congruence).
    pose proof (PartedEq_Swap l a b i' j' ltac:(lia) ltac:(lia) ltac:(lia) Hlen HP' Li Lj)
      as HP2.
    specialize (IH (Swap l i' j') (i' + 1) (j' - 1)).
    destruct (partitionEqualLoop A less fuel (Swap l i' j') a (i' + 1) (j' - 1)) as [l2 m2].
    destruct IH as (S2 & A2 & B2 & P3); try lia.
    { rewrite Swap_length. exact Hlen. }
    { exact HP2. }
    split; [|auto].
    apply (Shuffled_swap _ _ l _ i' j'); [lia|lia|exact S2].
Qed.

Lemma partitionEqual_spec (l : list A) (a b pivot : nat) (p : A) :
  a <= pivot -> pivot < b -> b <= List.length l ->
  nth_error l pivot = Some p ->
  let '(l', mid) := partitionEqual A less l a b pivot in
  Shuffled a b l l' /\ a < mid /\ mid <= b /\ SplitAt l' a b mid p.
Proof.
  intros Hap Hpb Hlen Ep. unfold partitionEqual. cbv zeta.
  set (l1 := Swap l a pivot).
  assert (Hlen1 : List.length l1 = List.length l) by apply Swap_length.
  assert (Hsh1 : Shuffled a b l l1) by (apply Shuffled_one; lia).
  assert (Ea1 : nth_error l1 a = Some p).
  { unfold l1. rewrite nth_error_Swap by lia.
    destruct (Nat.eqb_spec a pivot) as [->|N]; [|rewrite Nat.eqb_refl]; exact Ep. }
  pose proof (partitionEqualLoop_spec a b (S (b - a)) l1 (a + 1) (b - 1)) as HL.
  destruct (partitionEqualLoop A less (S (b - a)) l1 a (a + 1) (b - 1)) as [l2 mid].
  destruct HL as (S2 & A2 & B2 & [P1 P2]); try lia.
  { split; intros k Hk1 Hk2; lia. }
  assert (Ea2 : nth_error l2 a = Some p).
  { rewrite (Shuffled_outside _ _ _ _ a S2) by lia. exact Ea1. }
  split; [|split; [lia|split; [lia|]]].
  - eapply Shuffled_trans; [exact Hsh1|].
    eapply Shuffled_weaken; [| |exact S2]; lia.
  - split; intros k x Hk1 Hk2 Ek.
    + destruct (Nat.eq_dec k a) as [->|N].
      * rewrite Ea2 in Ek. inversion Ek; subst x. apply less_irrefl.
      * rewrite <- (Less_at l2 a k p x Ea2 Ek). apply P1; lia.
    + rewrite <- (Less_at l2 a k p x Ea2 Ek). apply P2; lia.
Qed.

(** *** The helpers of the main loop *)

Lemma LowerBound_Shuffled (l l' : list A) (a b a' b' : nat) :
  Shuffled a' b' l l' -> a <= a' -> b' <= b -> LowerBound l a b -> LowerBound l' a b.
Proof.
  intros Hs Ha Hb HL k x y H0 Hk1 Hk2 Ey Ex.
  rewrite (Shuffled_outside _ _ _ _ (a - 1) Hs) in Ey by lia.
  revert k x Hk1 Hk2 Ex.
  assert (HP : forall k x, a <= k < b -> nth_error l' k = Some x -> less x y = false).
  { apply (Shuffled_all (fun x => less x y = false) a' b' a b l l' Hs Ha Hb).
    intros k x Hk Ex. apply (HL k x y); auto; lia. }
  intros k x Hk1 Hk2. apply HP. lia.
Qed.

Lemma LowerBound_sub (l : list A) (a b b' : nat) :
  b' <= b -> LowerBound l a b -> LowerBound l a b'.
Proof. intros Hb HL k x y H0 Hk1 Hk2. apply HL; lia. Qed.

Lemma SortedR_unmoved (l l' : list A) (a b a' b' : nat) :
  Shuffled a' b' l l' -> b <= a' \/ b' <= a -> SortedR l a b -> SortedR l' a b.
Proof.
  intros Hs Hd HS i j x y Hi Hij Hj Ei Ej.
  rewrite (Shuffled_outside _ _ _ _ i Hs) in Ei by lia.
  rewrite (Shuffled_outside _ _ _ _ j Hs) in Ej by lia.
  apply (HS i j); auto.
Qed.

(** Above a lower bound, shifting left is the inner loop of insertion
    sort. *)
Lemma shiftLeft_insertDown (a : nat) :
  forall (j : nat) (l : list A),
    a <= j -> j < List.length l ->
    (0 < a -> forall x y, nth_error l j = Some x -> nth_error l (a - 1) = Some y ->
              less x y = false) ->
    shiftLeft A less l j = insertDown A less l a j.
Proof.
  induction j as [|j' IH]; intros l Ha Hlen Hb; [reflexivity|].
  cbn [shiftLeft insertDown].
  destruct (nth_error_in_range l (S j') ltac:(lia)) as [x Ex].
  destruct (nth_error_in_range l j' ltac:(lia)) as [y Ey].
  rewrite (Less_at l (S j') j' x y Ex Ey).
  destruct (Nat.ltb_spec a (S j')) as [Hlt|Hge]; cbn [andb].
  - destruct (less x y) eqn:L; cbn [negb]; [|reflexivity].
    apply IH; try lia.
    + rewrite Swap_length. lia.
    + intros H0 x' y' Ex' Ey'.
      rewrite nth_error_Swap in Ex', Ey' by lia.
      rewrite Nat.eqb_refl in Ex'.
      destruct (Nat.eqb_spec (a - 1) j'); [lia|].
      destruct (Nat.eqb_spec (a - 1) (S j')); [lia|].
      apply (Hb H0 x' y'); assumption.
  - assert (a = S j') by lia. subst a.
    replace (S j' - 1) with j' in Hb by lia.
    rewrite (Hb ltac:(lia) x y Ex Ey). reflexivity.
Qed.

Lemma shiftRight_Shuffled (lo b : nat) :
  forall (fuel : nat) (l : list A) (j : nat),
    lo < j -> Shuffled lo b l (shiftRight A less fuel l j b).
Proof.
  induction fuel as [|fuel IH]; intros l j Hj; cbn [shiftRight]; [apply Shuffled_refl|].
  destruct (Nat.ltb_spec j b); [|apply Shuffled_refl].
  destruct (Less l j (j - 1)); cbn [negb]; [|apply Shuffled_refl].
  apply (Shuffled_swap _ _ l _ j (j - 1)); [lia|lia|]. apply IH. lia.
Qed.

Lemma SortedR_extend (l : list A) (a i : nat) :
  a < i -> i < List.length l ->
  SortedR l a i -> Less l i (i - 1) = false -> SortedR l a (i + 1).
Proof.
  intros Hai Hlen HS L k j x y Hk Hkj Hj Ek Ej.
  destruct (Nat.eq_dec j i) as [->|Nj]; [|apply (HS k j); auto; lia].
  destruct (nth_error_in_range l (i - 1) ltac:(lia)) as [z Ez].
  rewrite (Less_at l i (i - 1) y z Ej Ez) in L.
  destruct (Nat.eq_dec k (i - 1)) as [->|Nk].
  - rewrite Ez in Ek. inversion Ek; subst x. exact L.
  - apply (less_negtrans y z x); [exact L|]. apply (HS k (i - 1)); auto; lia.
Qed.

Lemma scanOrdered_spec (l : list A) (a b : nat) :
  forall (fuel i : nat),
    b <= i + fuel -> a < i -> i <= b -> b <= List.length l -> SortedR l a i ->
    let i' := scanOrdered A less fuel l i b in
    i <= i' /\ i' <= b /\ SortedR l a i' /\ (i' < b -> Less l i' (i' - 1) = true).
Proof.
  induction fuel as [|fuel IH]; intros i Hfuel Hai Hib Hlen HS; cbn [scanOrdered].
  - repeat split; try lia; assumption.
  - destruct (Nat.ltb_spec i b) as [Hlt|Hge]; cbn [andb].
    + destruct (Less l i (i - 1)) eqn:L; cbn [negb].
      * repeat split; try lia; auto.
      * destruct (IH (i + 1)) as (H1 & H2 & H3 & H4); try lia.
        { apply SortedR_extend; auto; lia. }
        repeat split; try lia; auto.
    + repeat split; try lia; assumption.
Qed.

Lemma partialInsertionLoop_spec (a b : nat) :
  forall (steps : nat) (l : list A) (i : nat),
    a < i -> i <= b -> b <= List.length l -> SortedR l a i -> LowerBound l a b ->
    let '(l', sorted) := partialInsertionLoop A less steps l a b i in
    Shuffled a b l l' /\ (sorted = true -> SortedR l' a b).
Proof.
  induction steps as [|steps IH]; intros l i Hai Hib Hlen HS HL;
    cbn [partialInsertionLoop]; cbv zeta.
  - split; [apply Shuffled_refl | discriminate].
  - destruct (scanOrdered_spec l a b (b - i) i) as (I1 & I2 & I3 & I4); try lia; auto.
    set (i' := scanOrdered A less (b - i) l i b) in *.
    destruct (Nat.eqb_spec i' b) as [E|N].
    { split; [apply Shuffled_refl|]. intros _. rewrite <- E. exact I3. }
    destruct (b - a <? shortestShifting).
    { split; [apply Shuffled_refl | discriminate]. }
    set (l1 := Swap l i' (i' - 1)).
    assert (Hsh1 : Shuffled a b l l1) by (apply Shuffled_one; lia).
    assert (Hlen1 : List.length l1 = List.length l) by apply Swap_length.
    set (l2 := if 2 <=? i' - a then shiftLeft A less l1 (i' - 1) else l1).
    assert (H2 : SortedR l2 a i' /\ Shuffled a b l1 l2).
    { unfold l2. destruct (Nat.leb_spec 2 (i' - a)) as [Hbig|Hsmall].
      - rewrite (shiftLeft_insertDown a (i' - 1) l1); try lia.
        + destruct (insertDown_sorted a (i' - 1) (i' - 1) l1) as [Hs Hsh]; try lia.
          { split; [|intros; lia].
            intros p q x y Hp Hpq Hq Np Nq Ep Eq.
            unfold l1 in Ep, Eq. rewrite Swap_outside in Ep, Eq by lia.
            apply (I3 p q); auto; lia. }
          replace (i' - 1 + 1) with i' in * by lia.
          split; [exact Hs|]. eapply Shuffled_weaken; [| |exact Hsh]; lia.
        + intros H0 x y Ex Ey. unfold l1 in Ex, Ey.
          rewrite nth_error_Swap in Ex by lia. rewrite Nat.eqb_refl in Ex.
          rewrite Swap_outside in Ey by lia.
          apply (HL i' x y); auto; lia.
      - split; [apply SortedR_small; lia | apply Shuffled_refl]. }
    destruct H2 as [HS2 Hsh2].
    set (l3 := if 2 <=? b - i' then shiftRight A less (b - i') l2 (i' + 1) b else l2).
    assert (Hsh3 : Shuffled i' b l2 l3).
    { unfold l3. destruct (2 <=? b - i'); [|apply Shuffled_refl].
      apply shiftRight_Shuffled. lia. }
    assert (Hsh : Shuffled a b l l3).
    { eapply Shuffled_trans; [exact Hsh1|]. eapply Shuffled_trans; [exact Hsh2|].
      eapply Shuffled_weaken; [| |exact Hsh3]; lia. }
    specialize (IH l3 i').
    destruct (partialInsertionLoop A less steps l3 a b i') as [l4 sorted].
    destruct IH as [Hsh4 Hs4]; try lia.
    { rewrite (Shuffled_length _ _ _ _ Hsh). exact Hlen. }
    { apply (SortedR_unmoved l2 l3 a i' i' b Hsh3); [lia | exact HS2]. }
    { apply (LowerBound_Shuffled l l3 a b a b Hsh); auto. }
    split; [eapply Shuffled_trans; eassumption | exact Hs4].
Qed.

Lemma partialInsertionSort_spec (l : list A) (a b : nat) :
  a < b -> b <= List.length l -> LowerBound l a b ->
  let '(l', sorted) := partialInsertionSort A less l a b in
  Shuffled a b l l' /\ (sorted = true -> SortedR l' a b).
Proof.
  intros Hab Hlen HL. unfold partialInsertionSort.
  apply partialInsertionLoop_spec; auto; try lia. apply SortedR_small. lia.
Qed.

Lemma reverseLoop_Shuffled (a b : nat) :
  forall (fuel : nat) (l : list A) (i j : nat),
    a <= i -> j < b -> Shuffled a b l (reverseLoop A fuel l i j).
Proof.
  induction fuel as [|fuel IH]; intros l i j Hi Hj; cbn [reverseLoop];
    [apply Shuffled_refl|].
  destruct (Nat.ltb_spec i j); [|apply Shuffled_refl].
  apply (Shuffled_swap _ _ l _ i j); [lia|lia|]. apply IH; lia.
Qed.

Lemma reverseRange_Shuffled (l : list A) (a b : nat) :
  a < b -> Shuffled a b l (reverseRange A l a b).
Proof. intros H. unfold reverseRange. apply reverseLoop_Shuffled; lia. Qed.

Lemma bitsLen_bound (n : nat) : 0 < n -> 2 ^ bitsLen n <= 2 * n.
Proof.
  intros H. destruct n as [|n]; [lia|]. cbn [bitsLen].
  pose proof (Nat.log2_spec (S n) ltac:(lia)) as [Hlo _].
  rewrite Nat.pow_succ_r'. lia.
Qed.

Lemma breakPatterns_other (length : nat) (random : Z) :
  0 < length ->
  let other := Z.to_nat (Z.land random (nextPowerOfTwo length - 1)) in
  (if length <=? other then other - length else other) < length.
Proof.
  intros Hpos other.
  assert (Hother : other < 2 ^ bitsLen length).
  { unfold other, nextPowerOfTwo.
    rewrite Z.shiftl_1_l.
    replace (2 ^ Z.of_nat (bitsLen length) - 1)%Z
      with (Z.ones (Z.of_nat (bitsLen length)))
      by (rewrite Z.ones_equiv; lia).
    rewrite Z.land_ones by lia.
    pose proof (Z.mod_pos_bound random (2 ^ Z.of_nat (bitsLen length))
                  ltac:(apply Z.pow_pos_nonneg; lia)) as Hm.
    apply Nat2Z.inj_lt. rewrite Z2Nat.id by lia.
    rewrite Nat2Z.inj_pow. exact (proj2 Hm). }
  pose proof (bitsLen_bound length Hpos).
  destruct (Nat.leb_spec length other); lia.
Qed.

Lemma breakPatterns_Shuffled (l : list A) (a b : nat) :
  Shuffled a b l (breakPatterns A l a b).
Proof.
  unfold breakPatterns. cbv zeta.
  destruct (Nat.leb_spec 8 (b - a)) as [Hbig|Hsmall]; [|apply Shuffled_refl].
  assert (Hq : 2 <= (b - a) / 4).
  { apply (Nat.div_le_lower_bound (b - a) 4 2); lia. }
  assert (Hq' : 4 * ((b - a) / 4) <= b - a)
    by (apply (Nat.Div0.mul_div_le (b - a) 4)).
  cbn [seq fold_left fst].
  set (r1 := xorshiftNext (Z.of_nat (b - a))).
  set (r2 := xorshiftNext r1).
  set (r3 := xorshiftNext r2).
  pose proof (breakPatterns_other (b - a) r1 ltac:(lia)) as O1.
  pose proof (breakPatterns_other (b - a) r2 ltac:(lia)) as O2.
  pose proof (breakPatterns_other (b - a) r3 ltac:(lia)) as O3.
  cbv zeta in O1, O2, O3.
  match goal with
  | |- Shuffled _ _ _ (GoSort.Swap (GoSort.Swap (GoSort.Swap _ ?i1 ?o1) ?i2 ?o2) ?i3 ?o3) =>
      apply (Shuffled_swap a b l _ i1 o1); [lia | lia |];
      apply (Shuffled_swap a b _ _ i2 o2); [lia | lia |];
      apply (Shuffled_one a b _ i3 o3); lia
  end.
Qed.

Lemma order2_in (l : list A) (x y s : nat) :
  let '(x', y', _) := order2 A less l x y s in
  (x' = x /\ y' = y) \/ (x' = y /\ y' = x).
Proof. unfold order2. destruct (Less l y x); auto. Qed.

Lemma median_in (l : list A) (x y z s : nat) :
  let m := fst (median A less l x y z s) in m = x \/ m = y \/ m = z.
Proof.
  unfold median.
  pose proof (order2_in l x y s) as H1.
  destruct (order2 A less l x y s) as [[x1 y1] s1].
  pose proof (order2_in l y1 z s1) as H2.
  destruct (order2 A less l y1 z s1) as [[y2 z2] s2].
  pose proof (order2_in l x1 y2 s2) as H3.
  destruct (order2 A less l x1 y2 s2) as [[x3 y3] s3].
  cbn [fst]. lia.
Qed.

Lemma choosePivot_range (l : list A) (a b : nat) :
  8 <= b - a -> a <= fst (choosePivot A less l a b) < b.
Proof.
  intros Hbig. unfold choosePivot. cbv zeta.
  assert (Hq : 2 <= (b - a) / 4)
    by (apply (Nat.div_le_lower_bound (b - a) 4 2); lia).
  assert (Hq' : 4 * ((b - a) / 4) <= b - a)
    by (apply (Nat.Div0.mul_div_le (b - a) 4)).
  set (q := (b - a) / 4) in *.
  rewrite (proj2 (Nat.leb_le 8 (b - a)) Hbig).
  assert (Hm : forall x y z s,
             a <= x < b -> a <= y < b -> a <= z < b ->
             a <= fst (median A less l x y z s) < b).
  { intros x y z s Hx Hy Hz. pose proof (median_in l x y z s) as H.
    cbv zeta in H. lia. }
  assert (Hfin : forall (js : nat * nat),
             a <= fst js < b ->
             a <= fst (let '(j, swaps) := js in
                       if swaps =? 0 then (j, increasingHint)
                       else if swaps =? maxSwaps then (j, decreasingHint)
                       else (j, unknownHint)) < b).
  { intros [j s] H. cbn [fst] in *.
    destruct (s =? 0); [exact H|]. destruct (s =? maxSwaps); exact H. }
  apply Hfin.
  destruct (shortestNinther <=? b - a).
  - unfold medianAdjacent.
    pose proof (Hm (a + q * 1 - 1) (a + q * 1) (a + q * 1 + 1) 0
                   ltac:(lia) ltac:(lia) ltac:(lia)) as M1.
    destruct (median A less l (a + q * 1 - 1) (a + q * 1) (a + q * 1 + 1) 0) as [i1 s1].
    pose proof (Hm (a + q * 2 - 1) (a + q * 2) (a + q * 2 + 1) s1
                   ltac:(lia) ltac:(lia) ltac:(lia)) as M2.
    destruct (median A less l (a + q * 2 - 1) (a + q * 2) (a + q * 2 + 1) s1) as [j1 s2].
    pose proof (Hm (a + q * 3 - 1) (a + q * 3) (a + q * 3 + 1) s2
                   ltac:(lia) ltac:(lia) ltac:(lia)) as M3.
    destruct (median A less l (a + q * 3 - 1) (a + q * 3) (a + q * 3 + 1) s2) as [k1 s3].
    cbn [fst] in *. apply Hm; assumption.
  - apply Hm; lia.
Qed.

(** *** The main loop *)

Lemma PartitionedAt_Shuffled (l l' : list A) (a b mid a' b' : nat) :
  Shuffled a' b' l l' ->
  (a <= a' /\ b' <= mid) \/ (mid < a' /\ b' <= b) ->
  PartitionedAt l a b mid -> PartitionedAt l' a b mid.
Proof.
  intros Hs Hside (p & Ep & Hlt & Hge). exists p. split; [|split].
  - rewrite (Shuffled_outside _ _ _ _ mid Hs) by lia. exact Ep.
  - destruct Hside as [[Ha Hb]|[Ha Hb]].
    + intros k x Hk1 Hk2.
      apply (Shuffled_all (fun x => less x p = true) a' b' a mid l l' Hs Ha Hb); [|lia].
      intros k' x' Hk'. apply Hlt; lia.
    + intros k x Hk1 Hk2 Ek.
      rewrite (Shuffled_outside _ _ _ _ k Hs) in Ek by lia. apply (Hlt k); auto.
  - destruct Hside as [[Ha Hb]|[Ha Hb]].
    + intros k x Hk1 Hk2 Ek.
      rewrite (Shuffled_outside _ _ _ _ k Hs) in Ek by lia. apply (Hge k); auto.
    + intros k x Hk1 Hk2.
      apply (Shuffled_all (fun x => less x p = false) a' b' (mid + 1) b l l' Hs);
        try lia.
      intros k' x' Hk'. apply Hge; lia.
Qed.

Lemma SortedR_join (l : list A) (a mid b : nat) :
  PartitionedAt l a b mid -> SortedR l a mid -> SortedR l (mid + 1) b ->
  SortedR l a b.
Proof.
  intros (p & Ep & Hlt & Hge) HS1 HS2 i j x y Hi Hij Hj Ei Ej.
  destruct (Nat.lt_ge_cases j mid) as [Hjm|Hjm]; [apply (HS1 i j); auto|].
  destruct (Nat.lt_ge_cases mid i) as [Him|Him]; [apply (HS2 i j); auto; lia|].
  destruct (Nat.eq_dec j mid) as [->|Nj].
  - rewrite Ep in Ej. inversion Ej; subst y.
    apply less_asym. apply (Hlt i); auto; lia.
  - destruct (Nat.eq_dec i mid) as [->|Ni].
    + rewrite Ep in Ei. inversion Ei; subst x. apply (Hge j); auto; lia.
    + destruct (less y x) eqn:L; [|reflexivity].
      rewrite <- (Hge j y ltac:(lia) Hj Ej).
      symmetry. apply (less_trans y x p L). apply (Hlt i); auto; lia.
Qed.

Lemma PartitionedAt_LowerBound (l : list A) (a b mid : nat) :
  PartitionedAt l a b mid -> LowerBound l (mid + 1) b.
Proof.
  intros (p & Ep & _ & Hge) k x y H0 Hk1 Hk2 Ey Ex.
  replace (mid + 1 - 1) with mid in Ey by lia.
  rewrite Ep in Ey. inversion Ey; subst y. apply (Hge k); auto; lia.
Qed.

(** After [partitionEqual] under a lower bound that the pivot does not
    exceed: the left part is in order and bounds the right part. *)
Lemma SplitAt_facts (l : list A) (a b mid : nat) (p y0 : A) :
  0 < a -> a < mid -> mid <= b -> b <= List.length l ->
  LowerBound l a b -> nth_error l (a - 1) = Some y0 -> less y0 p = false ->
  SplitAt l a b mid p ->
  SortedR l a mid /\ LowerBound l mid b
  /\ (forall l', Shuffled mid b l l' -> SortedR l' mid b -> SortedR l' a b).
Proof.
  intros H0 Ham Hmb Hlen HL Ey0 Lp [Hle Hgt].
  assert (Heq : forall k x, a <= k -> k < mid -> nth_error l k = Some x ->
                  less x p = false).
  { intros k x Hk1 Hk2 Ex. apply (less_negtrans x y0 p); [|exact Lp].
    apply (HL k x y0); auto; lia. }
  split; [|split].
  - intros i j x y Hi Hij Hj Ei Ej.
    apply (less_negtrans y p x); [apply (Heq j) | apply (Hle i)]; auto; lia.
  - intros k x z _ Hk1 Hk2 Ez Ex.
    apply less_asym. apply (le_less_trans z p x).
    + apply (Hle (mid - 1)); auto; lia.
    + apply (Hgt k); auto.
  - intros l' Hs HS i j x y Hi Hij Hj Ei Ej.
    destruct (Nat.lt_ge_cases i mid) as [Him|Him]; [|apply (HS i j); auto].
    rewrite (Shuffled_outside _ _ _ _ i Hs) in Ei by lia.
    destruct (Nat.lt_ge_cases j mid) as [Hjm|Hjm].
    + rewrite (Shuffled_outside _ _ _ _ j Hs) in Ej by lia.
      apply (less_negtrans y p x); [apply (Heq j) | apply (Hle i)]; auto; lia.
    + assert (Lpy : less p y = true).
      { apply (Shuffled_all (fun y => less p y = true) mid b mid b l l' Hs
                            (Nat.le_refl _) (Nat.le_refl _)) with (k := j); auto.
        intros k' y' Hk'. apply Hgt; lia. }
      destruct (less y x) eqn:L; [|reflexivity].
      rewrite <- (Hle i x Hi Him Ei). symmetry. apply (less_trans p y x Lpy L).
Qed.

(** The branch that partitions around the pivot and sorts both sides. *)
Lemma pdqsort_partition_branch (fuel : nat)
    (IH : forall (l : list A) (a b limit : nat) (wb wp : bool),
        b - a < fuel -> a <= b -> b <= List.length l -> LowerBound l a b ->
        SortedR (pdqsort A less fuel l a b limit wb wp) a b
        /\ Shuffled a b l (pdqsort A less fuel l a b limit wb wp))
    (l l3 : list A) (a b pivot limit : nat) :
  b - a < S fuel -> a <= b -> b <= List.length l ->
  Shuffled a b l l3 -> LowerBound l3 a b -> a <= pivot < b ->
  let r :=
    let '(data, mid, alreadyPartitioned) := partition A less l3 a b pivot in
    if mid - a <? b - mid
    then pdqsort A less fuel (pdqsort A less fuel data a mid limit true true)
                 (mid + 1) b limit ((b - a) / 8 <=? mid - a) alreadyPartitioned
    else pdqsort A less fuel (pdqsort A less fuel data (mid + 1) b limit true true)
                 a mid limit ((b - a) / 8 <=? b - mid) alreadyPartitioned in
  SortedR r a b /\ Shuffled a b l r.
Proof.
  intros Hfuel Hab Hlen Hsh13 HL3 Hpiv.
  assert (Hlen3 : List.length l3 = List.length l) by apply (Shuffled_length _ _ _ _ Hsh13).
  pose proof (partition_spec l3 a b pivot ltac:(lia) ltac:(lia) ltac:(lia)) as HP.
  destruct (partition A less l3 a b pivot) as [[l4 mid] ap].
  destruct HP as (Hsh4 & Ham & Hmb & HPart).
  assert (Hlen4 : List.length l4 = List.length l3) by apply (Shuffled_length _ _ _ _ Hsh4).
  assert (HL4 : LowerBound l4 a b)
    by (apply (LowerBound_Shuffled l3 l4 a b a b Hsh4); auto).
  cbv zeta. destruct (mid - a <? b - mid).
  - destruct (IH l4 a mid limit true true) as [HS5 Hsh5]; try lia.
    { apply (LowerBound_sub l4 a b mid); [lia | exact HL4]. }
    set (l5 := pdqsort A less fuel l4 a mid limit true true) in *.
    assert (HP5 : PartitionedAt l5 a b mid)
      by (apply (PartitionedAt_Shuffled l4 l5 a b mid a mid Hsh5); auto; lia).
    destruct (IH l5 (mid + 1) b limit ((b - a) / 8 <=? mid - a) ap) as [HS6 Hsh6];
      try lia.
    { rewrite (Shuffled_length _ _ _ _ Hsh5). lia. }
    { apply (PartitionedAt_LowerBound l5 a b mid HP5). }
    set (l6 := pdqsort A less fuel l5 (mid + 1) b limit ((b - a) / 8 <=? mid - a) ap) in *.
    split.
    + apply (SortedR_join l6 a mid b).
      * apply (PartitionedAt_Shuffled l5 l6 a b mid (mid + 1) b Hsh6); auto; lia.
      * apply (SortedR_unmoved l5 l6 a mid (mid + 1) b Hsh6); [lia | exact HS5].
      * exact HS6.
    + eapply Shuffled_trans; [exact Hsh13|].
      eapply Shuffled_trans; [exact Hsh4|].
      eapply Shuffled_trans; [eapply Shuffled_weaken; [| |exact Hsh5]; lia|].
      eapply Shuffled_weaken; [| |exact Hsh6]; lia.
  - destruct (IH l4 (mid + 1) b limit true true) as [HS5 Hsh5]; try lia.
    { apply (PartitionedAt_LowerBound l4 a b mid HPart). }
    set (l5 := pdqsort A less fuel l4 (mid + 1) b limit true true) in *.
    assert (HP5 : PartitionedAt l5 a b mid)
      by (apply (PartitionedAt_Shuffled l4 l5 a b mid (mid + 1) b Hsh5); auto; lia).
    destruct (IH l5 a mid limit ((b - a) / 8 <=? b - mid) ap) as [HS6 Hsh6]; try lia.
    { rewrite (Shuffled_length _ _ _ _ Hsh5). lia. }
    { apply (LowerBound_sub l5 a b mid); [lia|].
      apply (LowerBound_Shuffled l4 l5 a b (mid + 1) b Hsh5); auto; lia. }
    set (l6 := pdqsort A less fuel l5 a mid limit ((b - a) / 8 <=? b - mid) ap) in *.
    split.
    + apply (SortedR_join l6 a mid b).
      * apply (PartitionedAt_Shuffled l5 l6 a b mid a mid Hsh6); auto; lia.
      * exact HS6.
      * apply (SortedR_unmoved l5 l6 (mid + 1) b a mid Hsh6); [lia | exact HS5].
    + eapply Shuffled_trans; [exact Hsh13|].
      eapply Shuffled_trans; [exact Hsh4|].
      eapply Shuffled_trans; [eapply Shuffled_weaken; [| |exact Hsh5]; lia|].
      eapply Shuffled_weaken; [| |exact Hsh6]; lia.
Qed.

Lemma pdqsort_spec :
  forall (fuel : nat) (l : list A) (a b limit : nat) (wasBalanced wasPartitioned : bool),
    b - a < fuel -> a <= b -> b <= List.length l -> LowerBound l a b ->
    SortedR (pdqsort A less fuel l a b limit wasBalanced wasPartitioned) a b
    /\ Shuffled a b l (pdqsort A less fuel l a b limit wasBalanced wasPartitioned).
Proof.
  induction fuel as [|fuel IH]; intros l a b limit wb wp Hfuel Hab Hlen HL; [lia|].
  cbn [pdqsort]. cbv zeta.
  destruct (Nat.leb_spec (b - a) maxInsertion) as [Hsmall|Hbig].
  { apply insertionSort_spec; assumption. }
  destruct (limit =? 0).
  { apply heapSort_spec; assumption. }
  unfold maxInsertion in Hbig.
  (* breaking patterns *)
  assert (H1 : exists l1 limit1,
             (if negb wb then (breakPatterns A l a b, limit - 1) else (l, limit))
             = (l1, limit1) /\ Shuffled a b l l1).
  { destruct wb; cbn [negb]; eexists; eexists; (split; [reflexivity|]);
      [apply Shuffled_refl | apply breakPatterns_Shuffled]. }
  destruct H1 as (l1 & limit1 & -> & Hsh1).
  assert (Hlen1 : List.length l1 = List.length l) by apply (Shuffled_length _ _ _ _ Hsh1).
  (* the pivot *)
  pose proof (choosePivot_range l1 a b ltac:(lia)) as Hpiv.
  destruct (choosePivot A less l1 a b) as [pivot hint]. cbn [fst] in Hpiv.
  assert (H2 : exists l2 pivot2 hint2,
             (if hintIs hint decreasingHint
              then (reverseRange A l1 a b, b - 1 - (pivot - a), increasingHint)
              else (l1, pivot, hint)) = (l2, pivot2, hint2)
             /\ Shuffled a b l1 l2 /\ a <= pivot2 < b).
  { destruct (hintIs hint decreasingHint); eexists; eexists; eexists;
      (split; [reflexivity|]); split;
      [apply reverseRange_Shuffled; lia | lia | apply Shuffled_refl | lia]. }
  destruct H2 as (l2 & pivot2 & hint2 & -> & Hsh2 & Hpiv2).
  assert (Hsh12 : Shuffled a b l l2) by (eapply Shuffled_trans; eassumption).
  assert (Hlen2 : List.length l2 = List.length l) by apply (Shuffled_length _ _ _ _ Hsh12).
  assert (HL2 : LowerBound l2 a b)
    by (apply (LowerBound_Shuffled l l2 a b a b Hsh12); auto).
  (* the attempt to finish by insertion *)
  assert (H3 : exists l3 sorted,
             (if wb && wp && hintIs hint2 increasingHint
              then partialInsertionSort A less l2 a b else (l2, false)) = (l3, sorted)
             /\ Shuffled a b l2 l3 /\ (sorted = true -> SortedR l3 a b)).
  { destruct (wb && wp && hintIs hint2 increasingHint).
    - pose proof (partialInsertionSort_spec l2 a b ltac:(lia) ltac:(lia) HL2) as Hp.
      destruct (partialInsertionSort A less l2 a b) as [l3 sorted].
      exists l3, sorted. split; [reflexivity | exact Hp].
    - exists l2, false. split; [reflexivity|].
      split; [apply Shuffled_refl | discriminate]. }
  destruct H3 as (l3 & sorted & -> & Hsh3 & Hsorted).
  assert (Hsh13 : Shuffled a b l l3) by (eapply Shuffled_trans; eassumption).
  assert (Hlen3 : List.length l3 = List.length l) by apply (Shuffled_length _ _ _ _ Hsh13).
  assert (HL3 : LowerBound l3 a b)
    by (apply (LowerBound_Shuffled l l3 a b a b Hsh13); auto).
  destruct sorted.
  { split; [apply Hsorted; reflexivity | exact Hsh13]. }
  clear Hsorted.
  destruct (nth_error_in_range l3 pivot2 ltac:(lia)) as [p Ep].
  destruct (Nat.ltb_spec 0 a) as [H0|H0]; cbn [andb].
  - destruct (nth_error_in_range l3 (a - 1) ltac:(lia)) as [y0 Ey0].
    rewrite (Less_at l3 (a - 1) pivot2 y0 p Ey0 Ep).
    destruct (less y0 p) eqn:Lp; cbn [negb].
    + apply (pdqsort_partition_branch fuel IH l l3 a b pivot2 limit1 Hfuel Hab Hlen
               Hsh13 HL3 Hpiv2).
    + (* the pivot equals the lower bound: split off what equals it *)
      pose proof (partitionEqual_spec l3 a b pivot2 p ltac:(lia) ltac:(lia) ltac:(lia) Ep)
        as HE.
      destruct (partitionEqual A less l3 a b pivot2) as [l4 mid].
      destruct HE as (Hsh4 & Ham & Hmb & Hsplit).
      assert (Hlen4 : List.length l4 = List.length l3)
        by apply (Shuffled_length _ _ _ _ Hsh4).
      assert (HL4 : LowerBound l4 a b)
        by (apply (LowerBound_Shuffled l3 l4 a b a b Hsh4); auto).
      assert (Ey4 : nth_error l4 (a - 1) = Some y0).
      { rewrite (Shuffled_outside _ _ _ _ (a - 1) Hsh4) by lia. exact Ey0. }
      destruct (SplitAt_facts l4 a b mid p y0 H0 Ham Hmb ltac:(lia) HL4 Ey4 Lp Hsplit)
        as (HS4 & HLm & Hjoin).
      destruct (IH l4 mid b limit1 wb wp) as [HS5 Hsh5]; try lia; auto.
      split; [apply Hjoin; assumption|].
      eapply Shuffled_trans; [exact Hsh13|].
      eapply Shuffled_trans; [exact Hsh4|].
      eapply Shuffled_weaken; [| |exact Hsh5]; lia.
  - apply (pdqsort_partition_branch fuel IH l l3 a b pivot2 limit1 Hfuel Hab Hlen
             Hsh13 HL3 Hpiv2).
Qed.

(** *** [sort.Slice] puts the slice in order *)

Lemma SortedR_StronglySorted :
  forall (l : list A),
    SortedR l 0 (List.length l) ->
    StronglySorted (fun x y => less y x = false) l.
Proof.
  induction l as [|h t IH]; intros HS; constructor.
  - apply IH. intros i j x y Hi Hij Hj Ei Ej.
    apply (HS (S i) (S j)); cbn [List.length nth_error]; auto; lia.
  - apply Forall_forall. intros y Hy.
    destruct (In_nth_error t y Hy) as [j Ej].
    assert (j < List.length t) by (apply nth_error_Some; congruence).
    apply (HS 0 (S j) h y); cbn [List.length nth_error]; auto; lia.
Qed.

(** For a strict weak order [less], the slice comes back with no
    element less than one before it. *)
Lemma Slice_sorted (x : list A) :
  StronglySorted (fun u v => less v u = false) (Slice less x).
Proof.
  unfold Slice. cbv zeta.
  destruct (pdqsort_spec (S (List.length x)) x 0 (List.length x)
                         (bitsLen (List.length x)) true true) as [HS Hsh];
    try lia.
  { intros k u v H0. lia. }
  apply SortedR_StronglySorted.
  rewrite (Shuffled_length _ _ _ _ Hsh). exact HS.
Qed.

(** *** Short slices are sorted stably *)

Lemma Swap_cons (h : A) (t : list A) (i j : nat) :
  Swap (h :: t) (S i) (S j) = h :: Swap t i j.
Proof.
  unfold GoSort.Swap. cbn [nth_error].
  destruct (nth_error t i), (nth_error t j); reflexivity.
Qed.

(** Exchanging two neighbours of which one fails [P] does not change
    what [filter P] keeps. *)
Lemma filter_Swap_adjacent (P : A -> bool) :
  forall (j : nat) (l : list A) (x y : A),
    nth_error l (S j) = Some x -> nth_error l j = Some y ->
    P x = false \/ P y = false ->
    filter P (Swap l (S j) j) = filter P l.
Proof.
  induction j as [|j IH]; intros l x y Ex Ey HP.
  - destruct l as [|h [|h' t]]; cbn in Ex, Ey; try discriminate.
    injection Ex as ->. injection Ey as ->.
    unfold GoSort.Swap. cbn.
    destruct HP as [E|E]; rewrite E; destruct (P _); reflexivity.
  - destruct l as [|h t]; cbn [nth_error] in Ex, Ey; try discriminate.
    rewrite Swap_cons. cbn [filter].
    rewrite (IH t x y Ex Ey HP). reflexivity.
Qed.

Lemma sameRank_both (z x y : A) :
  GoSortInv.sameRank less z x = true -> GoSortInv.sameRank less z y = true ->
  less x y = false.
Proof.
  unfold GoSortInv.sameRank. intros Hx Hy.
  apply andb_prop in Hx, Hy. destruct Hx as [_ Hx], Hy as [Hy _].
  apply negb_true_iff in Hx, Hy.
  exact (less_negtrans x z y Hx Hy).
Qed.

Lemma insertDown_stable (a : nat) :
  forall (j : nat) (l : list A), GoSortInv.KeepsOrder less l (insertDown A less l a j).
Proof.
  induction j as [|j IH]; intros l z; cbn [insertDown]; [reflexivity|].
  destruct (a <? S j); cbn [andb]; [|reflexivity].
  unfold GoSort.Less.
  destruct (nth_error l (S j)) as [x|] eqn:Ex; [|reflexivity].
  destruct (nth_error l j) as [y|] eqn:Ey; [|reflexivity].
  destruct (less x y) eqn:Lxy; [|reflexivity].
  rewrite IH. apply (filter_Swap_adjacent _ j l x y Ex Ey).
  destruct (GoSortInv.sameRank less z x) eqn:Rx; [|left; reflexivity].
  destruct (GoSortInv.sameRank less z y) eqn:Ry; [|right; reflexivity].
  rewrite (sameRank_both z x y Rx Ry) in Lxy. discriminate.
Qed.

Lemma insertionSort_stable (l : list A) (a b : nat) :
  GoSortInv.KeepsOrder less l (insertionSort A less l a b).
Proof.
  unfold insertionSort.
  generalize (seq (a + 1) (b - (a + 1))). intros js. revert l.
  induction js as [|j js IH]; intros l z; cbn [fold_left]; [reflexivity|].
  rewrite IH. apply insertDown_stable.
Qed.

(** A slice of at most twelve elements goes to insertion sort at once,
    which keeps equal elements in their order. *)
Lemma Slice_stable_short (x : list A) :
  List.length x <= maxInsertion ->
  GoSortInv.KeepsOrder less x (Slice less x).
Proof.
  intros H. unfold Slice. cbv zeta. cbn [pdqsort].
  rewrite Nat.sub_0_r.
  destruct (Nat.leb_spec (List.length x) maxInsertion); [|lia].
  apply insertionSort_stable.
Qed.

End Facts.
End GoSortFacts.

Import GoString GoTime GoStrings Models Handlers.

(** ** Durations and whole days *)

Lemma nsPerDay_pos : 0 < nsPerDay.
Proof. reflexivity. Qed.

Lemma Sub_sign_neg (t u : Time) : Before t u = true -> Sub t u < 0.
Proof.
  unfold Before, Sub, minDuration, maxDuration. intros H%Z.ltb_lt. lia.
Qed.

Lemma Sub_sign_nonneg (t u : Time) : Before t u = false -> 0 <= Sub t u.
Proof.
  unfold Before, Sub, minDuration, maxDuration. intros H%Z.ltb_ge. lia.
Qed.

Lemma Sub_mono (t t' u : Time) : instant t <= instant t' -> Sub t u <= Sub t' u.
Proof. unfold Sub. lia. Qed.

Lemma wholeDays_nonpos (d : Z) : d < 0 -> wholeDays d <= 0.
Proof.
  intros H. unfold wholeDays.
  rewrite <- (Z.opp_involutive d), Z.quot_opp_l by (unfold nsPerDay, nsPerHour, nsPerSecond; lia).
  pose proof (Z.quot_pos (- d) nsPerDay ltac:(lia) nsPerDay_pos). lia.
Qed.

Lemma wholeDays_nonneg (d : Z) : 0 <= d -> 0 <= wholeDays d.
Proof. intros H. apply Z.quot_pos; [assumption | exact nsPerDay_pos]. Qed.

Lemma wholeDays_mono (d d' : Z) : d <= d' -> wholeDays d <= wholeDays d'.
Proof. intros H. apply Z.quot_le_mono; [exact nsPerDay_pos | assumption]. Qed.

(** A duration holds fewer than 106752 days: the day count of a record
    is far from the ends of [int]. *)
Lemma wholeDays_Sub_range (t u : Time) : -106751 <= wholeDays (Sub t u) <= 106751.
Proof.
  assert (Hlo : wholeDays minDuration = -106751) by reflexivity.
  assert (Hhi : wholeDays maxDuration = 106751) by reflexivity.
  assert (H : wholeDays minDuration <= wholeDays (Sub t u) <= wholeDays maxDuration).
  { split; apply wholeDays_mono; unfold Sub, minDuration, maxDuration; lia. }
  lia.
Qed.

(** Negation gives the mathematical result on every [int] but
    [MinInt], where it wraps around. *)
Lemma neg_opp (n : Z) : GoInt.MinInt <= n <= GoInt.MaxInt -> GoInt.neg (- n) = n.
Proof.
  unfold GoInt.neg, GoInt.wrap, GoInt.MinInt, GoInt.MaxInt. intros H.
  rewrite Z.opp_involutive, Z.mod_small; lia.
Qed.

Lemma neg_MinInt : GoInt.neg GoInt.MinInt = GoInt.MinInt.
Proof. reflexivity. Qed.

(** ** The due-date flags of a canonical record (C1) *)

Section DueDateInfo.
Import TasksHandler Spec.

Lemma calculateDueDateInfo_spec (now : Time) (s : string) :
  calculateDueDateInfo now s =
  match (if String.eqb s "" then None
         else match Parse LayoutStamp s with
              | Some d => Some d
              | None => Parse LayoutDate s
              end) with
  | Some due => (Before due now, Some (wholeDays (Sub due now)))
  | None => (false, None)
  end.
Proof.
  unfold calculateDueDateInfo. destruct (String.eqb s ""); [reflexivity|].
  destruct (Parse LayoutStamp s); [reflexivity|].
  destruct (Parse LayoutDate s); reflexivity.
Qed.

Lemma buildTaskDetail_Due (now : Time) (task : Task) (project : ProjectData)
    (columnMap swimlaneMap : intMap string) (userMap : intMap UserInfo)
    (baseURL : string) (tt : bool) :
  Due (Dates (buildTaskDetail now task project columnMap swimlaneMap userMap baseURL tt))
  = formatKanboardTime (Task_DateDue task).
Proof.
  unfold buildTaskDetail.
  destruct (if negb (IsZero (Task_DateDue task))
            then calculateDueDateInfo now (Format (Task_DateDue task) LayoutStamp)
            else (false, None)); reflexivity.
Qed.

Lemma buildTaskDetail_due_info (now : Time) (task : Task) (project : ProjectData)
    (columnMap swimlaneMap : intMap string) (userMap : intMap UserInfo)
    (baseURL : string) (tt : bool) :
  let d := buildTaskDetail now task project columnMap swimlaneMap userMap baseURL tt in
  (IsOverdue d, DaysUntilDue d) =
  if negb (IsZero (Task_DateDue task))
  then calculateDueDateInfo now (Format (Task_DateDue task) LayoutStamp)
  else (false, None).
Proof.
  unfold buildTaskDetail.
  destruct (if negb (IsZero (Task_DateDue task))
            then calculateDueDateInfo now (Format (Task_DateDue task) LayoutStamp)
            else (false, None)); reflexivity.
Qed.

(** The flags of a built record, read off the record's own due field. *)
Lemma buildTaskDetail_flags (now : Time) (task : Task) (project : ProjectData)
    (columnMap swimlaneMap : intMap string) (userMap : intMap UserInfo)
    (baseURL : string) (tt : bool) :
  let d := buildTaskDetail now task project columnMap swimlaneMap userMap baseURL tt in
  (IsOverdue d, DaysUntilDue d) =
  match dueDateOf d with
  | Some due => (Before due now, Some (wholeDays (Sub due now)))
  | None => (false, None)
  end.
Proof.
  intros d. unfold d. rewrite buildTaskDetail_due_info.
  unfold dueDateOf. rewrite buildTaskDetail_Due. unfold formatKanboardTime.
  destruct (IsZero (Task_DateDue task)); cbn [negb].
  - reflexivity.
  - apply calculateDueDateInfo_spec.
Qed.

(** The due field of a built record reads back as the wall clock of the
    upstream due date, taken as UTC. *)
Lemma buildTaskDetail_dueDateOf (now : Time) (task : Task) (project : ProjectData)
    (columnMap swimlaneMap : intMap string) (userMap : intMap UserInfo)
    (baseURL : string) (tt : bool) :
  IsZero (Task_DateDue task) = false ->
  GoTimeInv.fourDigitYear (Task_DateDue task) ->
  dueDateOf (buildTaskDetail now task project columnMap swimlaneMap userMap baseURL tt)
  = Some (Unix (wallSec (Task_DateDue task))).
Proof.
  intros Hz Hy. unfold dueDateOf. rewrite buildTaskDetail_Due.
  unfold formatKanboardTime. rewrite Hz.
  pose proof (GoTimeFacts.Parse_Format_stamp _ Hy) as P.
  destruct (String.eqb_spec (Format (Task_DateDue task) LayoutStamp) "") as [E|N].
  - rewrite E in P. discriminate P.
  - rewrite P. reflexivity.
Qed.

(** Where the four-digit year or the zone is not as assumed: an upstream
    due date five hours east of UTC is written with its own wall clock
    and a literal Z, and reads back five hours late, so that an hour
    after it fell due the record is not overdue; a due date in the
    year 10000 is written with five digits and does not read back, so
    the record shows a due field and no flags. *)
Example zoned_due_date_reads_back_shifted :
  let due := mkTime 1000000000 0 18000 in
  let now := Unix 1000003600 in
  let d := collected now (rawTask 7 due) in
  Before due now = true
  /\ Due (Dates d) = "2001-09-09T06:46:40Z"
  /\ dueDateOf d = Some (Unix 1000018000)
  /\ IsOverdue d = false.
Proof. vm_compute. repeat split. Qed.

Example five_digit_year_does_not_read_back :
  let d := collected (Unix 253402300900) (rawTask 7 (Unix 253402300800)) in
  Due (Dates d) = "10000-01-01T00:00:00Z"
  /\ dueDateOf d = None
  /\ IsOverdue d = false
  /\ DaysUntilDue d = None.
Proof. vm_compute. repeat split. Qed.

End DueDateInfo.

(** C1, as amended.  For every record the collector builds at instant
    [now]: [is_overdue] holds exactly when the record has a due date
    strictly before [now]; [days_until_due] is present exactly when the
    record has a due date; an overdue record has [days_until_due <= 0]
    (negative exactly when the due date lies a whole day or more in the
    past), and a record with a due date that is not overdue has
    [days_until_due >= 0].  The due date of a record is the instant its
    due field shows: for an upstream due date whose wall clock has a
    four-digit year, that wall clock taken as UTC, to the second. *)
Theorem C1_due_flags_consistent :
  forall (now : Time) (task : Task) (project : ProjectData)
         (columnMap swimlaneMap : intMap string) (userMap : intMap UserInfo)
         (baseURL : string) (includeTimeTracking : bool),
    let d := TasksHandler.buildTaskDetail now task project columnMap swimlaneMap
                                          userMap baseURL includeTimeTracking in
    (IsOverdue d = true <->
       exists due, Spec.dueDateOf d = Some due /\ instant due < instant now)
    /\ (DaysUntilDue d = None <-> Spec.dueDateOf d = None)
    /\ (forall days, DaysUntilDue d = Some days ->
          (IsOverdue d = true -> days <= 0)
          /\ (IsOverdue d = false -> 0 <= days)
          /\ (days < 0 <->
                exists due, Spec.dueDateOf d = Some due
                            /\ instant due + nsPerDay <= instant now))
    /\ (IsZero (Task_DateDue task) = false ->
        GoTimeInv.fourDigitYear (Task_DateDue task) ->
        Spec.dueDateOf d = Some (Unix (wallSec (Task_DateDue task)))).
Proof.
  intros now task project columnMap swimlaneMap userMap baseURL tt d.
  assert (Hup : IsZero (Task_DateDue task) = false ->
                GoTimeInv.fourDigitYear (Task_DateDue task) ->
                Spec.dueDateOf d = Some (Unix (wallSec (Task_DateDue task))))
    by (intros Hz Hy; apply buildTaskDetail_dueDateOf; assumption).
  pose proof (buildTaskDetail_flags now task project columnMap swimlaneMap
                                    userMap baseURL tt) as H.
  cbv zeta in H. fold d in H. clearbody d.
  destruct (Spec.dueDateOf d) as [due|]; injection H as Ho Hd; rewrite Ho, Hd.
  - split; [|split; [|split; [|exact Hup]]].
    + unfold Before. rewrite Z.ltb_lt. split.
      * intros Hlt. exists due. split; [reflexivity | assumption].
      * intros (due' & Heq & Hlt). inversion Heq. subst. assumption.
    + split; discriminate.
    + intros days Hdays. inversion Hdays; subst days; clear Hdays.
      split; [|split].
      * intros Hb. apply wholeDays_nonpos, Sub_sign_neg, Hb.
      * intros Hb. apply wholeDays_nonneg, Sub_sign_nonneg, Hb.
      * unfold wholeDays, Sub, minDuration, maxDuration.
        assert (Hpos : 0 < nsPerDay) by exact nsPerDay_pos.
        assert (Hbig : nsPerDay < 2 ^ 63) by reflexivity.
        set (x := Z.max (- 2 ^ 63) (Z.min (2 ^ 63 - 1) (instant due - instant now))).
        split.
        -- intros Hneg. exists due. split; [reflexivity|].
           destruct (Z_lt_le_dec (- nsPerDay) x) as [Hx|Hx]; [|lia].
           exfalso.
           destruct (Z_lt_le_dec x 0) as [Hx0|Hx0].
           ++ assert (Hq : Z.quot x nsPerDay = 0).
              { rewrite <- (Z.opp_involutive x), Z.quot_opp_l by lia.
                rewrite Z.quot_small by lia. reflexivity. }
              lia.
           ++ pose proof (Z.quot_pos x nsPerDay Hx0 Hpos). lia.
        -- intros (due' & Heq & Hle). inversion Heq; subst due'; clear Heq.
           assert (Hx : x <= - nsPerDay) by lia.
           pose proof (Z.quot_le_mono x (- nsPerDay) nsPerDay Hpos Hx) as Hq.
           rewrite Z.quot_opp_l, Z.quot_same in Hq by lia. lia.
  - split; [|split; [|split; [|exact Hup]]].
    + split; [discriminate | intros (due' & Heq & _); discriminate].
    + split; reflexivity.
    + intros days Hdays. discriminate.
Qed.

(** C1 as stated fails: a task due at 2001-09-09T01:46:40Z, looked at
    one hour later, is overdue with [days_until_due = 0]. *)
Lemma C1_overdue_with_zero_days :
  let d := Spec.collected (Unix 1000003600) (Spec.rawTask 7 (Unix 1000000000)) in
  Due (Dates d) = "2001-09-09T01:46:40Z"
  /\ IsOverdue d = true
  /\ DaysUntilDue d = Some 0.
Proof. vm_compute. repeat split. Qed.

(** ** Priority and category of a canonical record (C10) *)

Lemma buildTaskDetail_Priority (now : Time) (task : Task) (project : ProjectData)
    (columnMap swimlaneMap : intMap string) (userMap : intMap UserInfo)
    (baseURL : string) (tt : bool) :
  let d := TasksHandler.buildTaskDetail now task project columnMap swimlaneMap
                                        userMap baseURL tt in
  Priority d = "normal" /\ Category d = "".
Proof.
  unfold TasksHandler.buildTaskDetail.
  destruct (if negb (IsZero (Task_DateDue task))
            then TasksHandler.calculateDueDateInfo now
                   (Format (Task_DateDue task) LayoutStamp)
            else (false, None)); split; reflexivity.
Qed.

(** The score is the sum of what the switch on the priority adds and a
    part that does not look at the priority. *)
Lemma calculateUrgencyScore_priority (task : TaskDetail) (now timeLimit : Time) :
  PrioritiesHandler.calculateUrgencyScore task now timeLimit
  = PrioritiesHandler.calculateUrgencyScore (Spec.withPriority task "low") now timeLimit
    + PrioritiesHandler.priorityBonus (Priority task).
Proof.
  unfold PrioritiesHandler.calculateUrgencyScore, Spec.withPriority;
    cbn [Dates Due IsOverdue DaysUntilDue Assignee Priority].
  change (PrioritiesHandler.priorityBonus "low") with 0.
  repeat match goal with
         | |- context [if ?c then _ else _] => destruct c
         | |- context [match ?c with Some _ => _ | None => _ end] => destruct c
         end; lia.
Qed.

(** C10.  Every record the collector builds has priority ["normal"] and
    an empty category, whatever the upstream task holds; so the urgency
    score takes +5 for the priority tier on every such record, and the
    comparison used to sort by priority orders no two of them. *)
Theorem C10_priority_is_always_normal :
  forall (now : Time) (task : Task) (project : ProjectData)
         (columnMap swimlaneMap : intMap string) (userMap : intMap UserInfo)
         (baseURL : string) (includeTimeTracking : bool),
    let d := TasksHandler.buildTaskDetail now task project columnMap swimlaneMap
                                          userMap baseURL includeTimeTracking in
    Priority d = "normal"
    /\ Category d = ""
    /\ PrioritiesHandler.priorityBonus (Priority d) = 5
    /\ (forall at_ timeLimit,
          PrioritiesHandler.calculateUrgencyScore d at_ timeLimit
          = PrioritiesHandler.calculateUrgencyScore (Spec.withPriority d "low") at_ timeLimit + 5)
    /\ (forall (now' : Time) (task' : Task) (project' : ProjectData)
               (columnMap' swimlaneMap' : intMap string) (userMap' : intMap UserInfo)
               (baseURL' : string) (includeTimeTracking' : bool),
          let d' := TasksHandler.buildTaskDetail now' task' project' columnMap' swimlaneMap'
                                                 userMap' baseURL' includeTimeTracking' in
          TasksHandler.lessPriority d d' = false /\ TasksHandler.lessPriority d' d = false).
Proof.
  intros now task project columnMap swimlaneMap userMap baseURL tt d.
  destruct (buildTaskDetail_Priority now task project columnMap swimlaneMap
                                     userMap baseURL tt) as [Hp Hc].
  fold d in Hp, Hc. clearbody d.
  split; [assumption|]. split; [assumption|].
  split; [rewrite Hp; reflexivity|].
  split.
  - intros at_ timeLimit. rewrite calculateUrgencyScore_priority at 1.
    rewrite Hp. reflexivity.
  - intros now' task' project' columnMap' swimlaneMap' userMap' baseURL' tt' d'.
    destruct (buildTaskDetail_Priority now' task' project' columnMap' swimlaneMap'
                                       userMap' baseURL' tt') as [Hp' _].
    fold d' in Hp'. clearbody d'.
    unfold TasksHandler.lessPriority. rewrite Hp, Hp'. split; reflexivity.
Qed.

(** ** Monotonicity of the urgency score (C7) *)

Section Urgency.
Import PrioritiesHandler Spec.

Lemma Parse_empty (layout : Layout) : Parse layout "" = None.
Proof. destruct layout; reflexivity. Qed.

Ltac split_score :=
  repeat match goal with
         | |- context [if ?c then _ else _] => destruct c eqn:?
         | |- context [match ?c with Some _ => _ | None => _ end] => destruct c eqn:?
         end.

Ltac to_props :=
  repeat match goal with
         | H : (_ <? _) = true |- _ => apply Z.ltb_lt in H
         | H : (_ <? _) = false |- _ => apply Z.ltb_ge in H
         | H : (_ <=? _) = true |- _ => apply Z.leb_le in H
         | H : (_ <=? _) = false |- _ => apply Z.leb_gt in H
         end.

Lemma score_overdue_strict (task : TaskDetail) (now timeLimit : Time) :
  IsOverdue task = false ->
  calculateUrgencyScore task now timeLimit
  < calculateUrgencyScore (overdueBy 10 task) now timeLimit.
Proof.
  intros Hno. unfold calculateUrgencyScore, overdueBy;
    cbn [Dates Due IsOverdue DaysUntilDue Assignee Priority negb andb].
  rewrite Hno. cbn [negb andb]. change (7 <? - - 10) with true. cbv iota.
  split_score; lia.
Qed.

Lemma priorityBonus_mono (p q : Tier) :
  tierRank p <= tierRank q -> priorityBonus (tierName p) <= priorityBonus (tierName q).
Proof. destruct p, q; cbn; lia. Qed.

Lemma score_priority_mono (task : TaskDetail) (now timeLimit : Time) (p q : Tier) :
  tierRank p <= tierRank q ->
  calculateUrgencyScore (withPriority task (tierName p)) now timeLimit
  <= calculateUrgencyScore (withPriority task (tierName q)) now timeLimit.
Proof.
  intros H. rewrite (calculateUrgencyScore_priority (withPriority task (tierName p))).
  rewrite (calculateUrgencyScore_priority (withPriority task (tierName q))).
  pose proof (priorityBonus_mono p q H).
  unfold withPriority at 2 4; cbn [Priority].
  unfold withPriority; cbn [ID Title Description Project Assignee Status Dates
    TaskTimeTracking Priority Category Tags URL IsOverdue DaysUntilDue]. lia.
Qed.

Lemma score_unassigned_mono (task : TaskDetail) (now timeLimit : Time) (u : UserInfo) :
  calculateUrgencyScore (withAssignee task (Some u)) now timeLimit
  <= calculateUrgencyScore (withAssignee task None) now timeLimit.
Proof.
  unfold calculateUrgencyScore, withAssignee;
    cbn [Dates Due IsOverdue DaysUntilDue Assignee Priority].
  split_score; lia.
Qed.

Lemma score_due_date_mono (task : TaskDetail) (now timeLimit : Time) (due : string) :
  calculateUrgencyScore (withDue task "") now timeLimit
  <= calculateUrgencyScore (withDue task due) now timeLimit.
Proof.
  unfold calculateUrgencyScore, withDue;
    cbn [Dates Due IsOverdue DaysUntilDue Assignee Priority].
  change (String.eqb "" "") with true. cbn [negb andb]. rewrite Bool.andb_false_r.
  split_score; lia.
Qed.

Lemma score_closer_mono (task : TaskDetail) (now timeLimit : Time)
    (near far : string) (dNear dFar : Time) :
  IsOverdue task = false ->
  Parse LayoutStamp near = Some dNear ->
  Parse LayoutStamp far = Some dFar ->
  instant dNear <= instant dFar ->
  calculateUrgencyScore (withDue task far) now timeLimit
  <= calculateUrgencyScore (withDue task near) now timeLimit.
Proof.
  intros Hno Hn Hf Hle.
  assert (En : String.eqb near "" = false).
  { destruct (String.eqb_spec near ""); [subst; rewrite Parse_empty in Hn; discriminate|reflexivity]. }
  assert (Ef : String.eqb far "" = false).
  { destruct (String.eqb_spec far ""); [subst; rewrite Parse_empty in Hf; discriminate|reflexivity]. }
  pose proof (wholeDays_mono _ _ (Sub_mono dNear dFar now Hle)) as Hdays.
  unfold calculateUrgencyScore, withDue;
    cbn [Dates Due IsOverdue DaysUntilDue Assignee Priority].
  rewrite Hno, En, Ef, Hn, Hf. cbn [negb andb].
  unfold Before.
  split_score; to_props; lia.
Qed.

Lemma score_more_overdue_mono (task : TaskDetail) (now timeLimit : Time) (less more : Z) :
  - GoInt.MaxInt <= less -> less <= more -> more <= GoInt.MaxInt ->
  calculateUrgencyScore (overdueBy less task) now timeLimit
  <= calculateUrgencyScore (overdueBy more task) now timeLimit.
Proof.
  intros Hlo Hle Hhi. unfold calculateUrgencyScore, overdueBy;
    cbn [Dates Due IsOverdue DaysUntilDue Assignee Priority negb andb].
  rewrite !neg_opp by (unfold GoInt.MinInt, GoInt.MaxInt in *; lia).
  split_score; to_props; lia.
Qed.

(** At [days_until_due = MinInt] the negation wraps around and the
    record scores as one overdue by no whole day. *)
Lemma score_at_MinInt (task : TaskDetail) (now timeLimit : Time) :
  calculateUrgencyScore (overdueBy (- GoInt.MinInt) task) now timeLimit
  = calculateUrgencyScore (overdueBy 0 task) now timeLimit.
Proof.
  unfold calculateUrgencyScore, overdueBy;
    cbn [Dates Due IsOverdue DaysUntilDue Assignee Priority negb andb].
  rewrite Z.opp_involutive, neg_MinInt.
  change (GoInt.neg (- 0)) with 0.
  change (7 <? GoInt.MinInt) with false. change (3 <? GoInt.MinInt) with false.
  change (7 <? 0) with false. change (3 <? 0) with false.
  reflexivity.
Qed.

Lemma built_days_range (built : Time) (task : Task) (project : ProjectData)
    (columnMap swimlaneMap : intMap string) (userMap : intMap UserInfo)
    (baseURL : string) (tt : bool) (days : Z) :
  DaysUntilDue (TasksHandler.buildTaskDetail built task project columnMap swimlaneMap
                                             userMap baseURL tt) = Some days ->
  -106751 <= days <= 106751.
Proof.
  intros H.
  pose proof (buildTaskDetail_flags built task project columnMap swimlaneMap userMap
                                    baseURL tt) as F.
  cbv zeta in F. rewrite H in F.
  destruct (dueDateOf _) as [due|]; [|discriminate].
  injection F as _ ->. apply wholeDays_Sub_range.
Qed.

End Urgency.

(** C7.  The urgency score never goes down under any of its
    contributing conditions taken alone, and being ten days overdue puts
    a task strictly above its otherwise identical self that is not
    overdue: (1) overdue by ten days against not overdue, strictly;
    (2) a higher priority tier; (3) no assignee against an assignee;
    (4) a due date against none; (5) of two readable due dates on a task
    that is not overdue, the nearer one; (6) more days overdue, for day
    counts from [-MaxInt] to [MaxInt]: the score negates
    [days_until_due] as an [int], and the one [int] left out, [MinInt],
    has no negation; (7) the day count of every record the collector
    builds lies within 106751 of zero, well inside that range. *)
Theorem C7_urgency_score_monotone :
  (forall task now timeLimit,
      IsOverdue task = false ->
      PrioritiesHandler.calculateUrgencyScore task now timeLimit
      < PrioritiesHandler.calculateUrgencyScore (Spec.overdueBy 10 task) now timeLimit)
  /\ (forall task now timeLimit p q,
        Spec.tierRank p <= Spec.tierRank q ->
        PrioritiesHandler.calculateUrgencyScore
          (Spec.withPriority task (Spec.tierName p)) now timeLimit
        <= PrioritiesHandler.calculateUrgencyScore
             (Spec.withPriority task (Spec.tierName q)) now timeLimit)
  /\ (forall task now timeLimit u,
        PrioritiesHandler.calculateUrgencyScore
          (Spec.withAssignee task (Some u)) now timeLimit
        <= PrioritiesHandler.calculateUrgencyScore
             (Spec.withAssignee task None) now timeLimit)
  /\ (forall task now timeLimit due,
        PrioritiesHandler.calculateUrgencyScore (Spec.withDue task "") now timeLimit
        <= PrioritiesHandler.calculateUrgencyScore (Spec.withDue task due) now timeLimit)
  /\ (forall task now timeLimit near far dNear dFar,
        IsOverdue task = false ->
        Parse LayoutStamp near = Some dNear ->
        Parse LayoutStamp far = Some dFar ->
        instant dNear <= instant dFar ->
        PrioritiesHandler.calculateUrgencyScore (Spec.withDue task far) now timeLimit
        <= PrioritiesHandler.calculateUrgencyScore (Spec.withDue task near) now timeLimit)
  /\ (forall task now timeLimit fewer more,
        - GoInt.MaxInt <= fewer -> fewer <= more -> more <= GoInt.MaxInt ->
        PrioritiesHandler.calculateUrgencyScore (Spec.overdueBy fewer task) now timeLimit
        <= PrioritiesHandler.calculateUrgencyScore (Spec.overdueBy more task) now timeLimit)
  /\ (forall built task project columnMap swimlaneMap userMap baseURL
             includeTimeTracking days,
        DaysUntilDue (TasksHandler.buildTaskDetail built task project columnMap
                        swimlaneMap userMap baseURL includeTimeTracking) = Some days ->
        - GoInt.MaxInt <= -106751 <= days /\ days <= 106751 <= GoInt.MaxInt).
Proof.
  split; [exact score_overdue_strict|].
  split; [exact score_priority_mono|].
  split; [exact score_unassigned_mono|].
  split; [exact score_due_date_mono|].
  split; [exact score_closer_mono|].
  split; [exact score_more_overdue_mono|].
  intros built task project cm sm um baseURL tt days H.
  pose proof (built_days_range built task project cm sm um baseURL tt days H).
  unfold GoInt.MaxInt. lia.
Qed.

(** ** The two completion predicates (C9) *)

Section Completion.
Import Spec.

Lemma byte_range (c : ascii) : 0 <= byte c < 256.
Proof.
  unfold byte. pose proof (N_ascii_bounded c). lia.
Qed.

Lemma Decode_ascii (c : ascii) (rest : string) :
  byte c < RuneSelf -> DecodeRuneInString (String c rest) = (byte c, 1%nat).
Proof.
  intros H. unfold DecodeRuneInString. apply Z.ltb_lt in H. rewrite H. reflexivity.
Qed.

Lemma Decode_width (c : ascii) (rest : string) :
  (1 <= snd (DecodeRuneInString (String c rest)) <= String.length (String c rest))%nat.
Proof.
  unfold DecodeRuneInString.
  repeat match goal with
         | |- context [if ?b then _ else _] => destruct b
         | |- context [match ?r with EmptyString => _ | String _ _ => _ end] => destruct r
         end; cbn [snd String.length]; lia.
Qed.

Lemma dropStr_length (n : nat) (s : string) :
  (n <= String.length s -> String.length (dropStr n s) = String.length s - n)%nat.
Proof.
  revert s. induction n as [|n IH]; intros s H.
  - destruct s; cbn; lia.
  - destruct s as [|c s]; cbn in *; [lia|]. apply IH. lia.
Qed.

Lemma runesFuel_enough (fuel1 fuel2 : nat) (s : string) :
  (String.length s <= fuel1 -> String.length s <= fuel2 ->
   runesFuel fuel1 s = runesFuel fuel2 s)%nat.
Proof.
  revert fuel2 s. induction fuel1 as [|fuel1 IH]; intros fuel2 s H1 H2.
  - destruct s; cbn in H1; [|lia]. destruct fuel2; reflexivity.
  - destruct fuel2 as [|fuel2].
    + destruct s; cbn in H2; [reflexivity | lia].
    + destruct s as [|c rest]; [reflexivity|].
      cbn [runesFuel].
      pose proof (Decode_width c rest) as Hw.
      destruct (DecodeRuneInString (String c rest)) as [r n]. cbn [snd] in Hw.
      f_equal. pose proof (dropStr_length n (String c rest) ltac:(lia)).
      apply IH; lia.
Qed.

Lemma runes_cons (c : ascii) (rest : string) :
  runes (String c rest)
  = fst (DecodeRuneInString (String c rest))
    :: runes (dropStr (snd (DecodeRuneInString (String c rest))) (String c rest)).
Proof.
  unfold runes at 1. cbn [String.length runesFuel].
  pose proof (Decode_width c rest) as Hw.
  destruct (DecodeRuneInString (String c rest)) as [r n]. cbn [fst snd] in *.
  f_equal. pose proof (dropStr_length n (String c rest) ltac:(lia)).
  apply runesFuel_enough; cbn [String.length] in *; lia.
Qed.

Lemma runes_ascii_cons (c : ascii) (rest : string) :
  byte c < RuneSelf -> runes (String c rest) = byte c :: runes rest.
Proof.
  intros H. rewrite runes_cons, (Decode_ascii c rest H). reflexivity.
Qed.

Ltac bools :=
  repeat match goal with
         | H : (_ && _) = true |- _ => apply andb_prop in H; destruct H
         | H : (_ && _) = false |- _ => apply Bool.andb_false_iff in H; destruct H
         | H : (_ <? _) = true |- _ => apply Z.ltb_lt in H
         | H : (_ <? _) = false |- _ => apply Z.ltb_ge in H
         | H : (_ <=? _) = true |- _ => apply Z.leb_le in H
         | H : (_ <=? _) = false |- _ => apply Z.leb_gt in H
         | H : (_ =? _) = true |- _ => apply Z.eqb_eq in H
         | H : (_ =? _) = false |- _ => apply Z.eqb_neq in H
         end.

Ltac cases :=
  repeat match goal with
         | |- context [if ?b then _ else _] => destruct b eqn:?; bools; try lia
         end.

Lemma SimpleFold_plain (r : Z) :
  r <> 75 -> r <> 107 -> r <> 83 -> r <> 115 -> r < RuneSelf ->
  SimpleFold r = if isUpperASCII r then r + 32
                 else if isLowerASCII r then r - 32 else r.
Proof.
  unfold RuneSelf. intros N1 N2 N3 N4 Hr. unfold SimpleFold.
  rewrite (proj2 (Z.eqb_neq r 75) N1), (proj2 (Z.eqb_neq r 107) N2),
          (proj2 (Z.eqb_neq r 83) N3), (proj2 (Z.eqb_neq r 115) N4),
          (proj2 (Z.eqb_neq r 8490) ltac:(lia)), (proj2 (Z.eqb_neq r 383) ltac:(lia)).
  reflexivity.
Qed.

(** From an ASCII rune whose orbit is itself and its other case, the
    walk comes back to the rune. *)
Lemma orbit_walk_plain (tr sr : Z) :
  tr <> 75 -> tr <> 107 -> tr <> 83 -> tr <> 115 -> tr < RuneSelf -> RuneSelf <= sr ->
  foldUpTo 4 (SimpleFold tr) tr sr = tr.
Proof.
  unfold RuneSelf. intros N1 N2 N3 N4 Htr Hsr.
  rewrite (SimpleFold_plain tr) by (unfold RuneSelf; lia).
  destruct (isUpperASCII tr) eqn:Hu.
  - unfold isUpperASCII in Hu. bools. cbn [foldUpTo].
    rewrite (proj2 (Z.eqb_neq (tr + 32) tr) ltac:(lia)),
            (proj2 (Z.ltb_lt (tr + 32) sr) ltac:(lia)). cbn [negb andb].
    rewrite (SimpleFold_plain (tr + 32)) by (unfold RuneSelf; lia).
    unfold isUpperASCII, isLowerASCII.
    rewrite (proj2 (Z.leb_gt (tr + 32) 90) ltac:(lia)), Bool.andb_false_r.
    rewrite (proj2 (Z.leb_le 97 (tr + 32)) ltac:(lia)),
            (proj2 (Z.leb_le (tr + 32) 122) ltac:(lia)). cbn [andb].
    replace (tr + 32 - 32) with tr by lia.
    rewrite Z.eqb_refl. reflexivity.
  - destruct (isLowerASCII tr) eqn:Hl.
    + unfold isLowerASCII in Hl. bools. cbn [foldUpTo].
      rewrite (proj2 (Z.eqb_neq (tr - 32) tr) ltac:(lia)),
              (proj2 (Z.ltb_lt (tr - 32) sr) ltac:(lia)). cbn [negb andb].
      rewrite (SimpleFold_plain (tr - 32)) by (unfold RuneSelf; lia).
      unfold isUpperASCII.
      rewrite (proj2 (Z.leb_le 65 (tr - 32)) ltac:(lia)),
              (proj2 (Z.leb_le (tr - 32) 90) ltac:(lia)). cbn [andb].
      replace (tr - 32 + 32) with tr by lia.
      rewrite Z.eqb_refl. reflexivity.
    + cbn [foldUpTo]. rewrite Z.eqb_refl. reflexivity.
Qed.

(** One step of the orbit walk on a rune of ASCII. *)
Lemma foldEqual_ascii (sr tr : Z) :
  0 <= tr < RuneSelf ->
  ((tr =? sr) || foldEqual sr tr) = (toLower sr =? toLower tr).
Proof.
  unfold RuneSelf. intros Htr.
  destruct (Z.eqb_spec tr sr) as [->|Hne]; [now rewrite Z.eqb_refl|].
  cbn [orb]. unfold foldEqual, RuneSelf.
  destruct (Z.ltb_spec sr 128) as [Hs|Hs].
  - (* both below RuneSelf: the byte rule *)
    destruct (Z.ltb_spec tr sr).
    + rewrite (proj2 (Z.ltb_lt sr 128) Hs).
      unfold toLower, isUpperASCII.
      destruct (Z.eqb_spec (toLower sr) (toLower tr)) as [E|E];
        unfold toLower, isUpperASCII in E; revert E; cases; intros E; cases.
    + rewrite (proj2 (Z.ltb_lt tr 128) ltac:(lia)).
      unfold toLower, isUpperASCII.
      destruct (Z.eqb_spec (toLower sr) (toLower tr)) as [E|E];
        unfold toLower, isUpperASCII in E; revert E; cases; intros E; cases.
  - (* sr outside ASCII: walk the orbit of tr *)
    rewrite (proj2 (Z.ltb_lt tr sr) ltac:(lia)).
    rewrite (proj2 (Z.ltb_ge sr 128) Hs).
    assert (Hl : toLower tr < 128) by (unfold toLower, isUpperASCII; cases).
    destruct (Z.eqb_spec tr 75) as [->|N1].
    { cbn. unfold toLower, isUpperASCII. cases. }
    destruct (Z.eqb_spec tr 107) as [->|N2].
    { cbn. unfold toLower, isUpperASCII. cases. }
    destruct (Z.eqb_spec tr 83) as [->|N3].
    { cbn. unfold toLower, isUpperASCII. cases. }
    destruct (Z.eqb_spec tr 115) as [->|N4].
    { cbn. unfold toLower, isUpperASCII. cases. }
    assert (Hr : (toLower sr =? toLower tr) = false).
    { apply Z.eqb_neq. unfold toLower, isUpperASCII in *. revert Hl. cases. }
    rewrite Hr. apply Z.eqb_neq.
    rewrite (orbit_walk_plain tr sr) by (unfold RuneSelf; lia). lia.
Qed.

Lemma isASCII_cons (c : ascii) (t : string) :
  isASCII (String c t) = true -> 0 <= byte c < RuneSelf /\ isASCII t = true.
Proof.
  unfold isASCII. cbn [list_ascii_of_string forallb]. intros H.
  apply andb_prop in H. destruct H as [H1 H2]. apply Z.ltb_lt in H1.
  pose proof (byte_range c). split; [lia | assumption].
Qed.

Lemma runes_nil_inv (s : string) : runes s = [] -> s = "".
Proof.
  destruct s as [|c rest]; [reflexivity|]. rewrite runes_cons. discriminate.
Qed.

(** The rune loop of [EqualFold] against an ASCII word. *)
Lemma equalFoldRunes_spec (fuel : nat) (s t : string) :
  (String.length s < fuel)%nat -> isASCII t = true ->
  (equalFoldRunes fuel s t = true <-> caseInsensitiveEq s t).
Proof.
  unfold caseInsensitiveEq.
  revert s t. induction fuel as [|fuel IH]; intros s t Hf Ht; [lia|].
  cbn [equalFoldRunes]. destruct s as [|sc srest].
  - destruct t as [|tc trest]; cbn [String.length].
    + split; reflexivity.
    + apply isASCII_cons in Ht. destruct Ht as [Htc _].
      rewrite (runes_ascii_cons tc trest (proj2 Htc)). split; discriminate.
  - rewrite runes_cons.
    pose proof (Decode_width sc srest) as Hw.
    destruct (DecodeRuneInString (String sc srest)) as [sr n]. cbn [fst snd] in *.
    destruct t as [|tc trest].
    + split; discriminate.
    + apply isASCII_cons in Ht. destruct Ht as [Htc Ht].
      rewrite (proj2 (Z.ltb_lt (byte tc) RuneSelf) (proj2 Htc)).
      rewrite (runes_ascii_cons tc trest (proj2 Htc)). cbn [map].
      rewrite (foldEqual_ascii sr (byte tc) Htc).
      pose proof (dropStr_length n (String sc srest) ltac:(lia)) as Hd.
      destruct (Z.eqb_spec (toLower sr) (toLower (byte tc))) as [E|E].
      * rewrite IH by (cbn [String.length] in *; lia || assumption).
        rewrite E. split; [intros ->; reflexivity | intros H; injection H; auto].
      * split; [discriminate | intros H; injection H; intros; contradiction].
Qed.

(** [strings.EqualFold] against an ASCII word is case-insensitive
    equality. *)
Lemma EqualFold_spec (s t : string) :
  isASCII t = true -> (EqualFold s t = true <-> caseInsensitiveEq s t).
Proof.
  revert t. induction s as [|sc srest IH]; intros t Ht.
  - destruct t as [|tc trest]; cbn [EqualFold String.length].
    + split; reflexivity.
    + apply isASCII_cons in Ht. destruct Ht as [Htc _]. unfold caseInsensitiveEq.
      rewrite (runes_ascii_cons tc trest (proj2 Htc)). split; discriminate.
  - destruct t as [|tc trest].
    + cbn [EqualFold String.length]. unfold caseInsensitiveEq. rewrite runes_cons.
      split; discriminate.
    + cbn [EqualFold].
      pose proof (isASCII_cons tc trest Ht) as [Htc Ht'].
      pose proof (byte_range sc) as Hsc.
      destruct (Z.leb_spec RuneSelf (Z.lor (byte sc) (byte tc))) as [Hbig|Hsmall].
      * apply equalFoldRunes_spec; [lia | assumption].
      * assert (Hs : byte sc < RuneSelf).
        { unfold RuneSelf in *.
          destruct (Z_lt_le_dec (byte sc) 128) as [|Hge]; [assumption|exfalso].
          assert (Hb : Z.testbit (byte sc) 7 = true).
          { apply Z.testbit_true; [lia|]. change (2 ^ 7) with 128.
            assert (Hq : byte sc / 128 = 1)
              by (symmetry; apply Z.div_unique with (r := byte sc - 128); lia).
            rewrite Hq. reflexivity. }
          assert (Hb' : Z.testbit (Z.lor (byte sc) (byte tc)) 7 = true)
            by (rewrite Z.lor_spec, Hb; reflexivity).
          apply Z.testbit_true in Hb'; [|lia]. change (2 ^ 7) with 128 in Hb'.
          assert (0 <= Z.lor (byte sc) (byte tc)) by (apply Z.lor_nonneg; lia).
          rewrite Z.div_small in Hb' by lia. discriminate. }
        unfold caseInsensitiveEq.
        rewrite (runes_ascii_cons sc srest Hs), (runes_ascii_cons tc trest (proj2 Htc)).
        cbn [map].
        pose proof (foldEqual_ascii (byte sc) (byte tc) Htc) as Hstep.
        unfold foldEqual in Hstep.
        assert (Hif : (let '(sr, tr) := if byte tc <? byte sc then (byte tc, byte sc)
                                         else (byte sc, byte tc) in
                       if tr <? RuneSelf then isUpperASCII sr && (tr =? sr + 32)
                       else foldUpTo 4 (SimpleFold sr) sr tr =? tr)
                      = (let '(sr, tr) := if byte tc <? byte sc then (byte tc, byte sc)
                                          else (byte sc, byte tc) in
                         isUpperASCII sr && (tr =? sr + 32))).
        { destruct (byte tc <? byte sc);
            [rewrite (proj2 (Z.ltb_lt (byte sc) RuneSelf) Hs)
            |rewrite (proj2 (Z.ltb_lt (byte tc) RuneSelf) (proj2 Htc))]; reflexivity. }
        rewrite Hif in Hstep. clear Hif.
        destruct (Z.eqb_spec (byte tc) (byte sc)) as [E|E].
        -- cbn [orb] in Hstep. symmetry in Hstep. apply Z.eqb_eq in Hstep.
           rewrite (IH trest Ht'). unfold caseInsensitiveEq. rewrite Hstep.
           split; [intros ->; reflexivity | intros H; injection H; auto].
        -- cbn [orb] in Hstep.
           destruct (byte tc <? byte sc);
             (destruct (_ && _);
              [ symmetry in Hstep; apply Z.eqb_eq in Hstep;
                rewrite (IH trest Ht'); unfold caseInsensitiveEq; rewrite Hstep;
                split; [intros ->; reflexivity | intros H; injection H; auto]
              | symmetry in Hstep; apply Z.eqb_neq in Hstep;
                split; [discriminate | intros H; injection H; intros; contradiction] ]).
Qed.

Lemma caseInsensitiveEq_refl (s : string) : caseInsensitiveEq s s.
Proof. reflexivity. Qed.

Lemma vocabulary_ascii (c : string) : In c vocabulary -> isASCII c = true.
Proof.
  intros H. cbn in H. repeat destruct H as [<-|H]; try reflexivity. contradiction.
Qed.

Lemma collector_completed_iff (task : TaskDetail) :
  TasksHandler.isTaskCompleted task = true <->
  exists c, In c vocabulary /\ caseInsensitiveEq (Column (Status task)) c.
Proof.
  unfold TasksHandler.isTaskCompleted. rewrite existsb_exists.
  change TasksHandler.completedColumns with vocabulary.
  split; intros (c & Hin & H); exists c; (split; [assumption|]);
    apply (EqualFold_spec _ c (vocabulary_ascii c Hin)); assumption.
Qed.

Lemma trend_completed_iff (task : TaskDetail) :
  AnalyticsHandler.isTaskCompleted task = true <-> In (Column (Status task)) vocabulary.
Proof.
  unfold AnalyticsHandler.isTaskCompleted. rewrite existsb_exists.
  change AnalyticsHandler.completedColumns with vocabulary.
  split.
  - intros (c & Hin & H). apply String.eqb_eq in H. subst c. assumption.
  - intros H. exists (Column (Status task)). split; [assumption | apply String.eqb_refl].
Qed.

End Completion.

(** C9.  The trend analyzer counts a task completed exactly when its
    column name is one of Done, Completed, Closed, Finished; the
    collector counts it completed exactly when the column name equals
    one of them case-insensitively.  The two agree on the names as
    written (and whatever the trend analyzer counts the collector
    counts), and differ on a case variant such as "done". *)
Theorem C9_completion_predicates :
  (forall task,
      AnalyticsHandler.isTaskCompleted task = true <->
      In (Column (Status task)) Spec.vocabulary)
  /\ (forall task,
        TasksHandler.isTaskCompleted task = true <->
        exists c, In c Spec.vocabulary /\ Spec.caseInsensitiveEq (Column (Status task)) c)
  /\ (forall task,
        In (Column (Status task)) Spec.vocabulary ->
        AnalyticsHandler.isTaskCompleted task = true
        /\ TasksHandler.isTaskCompleted task = true)
  /\ (forall task,
        AnalyticsHandler.isTaskCompleted task = true ->
        TasksHandler.isTaskCompleted task = true)
  /\ (forall task,
        Column (Status task) = "done" ->
        TasksHandler.isTaskCompleted task = true
        /\ AnalyticsHandler.isTaskCompleted task = false).
Proof.
  assert (Hsub : forall task, In (Column (Status task)) Spec.vocabulary ->
                              TasksHandler.isTaskCompleted task = true).
  { intros task H. apply collector_completed_iff.
    exists (Column (Status task)). split; [assumption | reflexivity]. }
  split; [exact trend_completed_iff|].
  split; [exact collector_completed_iff|].
  split.
  { intros task H. split; [apply trend_completed_iff; assumption | apply Hsub; assumption]. }
  split.
  { intros task H. apply Hsub, trend_completed_iff, H. }
  intros task H.
  unfold TasksHandler.isTaskCompleted, AnalyticsHandler.isTaskCompleted.
  rewrite H. split; reflexivity.
Qed.
(** ** The byte order of strings *)

Section StringOrder.

Lemma ascii_compare_refl (a : ascii) : Ascii.compare a a = Eq.
Proof. unfold Ascii.compare. apply N.compare_refl. Qed.

Lemma string_compare_refl (s : string) : String.compare s s = Eq.
Proof.
  induction s as [|a s IH]; [reflexivity|]. cbn. now rewrite ascii_compare_refl.
Qed.

Lemma ascii_compare_trans (c : comparison) (x y z : ascii) :
  Ascii.compare x y = c -> Ascii.compare y z = c -> Ascii.compare x z = c.
Proof.
  unfold Ascii.compare. destruct c; intros H1 H2.
  - apply N.compare_eq_iff in H1, H2. apply N.compare_eq_iff. congruence.
  - apply N.compare_lt_iff in H1. apply N.compare_lt_iff in H2.
    apply N.compare_lt_iff. eapply N.lt_trans; eassumption.
  - apply N.compare_gt_iff in H1. apply N.compare_gt_iff in H2.
    apply N.compare_gt_iff. eapply N.lt_trans; eassumption.
Qed.

Lemma string_compare_trans (c : comparison) :
  forall s t u : string,
    String.compare s t = c -> String.compare t u = c -> String.compare s u = c.
Proof.
  induction s as [|a s IH]; intros [|b t] [|d u]; cbn; intros H1 H2;
    try congruence.
  destruct (Ascii.compare a b) eqn:Eab.
  - apply Ascii.compare_eq_iff in Eab. subst b.
    destruct (Ascii.compare a d) eqn:Ead; try congruence. eapply IH; eauto.
  - subst c. destruct (Ascii.compare b d) eqn:Ebd; try discriminate.
    + apply Ascii.compare_eq_iff in Ebd. subst d. now rewrite Eab.
    + now rewrite (ascii_compare_trans Lt a b d Eab Ebd).
  - subst c. destruct (Ascii.compare b d) eqn:Ebd; try discriminate.
    + apply Ascii.compare_eq_iff in Ebd. subst d. now rewrite Eab.
    + now rewrite (ascii_compare_trans Gt a b d Eab Ebd).
Qed.

Lemma lt_irrefl (s : string) : GoString.lt s s = false.
Proof. unfold GoString.lt, String.ltb. now rewrite string_compare_refl. Qed.

Lemma lt_trans (s t u : string) :
  GoString.lt s t = true -> GoString.lt t u = true -> GoString.lt s u = true.
Proof.
  unfold GoString.lt, String.ltb. intros H1 H2.
  destruct (String.compare s t) eqn:E1; try discriminate.
  destruct (String.compare t u) eqn:E2; try discriminate.
  now rewrite (string_compare_trans Lt s t u E1 E2).
Qed.

Lemma lt_negtrans (s t u : string) :
  GoString.lt s t = false -> GoString.lt t u = false -> GoString.lt s u = false.
Proof.
  unfold GoString.lt, String.ltb. intros H1 H2.
  destruct (String.compare s t) eqn:E1; try discriminate;
    destruct (String.compare t u) eqn:E2; try discriminate.
  - apply String.compare_eq_iff in E1, E2. subst. now rewrite string_compare_refl.
  - apply String.compare_eq_iff in E1. subst. now rewrite E2.
  - apply String.compare_eq_iff in E2. subst. now rewrite E1.
  - now rewrite (string_compare_trans Gt s t u E1 E2).
Qed.

(** [s <= t] is "not [t < s]". *)
Lemma leb_not_lt (s t : string) : String.leb s t = negb (GoString.lt t s).
Proof.
  unfold GoString.lt, String.ltb, String.leb. rewrite (String.compare_antisym t s).
  destruct (String.compare s t); reflexivity.
Qed.

End StringOrder.

(** ** Stamps sort as the instants they show *)

Section StampOrder.
Import GoString GoTime GoTimeInv.

Lemma digitChar_compare (i j : Z) :
  0 <= i <= 9 -> 0 <= j <= 9 ->
  Ascii.compare (digitChar i) (digitChar j) = (i ?= j).
Proof.
  intros Hi Hj. unfold Ascii.compare, digitChar, chr.
  rewrite !N_ascii_embedding by lia.
  rewrite Z2N.inj_compare by lia.
  apply Z.add_compare_mono_l.
Qed.

Lemma lex_compare (base hi1 lo1 hi2 lo2 : Z) :
  0 <= lo1 < base -> 0 <= lo2 < base ->
  (hi1 * base + lo1 ?= hi2 * base + lo2)
  = match hi1 ?= hi2 with Eq => lo1 ?= lo2 | c => c end.
Proof.
  intros H1 H2.
  destruct (Z.compare_spec hi1 hi2) as [E|L|G].
  - subst hi2. destruct (Z.compare_spec lo1 lo2);
      [apply Z.compare_eq_iff | apply Z.compare_lt_iff | apply Z.compare_gt_iff]; lia.
  - apply Z.compare_lt_iff. nia.
  - apply Z.compare_gt_iff. nia.
Qed.

Lemma twoDigits_compare (a b : Z) (r1 r2 : string) :
  0 <= a < 100 -> 0 <= b < 100 ->
  String.compare (twoDigits a r1) (twoDigits b r2)
  = match a ?= b with Eq => String.compare r1 r2 | c => c end.
Proof.
  intros Ha Hb. unfold twoDigits. cbn [String.compare].
  rewrite !digitChar_compare by (Z.to_euclidean_division_equations; lia).
  rewrite (Z.div_mod a 10) at 3 by lia. rewrite (Z.div_mod b 10) at 3 by lia.
  rewrite (Z.mul_comm 10 (a / 10)), (Z.mul_comm 10 (b / 10)).
  rewrite lex_compare by (Z.to_euclidean_division_equations; lia).
  destruct (a / 10 ?= b / 10); [|reflexivity|reflexivity].
  destruct (a mod 10 ?= b mod 10); reflexivity.
Qed.

Lemma fourDigits_compare (a b : Z) (r1 r2 : string) :
  0 <= a < 10000 -> 0 <= b < 10000 ->
  String.compare (fourDigits a r1) (fourDigits b r2)
  = match a ?= b with Eq => String.compare r1 r2 | c => c end.
Proof.
  intros Ha Hb.
  assert (Split : forall x, 0 <= x < 10000 ->
            fourDigits x = fun r => twoDigits (x / 100) (twoDigits (x mod 100) r)).
  { intros x Hx. unfold fourDigits, twoDigits.
    replace (x / 100 / 10) with (x / 1000)
      by (Z.to_euclidean_division_equations; lia).
    replace (x mod 100 / 10) with (x / 10 mod 10)
      by (Z.to_euclidean_division_equations; lia).
    replace (x mod 100 mod 10) with (x mod 10)
      by (Z.to_euclidean_division_equations; lia).
    reflexivity. }
  rewrite (Split a Ha), (Split b Hb). cbv beta.
  rewrite twoDigits_compare by (Z.to_euclidean_division_equations; lia).
  rewrite twoDigits_compare by (Z.to_euclidean_division_equations; lia).
  rewrite (Z.div_mod a 100) at 3 by lia. rewrite (Z.div_mod b 100) at 3 by lia.
  rewrite (Z.mul_comm 100 (a / 100)), (Z.mul_comm 100 (b / 100)).
  rewrite lex_compare by (Z.to_euclidean_division_equations; lia).
  destruct (a / 100 ?= b / 100); [|reflexivity|reflexivity].
  destruct (a mod 100 ?= b mod 100); reflexivity.
Qed.

Lemma separator_compare (c : ascii) (r1 r2 : string) :
  String.compare (String c r1) (String c r2) = String.compare r1 r2.
Proof. cbn [String.compare]. rewrite ascii_compare_refl. reflexivity. Qed.

(** Two stamps compare as their fields do. *)
Lemma Format_compare (t1 t2 : Time) :
  fourDigitYear t1 -> fourDigitYear t2 ->
  String.compare (Format t1 LayoutStamp) (Format t2 LayoutStamp)
  = (stampKey t1 ?= stampKey t2).
Proof.
  intros H1 H2.
  pose proof (GoTimeFacts.Format_stamp t1 H1) as F1.
  pose proof (GoTimeFacts.Format_stamp t2 H2) as F2.
  pose proof (GoTimeFacts.civilFromDays_valid (wallSec t1 / secondsPerDay)) as V1.
  pose proof (GoTimeFacts.civilFromDays_valid (wallSec t2 / secondsPerDay)) as V2.
  pose proof (GoTimeFacts.civilFromDays_year _ (GoTimeFacts.fourDigitYear_day t1 H1)) as Y1.
  pose proof (GoTimeFacts.civilFromDays_year _ (GoTimeFacts.fourDigitYear_day t2 H2)) as Y2.
  pose proof (GoTimeFacts.Clock_of_spec t1) as C1.
  pose proof (GoTimeFacts.Clock_of_spec t2) as C2.
  unfold stampKey, Date_of in *.
  destruct (civilFromDays (wallSec t1 / secondsPerDay)) as [[y1 m1] d1].
  destruct (civilFromDays (wallSec t2 / secondsPerDay)) as [[y2 m2] d2].
  destruct (Clock_of t1) as [[hh1 mm1] ss1].
  destruct (Clock_of t2) as [[hh2 mm2] ss2].
  destruct V1 as (Hm1 & Hd1 & _). destruct V2 as (Hm2 & Hd2 & _).
  destruct C1 as (Hh1 & Hmi1 & Hs1 & _). destruct C2 as (Hh2 & Hmi2 & Hs2 & _).
  pose proof (GoTimeFacts.daysIn_bound m1 y1).
  pose proof (GoTimeFacts.daysIn_bound m2 y2).
  rewrite F1, F2. cbn [dateKey].
  rewrite fourDigits_compare by lia. rewrite separator_compare.
  rewrite twoDigits_compare by lia. rewrite separator_compare.
  rewrite twoDigits_compare by lia. rewrite separator_compare.
  rewrite twoDigits_compare by lia. rewrite separator_compare.
  rewrite twoDigits_compare by lia. rewrite separator_compare.
  rewrite twoDigits_compare by lia. rewrite string_compare_refl.
  replace ((y1 * 10000 + m1 * 100 + d1) * 1000000 + hh1 * 10000 + mm1 * 100 + ss1)
    with (y1 * 10000000000 + ((((m1 * 100 + d1) * 100 + hh1) * 100 + mm1) * 100 + ss1))
    by lia.
  replace ((y2 * 10000 + m2 * 100 + d2) * 1000000 + hh2 * 10000 + mm2 * 100 + ss2)
    with (y2 * 10000000000 + ((((m2 * 100 + d2) * 100 + hh2) * 100 + mm2) * 100 + ss2))
    by lia.
  rewrite lex_compare by lia.
  destruct (y1 ?= y2); [|reflexivity|reflexivity].
  rewrite lex_compare by lia.
  rewrite lex_compare by lia.
  rewrite lex_compare by lia.
  rewrite lex_compare by lia.
  destruct (m1 ?= m2); [|reflexivity|reflexivity].
  destruct (d1 ?= d2); [|reflexivity|reflexivity].
  destruct (hh1 ?= hh2); [|reflexivity|reflexivity].
  destruct (mm1 ?= mm2); [|reflexivity|reflexivity].
  destruct (ss1 ?= ss2); reflexivity.
Qed.

(** A later wall clock gives a greater stamp. *)
Lemma stampKey_mono (t1 t2 : Time) :
  wallSec t1 < wallSec t2 -> stampKey t1 < stampKey t2.
Proof.
  intros Hlt.
  pose proof (GoTimeFacts.Clock_of_spec t1) as C1.
  pose proof (GoTimeFacts.Clock_of_spec t2) as C2.
  unfold stampKey, Date_of.
  destruct (Clock_of t1) as [[hh1 mm1] ss1].
  destruct (Clock_of t2) as [[hh2 mm2] ss2].
  destruct C1 as (Hh1 & Hmi1 & Hs1 & Hw1). destruct C2 as (Hh2 & Hmi2 & Hs2 & Hw2).
  unfold secondsPerDay in *.
  destruct (Z.lt_trichotomy (wallSec t1 / 86400) (wallSec t2 / 86400)) as [L|[E|G]].
  - pose proof (GoTimeFacts.civilFromDays_mono _ _ L). lia.
  - rewrite E in *.
    destruct (Z.lt_trichotomy hh1 hh2) as [Lh|[Eh|Gh]]; [lia| |lia].
    destruct (Z.lt_trichotomy mm1 mm2) as [Lm|[Em|Gm]]; lia.
  - lia.
Qed.

(** For stamps with a four-digit year the byte order of the text is the
    order of the wall clocks written. *)
Lemma Format_lt (t1 t2 : Time) :
  fourDigitYear t1 -> fourDigitYear t2 ->
  GoString.lt (Format t1 LayoutStamp) (Format t2 LayoutStamp)
  = (wallSec t1 <? wallSec t2).
Proof.
  intros H1 H2. unfold GoString.lt, String.ltb.
  rewrite Format_compare by assumption.
  destruct (Z.ltb_spec (wallSec t1) (wallSec t2)) as [L|G].
  - apply stampKey_mono in L. apply Z.compare_lt_iff in L. rewrite L. reflexivity.
  - destruct (Z.eq_dec (wallSec t1) (wallSec t2)) as [E|N].
    + assert (K : stampKey t1 = stampKey t2).
      { unfold stampKey, Date_of, Clock_of. rewrite E. reflexivity. }
      rewrite K, Z.compare_refl. reflexivity.
    + assert (L : wallSec t2 < wallSec t1) by lia.
      apply stampKey_mono in L. apply Z.compare_gt_iff in L. rewrite L. reflexivity.
Qed.

End StampOrder.

(** ** The comparisons handed to [sort.Slice] are strict weak orders *)

Section Comparisons.
Import TasksHandler PrioritiesHandler.

Lemma lessDueDate_irrefl (x : TaskDetail) : lessDueDate x x = false.
Proof.
  unfold lessDueDate. destruct (String.eqb (Due (Dates x)) ""); cbn [andb]; [reflexivity|].
  apply lt_irrefl.
Qed.

Lemma lessDueDate_trans (x y z : TaskDetail) :
  lessDueDate x y = true -> lessDueDate y z = true -> lessDueDate x z = true.
Proof.
  unfold lessDueDate.
  destruct (String.eqb (Due (Dates x)) ""), (String.eqb (Due (Dates y)) ""),
           (String.eqb (Due (Dates z)) ""); cbn [andb]; try congruence.
  apply lt_trans.
Qed.

Lemma lessDueDate_negtrans (x y z : TaskDetail) :
  lessDueDate x y = false -> lessDueDate y z = false -> lessDueDate x z = false.
Proof.
  unfold lessDueDate.
  destruct (String.eqb (Due (Dates x)) ""), (String.eqb (Due (Dates y)) ""),
           (String.eqb (Due (Dates z)) ""); cbn [andb]; try congruence.
  apply lt_negtrans.
Qed.

Lemma lessUrgency_irrefl (x : UrgentItem) : lessUrgency x x = false.
Proof. unfold lessUrgency. apply Z.ltb_irrefl. Qed.

Lemma lessUrgency_trans (x y z : UrgentItem) :
  lessUrgency x y = true -> lessUrgency y z = true -> lessUrgency x z = true.
Proof. unfold lessUrgency. rewrite !Z.ltb_lt. lia. Qed.

Lemma lessUrgency_negtrans (x y z : UrgentItem) :
  lessUrgency x y = false -> lessUrgency y z = false -> lessUrgency x z = false.
Proof. unfold lessUrgency. rewrite !Z.ltb_ge. lia. Qed.

Lemma sortTasks_perm (tasks : list TaskDetail) (sortBy : string) :
  Permutation (sortTasks tasks sortBy) tasks.
Proof.
  unfold sortTasks.
  destruct (String.eqb sortBy "due_date"); [apply GoSortFacts.Slice_perm|].
  destruct (String.eqb sortBy "priority"); [apply GoSortFacts.Slice_perm|].
  destruct (String.eqb sortBy "created"); apply GoSortFacts.Slice_perm.
Qed.

Lemma sortTasks_length (tasks : list TaskDetail) (sortBy : string) :
  List.length (sortTasks tasks sortBy) = List.length tasks.
Proof. apply Permutation_length, sortTasks_perm. Qed.

Lemma sortTasks_due_date_sorted (tasks : list TaskDetail) :
  StronglySorted (fun u v => lessDueDate v u = false) (sortTasks tasks "due_date").
Proof.
  unfold sortTasks. cbn [String.eqb]. rewrite ?Ascii.eqb_refl.
  change (String.eqb "due_date" "due_date") with true. cbv iota.
  apply GoSortFacts.Slice_sorted;
    [exact lessDueDate_irrefl | exact lessDueDate_trans | exact lessDueDate_negtrans].
Qed.

Lemma sortTasks_due_date_stable_short (tasks : list TaskDetail) :
  (List.length tasks <= 12)%nat ->
  Spec.keepsOrderOfEquals tasks (sortTasks tasks "due_date").
Proof.
  intros Hlen. unfold sortTasks.
  change (String.eqb "due_date" "due_date") with true. cbv iota.
  apply GoSortFacts.Slice_stable_short; [exact lessDueDate_negtrans | exact Hlen].
Qed.

End Comparisons.

(** ** Sorting by due date (C5) *)

Section DueDateOrder.
Import TasksHandler Spec.

Lemma sorted_dated_first :
  forall (out : list TaskDetail),
    StronglySorted (fun u v => lessDueDate v u = false) out ->
    exists dated undated,
      out = dated ++ undated
      /\ Forall (fun t => Due (Dates t) <> "") dated
      /\ Forall (fun t => Due (Dates t) = "") undated
      /\ StronglySorted
           (fun x y => String.leb (Due (Dates x)) (Due (Dates y)) = true) dated.
Proof.
  induction 1 as [|h t Ht IH Hall].
  - exists [], []. repeat split; constructor.
  - destruct (String.eqb_spec (Due (Dates h)) "") as [Eh|Nh].
    + exists [], (h :: t). repeat split; try constructor; auto.
      apply Forall_forall. intros v Hv.
      rewrite Forall_forall in Hall. specialize (Hall v Hv).
      unfold lessDueDate in Hall. rewrite Eh in Hall. cbn [String.eqb] in Hall.
      destruct (String.eqb_spec (Due (Dates v)) ""); [assumption|].
      cbn [andb] in Hall. discriminate.
    + destruct IH as (dated & undated & -> & Hd & Hu & Hs).
      exists (h :: dated), undated. repeat split; auto.
      constructor; [assumption|].
      apply Forall_forall. intros v Hv.
      rewrite Forall_forall in Hall, Hd.
      specialize (Hall v (in_or_app _ _ _ (or_introl Hv))). specialize (Hd v Hv).
      unfold lessDueDate in Hall.
      destruct (String.eqb_spec (Due (Dates v)) ""); [contradiction|].
      destruct (String.eqb_spec (Due (Dates h)) ""); [contradiction|].
      cbn [andb] in Hall. rewrite leb_not_lt, Hall. reflexivity.
Qed.

Lemma sortTasks_unknown_key (tasks : list TaskDetail) (sortBy : string) :
  sortBy <> "priority" -> sortBy <> "created" ->
  sortTasks tasks sortBy = sortTasks tasks "due_date".
Proof.
  intros Np Nc. unfold sortTasks.
  destruct (String.eqb_spec sortBy "priority"); [contradiction|].
  destruct (String.eqb_spec sortBy "created"); [contradiction|].
  change (String.eqb "due_date" "due_date") with true.
  destruct (String.eqb sortBy "due_date"); reflexivity.
Qed.

Lemma dueDateOf_stamped (x : TaskDetail) (t : Time) :
  GoTimeInv.fourDigitYear t -> Due (Dates x) = Format t LayoutStamp ->
  dueDateOf x = Some (Unix (wallSec t)).
Proof.
  intros Hy E. unfold dueDateOf. rewrite E.
  pose proof (GoTimeFacts.Parse_Format_stamp _ Hy) as P.
  destruct (String.eqb_spec (Format t LayoutStamp) "") as [E0|N].
  - rewrite E0 in P. discriminate P.
  - rewrite P. reflexivity.
Qed.

(** A year of five digits sorts by its text: 10000 before 1970. *)
Example five_digit_year_sorts_first :
  lessDueDate (plainTask 1 (Format (Unix 253402300800) LayoutStamp))
              (plainTask 2 (Format (Unix 0) LayoutStamp)) = true.
Proof. vm_compute. reflexivity. Qed.

(** Due fields the collector wrote order as the due dates they show. *)
Lemma stamped_due_order (x y : TaskDetail) (dx dy : Time) :
  stampedDue x -> stampedDue y ->
  dueDateOf x = Some dx -> dueDateOf y = Some dy ->
  (String.leb (Due (Dates x)) (Due (Dates y)) = true <-> instant dx <= instant dy).
Proof.
  intros (t1 & Y1 & E1) (t2 & Y2 & E2) Dx Dy.
  rewrite (dueDateOf_stamped x t1 Y1 E1) in Dx.
  rewrite (dueDateOf_stamped y t2 Y2 E2) in Dy.
  injection Dx as <-. injection Dy as <-.
  rewrite leb_not_lt, E1, E2, Format_lt by assumption.
  unfold instant, Unix, nsPerSecond. cbn [unixSec nsec].
  destruct (Z.ltb_spec (wallSec t2) (wallSec t1)); cbn [negb];
    split; intros; try lia; try discriminate; reflexivity.
Qed.

End DueDateOrder.

(** C5, as amended.  Sorting by ["due_date"] returns the same tasks with
    every task that has a due date ahead of every task that has none,
    the dated ones in ascending order of their due field, which for due
    fields the collector wrote (four-digit years) is the order of the
    due dates in time; tasks that compare equal keep their order when
    there are at most twelve tasks (beyond that their order is left to
    [sort.Slice]); a sort key that is neither ["priority"] nor
    ["created"] gives the same result. *)
Theorem C5_due_date_ordering :
  forall (tasks : list TaskDetail),
    let out := TasksHandler.sortTasks tasks "due_date" in
    Permutation out tasks
    /\ (exists dated undated,
          out = dated ++ undated
          /\ Forall (fun t => Due (Dates t) <> "") dated
          /\ Forall (fun t => Due (Dates t) = "") undated
          /\ StronglySorted
               (fun x y => String.leb (Due (Dates x)) (Due (Dates y)) = true) dated)
    /\ (forall x y dx dy,
          Spec.stampedDue x -> Spec.stampedDue y ->
          Spec.dueDateOf x = Some dx -> Spec.dueDateOf y = Some dy ->
          (String.leb (Due (Dates x)) (Due (Dates y)) = true
           <-> instant dx <= instant dy))
    /\ ((List.length tasks <= 12)%nat -> Spec.keepsOrderOfEquals tasks out)
    /\ (forall sortBy, sortBy <> "priority" -> sortBy <> "created" ->
          TasksHandler.sortTasks tasks sortBy = out).
Proof.
  intros tasks out. split; [apply sortTasks_perm|]. split; [|split; [|split]].
  - apply sorted_dated_first, sortTasks_due_date_sorted.
  - intros x y dx dy. apply stamped_due_order.
  - apply sortTasks_due_date_stable_short.
  - intros sortBy Np Nc. apply sortTasks_unknown_key; assumption.
Qed.

(** C5 as stated fails: the sort is not stable.  Twelve tasks without a
    due date (ids 0 to 11) followed by a dated one (id 12) come back
    with the dated task first and the others in the order 6, 2, 3, 4, 5,
    0, 7, 8, 9, 10, 11, 1. *)
Lemma C5_sort_is_not_stable :
  map ID (TasksHandler.sortTasks Spec.twelveUndatedThenOneDated "due_date")
  = ["12"; "6"; "2"; "3"; "4"; "5"; "0"; "7"; "8"; "9"; "10"; "11"; "1"]
  /\ ~ Spec.keepsOrderOfEquals
         Spec.twelveUndatedThenOneDated
         (TasksHandler.sortTasks Spec.twelveUndatedThenOneDated "due_date").
Proof.
  split; [vm_compute; reflexivity|].
  intros H. specialize (H (Spec.plainTask 0 "")).
  apply (f_equal (map ID)) in H. vm_compute in H. discriminate.
Qed.

(** ** Urgent items (C6) *)

Section UrgentItems.
Import PrioritiesHandler.

Lemma StronglySorted_app_inv (T : Type) (R : T -> T -> Prop) (l1 l2 : list T) :
  StronglySorted R (l1 ++ l2) ->
  StronglySorted R l1 /\ StronglySorted R l2
  /\ (forall x y, In x l1 -> In y l2 -> R x y).
Proof.
  induction l1 as [|h t IH]; cbn [app]; intros H.
  - repeat split; [constructor | assumption | intros x y []].
  - inversion H as [|h' t' Ht Hall]; subst.
    destruct (IH Ht) as (H1 & H2 & H3).
    rewrite Forall_forall in Hall.
    repeat split; auto.
    + constructor; [assumption|]. apply Forall_forall. intros y Hy.
      apply Hall, in_or_app. now left.
    + intros x y [<-|Hx] Hy; [apply Hall, in_or_app; now right | now apply H3].
Qed.

Lemma StronglySorted_weaken (T : Type) (R R' : T -> T -> Prop) (l : list T) :
  (forall x y, R x y -> R' x y) -> StronglySorted R l -> StronglySorted R' l.
Proof.
  intros HR. induction 1; constructor; auto.
  eapply Forall_impl; [|eassumption]. auto.
Qed.

Lemma urgent_sorted (items : list UrgentItem) :
  StronglySorted (fun x y => UrgencyScore y <= UrgencyScore x)
                 (GoSort.Slice lessUrgency items).
Proof.
  apply (StronglySorted_weaken _ (fun u v => lessUrgency v u = false)).
  - intros x y H. unfold lessUrgency in H. now apply Z.ltb_ge in H.
  - apply GoSortFacts.Slice_sorted;
      [exact lessUrgency_irrefl | exact lessUrgency_trans | exact lessUrgency_negtrans].
Qed.

End UrgentItems.

(** C6, as amended.  The urgent items are at most ten; each belongs to a
    task of the set whose urgency score is at least 70; they come in
    descending order of score, equal scores side by side; and a task
    whose score is at least 70 is among them unless ten items are
    listed already, none of which scores less. *)
Theorem C6_urgent_items :
  forall (tasks : list TaskDetail) (timeHorizon : string) (now : Time),
    let score task :=
      PrioritiesHandler.calculateUrgencyScore
        task now (PrioritiesHandler.timeLimitOf now timeHorizon) in
    let out := PrioritiesHandler.findUrgentItems tasks timeHorizon now in
    (List.length out <= 10)%nat
    /\ (forall item, In item out ->
          exists task, In task tasks
                       /\ item = PrioritiesHandler.urgentItemOf task now (score task)
                       /\ 70 <= score task)
    /\ StronglySorted
         (fun x y => PrioritiesHandler.UrgencyScore y <= PrioritiesHandler.UrgencyScore x)
         out
    /\ (forall task, In task tasks -> 70 <= score task ->
          In (PrioritiesHandler.urgentItemOf task now (score task)) out
          \/ (List.length out = 10%nat
              /\ forall item, In item out ->
                   score task <= PrioritiesHandler.UrgencyScore item)).
Proof.
  intros tasks timeHorizon now score out. subst out score.
  unfold PrioritiesHandler.findUrgentItems. cbv zeta. cbv beta.
  set (limit := PrioritiesHandler.timeLimitOf now timeHorizon).
  set (score := fun task => PrioritiesHandler.calculateUrgencyScore task now limit).
  set (candidates := flat_map _ tasks).
  set (sorted := GoSort.Slice PrioritiesHandler.lessUrgency candidates).
  assert (Hperm : Permutation sorted candidates) by apply GoSortFacts.Slice_perm.
  assert (Hsorted : StronglySorted
                      (fun x y => PrioritiesHandler.UrgencyScore y
                                  <= PrioritiesHandler.UrgencyScore x) sorted)
    by apply urgent_sorted.
  assert (Hcand : forall item, In item candidates <->
                    exists task, In task tasks
                      /\ item = PrioritiesHandler.urgentItemOf task now (score task)
                      /\ 70 <= score task).
  { intros item. unfold candidates. rewrite in_flat_map. split.
    - intros (task & Hin & Hit). exists task. split; [assumption|].
      fold (score task) in Hit.
      destruct (Z.leb_spec 70 (score task)); [|contradiction].
      destruct Hit as [<-|[]]. split; [reflexivity | assumption].
    - intros (task & Hin & -> & Hs). exists task. split; [assumption|].
      fold (score task).
      rewrite (proj2 (Z.leb_le 70 (score task)) Hs). now left. }
  assert (Hfirst : forall item, In item (firstn 10 sorted) -> In item sorted).
  { intros item H. rewrite <- (firstn_skipn 10 sorted). apply in_or_app. now left. }
  assert (Hparts : StronglySorted
                     (fun x y => PrioritiesHandler.UrgencyScore y
                                 <= PrioritiesHandler.UrgencyScore x)
                     (firstn 10 sorted)
                   /\ forall x y, In x (firstn 10 sorted) -> In y (skipn 10 sorted) ->
                        PrioritiesHandler.UrgencyScore y
                        <= PrioritiesHandler.UrgencyScore x).
  { rewrite <- (firstn_skipn 10 sorted) in Hsorted.
    destruct (StronglySorted_app_inv _ _ _ _ Hsorted) as (H1 & _ & H3). auto. }
  destruct Hparts as [Hs1 Hcross].
  destruct (Nat.ltb_spec 10 (List.length sorted)) as [Hlong|Hshort].
  - split; [rewrite length_firstn; lia|]. split; [|split; [exact Hs1|]].
    + intros item Hin. apply Hcand, (Permutation_in _ Hperm), Hfirst, Hin.
    + intros task Hin Hs.
      assert (Hitem : In (PrioritiesHandler.urgentItemOf task now (score task)) sorted).
      { apply (Permutation_in _ (Permutation_sym Hperm)), Hcand. exists task. auto. }
      rewrite <- (firstn_skipn 10 sorted) in Hitem. apply in_app_or in Hitem.
      destruct Hitem as [Hf|Hr]; [now left|right].
      split; [rewrite length_firstn; lia|].
      intros item Hitem. exact (Hcross item _ Hitem Hr).
  - split; [exact Hshort|]. split; [|split; [exact Hsorted|]].
    + intros item Hin. apply Hcand, (Permutation_in _ Hperm), Hin.
    + intros task Hin Hs. left.
      apply (Permutation_in _ (Permutation_sym Hperm)), Hcand. exists task. auto.
Qed.

(** C6 as stated fails.  Of eleven tasks that each score 110, ten are
    listed, so the eleventh is left out though its score is at least 70;
    and the scores listed are all equal, not strictly descending. *)
Lemma C6_eleven_urgent_tasks :
  map (fun item => (PrioritiesHandler.TaskID item, PrioritiesHandler.UrgencyScore item))
      (PrioritiesHandler.findUrgentItems (Spec.overdueBatch 11) "week" Spec.someInstant)
  = [("1", 110); ("2", 110); ("3", 110); ("4", 110); ("5", 110);
     ("6", 110); ("7", 110); ("8", 110); ("9", 110); ("10", 110)]
  /\ map (fun task =>
            (ID task,
             PrioritiesHandler.calculateUrgencyScore
               task Spec.someInstant
               (PrioritiesHandler.timeLimitOf Spec.someInstant "week")))
         (skipn 10 (Spec.overdueBatch 11))
     = [("11", 110)].
Proof. split; vm_compute; reflexivity. Qed.

(** ** Shaping the response: limits and sizes (C2, C3, C4) *)

Section Shaping.
Import TasksHandler Spec.

Lemma capLimit_spec (summaryMode : bool) (limit : Z) :
  capLimit summaryMode limit = Z.min limit 100.
Proof.
  unfold capLimit, MaxTasksHardLimit.
  destruct (Z.ltb_spec 100 limit) as [H|H].
  - change (100 * 2 <? 100) with false. rewrite Bool.andb_false_r. lia.
  - destruct (Z.ltb_spec (100 * 2) limit) as [H'|H']; [lia|].
    rewrite Bool.andb_false_r. lia.
Qed.

Lemma cutTo_spec (T : Type) (tasks : list T) (limit : Z) :
  0 <= limit ->
  cutTo tasks limit = Ok (firstn (Z.to_nat limit) tasks).
Proof.
  intros H. unfold cutTo.
  destruct (Z.ltb_spec limit (Z.of_nat (List.length tasks))) as [Hlt|Hge].
  - rewrite (proj2 (Z.ltb_ge limit 0) H). reflexivity.
  - rewrite firstn_all2 by lia. reflexivity.
Qed.

(** The size loop returns a prefix of the tasks; when the prefix is not
    empty its measured encoding fits; the flags say whether records were
    dropped and how many are left. *)
Lemma sizeLoop_spec (json : Encoder) (tasks : list TaskDetail) :
  forall (limit : nat),
    (limit <= List.length tasks)%nat ->
    let '(out, truncated, truncatedAt) := sizeLoop json tasks limit in
    (exists k, (k <= limit)%nat /\ out = firstn k tasks)
    /\ (out <> [] ->
        exists text, Marshal json (testResponse out) = Some text
                     /\ len text <= MaxResponseSize)
    /\ ((List.length out < List.length tasks)%nat ->
        truncated = true /\ truncatedAt = Z.of_nat (List.length out))
    /\ (truncated = true -> truncatedAt = Z.of_nat (List.length out)).
Proof.
  induction limit as [|limit IH]; intros Hlimit; cbn [sizeLoop].
  - split; [exists 0%nat; split; [lia | reflexivity]|].
    split; [intros H; contradiction|]. split; auto.
  - cbv zeta.
    assert (Hrec : let '(out, truncated, truncatedAt) := sizeLoop json tasks limit in
              (exists k, (k <= S limit)%nat /\ out = firstn k tasks)
              /\ (out <> [] ->
                  exists text, Marshal json (testResponse out) = Some text
                               /\ len text <= MaxResponseSize)
              /\ ((List.length out < List.length tasks)%nat ->
                  truncated = true /\ truncatedAt = Z.of_nat (List.length out))
              /\ (truncated = true -> truncatedAt = Z.of_nat (List.length out))).
    { specialize (IH ltac:(lia)).
      destruct (sizeLoop json tasks limit) as [[out tr] at_].
      destruct IH as ((k & Hk & Hout) & H2 & H3 & H4).
      split; [exists k; split; [lia | assumption]|]. auto. }
    destruct (Marshal json (testResponse (firstn (S limit) tasks))) as [text|] eqn:Em;
      [|exact Hrec].
    destruct (Z.leb_spec (len text) MaxResponseSize) as [Hfit|Hbig]; [|exact Hrec].
    assert (Hlen : List.length (firstn (S limit) tasks) = S limit)
      by (rewrite length_firstn; lia).
    destruct (Nat.ltb_spec (S limit) (List.length tasks)) as [Hcut|Hall].
    + split; [exists (S limit); split; [lia | reflexivity]|].
      split; [intros _; exists text; auto|].
      rewrite Hlen. split; auto.
    + split; [exists (S limit); split; [lia | reflexivity]|].
      split; [intros _; exists text; auto|].
      rewrite Hlen. split; [lia | discriminate].
Qed.

Lemma shouldIncludeTask_all (task : TaskDetail) (req : PrioritiesHandler.PrioritiesRequest) :
  shouldIncludeTask task (PrioritiesHandler.tasksParams req) = true.
Proof. reflexivity. Qed.

Lemma filterTasks_all (tasks : list TaskDetail) (req : PrioritiesHandler.PrioritiesRequest) :
  filterTasks tasks (PrioritiesHandler.tasksParams req) = tasks.
Proof.
  unfold filterTasks. induction tasks as [|t ts IH]; [reflexivity|].
  cbn [filter]. rewrite shouldIncludeTask_all, IH. reflexivity.
Qed.

(** What the priority analyzer is handed. *)
Lemma analysedTasks_spec (json : Encoder) (now : Time)
    (req : PrioritiesHandler.PrioritiesRequest) (collected : list TaskDetail) :
  let sorted := sortTasks collected "due_date" in
  let kept := firstn 100 sorted in
  match PrioritiesHandler.analysedTasks json now req collected with
  | Ok tasks =>
      (exists k, (k <= 100)%nat /\ tasks = firstn k sorted)
      /\ (forall text, Marshal json (testResponse kept) = Some text ->
            len text <= MaxResponseSize -> tasks = kept)
  | Err _ => exists response, MarshalIndent json response = None
  | Panic => False
  end.
Proof.
  intros sorted kept.
  unfold PrioritiesHandler.analysedTasks, Handle. cbv zeta.
  rewrite filterTasks_all.
  change (SummaryMode (PrioritiesHandler.tasksParams req)) with false.
  change (SortBy (PrioritiesHandler.tasksParams req)) with "due_date".
  change (capLimit false (Limit (PrioritiesHandler.tasksParams req))) with 100.
  fold sorted. cbv iota.
  unfold applyResponseSizeLimits. rewrite cutTo_spec by lia.
  change (Z.to_nat 100) with 100%nat. fold kept.
  pose proof (sizeLoop_spec json kept (List.length kept) (Nat.le_refl _)) as Hloop.
  assert (Hfull : forall text, Marshal json (testResponse kept) = Some text ->
                    len text <= MaxResponseSize ->
                    fst (fst (sizeLoop json kept (List.length kept))) = kept).
  { intros text Em Hfit. destruct (List.length kept) as [|n] eqn:En.
    - apply length_zero_iff_nil in En. rewrite En. reflexivity.
    - cbn [sizeLoop]. cbv zeta. rewrite <- En, firstn_all, Em.
      rewrite (proj2 (Z.leb_le _ _) Hfit).
      destruct (List.length kept <? List.length kept)%nat; reflexivity. }
  destruct (sizeLoop json kept (List.length kept)) as [[out tr] at_].
  cbn [fst] in Hfull.
  destruct Hloop as ((k & Hk & Hout) & _).
  match goal with
  | |- context [MarshalIndent json ?r] =>
      destruct (MarshalIndent json r) eqn:Eenc; [|exists r; exact Eenc]
  end.
  cbn [Tasks]. split.
  - exists (Nat.min k 100). split; [lia|].
    rewrite Hout. unfold kept. apply firstn_firstn.
  - exact Hfull.
Qed.

End Shaping.

(** C4, as amended.  The priority analyzer asks for every status and for
    overdue tasks too, so no task is filtered out; what it analyses is
    the collection sorted by due date and cut to its first [k] records,
    with [k] at most 100 (the detail-mode cap), and fewer only when the
    size loop dropped records: when the first hundred fit the size
    ceiling, it is exactly they.  The analysis fails only if the tasks
    response cannot be encoded. *)
Theorem C4_analysed_set_is_a_capped_prefix :
  forall (json : Encoder) (now : Time) (req : PrioritiesHandler.PrioritiesRequest)
         (collected : list TaskDetail),
    let sorted := TasksHandler.sortTasks collected "due_date" in
    TasksHandler.filterTasks collected (PrioritiesHandler.tasksParams req) = collected
    /\ Permutation sorted collected
    /\ match PrioritiesHandler.analysedTasks json now req collected with
       | Ok tasks =>
           (exists k, (k <= 100)%nat /\ tasks = firstn k sorted)
           /\ (forall text,
                 Marshal json (TasksHandler.testResponse (firstn 100 sorted)) = Some text ->
                 len text <= MaxResponseSize ->
                 tasks = firstn 100 sorted)
       | Err _ => exists response, MarshalIndent json response = None
       | Panic => False
       end.
Proof.
  intros json now req collected sorted.
  split; [apply filterTasks_all|]. split; [apply sortTasks_perm|].
  apply analysedTasks_spec.
Qed.

(** C4 as stated fails: of 101 tasks, under an encoder for which no
    response is too large, the analyzer is handed the first hundred; the
    task with id 100 is in the collection and not in the analysed set. *)
Lemma C4_task_101_is_not_analysed :
  let collected := map (fun id => Spec.plainTask id "") (Spec.idsFrom 0 101) in
  match PrioritiesHandler.analysedTasks
          Spec.tinyEncoder Spec.someInstant
          (PrioritiesHandler.mkPrioritiesRequest "1" [] "week" true) collected with
  | Ok tasks =>
      map ID tasks = map ID (firstn 100 collected)
      /\ In (Spec.plainTask 100 "") collected
      /\ ~ In (Spec.plainTask 100 "") tasks
  | _ => False
  end.
Proof.
  vm_compute. split; [reflexivity|]. split.
  - do 100 right. left. reflexivity.
  - intros H. repeat (destruct H as [H|H]; [discriminate H|]). exact H.
Qed.


(** C2.  What the code does where the claim fails: a summary-mode
    request with limit 150 over 150 tasks that all pass the filters
    gets 100 summaries, where the claim has min(150, 200, 150) = 150.
    For every summary-mode request with a limit that is not negative,
    the number of summaries is the smallest of the limit, 100, and the
    number of tasks that pass the filters; the request fails only if the
    response cannot be encoded. *)
Theorem C2_limit_150_returns_100 :
  forall (json : Encoder) (now : Time),
    (let tasks := map (fun id => Spec.plainTask id "") (Spec.idsFrom 1 150) in
     let req := Spec.listAll true 150 in
     List.length (TasksHandler.filterTasks tasks req) = 150%nat
     /\ Z.min 150 (Z.min 200 150) = 150
     /\ match TasksHandler.Handle json now req tasks with
        | Ok (response, _) => List.length (TaskSummaries response) = 100%nat
        | Err _ => exists response, MarshalIndent json response = None
        | Panic => False
        end)
    /\ (forall (req : TasksRequest) (tasks : list TaskDetail),
          SummaryMode req = true -> 0 <= Limit req ->
          match TasksHandler.Handle json now req tasks with
          | Ok (response, _) =>
              Z.of_nat (List.length (TaskSummaries response))
              = Z.min (Z.min (Limit req) 100)
                      (Z.of_nat (List.length (TasksHandler.filterTasks tasks req)))
          | Err _ => exists response, MarshalIndent json response = None
          | Panic => False
          end).
Proof.
  intros json now.
  assert (General : forall (req : TasksRequest) (tasks : list TaskDetail),
            SummaryMode req = true -> 0 <= Limit req ->
            match TasksHandler.Handle json now req tasks with
            | Ok (response, _) =>
                Z.of_nat (List.length (TaskSummaries response))
                = Z.min (Z.min (Limit req) 100)
                        (Z.of_nat (List.length (TasksHandler.filterTasks tasks req)))
            | Err _ => exists response, MarshalIndent json response = None
            | Panic => False
            end).
  { intros req tasks Hs Hl. unfold TasksHandler.Handle. cbv zeta. rewrite Hs.
    unfold TasksHandler.createTaskSummaries. rewrite capLimit_spec.
    assert (Hmin : 0 <= Z.min (Limit req) 100) by lia.
    rewrite (cutTo_spec _ _ _ Hmin).
    match goal with
    | |- context [MarshalIndent json ?r] =>
        destruct (MarshalIndent json r) eqn:Eenc; [|exists r; exact Eenc]
    end.
    cbn [TaskSummaries]. rewrite length_map, length_firstn, sortTasks_length.
    rewrite Nat2Z.inj_min, Z2Nat.id by lia. reflexivity. }
  split; [|exact General].
  intros tasks req.
  assert (Hf : List.length (TasksHandler.filterTasks tasks req) = 150%nat)
    by (vm_compute; reflexivity).
  split; [exact Hf|]. split; [reflexivity|].
  pose proof (General req tasks eq_refl ltac:(cbn; lia)) as H.
  destruct (TasksHandler.Handle json now req tasks) as [[response text]| |];
    [|exact H|exact H].
  rewrite Hf in H. change (Limit req) with 150 in H. lia.
Qed.

(** C3.  What the size loop of detail mode does guarantee: the tasks
    kept are a prefix of the tasks cut to the limit; unless no task is
    kept, the compact encoding of the kept tasks under a zero summary
    (the text the loop measures, not the text that is sent) fits the
    ceiling; and when records were dropped the flag is set and the
    count is the number kept.  The loop measures with [Marshal] alone:
    the encoding the response is sent in, [MarshalIndent] of the whole
    response, plays no part in what is kept.  So when the measured text
    of the tasks cut to the limit fits, [Handle] sends them all,
    unflagged, however long the text it sends: [response_size_bytes] is
    the length of that text, bounded by nothing. *)
Theorem C3_size_loop_guarantee :
  (forall (json : Encoder) (tasks : list TaskDetail) (requestedLimit : Z),
     match TasksHandler.applyResponseSizeLimits json tasks requestedLimit with
     | Ok (out, truncated, truncatedAt) =>
         let kept := firstn (Z.to_nat requestedLimit) tasks in
         0 <= requestedLimit
         /\ (exists k, out = firstn k kept)
         /\ (out <> [] ->
             exists text, Marshal json (TasksHandler.testResponse out) = Some text
                          /\ len text <= MaxResponseSize)
         /\ ((List.length out < List.length kept)%nat ->
             truncated = true /\ truncatedAt = Z.of_nat (List.length out))
         /\ (truncated = true -> truncatedAt = Z.of_nat (List.length out))
     | Err _ => False
     | Panic => requestedLimit < 0
     end)
  /\ (forall (marshal indent indent' : TasksResponse -> option string)
             (tasks : list TaskDetail) (requestedLimit : Z),
        TasksHandler.applyResponseSizeLimits (mkEncoder marshal indent) tasks requestedLimit
        = TasksHandler.applyResponseSizeLimits (mkEncoder marshal indent') tasks
                                               requestedLimit)
  /\ (forall (json : Encoder) (now : Time) (req : TasksRequest)
             (tasks : list TaskDetail) (text : string),
        SummaryMode req = false -> 0 <= Limit req ->
        let sorted :=
          TasksHandler.sortTasks (TasksHandler.filterTasks tasks req) (SortBy req) in
        let kept := firstn (Z.to_nat (Z.min (Limit req) 100)) sorted in
        kept <> [] ->
        Marshal json (TasksHandler.testResponse kept) = Some text ->
        len text <= MaxResponseSize ->
        match TasksHandler.Handle json now req tasks with
        | Ok (response, sent) =>
            Tasks response = kept
            /\ Truncated response = false
            /\ exists first,
                 MarshalIndent json
                   {| Summary := Summary response; Tasks := kept; TaskSummaries := [];
                      Truncated := false; TruncatedAt := 0; ResponseSize := 0 |}
                 = Some first
                 /\ ResponseSize response = len first
                 /\ (len first <= WarningResponseSize -> sent = first)
        | Err _ => exists response, MarshalIndent json response = None
        | Panic => False
        end).
Proof.
  split; [|split].
  3: {
    intros json now req tasks text Hs Hl sorted kept Hne Em Hfit.
    unfold TasksHandler.Handle. cbv zeta. rewrite Hs, capLimit_spec.
    unfold TasksHandler.applyResponseSizeLimits.
    rewrite cutTo_spec by lia. fold sorted. fold kept.
    assert (Hloop : TasksHandler.sizeLoop json kept (List.length kept) = (kept, false, 0)).
    { destruct (List.length kept) as [|n] eqn:En.
      - apply length_zero_iff_nil in En. contradiction.
      - cbn [TasksHandler.sizeLoop]. cbv zeta. rewrite <- En, firstn_all, Em.
        rewrite (proj2 (Z.leb_le _ _) Hfit), Nat.ltb_irrefl. reflexivity. }
    rewrite Hloop.
    match goal with
    | |- context [MarshalIndent json ?r] =>
        destruct (MarshalIndent json r) as [first|] eqn:Eenc; [|exists r; exact Eenc]
    end.
    cbn [Tasks Truncated ResponseSize Summary].
    split; [reflexivity|]. split; [reflexivity|].
    exists first. split; [exact Eenc|]. split; [reflexivity|].
    intros Hsmall. rewrite (proj2 (Z.ltb_ge _ _) Hsmall). reflexivity. }
  - intros json tasks requestedLimit.
    unfold TasksHandler.applyResponseSizeLimits.
    destruct (Z.ltb_spec requestedLimit 0) as [Hneg|Hpos].
    + unfold TasksHandler.cutTo.
      rewrite (proj2 (Z.ltb_lt requestedLimit (Z.of_nat (List.length tasks))) ltac:(lia)).
      rewrite (proj2 (Z.ltb_lt requestedLimit 0) Hneg). exact Hneg.
    + rewrite cutTo_spec by assumption.
      pose proof (sizeLoop_spec json (firstn (Z.to_nat requestedLimit) tasks)
                                _ (Nat.le_refl _)) as H.
      destruct (TasksHandler.sizeLoop json _ _) as [[out tr] at_]. cbv zeta.
      destruct H as ((k & _ & Hk) & H2 & H3 & H4).
      split; [assumption|]. split; [exists k; assumption|]. auto.
  - intros marshal indent indent' tasks requestedLimit.
    unfold TasksHandler.applyResponseSizeLimits.
    destruct (TasksHandler.cutTo tasks requestedLimit); try reflexivity.
    f_equal. generalize (List.length v).
    induction n as [|n IH]; cbn [TasksHandler.sizeLoop Marshal]; [reflexivity|].
    cbn [TasksHandler.sizeLoop Marshal] in IH. rewrite IH. reflexivity.
Qed.

(** ** Cycle time (C8) *)

Section CycleTime.
Import AnalyticsHandler.

Lemma appendAt_keys (P : string -> Prop) (m : list (string * list float))
    (key : string) (v : float) :
  Forall (fun e => P (fst e)) m -> P key ->
  Forall (fun e => P (fst e)) (appendAt m key v).
Proof.
  intros Hm Hk. induction m as [|[k vs] rest IH]; cbn [appendAt].
  - constructor; [assumption | constructor].
  - inversion Hm; subst. destruct (String.eqb k key); constructor; auto.
Qed.

Lemma metricOf_names (entry : string * list float) :
  fst entry <> "" ->
  Metric_Project (metricOf entry) = "Project"
  /\ Metric_Column (metricOf entry) = "Column".
Proof.
  destruct entry as [key times]. cbn [fst]. intros Hk. unfold metricOf.
  destruct key as [|c key]; [contradiction|]. cbn [String.length Nat.ltb Nat.leb].
  split; reflexivity.
Qed.

End CycleTime.

(** C8.  What the code does where the claim fails: one finished task of
    project "Alpha" in column "Done", with a cycle time of two and a
    half days, gives one metric, rated "Good", whose project reads
    "Project" and whose column reads "Column".  Whatever the tasks,
    every metric comes out under these two names. *)
Theorem C8_metric_carries_placeholder_names :
  (ProjectInfo_Name (Project Spec.finishedTask) = "Alpha"
   /\ Column (Status Spec.finishedTask) = "Done"
   /\ AnalyticsHandler.analyseCycleTime [Spec.finishedTask]
      = [ {| AnalyticsHandler.Metric_Column := "Column";
             AnalyticsHandler.Metric_Project := "Project";
             AnalyticsHandler.AvgDays := 2.5%float;
             AnalyticsHandler.MinDays := 2.5%float;
             AnalyticsHandler.MaxDays := 2.5%float;
             AnalyticsHandler.TaskCount := 1;
             AnalyticsHandler.Efficiency := "Good" |} ])
  /\ (forall (tasks : list TaskDetail) (m : AnalyticsHandler.CycleTimeMetric),
        In m (AnalyticsHandler.analyseCycleTime tasks) ->
        AnalyticsHandler.Metric_Project m = "Project"
        /\ AnalyticsHandler.Metric_Column m = "Column").
Proof.
  split; [repeat split; vm_compute; reflexivity|].
  intros tasks m. unfold AnalyticsHandler.analyseCycleTime. cbv zeta. intros Hin.
  apply (Permutation_in _ (GoSortFacts.Slice_perm _ _ _)) in Hin.
  apply in_flat_map in Hin. destruct Hin as (entry & Hentry & Hm).
  assert (Hkeys : forall (ts : list TaskDetail) (m0 : list (string * list float)),
             Forall (fun e => fst e <> "") m0 ->
             Forall (fun e => fst e <> "")
                    (fold_left
                       (fun m task =>
                          match AnalyticsHandler.cycleDaysOf task with
                          | Some cycleDays =>
                              AnalyticsHandler.appendAt
                                m (ProjectInfo_Name (Project task) ++ ":"
                                   ++ Column (Status task))%string cycleDays
                          | None => m
                          end) ts m0)).
  { induction ts as [|t ts IH]; intros m0 H0; cbn [fold_left]; [assumption|].
    apply IH. destruct (AnalyticsHandler.cycleDaysOf t); [|assumption].
    apply (appendAt_keys (fun k => k <> "")); [assumption|].
    destruct (ProjectInfo_Name (Project t)); discriminate. }
  specialize (Hkeys tasks [] (Forall_nil _)).
  rewrite Forall_forall in Hkeys. specialize (Hkeys entry Hentry).
  destruct (snd entry); [contradiction|].
  destruct Hm as [<-|[]]. apply metricOf_names, Hkeys.
Qed.

(** ** The theorems at concrete inputs *)

Lemma C1_due_flags_consistent_witness :
  let d := Spec.collected (Unix 1000864000) (Spec.rawTask 7 (Unix 1000000000)) in
  DaysUntilDue d = Some (-10)
  /\ (IsOverdue d = true -> -10 <= 0)
  /\ (-10 < 0 <->
      exists due, Spec.dueDateOf d = Some due
                  /\ instant due + nsPerDay <= instant (Unix 1000864000))
  /\ Spec.dueDateOf d = Some (Unix 1000000000).
Proof.
  pose proof (C1_due_flags_consistent
                (Unix 1000864000) (Spec.rawTask 7 (Unix 1000000000)) Spec.board
                Spec.boardColumns Spec.boardSwimlanes emptyMap "https://kb.example" false)
    as (_ & _ & H & Hup).
  specialize (H (-10) eq_refl). destruct H as (H1 & _ & H3).
  split; [reflexivity|]. split; [exact H1|]. split; [exact H3|].
  apply Hup; [reflexivity|].
  unfold GoTimeInv.fourDigitYear. cbn. split; discriminate.
Defined.

Lemma C2_limit_150_returns_100_witness :
  match TasksHandler.Handle Spec.tinyEncoder Spec.someInstant (Spec.listAll true 150)
                            (Spec.overdueBatch 3) with
  | Ok (response, _) =>
      Z.of_nat (List.length (TaskSummaries response)) = Z.min (Z.min 150 100) 3
  | Err _ => exists response, MarshalIndent Spec.tinyEncoder response = None
  | Panic => False
  end.
Proof.
  apply (proj2 (C2_limit_150_returns_100 Spec.tinyEncoder Spec.someInstant)
               (Spec.listAll true 150) (Spec.overdueBatch 3)).
  - reflexivity.
  - cbn. discriminate.
Defined.

Lemma C3_size_loop_guarantee_witness :
  (exists text,
     Marshal Spec.tinyEncoder
             (TasksHandler.testResponse (firstn 2 (Spec.overdueBatch 3))) = Some text
     /\ len text <= MaxResponseSize)
  /\ match TasksHandler.Handle Spec.tinyEncoder Spec.someInstant (Spec.listAll false 100)
                               (Spec.overdueBatch 3) with
     | Ok (response, _) =>
         List.length (Tasks response) = 3%nat
         /\ Truncated response = false /\ ResponseSize response = 0
     | _ => False
     end.
Proof.
  split.
  - pose proof (proj1 C3_size_loop_guarantee Spec.tinyEncoder (Spec.overdueBatch 3) 2) as H.
    change (TasksHandler.applyResponseSizeLimits Spec.tinyEncoder (Spec.overdueBatch 3) 2)
      with (@Ok (list TaskDetail * bool * Z) (firstn 2 (Spec.overdueBatch 3), false, 0)) in H.
    cbv beta iota zeta in H.
    destruct H as (_ & _ & H & _). apply H.
    vm_compute. discriminate.
  - pose proof (proj2 (proj2 C3_size_loop_guarantee)
                      Spec.tinyEncoder Spec.someInstant (Spec.listAll false 100)
                      (Spec.overdueBatch 3) "" eq_refl) as H.
    cbv zeta in H.
    specialize (H ltac:(cbn; discriminate) ltac:(vm_compute; discriminate) eq_refl
                  ltac:(vm_compute; discriminate)).
    destruct (TasksHandler.Handle Spec.tinyEncoder Spec.someInstant (Spec.listAll false 100)
                                  (Spec.overdueBatch 3)) as [[response sent]|e|].
    + destruct H as (Ht & Htr & first & Eenc & Hsize & _).
      split; [rewrite Ht; vm_compute; reflexivity|]. split; [exact Htr|].
      rewrite Hsize. cbn in Eenc. injection Eenc as <-. reflexivity.
    + destruct H as [r Hr]. discriminate Hr.
    + exact H.
Defined.

Lemma C4_analysed_set_witness :
  let collected := map (fun id => Spec.plainTask id "") (Spec.idsFrom 0 3) in
  PrioritiesHandler.analysedTasks
    Spec.tinyEncoder Spec.someInstant
    (PrioritiesHandler.mkPrioritiesRequest "1" [] "week" true) collected
  = Ok (firstn 100 (TasksHandler.sortTasks collected "due_date")).
Proof.
  intros collected.
  pose proof (C4_analysed_set_is_a_capped_prefix
                Spec.tinyEncoder Spec.someInstant
                (PrioritiesHandler.mkPrioritiesRequest "1" [] "week" true) collected)
    as (_ & _ & H).
  destruct (PrioritiesHandler.analysedTasks _ _ _ _) as [tasks| |] eqn:E;
    [|vm_compute in E; discriminate E|contradiction].
  destruct H as [_ H]. rewrite (H "" eq_refl); [reflexivity|].
  vm_compute. discriminate.
Defined.

Lemma C5_due_date_ordering_witness :
  Spec.keepsOrderOfEquals Spec.mixedTasks
    (TasksHandler.sortTasks Spec.mixedTasks "due_date")
  /\ TasksHandler.sortTasks Spec.mixedTasks "deadline"
     = TasksHandler.sortTasks Spec.mixedTasks "due_date"
  /\ (String.leb "2024-01-02T00:00:00Z" "2024-01-01T00:00:00Z" = true
      <-> instant (Unix 1704153600) <= instant (Unix 1704067200)).
Proof.
  pose proof (C5_due_date_ordering Spec.mixedTasks) as (_ & _ & Horder & Hstable & Hkey).
  split; [|split].
  - apply Hstable. cbn [Spec.mixedTasks List.length]. repeat constructor.
  - apply Hkey; discriminate.
  - apply (Horder (Spec.plainTask 1 "2024-01-02T00:00:00Z")
                  (Spec.plainTask 3 "2024-01-01T00:00:00Z")).
    + exists (Unix 1704153600). split; [|reflexivity].
      unfold GoTimeInv.fourDigitYear. cbn. split; discriminate.
    + exists (Unix 1704067200). split; [|reflexivity].
      unfold GoTimeInv.fourDigitYear. cbn. split; discriminate.
    + reflexivity.
    + reflexivity.
Defined.

Lemma C6_urgent_items_witness :
  let task := Spec.collected Spec.someInstant (Spec.rawTask 1 (Unix 1000000000)) in
  In (PrioritiesHandler.urgentItemOf task Spec.someInstant 110)
     (PrioritiesHandler.findUrgentItems (Spec.overdueBatch 3) "week" Spec.someInstant).
Proof.
  intros task.
  destruct (C6_urgent_items (Spec.overdueBatch 3) "week" Spec.someInstant)
    as (_ & _ & _ & H).
  destruct (H task) as [Hin|[Hlen _]].
  - left. reflexivity.
  - vm_compute. discriminate.
  - exact Hin.
  - vm_compute in Hlen. discriminate Hlen.
Defined.

Lemma C7_urgency_score_monotone_witness :
  let task := Spec.plainTask 1 "2001-09-19T01:46:40Z" in
  let limit := PrioritiesHandler.timeLimitOf Spec.someInstant "week" in
  IsOverdue task = false
  /\ PrioritiesHandler.calculateUrgencyScore task Spec.someInstant limit
     < PrioritiesHandler.calculateUrgencyScore (Spec.overdueBy 10 task) Spec.someInstant limit
  /\ (- GoInt.MaxInt <= 4 /\ 4 <= 8 /\ 8 <= GoInt.MaxInt)
  /\ PrioritiesHandler.calculateUrgencyScore (Spec.overdueBy 4 task) Spec.someInstant limit
     <= PrioritiesHandler.calculateUrgencyScore (Spec.overdueBy 8 task) Spec.someInstant limit.
Proof.
  intros task limit.
  assert (Hlo : - GoInt.MaxInt <= 4) by (unfold GoInt.MaxInt; lia).
  assert (Hle : 4 <= 8) by lia.
  assert (Hhi : 8 <= GoInt.MaxInt) by (unfold GoInt.MaxInt; lia).
  split; [reflexivity|].
  split; [apply (proj1 C7_urgency_score_monotone); reflexivity|].
  split; [exact (conj Hlo (conj Hle Hhi))|].
  exact (proj1 (proj2 (proj2 (proj2 (proj2 (proj2 C7_urgency_score_monotone)))))
           task Spec.someInstant limit 4 8 Hlo Hle Hhi).
Defined.

Lemma C8_metric_carries_placeholder_names_witness :
  let m := {| AnalyticsHandler.Metric_Column := "Column";
              AnalyticsHandler.Metric_Project := "Project";
              AnalyticsHandler.AvgDays := 2.5%float;
              AnalyticsHandler.MinDays := 2.5%float;
              AnalyticsHandler.MaxDays := 2.5%float;
              AnalyticsHandler.TaskCount := 1;
              AnalyticsHandler.Efficiency := "Good" |} in
  In m (AnalyticsHandler.analyseCycleTime [Spec.finishedTask])
  /\ AnalyticsHandler.Metric_Project m = "Project"
  /\ AnalyticsHandler.Metric_Column m = "Column".
Proof.
  intros m.
  assert (Hin : In m (AnalyticsHandler.analyseCycleTime [Spec.finishedTask]))
    by (vm_compute; left; reflexivity).
  split; [exact Hin|].
  exact (proj2 C8_metric_carries_placeholder_names [Spec.finishedTask] m Hin).
Defined.

Lemma C9_completion_predicates_witness :
  AnalyticsHandler.isTaskCompleted Spec.finishedTask = true
  /\ TasksHandler.isTaskCompleted Spec.finishedTask = true.
Proof.
  apply (proj1 (proj2 (proj2 C9_completion_predicates))).
  left. reflexivity.
Defined.

(* ================================================================== *)
(** * Further properties of the handlers *)
(* ================================================================== *)

(** ** What [Handle] comes to *)

(** X1.  Once the request is decoded and the tasks are collected,
    [Handle] panics exactly when the requested limit is negative (the
    slice expression [tasks[:limit]] is out of range, whatever the tasks
    and the mode); otherwise the only error it can still return is the
    marshal one, when the response cannot be encoded.  The steps before
    that point have error returns of their own. *)
Theorem Handle_outcome :
  forall (json : Encoder) (now : Time) (req : TasksRequest) (tasks : list TaskDetail),
    match TasksHandler.Handle json now req tasks with
    | Panic => Limit req < 0
    | Err msg =>
        0 <= Limit req
        /\ msg = "failed to marshal tasks response"
        /\ exists response, MarshalIndent json response = None
    | Ok _ => 0 <= Limit req
    end.
Proof.
  intros json now req tasks. unfold TasksHandler.Handle. cbv zeta.
  rewrite capLimit_spec.
  destruct (Z.ltb_spec (Limit req) 0) as [Hneg|Hpos].
  - assert (Hcut : forall (T : Type) (l : list T),
               TasksHandler.cutTo l (Z.min (Limit req) 100) = Panic).
    { intros T l. unfold TasksHandler.cutTo.
      rewrite (proj2 (Z.ltb_lt _ _)) by lia.
      rewrite (proj2 (Z.ltb_lt _ _)) by lia. reflexivity. }
    unfold TasksHandler.createTaskSummaries, TasksHandler.applyResponseSizeLimits.
    rewrite !Hcut. destruct (SummaryMode req); exact Hneg.
  - unfold TasksHandler.createTaskSummaries, TasksHandler.applyResponseSizeLimits.
    rewrite !cutTo_spec by lia.
    destruct (SummaryMode req).
    + match goal with
      | |- context [MarshalIndent json ?r] =>
          destruct (MarshalIndent json r) eqn:Eenc;
            [exact Hpos | split; [exact Hpos | split; [reflexivity | exists r; exact Eenc]]]
      end.
    + destruct (TasksHandler.sizeLoop json _ _) as [[out tr] at_].
      match goal with
      | |- context [MarshalIndent json ?r] =>
          destruct (MarshalIndent json r) eqn:Eenc;
            [exact Hpos | split; [exact Hpos | split; [reflexivity | exists r; exact Eenc]]]
      end.
Qed.

Section ResponseShape.
Import TasksHandler.

Lemma firstn_In_all (T : Type) (n : nat) (l : list T) (x : T) :
  In x (firstn n l) -> In x l.
Proof.
  intros H. rewrite <- (firstn_skipn n l). apply in_or_app. now left.
Qed.

Lemma calculateTasksSummary_total (now : Time) (tasks : list TaskDetail) :
  TotalTasks (calculateTasksSummary now tasks) = Z.of_nat (List.length tasks).
Proof. reflexivity. Qed.

End ResponseShape.

(** X2.  In summary mode the response holds the summaries of the first
    min(limit, 100) tasks in sorted order and no task records; it never
    flags truncation, also when the limit dropped tasks; and
    [summary.total_tasks] counts every task that passed the filters, not
    the ones returned. *)
Theorem summary_mode_response :
  forall (json : Encoder) (now : Time) (req : TasksRequest) (tasks : list TaskDetail),
    SummaryMode req = true ->
    let sorted :=
      TasksHandler.sortTasks (TasksHandler.filterTasks tasks req) (SortBy req) in
    match TasksHandler.Handle json now req tasks with
    | Ok (response, _) =>
        TaskSummaries response
        = map TasksHandler.summaryOf (firstn (Z.to_nat (Z.min (Limit req) 100)) sorted)
        /\ Tasks response = []
        /\ Truncated response = false
        /\ TruncatedAt response = 0
        /\ TotalTasks (Summary response)
           = Z.of_nat (List.length (TasksHandler.filterTasks tasks req))
    | Err _ => exists response, MarshalIndent json response = None
    | Panic => Limit req < 0
    end.
Proof.
  intros json now req tasks Hs sorted.
  unfold TasksHandler.Handle. cbv zeta. rewrite Hs, capLimit_spec.
  unfold TasksHandler.createTaskSummaries.
  destruct (Z.ltb_spec (Limit req) 0) as [Hneg|Hpos].
  - unfold TasksHandler.cutTo.
    rewrite (proj2 (Z.ltb_lt _ _)) by lia.
    rewrite (proj2 (Z.ltb_lt _ _)) by lia. exact Hneg.
  - rewrite cutTo_spec by lia. fold sorted.
    match goal with
    | |- context [MarshalIndent json ?r] =>
        destruct (MarshalIndent json r) eqn:Eenc; [|exists r; exact Eenc]
    end.
    cbn [TaskSummaries Tasks Truncated TruncatedAt Summary].
    repeat split.
    unfold sorted. rewrite calculateTasksSummary_total, sortTasks_length. reflexivity.
Qed.

(** X3.  In detail mode, when no task passes the filters or the limit
    is 0, the response holds no task and yet says [truncated = true]
    with [truncated_at = 0]: the size loop does not run and falls
    through to its last return. *)
Theorem detail_mode_without_tasks :
  forall (json : Encoder) (now : Time) (req : TasksRequest) (tasks : list TaskDetail),
    SummaryMode req = false ->
    0 <= Limit req ->
    TasksHandler.filterTasks tasks req = [] \/ Limit req = 0 ->
    match TasksHandler.Handle json now req tasks with
    | Ok (response, _) =>
        Tasks response = [] /\ Truncated response = true /\ TruncatedAt response = 0
    | Err _ => exists response, MarshalIndent json response = None
    | Panic => False
    end.
Proof.
  intros json now req tasks Hs Hl Hnone.
  unfold TasksHandler.Handle. cbv zeta. rewrite Hs, capLimit_spec.
  unfold TasksHandler.applyResponseSizeLimits. rewrite cutTo_spec by lia.
  assert (Hkept : firstn (Z.to_nat (Z.min (Limit req) 100))
                         (TasksHandler.sortTasks (TasksHandler.filterTasks tasks req)
                                                 (SortBy req)) = []).
  { destruct Hnone as [He|H0].
    - apply length_zero_iff_nil. rewrite length_firstn, sortTasks_length, He.
      apply Nat.min_0_r.
    - rewrite H0. reflexivity. }
  rewrite Hkept. cbn [List.length TasksHandler.sizeLoop].
  match goal with
  | |- context [MarshalIndent json ?r] =>
      destruct (MarshalIndent json r) eqn:Eenc; [|exists r; exact Eenc]
  end.
  cbn [Tasks Truncated TruncatedAt]. repeat split.
Qed.

(** ** The collector and the summary *)

Section Collected.
Import TasksHandler Spec.

(** A record as [buildTaskDetail] leaves it at instant [now]. *)
Lemma getProjectTasks_built (now : Time) (project : ProjectData) (fetch : ProjectFetch)
    (baseURL : string) (tt : bool) (details : list TaskDetail) :
  getProjectTasks now project fetch baseURL tt = Some details ->
  forall d, In d details ->
    exists task columnMap swimlaneMap userMap,
      d = buildTaskDetail now task project columnMap swimlaneMap userMap baseURL tt.
Proof.
  unfold getProjectTasks. intros H d Hd.
  destruct (fetchedTasks fetch) as [tasks|]; [|discriminate].
  destruct (fetchedColumns fetch) as [columns|]; [|discriminate].
  destruct (fetchedSwimlanes fetch) as [swimlanes|]; [|discriminate].
  destruct (fetchedUsers fetch) as [users|]; [|discriminate].
  injection H as <-. apply in_map_iff in Hd. destruct Hd as (task & <- & _).
  eauto.
Qed.

Lemma collectTasks_built (now : Time) (baseURL : string) (tt : bool) :
  forall (projects : list (ProjectData * ProjectFetch)) (collected : list TaskDetail),
    collectTasks now projects baseURL tt = Some collected ->
    forall d, In d collected ->
      exists task project columnMap swimlaneMap userMap,
        d = buildTaskDetail now task project columnMap swimlaneMap userMap baseURL tt.
Proof.
  induction projects as [|[proj fetch] rest IH]; intros collected H d Hd; cbn [collectTasks] in H.
  - injection H as <-. contradiction.
  - destruct (getProjectTasks now proj fetch baseURL tt) as [mine|] eqn:Em; [|discriminate].
    destruct (collectTasks now rest baseURL tt) as [more|]; [|discriminate].
    injection H as <-. apply in_app_or in Hd. destruct Hd as [Hd|Hd].
    + destruct (getProjectTasks_built _ _ _ _ _ _ Em d Hd) as (task & cm & sm & um & E).
      exists task, proj, cm, sm, um. exact E.
    + exact (IH more eq_refl d Hd).
Qed.

Lemma filter_length_le (T : Type) (p : T -> bool) (l : list T) :
  (List.length (filter p l) <= List.length l)%nat.
Proof.
  induction l as [|x l IH]; cbn [filter List.length]; [lia|].
  destruct (p x); cbn [List.length]; lia.
Qed.

Lemma filter_disjoint_length (T : Type) (p q : T -> bool) (l : list T) :
  (forall x, In x l -> p x = true -> q x = false) ->
  (List.length (filter p l) + List.length (filter q l) <= List.length l)%nat.
Proof.
  induction l as [|x l IH]; intros H; cbn [filter List.length]; [lia|].
  assert (IH' := IH (fun y Hy => H y (or_intror Hy))).
  specialize (H x (or_introl eq_refl)).
  destruct (p x); [rewrite (H eq_refl)|destruct (q x)]; cbn [List.length]; lia.
Qed.

End Collected.

(** X4.  The counters of the task summary.  [total_tasks] is the number
    of tasks; the other three lie between 0 and it.  For tasks the
    collector built at an instant no later than the one the summary is
    computed at, no task counts both as overdue and as due this week, so
    the two counters together do not exceed the total. *)
Theorem summary_counters :
  forall (built now : Time) (projects : list (ProjectData * TasksHandler.ProjectFetch))
         (baseURL : string) (includeTimeTracking : bool)
         (collected tasks : list TaskDetail),
    TasksHandler.collectTasks built projects baseURL includeTimeTracking = Some collected ->
    (forall d, In d tasks -> In d collected) ->
    instant built <= instant now ->
    let s := TasksHandler.calculateTasksSummary now tasks in
    TotalTasks s = Z.of_nat (List.length tasks)
    /\ 0 <= OverdueTasks s <= TotalTasks s
    /\ 0 <= DueThisWeek s <= TotalTasks s
    /\ 0 <= UnassignedTasks s <= TotalTasks s
    /\ OverdueTasks s + DueThisWeek s <= TotalTasks s.
Proof.
  intros built now projects baseURL tt collected tasks Hc Hsub Hclock s.
  subst s. unfold TasksHandler.calculateTasksSummary.
  cbn [TotalTasks OverdueTasks DueThisWeek UnassignedTasks].
  split; [reflexivity|].
  repeat match goal with
         | |- context [filter ?p tasks] =>
             lazymatch goal with
             | H : (List.length (filter p tasks) <= _)%nat |- _ => fail
             | _ => pose proof (filter_length_le _ p tasks)
             end
         end.
  split; [lia|]. split; [lia|]. split; [lia|].
  match goal with
  | |- Z.of_nat (List.length (filter ?p tasks)) + Z.of_nat (List.length (filter ?q tasks)) <= _ =>
      assert (Hd : (List.length (filter p tasks) + List.length (filter q tasks)
                    <= List.length tasks)%nat); [|lia]
  end.
  apply filter_disjoint_length. intros d Hin Ho.
  destruct (collectTasks_built built baseURL tt projects collected Hc d (Hsub d Hin))
    as (task & project & cm & sm & um & Ed).
  pose proof (buildTaskDetail_flags built task project cm sm um baseURL tt) as Hf.
  cbv zeta in Hf. rewrite <- Ed in Hf.
  unfold Spec.dueDateOf in Hf.
  destruct (String.eqb (Due (Dates d)) ""); [reflexivity|].
  destruct (Parse LayoutStamp (Due (Dates d))) as [due|]; [|reflexivity].
  injection Hf as Hb _. rewrite Ho in Hb. symmetry in Hb.
  unfold Before, After in *. apply Z.ltb_lt in Hb.
  rewrite (proj2 (Z.ltb_ge (instant now) (instant due))) by lia.
  apply Bool.andb_false_r.
Qed.

(** ** Filtering *)

Section Filtering.
Import TasksHandler Variants.

Lemma filter_split_perm (T : Type) (p q r : T -> bool) (l : list T) :
  (forall x, r x = p x || q x) ->
  (forall x, p x && q x = false) ->
  Permutation (filter p l ++ filter q l) (filter r l).
Proof.
  intros Hr Hd. induction l as [|x l IH]; cbn [filter app]; [constructor|].
  specialize (Hr x). specialize (Hd x). rewrite Hr.
  destruct (p x), (q x); cbn [orb andb] in *; try discriminate; cbn [app].
  - constructor. exact IH.
  - eapply Permutation_trans; [apply Permutation_sym, Permutation_middle|].
    constructor. exact IH.
  - exact IH.
Qed.

Lemma shouldIncludeTask_status (task : TaskDetail) (req : TasksRequest) (s : string) :
  shouldIncludeTask task (withStatusFilter req s)
  = (if String.eqb s "active" then negb (isTaskCompleted task)
     else if String.eqb s "completed" then isTaskCompleted task
     else true)
    && shouldIncludeTask task (withStatusFilter req "all").
Proof.
  unfold shouldIncludeTask, withStatusFilter.
  cbn [StatusFilter AssigneeIDs IncludeOverdue DueDateRange].
  change (String.eqb "all" "active") with false.
  change (String.eqb "all" "completed") with false. cbn [andb].
  destruct (String.eqb_spec s "active") as [->|Na].
  - change (String.eqb "active" "completed") with false. cbn [andb].
    destruct (isTaskCompleted task); reflexivity.
  - cbn [andb]. destruct (String.eqb s "completed"); cbn [andb]; [|reflexivity].
    destruct (isTaskCompleted task); reflexivity.
Qed.

Lemma shouldIncludeTask_passes (task : TaskDetail) (req : TasksRequest) :
  shouldIncludeTask task req = true <-> passes req task.
Proof.
  unfold shouldIncludeTask, passes.
  destruct (String.eqb_spec (StatusFilter req) "active") as [Ea|Na];
    destruct (String.eqb_spec (StatusFilter req) "completed") as [Ec|Nc];
    try (rewrite Ea in Ec; discriminate Ec); cbn [andb].
  all: destruct (isTaskCompleted task); cbn [negb andb].
  all: try (split; [discriminate | intros (H1 & H2 & _); auto; try discriminate (H1 Ea);
                                   try discriminate (H2 Ec)]; fail).
  all: assert (Hassignee :
         (match AssigneeIDs req with
          | [] => false
          | _ :: _ =>
              match Assignee task with
              | None => true
              | Some u =>
                  negb (existsb (fun assigneeID => String.eqb (UserInfo_ID u) assigneeID)
                                (AssigneeIDs req))
              end
          end) = false
         <-> (AssigneeIDs req <> [] ->
              exists u, Assignee task = Some u /\ In (UserInfo_ID u) (AssigneeIDs req)));
    [ destruct (AssigneeIDs req) as [|a ids] eqn:Eids;
      [ split; [intros _ H; contradiction | reflexivity]
      | destruct (Assignee task) as [u|];
        [ split;
          [ intros H _; apply Bool.negb_false_iff, existsb_exists in H;
            destruct H as (x & Hx & Ex); apply String.eqb_eq in Ex; subst x;
            exists u; split; [reflexivity | exact Hx]
          | intros H; destruct (H ltac:(discriminate)) as (u' & Eu & Hin);
            injection Eu as <-; apply Bool.negb_false_iff, existsb_exists;
            exists (UserInfo_ID u); split; [exact Hin | apply String.eqb_refl] ]
        | split; [discriminate | intros H; destruct (H ltac:(discriminate)) as (u' & Eu & _);
                                 discriminate Eu] ] ] |].
  all: match goal with
       | |- (if ?c then _ else _) = true <-> _ =>
           replace c with
             (match AssigneeIDs req with
              | [] => false
              | _ :: _ =>
                  match Assignee task with
                  | None => true
                  | Some u =>
                      negb (existsb (fun assigneeID => String.eqb (UserInfo_ID u) assigneeID)
                                    (AssigneeIDs req))
                  end
              end) by (destruct (AssigneeIDs req); reflexivity)
       end.
  all: destruct (match AssigneeIDs req with [] => false | _ :: _ => _ end);
    [ split; [discriminate | intros (_ & _ & H3 & _);
                             apply Hassignee in H3; discriminate H3] |].
  all: assert (Hyes := proj1 Hassignee eq_refl); clear Hassignee.
  all: destruct (IncludeOverdue req), (IsOverdue task); cbn [negb andb].
  all: try (split; [discriminate | intros (_ & _ & _ & H4 & _);
                                   discriminate (H4 eq_refl)]; fail).
  all: destruct (DueDateRange req) as [r|].
  all: split.
  all: try (intros H; repeat split; auto; try discriminate; try contradiction;
            intros r' Er; try discriminate Er; injection Er as <-; exact H).
  all: try (intros (_ & _ & _ & _ & H5); try reflexivity; apply H5; reflexivity).
Qed.

End Filtering.

(** X5.  The status filter splits the tasks in two: with the other
    filters fixed, what ["active"] returns and what ["completed"]
    returns are disjoint and make up what ["all"] returns; and any
    status filter other than exactly ["active"] or ["completed"]
    (["Active"], a misspelling, the empty string) filters nothing by
    status. *)
Theorem status_filter_partition :
  forall (tasks : list TaskDetail) (req : TasksRequest),
    let by_status s :=
      TasksHandler.filterTasks tasks (Variants.withStatusFilter req s) in
    Permutation (by_status "active" ++ by_status "completed") (by_status "all")
    /\ (forall d, In d (by_status "active") -> ~ In d (by_status "completed"))
    /\ (forall s, s <> "active" -> s <> "completed" -> by_status s = by_status "all").
Proof.
  intros tasks req by_status. subst by_status. cbv beta.
  unfold TasksHandler.filterTasks. split; [|split].
  - apply filter_split_perm.
    + intros x. rewrite (shouldIncludeTask_status x req "active"),
        (shouldIncludeTask_status x req "completed").
      cbn [String.eqb Ascii.eqb Bool.eqb andb].
      destruct (TasksHandler.isTaskCompleted x),
        (TasksHandler.shouldIncludeTask x (Variants.withStatusFilter req "all"));
        reflexivity.
    + intros x. rewrite (shouldIncludeTask_status x req "active"),
        (shouldIncludeTask_status x req "completed").
      cbn [String.eqb Ascii.eqb Bool.eqb andb].
      destruct (TasksHandler.isTaskCompleted x),
        (TasksHandler.shouldIncludeTask x (Variants.withStatusFilter req "all"));
        reflexivity.
  - intros d Ha Hc. apply filter_In in Ha, Hc. destruct Ha as [_ Ha], Hc as [_ Hc].
    rewrite (shouldIncludeTask_status d req "active") in Ha.
    rewrite (shouldIncludeTask_status d req "completed") in Hc.
    cbn [String.eqb Ascii.eqb Bool.eqb andb] in Ha, Hc.
    destruct (TasksHandler.isTaskCompleted d); discriminate.
  - intros s Na Nc. apply filter_ext. intros x.
    rewrite (shouldIncludeTask_status x req s).
    destruct (String.eqb_spec s "active"); [contradiction|].
    destruct (String.eqb_spec s "completed"); [contradiction|]. reflexivity.
Qed.

(** X6.  Every task [Handle] returns satisfies the request: it is one of
    the collected tasks, of the asked status, assigned to one of the
    asked assignees when any is asked (so never unassigned then), not
    overdue unless overdue tasks are asked for, and inside the due date
    range when one is given; in summary mode every summary is that of
    such a task. *)
Theorem Handle_returns_what_was_asked :
  forall (json : Encoder) (now : Time) (req : TasksRequest) (tasks : list TaskDetail),
    match TasksHandler.Handle json now req tasks with
    | Ok (response, _) =>
        (forall d, In d (Tasks response) -> In d tasks /\ Variants.passes req d)
        /\ (forall sm, In sm (TaskSummaries response) ->
              exists d, In d tasks /\ Variants.passes req d
                        /\ sm = TasksHandler.summaryOf d)
    | Err _ => exists response, MarshalIndent json response = None
    | Panic => Limit req < 0
    end.
Proof.
  intros json now req tasks.
  assert (Hsorted : forall d,
            In d (TasksHandler.sortTasks (TasksHandler.filterTasks tasks req) (SortBy req)) ->
            In d tasks /\ Variants.passes req d).
  { intros d Hd. apply (Permutation_in _ (sortTasks_perm _ _)) in Hd.
    apply filter_In in Hd. destruct Hd as [Hin Hp].
    split; [exact Hin | apply shouldIncludeTask_passes, Hp]. }
  unfold TasksHandler.Handle. cbv zeta. rewrite capLimit_spec.
  unfold TasksHandler.createTaskSummaries, TasksHandler.applyResponseSizeLimits.
  destruct (Z.ltb_spec (Limit req) 0) as [Hneg|Hpos].
  - assert (Hcut : forall (T : Type) (l : list T),
               TasksHandler.cutTo l (Z.min (Limit req) 100) = Panic).
    { intros T l. unfold TasksHandler.cutTo.
      rewrite (proj2 (Z.ltb_lt _ _)) by lia.
      rewrite (proj2 (Z.ltb_lt _ _)) by lia. reflexivity. }
    rewrite !Hcut. destruct (SummaryMode req); exact Hneg.
  - rewrite !cutTo_spec by lia.
    destruct (SummaryMode req).
    + match goal with
      | |- context [MarshalIndent json ?r] =>
          destruct (MarshalIndent json r) eqn:Eenc; [|exists r; exact Eenc]
      end.
      cbn [Tasks TaskSummaries]. split; [intros d []|].
      intros sm Hsm. apply in_map_iff in Hsm. destruct Hsm as (d & <- & Hd).
      apply firstn_In_all in Hd. destruct (Hsorted d Hd) as [Hin Hp].
      exists d. auto.
    + match goal with
      | |- context [TasksHandler.sizeLoop json ?kept ?n] =>
          pose proof (sizeLoop_spec json kept n (Nat.le_refl _)) as Hloop;
          destruct (TasksHandler.sizeLoop json kept n) as [[out tr] at_]
      end.
      destruct Hloop as ((k & _ & ->) & _).
      match goal with
      | |- context [MarshalIndent json ?r] =>
          destruct (MarshalIndent json r) eqn:Eenc; [|exists r; exact Eenc]
      end.
      cbn [Tasks TaskSummaries]. split; [|intros sm []].
      intros d Hd. apply firstn_In_all, firstn_In_all in Hd. exact (Hsorted d Hd).
Qed.

(** ** The due date range *)

Section DateRange.
Import TasksHandler Variants GoTimeInv.

(** The date of [t], field by field. *)
Lemma Format_date (t : Time) :
  fourDigitYear t ->
  let '(y, m, d) := Date_of t in
  Format t LayoutDate
  = fourDigits y (String "-" (twoDigits m (String "-" (twoDigits d "")))).
Proof.
  intros H. unfold Format, formatDate.
  pose proof (GoTimeFacts.civilFromDays_valid (wallSec t / secondsPerDay)) as V.
  pose proof (GoTimeFacts.civilFromDays_year _ (GoTimeFacts.fourDigitYear_day t H)) as Y.
  unfold Date_of.
  destruct (civilFromDays (wallSec t / secondsPerDay)) as [[y m] d].
  destruct V as (Hm & Hd & _).
  pose proof (GoTimeFacts.daysIn_bound m y).
  rewrite (GoTimeFacts.appendInt_4 y), !GoTimeFacts.appendInt_2 by lia.
  reflexivity.
Qed.

(** A date reads back as the midnight its day starts with. *)
Lemma Parse_Format_date (t : Time) :
  fourDigitYear t ->
  Parse LayoutDate (Format t LayoutDate) = Some (Unix (midnight t)).
Proof.
  intros H. pose proof (Format_date t H) as F.
  pose proof (GoTimeFacts.civilFromDays_valid (wallSec t / secondsPerDay)) as V.
  pose proof (GoTimeFacts.civilFromDays_year _ (GoTimeFacts.fourDigitYear_day t H)) as Y.
  unfold Date_of in F.
  destruct (civilFromDays (wallSec t / secondsPerDay)) as [[y m] d].
  destruct V as (Hm & Hd & Hz).
  pose proof (GoTimeFacts.daysIn_bound m y).
  rewrite F. unfold Parse, parseDatePart.
  rewrite GoTimeFacts.getYear_fourDigits by lia. cbn [skipChar Ascii.eqb Bool.eqb].
  rewrite GoTimeFacts.getnum_twoDigits by lia.
  destruct (Z.leb_spec m 0); [lia|]. destruct (Z.ltb_spec 12 m); [lia|].
  cbn [orb skipChar Ascii.eqb Bool.eqb].
  rewrite GoTimeFacts.getnum_twoDigits by lia.
  unfold dayInRange.
  destruct (Z.leb_spec 1 d); [|lia]. destruct (Z.leb_spec d (daysIn m y)); [|lia].
  cbn [andb]. rewrite GoTimeFacts.Date_plain by lia. rewrite Hz.
  unfold midnight. f_equal. f_equal. lia.
Qed.

Lemma Format_stamp_not_empty (t : Time) :
  fourDigitYear t -> String.eqb (Format t LayoutStamp) "" = false.
Proof.
  intros H. pose proof (GoTimeFacts.Parse_Format_stamp t H) as P.
  destruct (String.eqb_spec (Format t LayoutStamp) "") as [E|N]; [|reflexivity].
  rewrite E in P. discriminate P.
Qed.

Lemma Format_date_not_empty (t : Time) :
  fourDigitYear t -> String.eqb (Format t LayoutDate) "" = false.
Proof.
  intros H. pose proof (Parse_Format_date t H) as P.
  destruct (String.eqb_spec (Format t LayoutDate) "") as [E|N]; [|reflexivity].
  rewrite E in P. discriminate P.
Qed.

End DateRange.

(** X7.  The bounds of a due date range are midnights.  A task due at
    the wall clock [t] is inside the range from the date of [s] to the
    date of [e] exactly when [t] is not before the midnight that starts
    the day of [s] and not after the midnight that starts the day of
    [e]: a task due later on the end date itself is outside.  A task
    with no due date is outside every range, and so is every task when a
    bound is given that does not read as a date: the parse error is not
    reported. *)
Theorem due_date_range_bounds :
  (forall (task : TaskDetail) (t s e : Time),
      GoTimeInv.fourDigitYear t -> GoTimeInv.fourDigitYear s -> GoTimeInv.fourDigitYear e ->
      Due (Dates task) = Format t LayoutStamp ->
      TasksHandler.isTaskInDateRange
        task {| Start := Format s LayoutDate; End_ := Format e LayoutDate |}
      = (Variants.midnight s <=? wallSec t) && (wallSec t <=? Variants.midnight e))
  /\ (forall (task : TaskDetail) (dateRange : DateRange),
        Due (Dates task) = "" ->
        TasksHandler.isTaskInDateRange task dateRange = false)
  /\ (forall (task : TaskDetail) (dateRange : DateRange),
        (Start dateRange <> "" /\ Parse LayoutDate (Start dateRange) = None)
        \/ (End_ dateRange <> "" /\ Parse LayoutDate (End_ dateRange) = None) ->
        TasksHandler.isTaskInDateRange task dateRange = false).
Proof.
  split; [|split].
  - intros task t s e Ht Hs He Hdue.
    unfold TasksHandler.isTaskInDateRange. cbn [Start End_].
    rewrite Hdue, (Format_stamp_not_empty t Ht), (GoTimeFacts.Parse_Format_stamp t Ht).
    rewrite (Format_date_not_empty s Hs), (Format_date_not_empty e He).
    rewrite (Parse_Format_date s Hs), (Parse_Format_date e He). cbn [negb].
    unfold Before, After, instant, Unix, nsPerSecond. cbn [unixSec nsec].
    destruct (Z.leb_spec (Variants.midnight s) (wallSec t));
      destruct (Z.leb_spec (wallSec t) (Variants.midnight e)); cbn [andb];
      repeat match goal with
             | |- context [?a <? ?b] => destruct (Z.ltb_spec a b); try lia
             end; reflexivity.
  - intros task dateRange Hdue. unfold TasksHandler.isTaskInDateRange.
    rewrite Hdue. reflexivity.
  - intros task dateRange Hbad. unfold TasksHandler.isTaskInDateRange.
    destruct (String.eqb (Due (Dates task)) ""); [reflexivity|].
    destruct (Parse LayoutStamp (Due (Dates task))) as [due|]; [|reflexivity].
    destruct Hbad as [[Hn Hp]|[Hn Hp]].
    + destruct (String.eqb_spec (Start dateRange) ""); [contradiction|].
      rewrite Hp. reflexivity.
    + destruct (String.eqb_spec (End_ dateRange) "") as [|_]; [contradiction|].
      rewrite Hp. cbn [negb].
      destruct (negb (String.eqb (Start dateRange) "")); [|reflexivity].
      destruct (Parse LayoutDate (Start dateRange)) as [startDate|]; [|reflexivity].
      destruct (negb (negb (Before due startDate))); reflexivity.
Qed.

(** ** Sorting by priority and by creation date *)

Section OtherSortKeys.
Import TasksHandler.

Lemma lessPriority_irrefl (x : TaskDetail) : lessPriority x x = false.
Proof. unfold lessPriority. apply Z.ltb_irrefl. Qed.

Lemma lessPriority_trans (x y z : TaskDetail) :
  lessPriority x y = true -> lessPriority y z = true -> lessPriority x z = true.
Proof. unfold lessPriority. rewrite !Z.ltb_lt. lia. Qed.

Lemma lessPriority_negtrans (x y z : TaskDetail) :
  lessPriority x y = false -> lessPriority y z = false -> lessPriority x z = false.
Proof. unfold lessPriority. rewrite !Z.ltb_ge. lia. Qed.

Lemma lessCreated_irrefl (x : TaskDetail) : lessCreated x x = false.
Proof. unfold lessCreated. apply lt_irrefl. Qed.

Lemma lessCreated_trans (x y z : TaskDetail) :
  lessCreated x y = true -> lessCreated y z = true -> lessCreated x z = true.
Proof. unfold lessCreated. intros H1 H2. exact (lt_trans _ _ _ H2 H1). Qed.

Lemma lessCreated_negtrans (x y z : TaskDetail) :
  lessCreated x y = false -> lessCreated y z = false -> lessCreated x z = false.
Proof. unfold lessCreated. intros H1 H2. exact (lt_negtrans _ _ _ H2 H1). Qed.

Lemma sortTasks_priority (tasks : list TaskDetail) :
  sortTasks tasks "priority" = GoSort.Slice lessPriority tasks.
Proof. reflexivity. Qed.

Lemma sortTasks_created (tasks : list TaskDetail) :
  sortTasks tasks "created" = GoSort.Slice lessCreated tasks.
Proof. reflexivity. Qed.

End OtherSortKeys.

(** X8.  Sorting by ["priority"] returns the same tasks with no task
    ahead of one of higher priority value, and sorting by ["created"]
    returns them with no task ahead of one whose creation stamp is
    greater (newest first, tasks without one last); in either order
    tasks that compare equal keep their places when there are at most
    twelve tasks. *)
Theorem sortTasks_priority_and_created :
  forall (tasks : list TaskDetail),
    let byPriority := TasksHandler.sortTasks tasks "priority" in
    let byCreated := TasksHandler.sortTasks tasks "created" in
    Permutation byPriority tasks
    /\ StronglySorted
         (fun x y => TasksHandler.getPriorityValue (Priority y)
                     <= TasksHandler.getPriorityValue (Priority x)) byPriority
    /\ Permutation byCreated tasks
    /\ StronglySorted
         (fun x y => String.leb (Created (Dates y)) (Created (Dates x)) = true) byCreated
    /\ ((List.length tasks <= 12)%nat ->
        GoSortInv.KeepsOrder TasksHandler.lessPriority tasks byPriority
        /\ GoSortInv.KeepsOrder TasksHandler.lessCreated tasks byCreated).
Proof.
  intros tasks byPriority byCreated. subst byPriority byCreated.
  rewrite sortTasks_priority, sortTasks_created.
  split; [apply GoSortFacts.Slice_perm|]. split.
  { apply (StronglySorted_weaken _ (fun u v => TasksHandler.lessPriority v u = false)).
    - intros x y H. unfold TasksHandler.lessPriority in H. now apply Z.ltb_ge in H.
    - apply GoSortFacts.Slice_sorted;
        [exact lessPriority_irrefl | exact lessPriority_trans | exact lessPriority_negtrans]. }
  split; [apply GoSortFacts.Slice_perm|]. split.
  { apply (StronglySorted_weaken _ (fun u v => TasksHandler.lessCreated v u = false)).
    - intros x y H. unfold TasksHandler.lessCreated in H.
      rewrite leb_not_lt, H. reflexivity.
    - apply GoSortFacts.Slice_sorted;
        [exact lessCreated_irrefl | exact lessCreated_trans | exact lessCreated_negtrans]. }
  intros Hlen. split.
  - apply GoSortFacts.Slice_stable_short; [exact lessPriority_negtrans | exact Hlen].
  - apply GoSortFacts.Slice_stable_short; [exact lessCreated_negtrans | exact Hlen].
Qed.

(** ** Building the records of a project *)

Section Resolution.
Import TasksHandler.

(** Reading a map filled from a list: the last entry under a key wins. *)
Lemma fold_mapStore_lookup (A V : Type) (key : A -> Z) (val : A -> V)
    (l : list A) (m0 : intMap V) (k : Z) :
  fold_left (fun m x => mapStore m (key x) (val x)) l m0 k
  = match find (fun x => key x =? k) (rev l) with
    | Some x => Some (val x)
    | None => m0 k
    end.
Proof.
  induction l as [|x l IH] using rev_ind; [reflexivity|].
  rewrite fold_left_app, rev_app_distr. cbn [fold_left rev app find].
  unfold mapStore at 1. rewrite (Z.eqb_sym k (key x)).
  destruct (key x =? k); [reflexivity | exact IH].
Qed.

End Resolution.

(** X9.  [getProjectTasks] fails exactly when one of its four fetches
    failed.  Otherwise it gives one record per upstream task, in order;
    a record's column and swimlane are the title and name of the last
    fetched column and swimlane with the task's ids, or empty when there
    is none; and its assignee is the last fetched user whose id is the
    task's owner id, with the id in decimal, when the owner id is
    positive and such a user exists, and absent otherwise. *)
Theorem getProjectTasks_resolution :
  forall (now : Time) (project : ProjectData) (fetch : TasksHandler.ProjectFetch)
         (baseURL : string) (includeTimeTracking : bool),
    match TasksHandler.getProjectTasks now project fetch baseURL includeTimeTracking with
    | None =>
        TasksHandler.fetchedTasks fetch = None
        \/ TasksHandler.fetchedColumns fetch = None
        \/ TasksHandler.fetchedSwimlanes fetch = None
        \/ TasksHandler.fetchedUsers fetch = None
    | Some details =>
        exists tasks columns swimlanes users,
          TasksHandler.fetchedTasks fetch = Some tasks
          /\ TasksHandler.fetchedColumns fetch = Some columns
          /\ TasksHandler.fetchedSwimlanes fetch = Some swimlanes
          /\ TasksHandler.fetchedUsers fetch = Some users
          /\ List.length details = List.length tasks
          /\ forall (i : nat) (task : Task),
               nth_error tasks i = Some task ->
               exists d, nth_error details i = Some d
                 /\ ID d = itoa (Task_ID task)
                 /\ ProjectInfo_ID (Project d) = itoa (ProjectData_ID project)
                 /\ Column (Status d)
                    = match find (fun c => Column_ID c =? Task_ColumnID task)
                                 (rev columns) with
                      | Some c => Column_Title c
                      | None => ""
                      end
                 /\ Swimlane (Status d)
                    = match find (fun l => Swimlane_ID l =? Task_SwimlaneID task)
                                 (rev swimlanes) with
                      | Some l => Swimlane_Name l
                      | None => ""
                      end
                 /\ Assignee d
                    = if 0 <? Task_OwnerID task then
                        match find (fun u => User_ID u =? Task_OwnerID task)
                                   (rev users) with
                        | Some u => Some {| UserInfo_ID := itoa (User_ID u);
                                            UserInfo_Username := User_Username u;
                                            UserInfo_Name := User_Name u |}
                        | None => None
                        end
                      else None
    end.
Proof.
  intros now project fetch baseURL tt. unfold TasksHandler.getProjectTasks.
  destruct (TasksHandler.fetchedTasks fetch) as [tasks|]; [|now left].
  destruct (TasksHandler.fetchedColumns fetch) as [columns|]; [|now right; left].
  destruct (TasksHandler.fetchedSwimlanes fetch) as [swimlanes|]; [|now right; right; left].
  destruct (TasksHandler.fetchedUsers fetch) as [users|]; [|now right; right; right].
  exists tasks, columns, swimlanes, users. repeat (split; [reflexivity|]).
  split; [apply length_map|].
  intros i task Hi. eexists. split; [apply map_nth_error; exact Hi|].
  unfold TasksHandler.buildTaskDetail.
  destruct (if negb (IsZero (Task_DateDue task)) then _ else _) as [isOverdue daysUntilDue].
  cbn [ID Project ProjectInfo_ID Status Column Swimlane Assignee].
  unfold mapString.
  rewrite (fold_mapStore_lookup _ _ Column_ID Column_Title).
  rewrite (fold_mapStore_lookup _ _ Swimlane_ID Swimlane_Name).
  rewrite (fold_mapStore_lookup _ _ User_ID
             (fun user => {| UserInfo_ID := itoa (User_ID user);
                             UserInfo_Username := User_Username user;
                             UserInfo_Name := User_Name user |})).
  unfold emptyMap.
  repeat split.
  - destruct (find _ (rev columns)); reflexivity.
  - destruct (find _ (rev swimlanes)); reflexivity.
Qed.

(** X10.  [collectTasks] is all or nothing: it fails as soon as one
    project fails, whatever the others returned; otherwise every project
    succeeded and the collection holds the records of all of them, as
    many as there are upstream tasks. *)
Theorem collectTasks_all_or_nothing :
  forall (now : Time) (projects : list (ProjectData * TasksHandler.ProjectFetch))
         (baseURL : string) (includeTimeTracking : bool),
    match TasksHandler.collectTasks now projects baseURL includeTimeTracking with
    | None =>
        exists proj fetch,
          In (proj, fetch) projects
          /\ TasksHandler.getProjectTasks now proj fetch baseURL includeTimeTracking = None
    | Some collected =>
        (forall proj fetch, In (proj, fetch) projects ->
           exists details,
             TasksHandler.getProjectTasks now proj fetch baseURL includeTimeTracking
             = Some details
             /\ forall d, In d details -> In d collected)
        /\ (forall d, In d collected ->
              exists proj fetch details,
                In (proj, fetch) projects
                /\ TasksHandler.getProjectTasks now proj fetch baseURL includeTimeTracking
                   = Some details
                /\ In d details)
        /\ List.length collected
           = list_sum
               (map (fun pf => match TasksHandler.fetchedTasks (snd pf) with
                               | Some tasks => List.length tasks
                               | None => 0%nat
                               end) projects)
    end.
Proof.
  intros now projects baseURL tt.
  induction projects as [|[proj fetch] rest IH]; cbn [TasksHandler.collectTasks].
  - split; [intros ? ? []|]. split; [intros ? []|reflexivity].
  - destruct (TasksHandler.getProjectTasks now proj fetch baseURL tt) as [mine|] eqn:Em.
    + destruct (TasksHandler.collectTasks now rest baseURL tt) as [more|].
      * destruct IH as (IH1 & IH2 & IH3). split; [|split].
        -- intros p f [E|Hin].
           ++ injection E as <- <-. exists mine. split; [exact Em|].
              intros d Hd. apply in_or_app. now left.
           ++ destruct (IH1 p f Hin) as (details & Ed & Hsub).
              exists details. split; [exact Ed|].
              intros d Hd. apply in_or_app. right. auto.
        -- intros d Hd. apply in_app_or in Hd. destruct Hd as [Hd|Hd].
           ++ exists proj, fetch, mine. split; [now left | auto].
           ++ destruct (IH2 d Hd) as (p & f & details & Hin & Ed & Hdd).
              exists p, f, details. split; [now right | auto].
        -- rewrite length_app, IH3. cbn [map snd].
           change (list_sum (?a :: ?l)) with (a + list_sum l)%nat. f_equal.
           unfold TasksHandler.getProjectTasks in Em.
           destruct (TasksHandler.fetchedTasks fetch) as [tasks|]; [|discriminate].
           destruct (TasksHandler.fetchedColumns fetch); [|discriminate].
           destruct (TasksHandler.fetchedSwimlanes fetch); [|discriminate].
           destruct (TasksHandler.fetchedUsers fetch); [|discriminate].
           injection Em as <-. apply length_map.
      * destruct IH as (p & f & Hin & Ef). exists p, f. split; [now right | exact Ef].
    + exists proj, fetch. split; [now left | exact Em].
Qed.

(** ** What makes a task urgent *)

Section UrgentAndOverdue.
Import TasksHandler PrioritiesHandler Spec.

Ltac score_cases :=
  repeat match goal with
         | |- context [if ?c then _ else _] => destruct c eqn:?
         | |- context [match ?c with Some _ => _ | None => _ end] => destruct c eqn:?
         end.

Lemma priorityBonus_range (priority : string) : 0 <= priorityBonus priority <= 25.
Proof. unfold priorityBonus. score_cases; lia. Qed.

Lemma score_range (task : TaskDetail) (now timeLimit : Time) :
  0 <= calculateUrgencyScore task now timeLimit <= 130.
Proof.
  pose proof (priorityBonus_range (Priority task)).
  unfold calculateUrgencyScore. cbv zeta.
  set (bonus := priorityBonus (Priority task)) in *. clearbody bonus.
  score_cases; cbn [negb andb] in *; try discriminate; lia.
Qed.

Lemma score_without_due_date (task : TaskDetail) (now timeLimit : Time) :
  IsOverdue task = false -> Due (Dates task) = "" ->
  calculateUrgencyScore task now timeLimit <= 40.
Proof.
  intros Ho Hd. pose proof (priorityBonus_range (Priority task)).
  unfold calculateUrgencyScore. cbv zeta. rewrite Ho, Hd.
  change (String.eqb "" "") with true. cbn [negb andb].
  set (bonus := priorityBonus (Priority task)) in *. clearbody bonus.
  score_cases; lia.
Qed.

(** What the score of a record sees of it, when the record is as the
    collector leaves it. *)
Lemma score_of_built (d : TaskDetail) (built now timeLimit : Time) :
  Priority d = "normal" ->
  (IsOverdue d, DaysUntilDue d) =
    match dueDateOf d with
    | Some due => (Before due built, Some (wholeDays (Sub due built)))
    | None => (false, None)
    end ->
  (70 <= calculateUrgencyScore d now timeLimit <-> IsOverdue d = true)
  /\ (IsOverdue d = true ->
      exists days, DaysUntilDue d = Some days /\ -106751 <= days <= 0).
Proof.
  intros Hp Hf. unfold calculateUrgencyScore. cbv zeta. rewrite Hp.
  change (priorityBonus "normal") with 5.
  unfold dueDateOf in Hf.
  destruct (String.eqb (Due (Dates d)) "") eqn:Edue; cbn [negb andb].
  - injection Hf as -> ->. cbn [negb andb].
    split; [|discriminate]. split; [|discriminate].
    destruct (Assignee d); lia.
  - destruct (Parse LayoutStamp (Due (Dates d))) as [due|] eqn:Es.
    + injection Hf as Ho Hd. rewrite Ho, Hd.
      destruct (Before due built) eqn:Eb; cbn [negb andb].
      * split.
        -- split; [reflexivity|]. intros _. score_cases; lia.
        -- intros _. eexists. split; [reflexivity|].
           pose proof (wholeDays_Sub_range due built).
           pose proof (wholeDays_nonpos _ (Sub_sign_neg _ _ Eb)). lia.
      * split; [|discriminate]. split; [|discriminate].
        score_cases; lia.
    + destruct (Parse LayoutDate (Due (Dates d))) as [due|].
      * injection Hf as Ho Hd. rewrite Ho, Hd.
        destruct (Before due built) eqn:Eb; cbn [negb andb].
        -- split.
           ++ split; [reflexivity|]. intros _. score_cases; lia.
           ++ intros _. eexists. split; [reflexivity|].
              pose proof (wholeDays_Sub_range due built).
              pose proof (wholeDays_nonpos _ (Sub_sign_neg _ _ Eb)). lia.
        -- split; [|discriminate]. split; [|discriminate].
           score_cases; lia.
      * injection Hf as -> ->. cbn [negb andb].
        split; [|discriminate]. split; [|discriminate].
        destruct (Assignee d); lia.
Qed.

Lemma findUrgentItems_from (tasks : list TaskDetail) (timeHorizon : string) (now : Time)
    (item : UrgentItem) :
  In item (findUrgentItems tasks timeHorizon now) ->
  exists task,
    In task tasks
    /\ 70 <= calculateUrgencyScore task now (timeLimitOf now timeHorizon)
    /\ item = urgentItemOf task now
                (calculateUrgencyScore task now (timeLimitOf now timeHorizon)).
Proof.
  unfold findUrgentItems. cbv zeta. intros H.
  assert (Hin : In item
                   (GoSort.Slice lessUrgency
                      (flat_map
                         (fun task =>
                            if 70 <=? calculateUrgencyScore task now
                                        (timeLimitOf now timeHorizon)
                            then [urgentItemOf task now
                                    (calculateUrgencyScore task now
                                       (timeLimitOf now timeHorizon))]
                            else []) tasks))).
  { destruct (_ <? _)%nat; [apply firstn_In_all in H|]; exact H. }
  apply (Permutation_in _ (GoSortFacts.Slice_perm _ _ _)) in Hin.
  apply in_flat_map in Hin. destruct Hin as (task & Ht & Hi).
  destruct (Z.leb_spec 70 (calculateUrgencyScore task now (timeLimitOf now timeHorizon)));
    [|contradiction].
  destruct Hi as [<-|[]]. exists task. auto.
Qed.

End UrgentAndOverdue.

(** X11.  What makes a task urgent.  The urgency score lies between 0
    and 130, and a task that is not overdue and has no due date scores
    at most 40.  For a record as the collector builds it (its priority
    is always "normal") the score reaches 70 exactly when the record is
    overdue; so every urgent item the priority analyzer lists for
    collected tasks belongs to an overdue task, with [days_overdue] not
    negative. *)
Theorem urgent_items_are_overdue_tasks :
  (forall (task : TaskDetail) (now timeLimit : Time),
      0 <= PrioritiesHandler.calculateUrgencyScore task now timeLimit <= 130)
  /\ (forall (task : TaskDetail) (now timeLimit : Time),
        IsOverdue task = false -> Due (Dates task) = "" ->
        PrioritiesHandler.calculateUrgencyScore task now timeLimit <= 40)
  /\ (forall (built : Time) (task : Task) (project : ProjectData)
             (columnMap swimlaneMap : intMap string) (userMap : intMap UserInfo)
             (baseURL : string) (includeTimeTracking : bool) (now timeLimit : Time),
        let d := TasksHandler.buildTaskDetail built task project columnMap swimlaneMap
                                              userMap baseURL includeTimeTracking in
        70 <= PrioritiesHandler.calculateUrgencyScore d now timeLimit
        <-> IsOverdue d = true)
  /\ (forall (built now : Time) (projects : list (ProjectData * TasksHandler.ProjectFetch))
             (baseURL : string) (includeTimeTracking : bool)
             (collected tasks : list TaskDetail) (timeHorizon : string)
             (item : PrioritiesHandler.UrgentItem),
        TasksHandler.collectTasks built projects baseURL includeTimeTracking
        = Some collected ->
        (forall d, In d tasks -> In d collected) ->
        In item (PrioritiesHandler.findUrgentItems tasks timeHorizon now) ->
        exists d, In d tasks /\ IsOverdue d = true
                  /\ PrioritiesHandler.TaskID item = ID d
                  /\ 0 <= PrioritiesHandler.DaysOverdue item).
Proof.
  split; [exact score_range|]. split; [exact score_without_due_date|]. split.
  - intros built task project cm sm um baseURL tt now timeLimit d.
    subst d. apply (score_of_built _ built).
    + apply buildTaskDetail_Priority.
    + apply (buildTaskDetail_flags built task project cm sm um baseURL tt).
  - intros built now projects baseURL tt collected tasks timeHorizon item Hc Hsub Hitem.
    destruct (findUrgentItems_from _ _ _ _ Hitem) as (d & Hd & Hscore & ->).
    destruct (collectTasks_built built baseURL tt projects collected Hc d (Hsub d Hd))
      as (task & project & cm & sm & um & Ed).
    destruct (score_of_built d built now (PrioritiesHandler.timeLimitOf now timeHorizon))
      as [Hiff Hdays].
    + rewrite Ed. apply buildTaskDetail_Priority.
    + rewrite Ed. apply (buildTaskDetail_flags built task project cm sm um baseURL tt).
    + apply Hiff in Hscore. exists d. split; [exact Hd|]. split; [exact Hscore|].
      split; [reflexivity|].
      destruct (Hdays Hscore) as (days & Edays & Hle).
      unfold PrioritiesHandler.urgentItemOf. cbn [PrioritiesHandler.DaysOverdue].
      rewrite Edays, Hscore.
      rewrite <- (Z.opp_involutive days), neg_opp
        by (unfold GoInt.MinInt, GoInt.MaxInt; lia).
      lia.
Qed.

(* ================================================================== *)
(** * Workloads, bottlenecks and recommendations *)
(* ================================================================== *)

(** ** Decimal numbers read back *)

Section Decimal.
Import GoTimeInv GoTimeFacts StrConv.

Lemma string_app_assoc (s t u : string) : ((s ++ t) ++ u = s ++ (t ++ u))%string.
Proof. induction s as [|c s IH]; cbn; [reflexivity|]. rewrite IH. reflexivity. Qed.

Lemma natOfDigits_app (s : string) (c : ascii) (a : Z) :
  natOfDigits (s ++ String c "") a = natOfDigits s a * 10 + digitVal c.
Proof.
  revert a. induction s as [|d s IH]; intros a; cbn; [reflexivity|]. apply IH.
Qed.

Lemma allDigits_app (s t : string) :
  allDigits (s ++ t) = allDigits s && allDigits t.
Proof.
  induction s as [|c s IH]; cbn; [reflexivity|]. rewrite IH, andb_assoc. reflexivity.
Qed.

Lemma digitsFuel_acc (fuel : nat) (n : Z) (acc : string) :
  digitsFuel fuel n acc = (digitsFuel fuel n "" ++ acc)%string.
Proof.
  revert n acc. induction fuel as [|fuel IH]; intros n acc; cbn [digitsFuel].
  - reflexivity.
  - destruct (n <? 10); [reflexivity|].
    rewrite (IH (n / 10) (String _ acc)), (IH (n / 10) (String _ "")).
    rewrite string_app_assoc. reflexivity.
Qed.

Lemma digitsFuel_value (fuel : nat) (n : Z) :
  0 <= n < 10 ^ Z.of_nat (S fuel) ->
  allDigits (digitsFuel (S fuel) n "") = true
  /\ natOfDigits (digitsFuel (S fuel) n "") 0 = n
  /\ exists c rest, digitsFuel (S fuel) n "" = String c rest /\ isDigitChar c = true.
Proof.
  revert n. induction fuel as [|fuel IH]; intros n H.
  - change (10 ^ Z.of_nat 1) with 10 in H.
    rewrite digitsFuel_small by lia.
    destruct (digitChar_digit n ltac:(lia)) as [Hd Hv].
    cbn. rewrite Hd, Hv. repeat split. eauto.
  - destruct (Z_lt_le_dec n 10) as [Hs|Hb].
    + rewrite digitsFuel_small by lia.
      destruct (digitChar_digit n ltac:(lia)) as [Hd Hv].
      cbn. rewrite Hd, Hv. repeat split. eauto.
    + rewrite digitsFuel_step by lia. rewrite digitsFuel_acc.
      assert (Hq : 0 <= n / 10 < 10 ^ Z.of_nat (S fuel)).
      { rewrite (Nat2Z.inj_succ (S fuel)), Z.pow_succ_r in H by lia.
        Z.to_euclidean_division_equations; lia. }
      destruct (IH (n / 10) Hq) as (Ha & Hn & c & rest & Hc & Hd).
      destruct (digitChar_digit (n mod 10)
                  ltac:(Z.to_euclidean_division_equations; lia)) as [Hd' Hv'].
      rewrite allDigits_app, natOfDigits_app, Ha, Hn, Hv'.
      cbn [allDigits]. rewrite Hd'. repeat split.
      * Z.to_euclidean_division_equations; lia.
      * rewrite Hc. cbn. eauto.
Qed.

Lemma digits_value (n : Z) :
  0 <= n ->
  allDigits (digits n) = true
  /\ natOfDigits (digits n) 0 = n
  /\ exists c rest, digits n = String c rest /\ isDigitChar c = true.
Proof.
  intros H. unfold digits. apply digitsFuel_value. split; [lia|].
  destruct (Z.eq_dec n 0) as [->|Hn]; [reflexivity|].
  assert (Hl : 0 <= Z.log2 n) by apply Z.log2_nonneg.
  rewrite Nat2Z.inj_succ, Z2Nat.id by lia.
  destruct (Z.log2_spec n ltac:(lia)) as [_ Hlt].
  eapply Z.lt_le_trans; [exact Hlt|].
  apply Z.pow_le_mono_l. lia.
Qed.

Lemma digit_not_sign (c : ascii) :
  isDigitChar c = true -> Ascii.eqb c "-" = false /\ Ascii.eqb c "+" = false.
Proof.
  intros H. split.
  - destruct (Ascii.eqb_spec c "-") as [->|]; [discriminate H|reflexivity].
  - destruct (Ascii.eqb_spec c "+") as [->|]; [discriminate H|reflexivity].
Qed.

(** [strconv.Atoi] reads back what [strconv.Itoa] wrote. *)
Lemma Atoi_Itoa (n : Z) : minInt <= n <= maxInt -> Atoi (Itoa n) = Some n.
Proof.
  intros H. unfold Itoa, itoa.
  destruct (Z.ltb_spec n 0) as [Hneg|Hpos].
  - destruct (digits_value (- n) ltac:(lia)) as (Ha & Hn & c & rest & Hc & Hd).
    unfold Atoi. change (Ascii.eqb "-" "-") with true. cbv iota zeta.
    cbn [orb]. rewrite Hc in *. rewrite Ha, Hn, Z.opp_involutive.
    destruct (Z.leb_spec minInt n); [|lia]. destruct (Z.leb_spec n maxInt); [|lia].
    reflexivity.
  - destruct (digits_value n ltac:(lia)) as (Ha & Hn & c & rest & Hc & Hd).
    destruct (digit_not_sign c Hd) as [Hm Hp].
    rewrite Hc in *. unfold Atoi. rewrite Hm, Hp. cbn [orb]. cbv iota zeta.
    rewrite Ha, Hn.
    destruct (Z.leb_spec minInt n); [|lia]. destruct (Z.leb_spec n maxInt); [|lia].
    reflexivity.
Qed.

Lemma Atoi_range (s : string) (n : Z) : Atoi s = Some n -> minInt <= n <= maxInt.
Proof.
  unfold Atoi. destruct s as [|c rest]; [discriminate|].
  cbv zeta.
  destruct (if Ascii.eqb c "-" || Ascii.eqb c "+" then rest else String c rest)
    as [|c' rest']; [discriminate|].
  destruct (allDigits (String c' rest')); [|discriminate].
  match goal with
  | |- context [(minInt <=? ?v) && (?v <=? maxInt)] =>
      destruct (Z.leb_spec minInt v); destruct (Z.leb_spec v maxInt);
      cbn [andb]; try discriminate
  end.
  intros E. injection E as <-. split; assumption.
Qed.

End Decimal.

(** ** User ids *)

(** X12.  Two user ids match exactly when they are the same string or
    both are decimal integers (as [strconv.Atoi] reads them: an optional
    sign, digits, within 64 bits) of the same value.  So the two fallback
    comparisons against [strconv.Itoa], taken when only one side is a
    number, never succeed; and matching is symmetric. *)
Theorem matchesUserID_spec :
  forall assigneeID targetUserID : string,
    (PrioritiesAnalysis.matchesUserID assigneeID targetUserID = true
     <-> assigneeID = targetUserID
         \/ exists n, StrConv.Atoi assigneeID = Some n
                      /\ StrConv.Atoi targetUserID = Some n)
    /\ PrioritiesAnalysis.matchesUserID assigneeID targetUserID
       = PrioritiesAnalysis.matchesUserID targetUserID assigneeID.
Proof.
  assert (Spec : forall a t,
             PrioritiesAnalysis.matchesUserID a t = true
             <-> a = t \/ exists n, StrConv.Atoi a = Some n /\ StrConv.Atoi t = Some n).
  { intros a t. unfold PrioritiesAnalysis.matchesUserID.
    destruct (String.eqb_spec a t) as [E|N]; [tauto|].
    destruct (StrConv.Atoi a) as [x|] eqn:Ea; destruct (StrConv.Atoi t) as [y|] eqn:Et.
    - rewrite Z.eqb_eq. split.
      + intros ->. right. eauto.
      + intros [E|(n & E1 & E2)]; [contradiction|congruence].
    - split.
      + intros H. apply String.eqb_eq in H. subst t.
        rewrite (Atoi_Itoa x (Atoi_range a x Ea)) in Et. discriminate.
      + intros [E|(n & E1 & E2)]; [contradiction|discriminate].
    - split.
      + intros H. apply String.eqb_eq in H. subst a.
        rewrite (Atoi_Itoa y (Atoi_range t y Et)) in Ea. discriminate.
      + intros [E|(n & E1 & E2)]; [contradiction|discriminate].
    - split; [discriminate|].
      intros [E|(n & E1 & E2)]; [contradiction|discriminate]. }
  intros a t. split; [apply Spec|].
  destruct (PrioritiesAnalysis.matchesUserID a t) eqn:E1;
    destruct (PrioritiesAnalysis.matchesUserID t a) eqn:E2; try reflexivity.
  - apply Spec in E1. assert (E : PrioritiesAnalysis.matchesUserID t a = true).
    { apply Spec. destruct E1 as [->|(n & H1 & H2)]; [tauto|right; eauto]. }
    congruence.
  - apply Spec in E2. assert (E : PrioritiesAnalysis.matchesUserID a t = true).
    { apply Spec. destruct E2 as [->|(n & H1 & H2)]; [tauto|right; eauto]. }
    congruence.
Qed.

(** ** Maps filled by one pass over a slice *)

Section MapFacts.
Import GoMap.
Variable V : Type.

Lemma lookup_upsert (m : list (string * V)) (key : string) (fresh : V) (f : V -> V)
    (k : string) :
  lookup (upsert m key fresh f) k
  = if String.eqb key k
    then Some (f (match lookup m key with Some v => v | None => fresh end))
    else lookup m k.
Proof.
  induction m as [|[k0 v0] m IH]; cbn [upsert lookup].
  - destruct (String.eqb_spec key k); reflexivity.
  - destruct (String.eqb_spec k0 key) as [E|N]; cbn [lookup].
    + subst k0. destruct (String.eqb_spec key k); reflexivity.
    + rewrite IH. destruct (String.eqb_spec k0 k) as [E'|N'];
        destruct (String.eqb_spec key k); try reflexivity. congruence.
Qed.

Lemma lookup_None (m : list (string * V)) (k : string) :
  lookup m k = None <-> ~ In k (map fst m).
Proof.
  induction m as [|[k0 v0] m IH]; cbn [lookup map fst In]; [tauto|].
  destruct (String.eqb_spec k0 k) as [E|N].
  - split; [discriminate|]. intros H. exfalso. apply H. left. exact E.
  - rewrite IH. tauto.
Qed.

Lemma keys_upsert (m : list (string * V)) (key : string) (fresh : V) (f : V -> V) :
  map fst (upsert m key fresh f)
  = match lookup m key with
    | Some _ => map fst m
    | None => map fst m ++ [key]
    end.
Proof.
  induction m as [|[k0 v0] m IH]; cbn [upsert lookup map fst app]; [reflexivity|].
  destruct (String.eqb_spec k0 key) as [E|N]; cbn [map fst]; [reflexivity|].
  rewrite IH. destruct (lookup m key); reflexivity.
Qed.

Lemma In_lookup (m : list (string * V)) (k : string) (v : V) :
  NoDup (map fst m) -> (In (k, v) m <-> lookup m k = Some v).
Proof.
  induction m as [|[k0 v0] m IH]; cbn [lookup map fst In]; intros Hn.
  - split; [tauto|discriminate].
  - inversion Hn as [|? ? Hnot Hrest]; subst.
    destruct (String.eqb_spec k0 k) as [E|N].
    + subst k0. split.
      * intros [E|Hin]; [congruence|].
        exfalso. apply Hnot. apply (in_map fst) in Hin. exact Hin.
      * intros E. left. congruence.
    + rewrite <- (IH Hrest). split; [intros [E|H]; [congruence|exact H]|tauto].
Qed.

End MapFacts.

Section GroupFacts.
Import GoMap.
Variables (A V : Type).
Variable keyOf : A -> option string.
Variable fresh : A -> V.
Variable bump : A -> V -> V.

Lemma group_snoc (l : list A) (x : A) :
  group keyOf fresh bump (l ++ [x]) = visit keyOf fresh bump (group keyOf fresh bump l) x.
Proof. unfold group. rewrite fold_left_app. reflexivity. Qed.

Lemma members_snoc (key : string) (l : list A) (x : A) :
  members keyOf key (l ++ [x])
  = members keyOf key l ++ (if hasKey keyOf key x then [x] else []).
Proof. unfold members. rewrite filter_app. reflexivity. Qed.

Lemma entryOf_snoc (xs : list A) (x : A) :
  entryOf fresh bump (xs ++ [x])
  = Some (bump x (match entryOf fresh bump xs with Some v => v | None => fresh x end)).
Proof.
  destruct xs as [|first xs]; [reflexivity|].
  cbn [entryOf app fold_left]. rewrite fold_left_app. reflexivity.
Qed.

Lemma group_lookup (l : list A) (k : string) :
  lookup (group keyOf fresh bump l) k = entryOf fresh bump (members keyOf k l).
Proof.
  induction l as [|x l IH] using rev_ind; [reflexivity|].
  rewrite group_snoc, members_snoc. unfold visit, hasKey.
  destruct (keyOf x) as [key|].
  - rewrite lookup_upsert. destruct (String.eqb_spec key k) as [E|N].
    + subst key. rewrite entryOf_snoc, IH. reflexivity.
    + rewrite app_nil_r. exact IH.
  - rewrite app_nil_r. exact IH.
Qed.

Lemma group_NoDup (l : list A) : NoDup (map fst (group keyOf fresh bump l)).
Proof.
  induction l as [|x l IH] using rev_ind; [constructor|].
  rewrite group_snoc. unfold visit. destruct (keyOf x) as [key|]; [|exact IH].
  rewrite keys_upsert.
  destruct (lookup (group keyOf fresh bump l) key) eqn:E; [exact IH|].
  apply lookup_None in E.
  apply NoDup_app; [exact IH|repeat constructor; intros []|].
  intros k Hk [<-|[]]. exact (E Hk).
Qed.

Lemma group_In (l : list A) (k : string) (v : V) :
  In (k, v) (group keyOf fresh bump l)
  <-> entryOf fresh bump (members keyOf k l) = Some v.
Proof. rewrite In_lookup by apply group_NoDup. rewrite group_lookup. reflexivity. Qed.

Lemma group_empty (l : list A) :
  group keyOf fresh bump l = [] <-> forall x, In x l -> keyOf x = None.
Proof.
  split.
  - intros E x Hin. destruct (keyOf x) as [key|] eqn:Ek; [|reflexivity].
    assert (Hl := group_lookup l key). rewrite E in Hl. cbn in Hl.
    assert (Hm : In x (members keyOf key l)).
    { apply filter_In. split; [exact Hin|]. unfold hasKey. rewrite Ek.
      apply String.eqb_refl. }
    destruct (members keyOf key l); [destruct Hm|discriminate Hl].
  - intros H. destruct (group keyOf fresh bump l) as [|[k v] rest] eqn:E; [reflexivity|].
    exfalso. assert (Hin : In (k, v) (group keyOf fresh bump l)) by (rewrite E; left; reflexivity).
    apply group_In in Hin.
    destruct (members keyOf k l) as [|x xs] eqn:Em; [discriminate Hin|].
    assert (Hx : In x (members keyOf k l)) by (rewrite Em; left; reflexivity).
    apply filter_In in Hx. destruct Hx as [Hx Hk]. unfold hasKey in Hk.
    rewrite (H x Hx) in Hk. discriminate Hk.
Qed.

End GroupFacts.

(** ** Team workloads *)

Section Workloads.
Import GoMap PrioritiesAnalysis Tally.

Lemma fold_addTask (ts : list TaskDetail) (w0 : UserWorkload) :
  fold_left (fun w t => addTask t w) ts w0
  = {| Workload_UserID := Workload_UserID w0;
       Workload_Username := Workload_Username w0;
       Workload_Name := Workload_Name w0;
       AssignedTasks := AssignedTasks w0 + Z.of_nat (List.length ts);
       Workload_OverdueTasks :=
         Workload_OverdueTasks w0 + Z.of_nat (List.length (filter IsOverdue ts));
       TotalEstimatedHours := fold_left addEstimate ts (TotalEstimatedHours w0);
       CapacityUtilization := CapacityUtilization w0;
       Workload_Status := Workload_Status w0 |}.
Proof.
  revert w0. induction ts as [|t ts IH]; intros w0.
  - cbn [fold_left List.length filter]. destruct w0; cbn. f_equal; lia.
  - cbn [fold_left]. rewrite IH. unfold addTask at 1 2 3 4 5 6 7 8.
    cbn [Workload_UserID Workload_Username Workload_Name AssignedTasks
         Workload_OverdueTasks TotalEstimatedHours CapacityUtilization Workload_Status].
    cbn [filter List.length]. unfold addEstimate at 3.
    destruct (IsOverdue t); cbn [List.length]; f_equal; lia.
Qed.

Lemma userMap_entry (tasks : list TaskDetail) (id : string) (w : UserWorkload) :
  In (id, w) (group assigneeOf newWorkload addTask tasks) ->
  exists first rest u,
    assignedTo id tasks = first :: rest
    /\ Assignee first = Some u /\ UserInfo_ID u = id
    /\ w = tallyOf u (first :: rest).
Proof.
  intros Hin. apply group_In in Hin. unfold assignedTo.
  destruct (members assigneeOf id tasks) as [|first rest] eqn:Em; [discriminate Hin|].
  assert (Hf : In first (members assigneeOf id tasks)) by (rewrite Em; left; reflexivity).
  apply filter_In in Hf. destruct Hf as [_ Hk]. unfold hasKey, assigneeOf in Hk.
  destruct (Assignee first) as [u|] eqn:Ea; [|discriminate Hk].
  apply String.eqb_eq in Hk.
  exists first, rest, u. repeat split; try assumption.
  assert (Hw : w = fold_left (fun w t => addTask t w) (first :: rest) (newWorkload first)).
  { unfold entryOf in Hin. congruence. }
  rewrite (fold_addTask (first :: rest)) in Hw. rewrite Hw.
  unfold newWorkload, tallyOf. rewrite Ea.
  cbn [Workload_UserID Workload_Username Workload_Name AssignedTasks
       Workload_OverdueTasks TotalEstimatedHours CapacityUtilization Workload_Status].
  reflexivity.
Qed.

Lemma rate_UserID (printf : FloatPrinter) (w : UserWorkload) :
  Workload_UserID (rate printf w) = Workload_UserID w.
Proof. reflexivity. Qed.

Lemma analyseTeamWorkloads_perm (printf : FloatPrinter) (it : Iteration)
    (tasks : list TaskDetail) :
  visitsAll it ->
  Permutation (analyseTeamWorkloads printf it tasks)
              (map (fun entry => rate printf (snd entry))
                   (group assigneeOf newWorkload addTask tasks)).
Proof.
  intros Hit. unfold analyseTeamWorkloads. cbv zeta.
  set (userMap := group assigneeOf newWorkload addTask tasks).
  set (ids := flat_map _ tasks).
  assert (Hdebug : (List.length (map (fun entry => rate printf (snd entry))
                                     (range it UserWorkload userMap)) =? 0)%nat
                   && (0 <? List.length ids)%nat = false).
  { destruct (Nat.eqb_spec (List.length (map (fun entry => rate printf (snd entry))
                                             (range it UserWorkload userMap))) 0)
      as [E|N]; [|reflexivity].
    cbn [andb]. rewrite length_map in E.
    rewrite (Permutation_length (Hit _ userMap)) in E.
    assert (Hempty : userMap = []) by (destruct userMap; [reflexivity|discriminate E]).
    unfold userMap in Hempty. rewrite group_empty in Hempty.
    assert (Hids : ids = []).
    { subst ids. clear -Hempty. induction tasks as [|t ts IH]; [reflexivity|].
      cbn [flat_map]. assert (Ht := Hempty t (or_introl eq_refl)).
      unfold assigneeOf in Ht. destruct (Assignee t); [discriminate Ht|].
      cbn [app]. apply IH. intros x Hx. apply Hempty. right. exact Hx. }
    rewrite Hids. reflexivity. }
  rewrite Hdebug.
  etransitivity; [apply GoSortFacts.Slice_perm|].
  apply Permutation_map. apply Hit.
Qed.

End Workloads.

(** X13.  Whatever order the map of users is walked in, the team
    workloads hold one entry per user id that some task is assigned to,
    and nothing else (the entry named "debug" is never added).  The
    entry of a user carries the user name of the first task assigned to
    them, counts those tasks and the overdue ones among them, sums their
    estimates in order, and is rated on that sum. *)
Theorem team_workloads_tally :
  forall (printf : PrioritiesAnalysis.FloatPrinter) (it : GoMap.Iteration)
         (tasks : list TaskDetail),
    GoMap.visitsAll it ->
    NoDup (map PrioritiesAnalysis.Workload_UserID
               (PrioritiesAnalysis.analyseTeamWorkloads printf it tasks))
    /\ (forall id : string,
          In id (map PrioritiesAnalysis.Workload_UserID
                     (PrioritiesAnalysis.analyseTeamWorkloads printf it tasks))
          <-> exists task u,
                In task tasks /\ Assignee task = Some u /\ UserInfo_ID u = id)
    /\ (forall workload : PrioritiesAnalysis.UserWorkload,
          In workload (PrioritiesAnalysis.analyseTeamWorkloads printf it tasks) ->
          exists first rest u,
            Tally.assignedTo (PrioritiesAnalysis.Workload_UserID workload) tasks
            = first :: rest
            /\ Assignee first = Some u
            /\ workload = PrioritiesAnalysis.rate printf (Tally.tallyOf u (first :: rest))).
Proof.
  intros printf it tasks Hit.
  assert (Hperm := analyseTeamWorkloads_perm printf it tasks Hit).
  set (userMap := GoMap.group PrioritiesAnalysis.assigneeOf PrioritiesAnalysis.newWorkload
                              PrioritiesAnalysis.addTask tasks) in *.
  assert (Hids : map PrioritiesAnalysis.Workload_UserID
                     (map (fun entry => PrioritiesAnalysis.rate printf (snd entry)) userMap)
                 = map fst userMap).
  { rewrite map_map. apply map_ext_in. intros [id w] Hin.
    destruct (userMap_entry tasks id w Hin) as (first & rest & u & _ & _ & Hu & ->).
    exact Hu. }
  assert (Hkeys : Permutation
                    (map PrioritiesAnalysis.Workload_UserID
                         (PrioritiesAnalysis.analyseTeamWorkloads printf it tasks))
                    (map fst userMap)).
  { rewrite <- Hids. apply Permutation_map. exact Hperm. }
  split; [|split].
  - apply (Permutation_NoDup (Permutation_sym Hkeys)). apply group_NoDup.
  - intros id. split.
    + intros Hin. apply (Permutation_in _ Hkeys) in Hin.
      apply in_map_iff in Hin. destruct Hin as ([id' w] & E & Hin). cbn in E. subst id'.
      destruct (userMap_entry tasks id w Hin) as (first & rest & u & Hm & Ha & Hu & _).
      exists first, u. repeat split; try assumption.
      assert (Hf : In first (Tally.assignedTo id tasks)) by (rewrite Hm; left; reflexivity).
      apply filter_In in Hf. tauto.
    + intros (task & u & Hin & Ha & Hu).
      apply (Permutation_in _ (Permutation_sym Hkeys)).
      destruct (in_dec string_dec id (map fst userMap)) as [Y|N]; [exact Y|].
      exfalso. apply lookup_None in N. unfold userMap in N. rewrite group_lookup in N.
      assert (Hm : In task (GoMap.members PrioritiesAnalysis.assigneeOf id tasks)).
      { apply filter_In. split; [exact Hin|].
        unfold GoMap.hasKey, PrioritiesAnalysis.assigneeOf. rewrite Ha, Hu.
        apply String.eqb_refl. }
      destruct (GoMap.members PrioritiesAnalysis.assigneeOf id tasks);
        [destruct Hm|discriminate N].
  - intros workload Hin. apply (Permutation_in _ Hperm) in Hin.
    apply in_map_iff in Hin. destruct Hin as ([id w] & E & Hin). cbn [snd] in E.
    destruct (userMap_entry tasks id w Hin) as (first & rest & u & Hm & Ha & Hu & Hw).
    subst workload w. rewrite rate_UserID. cbn [Tally.tallyOf PrioritiesAnalysis.Workload_UserID].
    rewrite Hu. exists first, rest, u. repeat split; assumption.
Qed.

(** ** Bottlenecks *)

Section FlatMaps.
Variables (X Y K : Type).

Lemma flat_map_perm_ext (f g : X -> list Y) (l : list X) :
  (forall x, In x l -> Permutation (f x) (g x)) ->
  Permutation (flat_map f l) (flat_map g l).
Proof.
  induction l as [|x l IH]; intros H; cbn [flat_map]; [constructor|].
  apply Permutation_app; [apply H; left; reflexivity|].
  apply IH. intros y Hy. apply H. right. exact Hy.
Qed.

Lemma flat_map_perm (f : X -> list Y) (l l' : list X) :
  Permutation l l' -> Permutation (flat_map f l) (flat_map f l').
Proof.
  induction 1 as [|x l l' _ IH|x y l|l l' l'' _ IH1 _ IH2]; cbn [flat_map].
  - constructor.
  - apply Permutation_app_head. exact IH.
  - rewrite !app_assoc. apply Permutation_app_tail. apply Permutation_app_comm.
  - etransitivity; eassumption.
Qed.

Lemma map_flat_map_list (h : Y -> K) (f : X -> list Y) (l : list X) :
  map h (flat_map f l) = flat_map (fun x => map h (f x)) l.
Proof.
  induction l as [|x l IH]; cbn [flat_map map]; [reflexivity|].
  rewrite map_app, IH. reflexivity.
Qed.

(** Pieces without repetition that are told apart by a tag of their
    source give a list without repetition. *)
Lemma NoDup_flat_map_tagged (tag : X -> K) (tagOf : Y -> K) (f : X -> list Y)
    (l : list X) :
  NoDup (map tag l) ->
  (forall x, In x l -> NoDup (f x)) ->
  (forall x y, In x l -> In y (f x) -> tagOf y = tag x) ->
  NoDup (flat_map f l).
Proof.
  induction l as [|x l IH]; cbn [flat_map map]; intros Hn Hp Ht; [constructor|].
  inversion Hn as [|? ? Hnot Hrest]; subst.
  apply NoDup_app.
  - apply Hp. left. reflexivity.
  - apply IH; [exact Hrest| |]; intros; [apply Hp|apply Ht]; try right; assumption.
  - intros y Hy Hy'. apply in_flat_map in Hy'. destruct Hy' as (x' & Hx' & Hy').
    apply Hnot. rewrite <- (Ht x y (or_introl eq_refl) Hy).
    rewrite (Ht x' y (or_intror Hx') Hy'). apply in_map. exact Hx'.
Qed.

End FlatMaps.

Section BottleneckFacts.
Import GoMap PrioritiesAnalysis Tally.

Lemma fold_snoc (T : Type) (xs acc : list T) :
  fold_left (fun ts t => ts ++ [t]) xs acc = acc ++ xs.
Proof.
  revert acc. induction xs as [|x xs IH]; intros acc; cbn [fold_left].
  - rewrite app_nil_r. reflexivity.
  - rewrite IH, <- app_assoc. reflexivity.
Qed.

Lemma columnStats_entry (tasks : list TaskDetail) (project : string)
    (columns : list (string * list TaskDetail)) :
  In (project, columns) (columnStatsOf tasks) ->
  columns = group columnKey (fun _ => []) (fun task ts => ts ++ [task])
                  (members projectKey project tasks).
Proof.
  intros Hin.
  change (columnStatsOf tasks)
    with (group projectKey (fun _ => [])
                (fun task columns =>
                   upsert columns (Column (Status task)) [] (fun ts => ts ++ [task]))
                tasks) in Hin.
  apply group_In in Hin.
  destruct (members projectKey project tasks) as [|first rest]; [discriminate Hin|].
  unfold entryOf in Hin. injection Hin as <-. reflexivity.
Qed.

Lemma columns_entry (xs : list TaskDetail) (column : string) (ts : list TaskDetail) :
  In (column, ts) (group columnKey (fun _ => []) (fun task ts => ts ++ [task]) xs)
  <-> ts = members columnKey column xs /\ ts <> [].
Proof.
  rewrite group_In.
  destruct (members columnKey column xs) as [|first rest].
  - cbn [entryOf]. split; [discriminate|]. intros [-> H]. contradiction.
  - unfold entryOf. rewrite fold_snoc. cbn [app]. split.
    + intros E. injection E as <-. split; [reflexivity|discriminate].
    + intros [-> _]. reflexivity.
Qed.

Lemma members_inColumn (project column : string) (tasks : list TaskDetail) :
  members columnKey column (members projectKey project tasks)
  = inColumn project column tasks.
Proof.
  unfold members, inColumn, hasKey, columnKey, projectKey.
  induction tasks as [|t ts IH]; [reflexivity|].
  cbn [filter].
  destruct (String.eqb (ProjectInfo_Name (Project t)) project); cbn [andb filter].
  - destruct (String.eqb (Column (Status t)) column); rewrite IH; reflexivity.
  - exact IH.
Qed.

Lemma columnStats_NoDup (tasks : list TaskDetail) :
  NoDup (map fst (columnStatsOf tasks)).
Proof.
  change (columnStatsOf tasks)
    with (group projectKey (fun _ => [])
                (fun task columns =>
                   upsert columns (Column (Status task)) [] (fun ts => ts ++ [task]))
                tasks).
  apply group_NoDup.
Qed.

Lemma columnStats_has (tasks : list TaskDetail) (project column : string) :
  inColumn project column tasks <> [] ->
  exists columns,
    In (project, columns) (columnStatsOf tasks)
    /\ In (column, inColumn project column tasks) columns.
Proof.
  intros Hne.
  exists (group columnKey (fun _ => []) (fun task ts => ts ++ [task])
                (members projectKey project tasks)).
  split.
  - change (columnStatsOf tasks)
      with (group projectKey (fun _ => [])
                  (fun task columns =>
                     upsert columns (Column (Status task)) [] (fun ts => ts ++ [task]))
                  tasks).
    apply group_In.
    destruct (members projectKey project tasks) as [|first rest] eqn:Em.
    + exfalso. apply Hne. rewrite <- members_inColumn, Em. reflexivity.
    + reflexivity.
  - apply columns_entry. rewrite members_inColumn. split; [reflexivity|exact Hne].
Qed.

Lemma fold_countWaiting (now : Time) (ts : list TaskDetail)
    (total : float) (valid : Z) (ids : list string) :
  fold_left (countWaiting now) ts (total, valid, ids)
  = (fold_left (addWait now) (filter (waits now) ts) total,
     valid + Z.of_nat (List.length (filter (waits now) ts)),
     ids ++ map ID (filter (waits now) ts)).
Proof.
  revert total valid ids. induction ts as [|t ts IH]; intros total valid ids.
  - cbn. rewrite Z.add_0_r, app_nil_r. reflexivity.
  - cbn [fold_left filter].
    assert (Hc : countWaiting now (total, valid, ids) t
                 = match waitDaysOf now t with
                   | Some w => ((total + w)%float, valid + 1, ids ++ [ID t])
                   | None => (total, valid, ids)
                   end) by reflexivity.
    assert (Hw : waits now t
                 = match waitDaysOf now t with Some _ => true | None => false end)
      by reflexivity.
    assert (Ha : forall total', addWait now total' t
                 = match waitDaysOf now t with
                   | Some w => (total' + w)%float
                   | None => total'
                   end) by reflexivity.
    rewrite Hc, Hw. destruct (waitDaysOf now t) as [w|].
    + rewrite IH. cbn [fold_left List.length map]. rewrite Ha.
      rewrite <- app_assoc. cbn [app].
      replace (valid + 1 + Z.of_nat (List.length (filter (waits now) ts)))
        with (valid + Z.of_nat (S (List.length (filter (waits now) ts)))) by lia.
      reflexivity.
    + apply IH.
Qed.

Lemma bottleneckOf_spec (now : Time) (project column : string) (tasks : list TaskDetail) :
  bottleneckOf now project column (inColumn project column tasks)
  = if (3 <=? List.length (stuckIn now project column tasks))%nat
       && PrimFloat.ltb 3 (AvgWaitTimeDays (bottleneckFor now project column tasks))
    then [bottleneckFor now project column tasks]
    else [].
Proof.
  unfold bottleneckOf, bottleneckFor, stuckIn. cbv zeta.
  cbn [AvgWaitTimeDays].
  set (ts := inColumn project column tasks).
  rewrite fold_countWaiting. cbn [app]. rewrite Z.add_0_l.
  assert (Hle := filter_length_le TaskDetail (waits now) ts).
  destruct (Nat.ltb_spec (List.length ts) 3) as [Hs|Hb].
  - destruct (Nat.leb_spec 3 (List.length (filter (waits now) ts))); [lia|]. reflexivity.
  - destruct (Z.leb_spec 3 (Z.of_nat (List.length (filter (waits now) ts))));
      destruct (Nat.leb_spec 3 (List.length (filter (waits now) ts))); try lia;
      reflexivity.
Qed.

Lemma bottleneckOf_shape (now : Time) (project column : string) (ts : list TaskDetail) :
  bottleneckOf now project column ts = []
  \/ exists b, bottleneckOf now project column ts = [b] /\ placeOf b = (project, column).
Proof.
  unfold bottleneckOf.
  destruct (List.length ts <? 3)%nat; [left; reflexivity|].
  destruct (fold_left (countWaiting now) ts (PrimFloat.zero, 0, [])) as [[total valid] ids].
  destruct (3 <=? valid); [|left; reflexivity].
  match goal with |- context [if ?c then _ else _] => destruct c end;
    [|left; reflexivity].
  right. eexists. split; reflexivity.
Qed.

Lemma findBottlenecks_perm (it : Iteration) (tasks : list TaskDetail) (now : Time) :
  visitsAll it ->
  Permutation
    (findBottlenecks it tasks now)
    (flat_map
       (fun projectEntry =>
          flat_map
            (fun columnEntry =>
               bottleneckOf now (fst projectEntry) (fst columnEntry) (snd columnEntry))
            (snd projectEntry))
       (columnStatsOf tasks)).
Proof.
  intros Hit. unfold findBottlenecks. cbv zeta.
  etransitivity; [apply GoSortFacts.Slice_perm|].
  etransitivity; [apply flat_map_perm; apply Hit|].
  apply flat_map_perm_ext. intros pe _. apply flat_map_perm. apply Hit.
Qed.

Lemma bottlenecks_stuck (it : Iteration) (tasks : list TaskDetail) (now : Time) :
  visitsAll it ->
  forall b, In b (findBottlenecks it tasks now) ->
    exists project column,
      b = bottleneckFor now project column tasks
      /\ (3 <= List.length (stuckIn now project column tasks))%nat.
Proof.
  intros Hit b Hin. apply (Permutation_in _ (findBottlenecks_perm it tasks now Hit)) in Hin.
  apply in_flat_map in Hin. destruct Hin as ([project columns] & Hp & Hin).
  apply in_flat_map in Hin. destruct Hin as ([column ts] & Hc & Hin).
  cbn [fst snd] in *.
  rewrite (columnStats_entry tasks project columns Hp) in Hc.
  apply columns_entry in Hc. destruct Hc as [Hts _].
  rewrite members_inColumn in Hts. subst ts.
  rewrite bottleneckOf_spec in Hin.
  destruct (Nat.leb_spec 3 (List.length (stuckIn now project column tasks)))
    as [H3|H3]; cbn [andb] in Hin; [|destruct Hin].
  destruct (PrimFloat.ltb 3 _) in Hin; [|destruct Hin].
  destruct Hin as [<-|[]]. exists project, column. split; [reflexivity|exact H3].
Qed.

End BottleneckFacts.

(** X14.  Whatever order the maps are walked in, the bottlenecks found
    are exactly the columns of a project where three tasks or more have
    waited (a modification stamp that reads back and lies more than two
    days before now) and the average wait exceeds three days; a column
    is reported once, with the ids of the waiting tasks in task order,
    their number and their average wait. *)
Theorem bottlenecks_are_the_stuck_columns :
  forall (it : GoMap.Iteration) (tasks : list TaskDetail) (now : Time),
    GoMap.visitsAll it ->
    NoDup (map Tally.placeOf (PrioritiesAnalysis.findBottlenecks it tasks now))
    /\ forall bottleneck : PrioritiesAnalysis.Bottleneck,
         In bottleneck (PrioritiesAnalysis.findBottlenecks it tasks now)
         <-> exists project column,
               bottleneck = Tally.bottleneckFor now project column tasks
               /\ (3 <= List.length (Tally.stuckIn now project column tasks))%nat
               /\ PrimFloat.ltb 3 (PrioritiesAnalysis.AvgWaitTimeDays bottleneck) = true.
Proof.
  intros it tasks now Hit.
  assert (Hperm := findBottlenecks_perm it tasks now Hit).
  split.
  - apply (Permutation_NoDup (Permutation_map _ (Permutation_sym Hperm))).
    rewrite map_flat_map_list.
    apply (NoDup_flat_map_tagged _ _ string fst fst).
    + apply columnStats_NoDup.
    + intros [project columns] Hin. cbn [fst snd].
      rewrite map_flat_map_list.
      apply (NoDup_flat_map_tagged _ _ string fst snd).
      * rewrite (columnStats_entry tasks project columns Hin). apply group_NoDup.
      * intros [column ts] _. cbn [fst snd].
        destruct (bottleneckOf_shape now project column ts) as [->|(b & -> & _)];
          cbn [map]; repeat constructor. intros [].
      * intros [column ts] place _ Hp. cbn [fst snd] in *.
        destruct (bottleneckOf_shape now project column ts) as [E|(b & E & Hb)];
          rewrite E in Hp; cbn [map In] in Hp; [destruct Hp|].
        destruct Hp as [<-|[]]. rewrite Hb. reflexivity.
    + intros [project columns] place _ Hp. cbn [fst snd] in *.
      apply in_map_iff in Hp. destruct Hp as (b & <- & Hb).
      apply in_flat_map in Hb. destruct Hb as ([column ts] & _ & Hb). cbn [fst snd] in Hb.
      destruct (bottleneckOf_shape now project column ts) as [E|(b' & E & Hb')];
        rewrite E in Hb; cbn [In] in Hb; [destruct Hb|].
      destruct Hb as [<-|[]]. rewrite Hb'. reflexivity.
  - intros bottleneck. split.
    + intros Hin. apply (Permutation_in _ Hperm) in Hin.
      apply in_flat_map in Hin. destruct Hin as ([project columns] & Hp & Hin).
      apply in_flat_map in Hin. destruct Hin as ([column ts] & Hc & Hin).
      cbn [fst snd] in *.
      rewrite (columnStats_entry tasks project columns Hp) in Hc.
      apply columns_entry in Hc. destruct Hc as [Hts _].
      rewrite members_inColumn in Hts. subst ts.
      rewrite bottleneckOf_spec in Hin.
      destruct (Nat.leb_spec 3 (List.length (Tally.stuckIn now project column tasks)))
        as [H3|H3]; cbn [andb] in Hin; [|destruct Hin].
      destruct (PrimFloat.ltb 3 _) eqn:Havg in Hin; [|destruct Hin].
      destruct Hin as [<-|[]]. exists project, column. repeat split; assumption.
    + intros (project & column & -> & H3 & Havg).
      apply (Permutation_in _ (Permutation_sym Hperm)).
      assert (Hne : Tally.inColumn project column tasks <> []).
      { intros E. unfold Tally.stuckIn in H3. rewrite E in H3. cbn in H3. lia. }
      destruct (columnStats_has tasks project column Hne) as (columns & Hp & Hc).
      apply in_flat_map. exists (project, columns). split; [exact Hp|].
      apply in_flat_map. exists (column, Tally.inColumn project column tasks).
      split; [exact Hc|]. cbn [fst snd].
      rewrite bottleneckOf_spec, Havg.
      destruct (Nat.leb_spec 3 (List.length (Tally.stuckIn now project column tasks)));
        [left; reflexivity|lia].
Qed.

(** ** Recommendations *)

Section RecommendationFacts.
Import GoMap PrioritiesAnalysis Tally.

Lemma fold_process (printf : FloatPrinter) (bottlenecks : list Bottleneck)
    (recommendations : list Recommendation) :
  (forall b, In b bottlenecks -> 3 <= StuckTasks b) ->
  fold_left
    (fun recommendations bottleneck =>
       if 3 <=? StuckTasks bottleneck
       then recommendations ++ [processRecommendation printf bottleneck]
       else recommendations)
    bottlenecks recommendations
  = recommendations ++ map (processRecommendation printf) bottlenecks.
Proof.
  revert recommendations.
  induction bottlenecks as [|b bs IH]; intros recommendations H; cbn [fold_left map].
  - rewrite app_nil_r. reflexivity.
  - destruct (Z.leb_spec 3 (StuckTasks b)) as [_|N];
      [|specialize (H b (or_introl eq_refl)); lia].
    rewrite IH by (intros b' Hb'; apply H; right; exact Hb').
    rewrite <- app_assoc. reflexivity.
Qed.

Lemma filter_head_In (T : Type) (p : T -> bool) (l : list T) (x : T) (rest : list T) :
  filter p l = x :: rest -> In x l /\ p x = true.
Proof.
  intros E. apply filter_In. rewrite E. left. reflexivity.
Qed.

End RecommendationFacts.

(** X15.  The recommendations written for an analysis are at most three
    personal ones followed by one process recommendation for every
    bottleneck found, in the order of the bottlenecks: the test on the
    number of stuck tasks never drops one.  A priority recommendation is
    about the first urgent item, a workload recommendation about an
    overloaded team member whose id matches the requested one, and a
    delegation from an overloaded member to one with slack. *)
Theorem recommendations_follow_the_analysis :
  forall (printf : PrioritiesAnalysis.FloatPrinter) (it : GoMap.Iteration)
         (tasks other : list TaskDetail) (req : PrioritiesHandler.PrioritiesRequest)
         (now later : Time),
    GoMap.visitsAll it ->
    exists personal : list PrioritiesAnalysis.Recommendation,
      PrioritiesAnalysis.generateRecommendations
        printf (PrioritiesAnalysis.analyseWorkload printf it tasks req now later) other
      = personal
        ++ map (PrioritiesAnalysis.processRecommendation printf)
               (PrioritiesAnalysis.findBottlenecks it tasks later)
      /\ (List.length personal <= 3)%nat
      /\ forall r : PrioritiesAnalysis.Recommendation,
           In r personal ->
           (exists top rest,
              PrioritiesHandler.findUrgentItems
                tasks (PrioritiesHandler.TimeHorizon req) now = top :: rest
              /\ r = PrioritiesAnalysis.priorityRecommendation top)
           \/ (exists user,
                 In user (PrioritiesAnalysis.analyseTeamWorkloads printf it tasks)
                 /\ PrioritiesAnalysis.matchesUserID
                      (PrioritiesAnalysis.Workload_UserID user)
                      (PrioritiesHandler.UserID req) = true
                 /\ PrioritiesAnalysis.isOverloaded user = true
                 /\ r = PrioritiesAnalysis.workloadRecommendation user)
           \/ (exists busy idle,
                 In busy (PrioritiesAnalysis.analyseTeamWorkloads printf it tasks)
                 /\ In idle (PrioritiesAnalysis.analyseTeamWorkloads printf it tasks)
                 /\ PrioritiesAnalysis.isOverloaded busy = true
                 /\ PrioritiesAnalysis.isOverloaded idle = false
                 /\ PrioritiesAnalysis.hasSlack idle = true
                 /\ r = PrioritiesAnalysis.delegationRecommendation busy idle).
Proof.
  intros printf it tasks other req now later Hit.
  unfold PrioritiesAnalysis.generateRecommendations, PrioritiesAnalysis.analyseWorkload.
  cbv zeta.
  cbn [PrioritiesAnalysis.UrgentItems PrioritiesAnalysis.RequestingUser
       PrioritiesAnalysis.TeamWorkloads PrioritiesAnalysis.Bottlenecks].
  set (team := PrioritiesAnalysis.analyseTeamWorkloads printf it tasks).
  rewrite fold_process.
  2:{ intros b Hb.
      destruct (bottlenecks_stuck it tasks later Hit b Hb) as (project & column & -> & H3).
      cbn [PrioritiesAnalysis.StuckTasks Tally.bottleneckFor]. lia. }
  eexists. split; [reflexivity|].
  set (urgent := PrioritiesHandler.findUrgentItems _ _ _).
  assert (P1 : exists p1,
             match urgent with
             | topUrgent :: _ => [PrioritiesAnalysis.priorityRecommendation topUrgent]
             | [] => []
             end = p1
             /\ (List.length p1 <= 1)%nat
             /\ forall r, In r p1 ->
                  exists top rest, urgent = top :: rest
                                   /\ r = PrioritiesAnalysis.priorityRecommendation top).
  { eexists. split; [reflexivity|].
    destruct urgent as [|top rest]; cbn [List.length In]; (split; [lia|]).
    - intros r [].
    - intros r [<-|[]]. exists top, rest. split; reflexivity. }
  destruct P1 as (p1 & -> & L1 & W1).
  assert (P2 : exists p2,
             match find (fun workload =>
                           PrioritiesAnalysis.matchesUserID
                             (PrioritiesAnalysis.Workload_UserID workload)
                             (PrioritiesHandler.UserID req)) team with
             | Some user =>
                 if PrioritiesAnalysis.isOverloaded user
                 then p1 ++ [PrioritiesAnalysis.workloadRecommendation user]
                 else p1
             | None => p1
             end = p1 ++ p2
             /\ (List.length p2 <= 1)%nat
             /\ forall r, In r p2 ->
                  exists user, In user team
                    /\ PrioritiesAnalysis.matchesUserID
                         (PrioritiesAnalysis.Workload_UserID user)
                         (PrioritiesHandler.UserID req) = true
                    /\ PrioritiesAnalysis.isOverloaded user = true
                    /\ r = PrioritiesAnalysis.workloadRecommendation user).
  { destruct (find _ team) as [user|] eqn:Ef.
    - apply find_some in Ef. destruct Ef as [Hin Hm].
      destruct (PrioritiesAnalysis.isOverloaded user) eqn:Eo.
      + eexists. split; [reflexivity|]. cbn [List.length In]. split; [lia|].
        intros r [<-|[]]. exists user. repeat split; assumption.
      + exists []. rewrite app_nil_r. split; [reflexivity|]. cbn [List.length In]. split; [lia|]. intros r [].
    - exists []. rewrite app_nil_r. split; [reflexivity|]. cbn [List.length In]. split; [lia|]. intros r []. }
  destruct P2 as (p2 & -> & L2 & W2).
  assert (P3 : exists p3,
             (if (1 <? List.length team)%nat
              then
                match filter PrioritiesAnalysis.isOverloaded team,
                      filter (fun w => negb (PrioritiesAnalysis.isOverloaded w)
                                       && PrioritiesAnalysis.hasSlack w) team with
                | busy :: _, idle :: _ =>
                    (p1 ++ p2) ++ [PrioritiesAnalysis.delegationRecommendation busy idle]
                | _, _ => p1 ++ p2
                end
              else p1 ++ p2) = (p1 ++ p2) ++ p3
             /\ (List.length p3 <= 1)%nat
             /\ forall r, In r p3 ->
                  exists busy idle,
                    In busy team /\ In idle team
                    /\ PrioritiesAnalysis.isOverloaded busy = true
                    /\ PrioritiesAnalysis.isOverloaded idle = false
                    /\ PrioritiesAnalysis.hasSlack idle = true
                    /\ r = PrioritiesAnalysis.delegationRecommendation busy idle).
  { destruct (1 <? List.length team)%nat.
    2:{ exists []. rewrite app_nil_r. split; [reflexivity|]. cbn [List.length In]. split; [lia|]. intros r []. }
    destruct (filter PrioritiesAnalysis.isOverloaded team) as [|busy bs] eqn:Eb.
    { exists []. rewrite app_nil_r. split; [reflexivity|]. cbn [List.length In]. split; [lia|]. intros r []. }
    destruct (filter (fun w => negb (PrioritiesAnalysis.isOverloaded w)
                               && PrioritiesAnalysis.hasSlack w) team) as [|idle others] eqn:Ei.
    { exists []. rewrite app_nil_r. split; [reflexivity|]. cbn [List.length In]. split; [lia|]. intros r []. }
    apply filter_head_In in Eb. apply filter_head_In in Ei.
    destruct Eb as [Hb Ob]. destruct Ei as [Hi Oi].
    apply andb_true_iff in Oi. destruct Oi as [Oi Si]. apply negb_true_iff in Oi.
    eexists. split; [reflexivity|]. cbn [List.length In]. split; [lia|].
    intros r [<-|[]]. exists busy, idle. repeat split; assumption. }
  destruct P3 as (p3 & -> & L3 & W3).
  split.
  - rewrite !length_app. lia.
  - intros r Hr. apply in_app_or in Hr. destruct Hr as [Hr|Hr].
    + apply in_app_or in Hr. destruct Hr as [Hr|Hr].
      * left. apply W1. exact Hr.
      * right. left. apply W2. exact Hr.
    + right. right. apply W3. exact Hr.
Qed.

(* ================================================================== *)
(** * The analytics *)
(* ================================================================== *)

(** ** The time range *)

Section TimeRange.
Import GoTimeInv GoTimeFacts Analytics Tally.

Lemma getTimeRangeStart_default (now : Time) (timeRange : string) :
  ~ In timeRange knownRanges ->
  getTimeRangeStart now timeRange = getTimeRangeStart now "30_days".
Proof.
  intros H. unfold getTimeRangeStart.
  repeat match goal with
         | |- context [String.eqb timeRange ?name] =>
             destruct (String.eqb_spec timeRange name) as [->|_];
               [exfalso; apply H; unfold knownRanges; cbn [In]; tauto|]
         end.
  reflexivity.
Qed.

Lemma count_completed (tasks : list TaskDetail) (n : Z) :
  fold_left (fun n task => if AnalyticsHandler.isTaskCompleted task then n + 1 else n)
            tasks n
  = n + Z.of_nat (List.length (filter AnalyticsHandler.isTaskCompleted tasks)).
Proof.
  revert n. induction tasks as [|t ts IH]; intros n; cbn [fold_left filter].
  - cbn. lia.
  - rewrite IH. destruct (AnalyticsHandler.isTaskCompleted t); cbn [List.length]; lia.
Qed.

End TimeRange.

(** X16.  The time range of the analytics.  A task whose creation stamp
    was written from the time [created] is analysed exactly when
    [created], its wall clock read as UTC, is not before the start of
    the range; a range the analytics have no case for starts where
    "30_days" starts.  The summary counts the tasks so kept and the ones
    of them in a completed column. *)
Theorem analytics_time_range :
  forall (now created : Time) (timeRange : string) (task : TaskDetail)
         (tasks : list TaskDetail),
    GoTimeInv.fourDigitYear created ->
    Created (Dates task) = Format created LayoutStamp ->
    let start := Analytics.getTimeRangeStart now timeRange in
    Analytics.createdSince start task
    = (instant start <=? wallSec created * nsPerSecond)
    /\ (~ In timeRange Tally.knownRanges ->
        start = Analytics.getTimeRangeStart now "30_days")
    /\ (let kept := Analytics.filterTasksByTimeRange tasks start in
        let summary := Analytics.generateSummary kept timeRange in
        Analytics.Summary_TotalTasks summary = Z.of_nat (List.length kept)
        /\ Analytics.CompletedTasks summary
           = Z.of_nat (List.length (filter AnalyticsHandler.isTaskCompleted kept))
        /\ 0 <= Analytics.CompletedTasks summary <= Analytics.Summary_TotalTasks summary
        /\ Analytics.Summary_TotalTasks summary <= Z.of_nat (List.length tasks)
        /\ (forall t, In t kept -> In t tasks)).
Proof.
  intros now created timeRange task tasks Hy Hc start.
  split; [|split].
  - unfold Analytics.createdSince. rewrite Hc.
    rewrite (Format_stamp_not_empty created Hy).
    rewrite (GoTimeFacts.Parse_Format_stamp created Hy).
    assert (Hi : instant (Unix (wallSec created)) = wallSec created * nsPerSecond).
    { unfold instant, Unix. cbn [unixSec nsec]. lia. }
    unfold After, Analytics.Equal. rewrite Hi.
    destruct (Z.ltb_spec (instant start) (wallSec created * nsPerSecond));
      destruct (Z.eqb_spec (wallSec created * nsPerSecond) (instant start));
      destruct (Z.leb_spec (instant start) (wallSec created * nsPerSecond));
      cbn [orb]; try reflexivity; lia.
  - apply getTimeRangeStart_default.
  - cbv zeta. unfold Analytics.generateSummary. cbv zeta.
    cbn [Analytics.Summary_TotalTasks Analytics.CompletedTasks].
    rewrite count_completed. rewrite Z.add_0_l.
    set (kept := Analytics.filterTasksByTimeRange _ _).
    pose proof (filter_length_le TaskDetail AnalyticsHandler.isTaskCompleted kept).
    pose proof (filter_length_le TaskDetail (Analytics.createdSince start) tasks) as Hk.
    fold (Analytics.filterTasksByTimeRange tasks start) in Hk. fold kept in Hk.
    repeat split; try lia.
    intros t Ht. apply filter_In in Ht. tauto.
Qed.

(** ** Entries sorted by a key that does not repeat *)

Section KeyedSort.
Variable V : Type.
Variable key : V -> string.

Abbreviation less := (fun x y : V => GoString.lt (key x) (key y)).
Abbreviation ascending := (fun x y : V => GoString.lt (key x) (key y) = true).

Lemma lt_total (s t : string) :
  GoString.lt s t = false -> GoString.lt t s = false -> s = t.
Proof.
  unfold GoString.lt, String.ltb. rewrite (String.compare_antisym t s).
  destruct (String.compare s t) eqn:E; cbn [CompOpp]; try discriminate.
  intros _ _. apply String.compare_eq_iff. exact E.
Qed.

Lemma strict_of_sorted (l : list V) :
  NoDup (map key l) ->
  StronglySorted (fun u v => less v u = false) l ->
  StronglySorted ascending l.
Proof.
  induction l as [|a l IH]; intros Hn Hs; [constructor|].
  inversion Hn as [|? ? Hnot Hrest]; subst.
  apply StronglySorted_inv in Hs. destruct Hs as [Hs Ha].
  constructor; [apply IH; assumption|].
  rewrite Forall_forall in *. intros b Hb.
  cbv beta. destruct (GoString.lt (key a) (key b)) eqn:E; [reflexivity|].
  exfalso. apply Hnot. rewrite (lt_total (key a) (key b) E (Ha b Hb)).
  apply in_map. exact Hb.
Qed.

Lemma Slice_by_key (l : list V) :
  NoDup (map key l) -> StronglySorted ascending (GoSort.Slice less l).
Proof.
  intros Hn. apply strict_of_sorted.
  - apply (Permutation_NoDup
             (Permutation_map key (Permutation_sym (GoSortFacts.Slice_perm V less l)))).
    exact Hn.
  - apply GoSortFacts.Slice_sorted; cbv beta.
    + intros x. apply lt_irrefl.
    + intros x y z. apply lt_trans.
    + intros x y z. apply lt_negtrans.
Qed.

Lemma ascending_unique (l1 l2 : list V) :
  StronglySorted ascending l1 -> StronglySorted ascending l2 ->
  Permutation l1 l2 -> l1 = l2.
Proof.
  revert l2. induction l1 as [|a l1 IH]; intros l2 H1 H2 Hp.
  - apply Permutation_nil in Hp. congruence.
  - destruct l2 as [|b l2]; [apply Permutation_sym, Permutation_nil in Hp; discriminate|].
    apply StronglySorted_inv in H1. destruct H1 as [H1 Ha].
    apply StronglySorted_inv in H2. destruct H2 as [H2 Hb].
    rewrite Forall_forall in Ha, Hb.
    assert (E : a = b).
    { assert (Ia : In a (b :: l2)) by (apply (Permutation_in _ Hp); left; reflexivity).
      assert (Ib : In b (a :: l1))
        by (apply (Permutation_in _ (Permutation_sym Hp)); left; reflexivity).
      destruct Ia as [E|Ia]; [congruence|]. destruct Ib as [E|Ib]; [congruence|].
      exfalso. pose proof (lt_trans _ _ _ (Ha b Ib) (Hb a Ia)) as C.
      rewrite lt_irrefl in C. discriminate C. }
    subst b. f_equal. apply IH; try assumption.
    apply (Permutation_cons_inv Hp).
Qed.

End KeyedSort.

(** ** Completion trends and velocity *)

Section Periods.
Import GoMap Analytics Tally.

Lemma createdPeriod_member (timeRange period : string) (tasks : list TaskDetail)
    (task : TaskDetail) :
  In task (members (createdPeriod timeRange) period tasks) ->
  createdPeriod timeRange task = Some period.
Proof.
  intros H. apply filter_In in H. destruct H as [_ H]. unfold hasKey in H.
  destruct (createdPeriod timeRange task) as [p|]; [|discriminate H].
  apply String.eqb_eq in H. congruence.
Qed.

Lemma fold_countCreated (ts : list TaskDetail) (trend : CompletionTrend) :
  fold_left (fun v x => countCreated x v) ts trend
  = {| Trend_Period := Trend_Period trend;
       Trend_TasksCompleted :=
         Trend_TasksCompleted trend
         + Z.of_nat (List.length (filter AnalyticsHandler.isTaskCompleted ts));
       TasksCreated := TasksCreated trend + Z.of_nat (List.length ts);
       CompletionRate := CompletionRate trend |}.
Proof.
  revert trend. induction ts as [|t ts IH]; intros trend.
  - cbn [fold_left List.length filter]. destruct trend; cbn. f_equal; lia.
  - cbn [fold_left]. rewrite IH. unfold countCreated.
    cbn [Trend_Period Trend_TasksCompleted TasksCreated CompletionRate filter List.length].
    destruct (AnalyticsHandler.isTaskCompleted t); cbn [List.length]; f_equal; lia.
Qed.

Lemma completedPeriod_member (timeRange period : string) (tasks : list TaskDetail)
    (task : TaskDetail) :
  In task (members (completedPeriod timeRange) period tasks) ->
  completedPeriod timeRange task = Some period.
Proof.
  intros H. apply filter_In in H. destruct H as [_ H]. unfold hasKey in H.
  destruct (completedPeriod timeRange task) as [p|]; [|discriminate H].
  apply String.eqb_eq in H. congruence.
Qed.

Lemma fold_countCompleted (ts : list TaskDetail) (metric : VelocityMetric) :
  fold_left (fun v x => countCompleted x v) ts metric
  = {| Velocity_Period := Velocity_Period metric;
       Velocity_TasksCompleted :=
         Velocity_TasksCompleted metric + Z.of_nat (List.length ts);
       StoryPoints := StoryPoints metric + Z.of_nat (List.length ts);
       Velocity_EstimatedHours :=
         fold_left addEstimate ts (Velocity_EstimatedHours metric);
       ActualHours := fold_left addSpent ts (ActualHours metric);
       VelocityScore := VelocityScore metric;
       EfficiencyRating := EfficiencyRating metric |}.
Proof.
  revert metric. induction ts as [|t ts IH]; intros metric.
  - cbn [fold_left List.length]. destruct metric; cbn. f_equal; lia.
  - cbn [fold_left]. rewrite IH. unfold countCompleted.
    cbn [Velocity_Period Velocity_TasksCompleted StoryPoints Velocity_EstimatedHours
         ActualHours VelocityScore EfficiencyRating List.length].
    f_equal; lia.
Qed.

Lemma velocityMap_entry (timeRange : string) (tasks : list TaskDetail)
    (period : string) (metric : VelocityMetric) :
  In (period, metric)
     (group (completedPeriod timeRange) (newVelocity timeRange) countCompleted tasks)
  <-> completedIn timeRange period tasks <> []
      /\ metric
         = {| Velocity_Period := period;
              Velocity_TasksCompleted :=
                Z.of_nat (List.length (completedIn timeRange period tasks));
              StoryPoints := Z.of_nat (List.length (completedIn timeRange period tasks));
              Velocity_EstimatedHours :=
                fold_left addEstimate (completedIn timeRange period tasks) PrimFloat.zero;
              ActualHours :=
                fold_left addSpent (completedIn timeRange period tasks) PrimFloat.zero;
              VelocityScore := PrimFloat.zero;
              EfficiencyRating := "" |}.
Proof.
  rewrite group_In. unfold completedIn.
  destruct (members (completedPeriod timeRange) period tasks) as [|first rest] eqn:Em.
  - cbn [entryOf]. split; [discriminate|]. intros [H _]. contradiction.
  - assert (Hp : completedPeriod timeRange first = Some period).
    { apply (completedPeriod_member timeRange period tasks). rewrite Em. left. reflexivity. }
    unfold entryOf. rewrite fold_countCompleted. unfold newVelocity. rewrite Hp.
    cbn [periodOr Velocity_Period Velocity_TasksCompleted StoryPoints
         Velocity_EstimatedHours ActualHours VelocityScore EfficiencyRating].
    rewrite !Z.add_0_l. split.
    + intros E. injection E as <-. split; [discriminate|reflexivity].
    + intros [_ ->]. reflexivity.
Qed.

Lemma trendMap_entry (timeRange : string) (tasks : list TaskDetail)
    (period : string) (trend : CompletionTrend) :
  In (period, trend) (group (createdPeriod timeRange) (newTrend timeRange) countCreated tasks)
  <-> createdIn timeRange period tasks <> []
      /\ trend
         = {| Trend_Period := period;
              Trend_TasksCompleted :=
                Z.of_nat (List.length (filter AnalyticsHandler.isTaskCompleted
                                              (createdIn timeRange period tasks)));
              TasksCreated := Z.of_nat (List.length (createdIn timeRange period tasks));
              CompletionRate := PrimFloat.zero |}.
Proof.
  rewrite group_In. unfold createdIn.
  destruct (members (createdPeriod timeRange) period tasks) as [|first rest] eqn:Em.
  - cbn [entryOf]. split; [discriminate|]. intros [H _]. contradiction.
  - assert (Hp : createdPeriod timeRange first = Some period).
    { apply (createdPeriod_member timeRange period tasks). rewrite Em. left. reflexivity. }
    unfold entryOf. rewrite fold_countCreated. unfold newTrend. rewrite Hp.
    cbn [periodOr Trend_Period Trend_TasksCompleted TasksCreated CompletionRate].
    rewrite !Z.add_0_l. split.
    + intros E. injection E as <-. split; [discriminate|reflexivity].
    + intros [_ ->]. reflexivity.
Qed.

(** Entries of a map filled by [group], each closed by [close] and the
    whole sorted on a key that is the key of the map. *)
Lemma grouped_sorted (A V : Type) (keyOf : A -> option string) (fresh : A -> V)
    (bump : A -> V -> V) (close : V -> V) (key : V -> string)
    (it : Iteration) (l : list A) :
  visitsAll it ->
  (forall k v, In (k, v) (group keyOf fresh bump l) -> key (close v) = k) ->
  let sorted :=
    GoSort.Slice (fun x y => GoString.lt (key x) (key y))
                 (map (fun entry => close (snd entry))
                      (range it V (group keyOf fresh bump l))) in
  StronglySorted (fun x y => GoString.lt (key x) (key y) = true) sorted
  /\ Permutation sorted (map (fun entry => close (snd entry)) (group keyOf fresh bump l)).
Proof.
  intros Hit Hkey sorted.
  assert (Hraw : Permutation
                   (map (fun entry => close (snd entry))
                        (range it V (group keyOf fresh bump l)))
                   (map (fun entry => close (snd entry)) (group keyOf fresh bump l))).
  { apply Permutation_map. apply Hit. }
  assert (Hkeys : map key (map (fun entry => close (snd entry)) (group keyOf fresh bump l))
                  = map fst (group keyOf fresh bump l)).
  { rewrite map_map. apply map_ext_in. intros [k v] Hin. apply Hkey. exact Hin. }
  split.
  - apply Slice_by_key.
    apply (Permutation_NoDup (Permutation_map key (Permutation_sym Hraw))).
    rewrite Hkeys. apply group_NoDup.
  - etransitivity; [apply GoSortFacts.Slice_perm|exact Hraw].
Qed.

End Periods.

(** X17.  The completion trends hold one entry per period in which a
    task was created (a creation stamp that reads back), in strictly
    ascending order of the period text, whatever order the map is walked
    in: the entry counts the tasks created in the period and the ones of
    them in a completed column, and its rate is their quotient times
    100. *)
Theorem completion_trends_by_period :
  forall (it : GoMap.Iteration) (tasks : list TaskDetail) (timeRange : string),
    GoMap.visitsAll it ->
    StronglySorted
      (fun x y => GoString.lt (Analytics.Trend_Period x) (Analytics.Trend_Period y) = true)
      (Analytics.analyseCompletionTrends it tasks timeRange)
    /\ (forall trend : Analytics.CompletionTrend,
          In trend (Analytics.analyseCompletionTrends it tasks timeRange)
          <-> Tally.createdIn timeRange (Analytics.Trend_Period trend) tasks <> []
              /\ trend = Tally.trendOf
                           (Analytics.Trend_Period trend)
                           (Tally.createdIn timeRange (Analytics.Trend_Period trend) tasks))
    /\ (forall trend : Analytics.CompletionTrend,
          In trend (Analytics.analyseCompletionTrends it tasks timeRange) ->
          0 <= Analytics.Trend_TasksCompleted trend <= Analytics.TasksCreated trend
          /\ 1 <= Analytics.TasksCreated trend)
    /\ (forall it' : GoMap.Iteration,
          GoMap.visitsAll it' ->
          Analytics.analyseCompletionTrends it' tasks timeRange
          = Analytics.analyseCompletionTrends it tasks timeRange).
Proof.
  intros it tasks timeRange Hit.
  assert (Hkey : forall k v,
             In (k, v) (GoMap.group (Analytics.createdPeriod timeRange)
                                    (Analytics.newTrend timeRange)
                                    Analytics.countCreated tasks) ->
             Analytics.Trend_Period (Analytics.rateTrend v) = k).
  { intros k v Hin. apply trendMap_entry in Hin. destruct Hin as [_ ->]. reflexivity. }
  assert (G := fun it0 H0 =>
                 grouped_sorted _ _ (Analytics.createdPeriod timeRange)
                                (Analytics.newTrend timeRange) Analytics.countCreated
                                Analytics.rateTrend Analytics.Trend_Period it0 tasks H0 Hkey).
  cbv zeta in G.
  change (forall it0, GoMap.visitsAll it0 ->
            StronglySorted
              (fun x y => GoString.lt (Analytics.Trend_Period x)
                                      (Analytics.Trend_Period y) = true)
              (Analytics.analyseCompletionTrends it0 tasks timeRange)
            /\ Permutation
                 (Analytics.analyseCompletionTrends it0 tasks timeRange)
                 (map (fun entry => Analytics.rateTrend (snd entry))
                      (GoMap.group (Analytics.createdPeriod timeRange)
                                   (Analytics.newTrend timeRange)
                                   Analytics.countCreated tasks))) in G.
  destruct (G it Hit) as [Hs Hp].
  assert (Hmem : forall trend,
             In trend (Analytics.analyseCompletionTrends it tasks timeRange)
             <-> Tally.createdIn timeRange (Analytics.Trend_Period trend) tasks <> []
                 /\ trend = Tally.trendOf
                              (Analytics.Trend_Period trend)
                              (Tally.createdIn timeRange (Analytics.Trend_Period trend) tasks)).
  { intros trend. split.
    - intros Hin. apply (Permutation_in _ Hp) in Hin.
      apply in_map_iff in Hin. destruct Hin as ([k v] & <- & Hin). cbn [snd].
      rewrite (Hkey k v Hin). apply trendMap_entry in Hin. destruct Hin as [Hne ->].
      split; [exact Hne|reflexivity].
    - intros [Hne Ht]. apply (Permutation_in _ (Permutation_sym Hp)).
      apply in_map_iff.
      eexists (Analytics.Trend_Period trend, _). split; [|apply trendMap_entry].
      + cbn [snd]. symmetry. exact Ht.
      + split; [exact Hne|reflexivity]. }
  split; [exact Hs|]. split; [exact Hmem|]. split.
  - intros trend Hin. apply Hmem in Hin. destruct Hin as [Hne ->].
    unfold Tally.trendOf, Analytics.rateTrend.
    cbn [Analytics.Trend_TasksCompleted Analytics.TasksCreated].
    set (counted := Tally.createdIn timeRange (Analytics.Trend_Period trend) tasks) in *.
    pose proof (filter_length_le TaskDetail AnalyticsHandler.isTaskCompleted counted).
    destruct counted; [contradiction|]. cbn [List.length] in *. lia.
  - intros it' Hit'. destruct (G it' Hit') as [Hs' Hp'].
    apply (ascending_unique _ Analytics.Trend_Period); try assumption.
    etransitivity; [exact Hp'|apply Permutation_sym; exact Hp].
Qed.

(** X18.  The velocity holds one entry per period in which a task in a
    completed column was last modified, in strictly ascending order of
    the period text, whatever order the map is walked in: the entry
    counts those tasks, as tasks completed and again as story points,
    sums their estimated and spent hours in task order, and scores the
    count. *)
Theorem velocity_by_period :
  forall (it : GoMap.Iteration) (tasks : list TaskDetail) (timeRange : string),
    GoMap.visitsAll it ->
    StronglySorted
      (fun x y => GoString.lt (Analytics.Velocity_Period x)
                              (Analytics.Velocity_Period y) = true)
      (Analytics.analyseVelocity it tasks timeRange)
    /\ (forall metric : Analytics.VelocityMetric,
          In metric (Analytics.analyseVelocity it tasks timeRange)
          <-> Tally.completedIn timeRange (Analytics.Velocity_Period metric) tasks <> []
              /\ metric = Tally.velocityOf
                            (Analytics.Velocity_Period metric)
                            (Tally.completedIn
                               timeRange (Analytics.Velocity_Period metric) tasks))
    /\ (forall metric : Analytics.VelocityMetric,
          In metric (Analytics.analyseVelocity it tasks timeRange) ->
          1 <= Analytics.Velocity_TasksCompleted metric
          /\ Analytics.StoryPoints metric = Analytics.Velocity_TasksCompleted metric
          /\ Analytics.VelocityScore metric
             = AnalyticsHandler.float64OfInt (Analytics.Velocity_TasksCompleted metric))
    /\ (forall it' : GoMap.Iteration,
          GoMap.visitsAll it' ->
          Analytics.analyseVelocity it' tasks timeRange
          = Analytics.analyseVelocity it tasks timeRange).
Proof.
  intros it tasks timeRange Hit.
  assert (Hkey : forall k v,
             In (k, v) (GoMap.group (Analytics.completedPeriod timeRange)
                                    (Analytics.newVelocity timeRange)
                                    Analytics.countCompleted tasks) ->
             Analytics.Velocity_Period (Analytics.rateVelocity v) = k).
  { intros k v Hin. apply velocityMap_entry in Hin. destruct Hin as [_ ->]. reflexivity. }
  assert (G := fun it0 H0 =>
                 grouped_sorted _ _ (Analytics.completedPeriod timeRange)
                                (Analytics.newVelocity timeRange) Analytics.countCompleted
                                Analytics.rateVelocity Analytics.Velocity_Period
                                it0 tasks H0 Hkey).
  cbv zeta in G.
  change (forall it0, GoMap.visitsAll it0 ->
            StronglySorted
              (fun x y => GoString.lt (Analytics.Velocity_Period x)
                                      (Analytics.Velocity_Period y) = true)
              (Analytics.analyseVelocity it0 tasks timeRange)
            /\ Permutation
                 (Analytics.analyseVelocity it0 tasks timeRange)
                 (map (fun entry => Analytics.rateVelocity (snd entry))
                      (GoMap.group (Analytics.completedPeriod timeRange)
                                   (Analytics.newVelocity timeRange)
                                   Analytics.countCompleted tasks))) in G.
  destruct (G it Hit) as [Hs Hp].
  assert (Hmem : forall metric,
             In metric (Analytics.analyseVelocity it tasks timeRange)
             <-> Tally.completedIn timeRange (Analytics.Velocity_Period metric) tasks <> []
                 /\ metric = Tally.velocityOf
                               (Analytics.Velocity_Period metric)
                               (Tally.completedIn
                                  timeRange (Analytics.Velocity_Period metric) tasks)).
  { intros metric. split.
    - intros Hin. apply (Permutation_in _ Hp) in Hin.
      apply in_map_iff in Hin. destruct Hin as ([k v] & <- & Hin). cbn [snd].
      rewrite (Hkey k v Hin). apply velocityMap_entry in Hin. destruct Hin as [Hne ->].
      split; [exact Hne|reflexivity].
    - intros [Hne Ht]. apply (Permutation_in _ (Permutation_sym Hp)).
      apply in_map_iff.
      eexists (Analytics.Velocity_Period metric, _). split; [|apply velocityMap_entry].
      + cbn [snd]. symmetry. exact Ht.
      + split; [exact Hne|reflexivity]. }
  split; [exact Hs|]. split; [exact Hmem|]. split.
  - intros metric Hin. apply Hmem in Hin. destruct Hin as [Hne ->].
    unfold Tally.velocityOf, Analytics.rateVelocity.
    cbn [Analytics.Velocity_TasksCompleted Analytics.StoryPoints Analytics.VelocityScore].
    set (counted := Tally.completedIn timeRange (Analytics.Velocity_Period metric) tasks) in *.
    destruct counted; [contradiction|]. cbn [List.length].
    repeat split. lia.
  - intros it' Hit'. destruct (G it' Hit') as [Hs' Hp'].
    apply (ascending_unique _ Analytics.Velocity_Period); try assumption.
    etransitivity; [exact Hp'|apply Permutation_sym; exact Hp].
Qed.

(** ** Task aging *)

Section Aging.
Import GoMap Analytics Tally.

Lemma groupOfAge_five (age : float) : In (groupOfAge age) (map fst ageGroups).
Proof.
  unfold groupOfAge.
  destruct (PrimFloat.leb age 7); [cbn; tauto|].
  destruct (PrimFloat.leb age 14); [cbn; tauto|].
  destruct (PrimFloat.leb age 30); [cbn; tauto|].
  destruct (PrimFloat.leb age 60); cbn; tauto.
Qed.

Lemma agedIn_snoc (now : Time) (name : string) (l : list TaskDetail) (x : TaskDetail) :
  agedIn now name (l ++ [x])
  = agedIn now name l
    ++ match ageOf now x with
       | Some age => if String.eqb (groupOfAge age) name then [x] else []
       | None => []
       end.
Proof.
  unfold agedIn. rewrite members_snoc. unfold hasKey, ageGroupOf.
  destruct (ageOf now x); reflexivity.
Qed.

Lemma ageOf_completed (now : Time) (task : TaskDetail) :
  AnalyticsHandler.isTaskCompleted task = true -> ageOf now task = None.
Proof. intros H. unfold ageOf. rewrite H. reflexivity. Qed.

Lemma aging_groups (now : Time) (tasks : list TaskDetail) :
  let st := fold_left (ageStep now) tasks
                      {| groups := ageGroups; activeTasks := 0; oldestTaskTitle := "";
                         maxAge := PrimFloat.zero |} in
  map fst (groups st) = map fst ageGroups
  /\ forall name g, In (name, g) (groups st) ->
       AgeGroup g = name
       /\ Aging_TaskCount g = Z.of_nat (List.length (agedIn now name tasks))
       /\ OldestTask g = "".
Proof.
  induction tasks as [|x l IH] using rev_ind.
  - cbn [fold_left groups]. split; [reflexivity|].
    intros name g Hin. unfold ageGroups, emptyGroup in Hin. cbn [In] in Hin.
    destruct Hin as [E|[E|[E|[E|[E|[]]]]]]; injection E as <- <-; repeat split.
  - cbv zeta in *. rewrite fold_left_app. cbn [fold_left].
    set (st := fold_left (ageStep now) l _) in *.
    destruct IH as [Hnames Hgroups].
    unfold ageStep.
    destruct (AnalyticsHandler.isTaskCompleted x) eqn:Ec.
    { split; [exact Hnames|]. intros name g Hin.
      rewrite agedIn_snoc, (ageOf_completed now x Ec), app_nil_r. apply Hgroups. exact Hin. }
    destruct (ageOf now x) as [age|] eqn:Ea; cbn [groups].
    + split.
      * unfold changeAt. rewrite map_map. rewrite <- Hnames. apply map_ext.
        intros [n g]. cbn [fst snd]. destruct (String.eqb n (groupOfAge age)); reflexivity.
      * intros name g Hin. unfold changeAt in Hin. apply in_map_iff in Hin.
        destruct Hin as ([n0 g0] & E & Hin). cbn [fst snd] in E.
        destruct (Hgroups n0 g0 Hin) as (Hn & Hc & Ho).
        rewrite agedIn_snoc, Ea.
        destruct (String.eqb_spec n0 (groupOfAge age)) as [Ek|Nk];
          injection E as <- <-.
        -- rewrite Ek, String.eqb_refl, length_app. cbn [List.length addAge AgeGroup
             Aging_TaskCount OldestTask]. rewrite <- Ek.
           repeat split; try assumption. rewrite Hc. lia.
        -- destruct (String.eqb_spec (groupOfAge age) n0) as [Ek|_]; [congruence|].
           rewrite app_nil_r. repeat split; assumption.
    + split; [exact Hnames|]. intros name g Hin.
      rewrite agedIn_snoc, Ea, app_nil_r. apply Hgroups. exact Hin.
Qed.

Lemma closeGroup_shape (st : AgingState) (g : TaskAgingAnalysis) :
  (closeGroup st g = [] /\ Aging_TaskCount g <= 0)
  \/ exists g', closeGroup st g = [g']
                /\ AgeGroup g' = AgeGroup g
                /\ Aging_TaskCount g' = Aging_TaskCount g
                /\ 1 <= Aging_TaskCount g
                /\ (AgeGroup g <> "60+ days" -> OldestTask g' = OldestTask g).
Proof.
  unfold closeGroup. destruct (Z.ltb_spec 0 (Aging_TaskCount g)) as [H|H].
  - right. eexists. split; [reflexivity|].
    cbn [AgeGroup Aging_TaskCount OldestTask]. repeat split; try lia.
    intros Hn. destruct (String.eqb_spec (AgeGroup g) "60+ days"); [contradiction|].
    reflexivity.
  - left. split; [reflexivity|lia].
Qed.

Lemma sumZ_perm (l l' : list Z) : Permutation l l' -> sumZ l = sumZ l'.
Proof.
  unfold sumZ. induction 1; cbn [fold_right]; lia.
Qed.

Lemma sumZ_app (l l' : list Z) : sumZ (l ++ l') = sumZ l + sumZ l'.
Proof. unfold sumZ. induction l as [|x l IH]; cbn [fold_right app]; lia. Qed.

Lemma aged_total (now : Time) (tasks : list TaskDetail) :
  sumZ (map (fun name => Z.of_nat (List.length (agedIn now name tasks)))
            (map fst ageGroups))
  = Z.of_nat (List.length (filter (hasAge now) tasks)).
Proof.
  induction tasks as [|x l IH] using rev_ind; [reflexivity|].
  rewrite filter_app, length_app, Nat2Z.inj_add, <- IH. clear IH.
  cbn [map fst ageGroups emptyGroup sumZ fold_right].
  rewrite !agedIn_snoc, !length_app. cbn [filter]. unfold hasAge.
  destruct (ageOf now x) as [age|]; [|cbn [List.length]; lia].
  unfold groupOfAge.
  destruct (PrimFloat.leb age 7); [cbn; lia|].
  destruct (PrimFloat.leb age 14); [cbn; lia|].
  destruct (PrimFloat.leb age 30); [cbn; lia|].
  destruct (PrimFloat.leb age 60); cbn; lia.
Qed.

Lemma analyseTaskAging_perm (it : Iteration) (tasks : list TaskDetail) (now : Time) :
  visitsAll it ->
  let st := fold_left (ageStep now) tasks
                      {| groups := ageGroups; activeTasks := 0; oldestTaskTitle := "";
                         maxAge := PrimFloat.zero |} in
  Permutation (analyseTaskAging it tasks now)
              (flat_map (fun entry => closeGroup st (snd entry)) (groups st)).
Proof.
  intros Hit st. unfold analyseTaskAging. cbv zeta. fold st.
  etransitivity; [apply GoSortFacts.Slice_perm|]. apply flat_map_perm. apply Hit.
Qed.

End Aging.

(** X19.  The aging analysis holds at most one entry for each of the
    five age groups, and only for groups that count a task.  An entry
    counts the active tasks (not in a completed column, with a creation
    stamp that reads back) whose age falls in its group, so every such
    task is counted in exactly one entry and the counts add up to their
    number; only the entry of "60+ days" can name an oldest task. *)
Theorem task_aging_counts :
  forall (it : GoMap.Iteration) (tasks : list TaskDetail) (now : Time),
    GoMap.visitsAll it ->
    NoDup (map Analytics.AgeGroup (Analytics.analyseTaskAging it tasks now))
    /\ (forall entry : Analytics.TaskAgingAnalysis,
          In entry (Analytics.analyseTaskAging it tasks now) ->
          In (Analytics.AgeGroup entry) (map fst Analytics.ageGroups)
          /\ Analytics.Aging_TaskCount entry
             = Z.of_nat (List.length
                           (Tally.agedIn now (Analytics.AgeGroup entry) tasks))
          /\ 1 <= Analytics.Aging_TaskCount entry
          /\ (Analytics.AgeGroup entry <> "60+ days" -> Analytics.OldestTask entry = ""))
    /\ (forall (task : TaskDetail) (age : float),
          In task tasks -> Analytics.ageOf now task = Some age ->
          In (Analytics.groupOfAge age)
             (map Analytics.AgeGroup (Analytics.analyseTaskAging it tasks now)))
    /\ Tally.sumZ (map Analytics.Aging_TaskCount (Analytics.analyseTaskAging it tasks now))
       = Z.of_nat (List.length (filter (Tally.hasAge now) tasks)).
Proof.
  intros it tasks now Hit.
  pose proof (analyseTaskAging_perm it tasks now Hit) as Hp.
  pose proof (aging_groups now tasks) as Hg. cbv zeta in Hp, Hg.
  set (st := fold_left (Analytics.ageStep now) tasks _) in *.
  destruct Hg as [Hnames Hgroups].
  assert (Hentry : forall entry,
             In entry (Analytics.analyseTaskAging it tasks now) ->
             exists name g,
               In (name, g) (Analytics.groups st)
               /\ Analytics.AgeGroup entry = name
               /\ Analytics.Aging_TaskCount entry = Analytics.Aging_TaskCount g
               /\ 1 <= Analytics.Aging_TaskCount g
               /\ (name <> "60+ days" -> Analytics.OldestTask entry = "")).
  { intros entry Hin. apply (Permutation_in _ Hp) in Hin.
    apply in_flat_map in Hin. destruct Hin as ([name g] & Hin & Hc). cbn [snd] in Hc.
    destruct (Hgroups name g Hin) as (Hn & _ & Ho).
    destruct (closeGroup_shape st g) as [[E _]|(g' & E & H1 & H2 & H3 & H4)];
      rewrite E in Hc; [destruct Hc|].
    destruct Hc as [<-|[]].
    exists name, g. repeat split; try congruence.
    intros Hne. rewrite H4 by congruence. exact Ho. }
  split; [|split; [|split]].
  - apply (Permutation_NoDup (Permutation_map _ (Permutation_sym Hp))).
    rewrite map_flat_map_list.
    apply (NoDup_flat_map_tagged _ _ string fst (fun name : string => name)).
    + rewrite Hnames. repeat constructor; cbn; intuition discriminate.
    + intros [name g] _. cbn [snd].
      destruct (closeGroup_shape st g) as [[-> _]|(g' & -> & _)]; cbn [map];
        repeat constructor. intros [].
    + intros [name g] n Hin Hn. cbn [fst snd] in *.
      destruct (Hgroups name g Hin) as (Hname & _ & _).
      destruct (closeGroup_shape st g) as [[E _]|(g' & E & H1 & _)];
        rewrite E in Hn; cbn [map In] in Hn; [destruct Hn|].
      destruct Hn as [<-|[]]. congruence.
  - intros entry Hin. destruct (Hentry entry Hin) as (name & g & Hg & Hn & Hc & H1 & Ho).
    destruct (Hgroups name g Hg) as (_ & Hcount & _).
    subst name. repeat split.
    + rewrite <- Hnames. apply (in_map fst) in Hg. exact Hg.
    + congruence.
    + lia.
    + exact Ho.
  - intros task age Hin Ha.
    pose proof (groupOfAge_five age) as H5. rewrite <- Hnames in H5.
    apply in_map_iff in H5. destruct H5 as ([name g] & Hn & Hg). cbn [fst] in Hn.
    destruct (Hgroups name g Hg) as (Hname & Hcount & _).
    assert (Hm : In task (Tally.agedIn now name tasks)).
    { apply filter_In. split; [exact Hin|].
      unfold GoMap.hasKey, Tally.ageGroupOf. rewrite Ha, Hn. apply String.eqb_refl. }
    apply (Permutation_in _ (Permutation_map _ (Permutation_sym Hp))).
    rewrite map_flat_map_list. apply in_flat_map. exists (name, g). split; [exact Hg|].
    cbn [snd].
    destruct (closeGroup_shape st g) as [[_ H0]|(g' & -> & H1 & _)].
    + exfalso. destruct (Tally.agedIn now name tasks); [destruct Hm|].
      cbn [List.length] in Hcount. lia.
    + cbn [map]. left. congruence.
  - rewrite (sumZ_perm _ _ (Permutation_map _ Hp)).
    rewrite <- aged_total, <- Hnames.
    assert (Hsum : forall gs,
               (forall name g, In (name, g) gs ->
                  Analytics.Aging_TaskCount g
                  = Z.of_nat (List.length (Tally.agedIn now name tasks))) ->
               Tally.sumZ (map Analytics.Aging_TaskCount
                               (flat_map (fun entry => Analytics.closeGroup st (snd entry)) gs))
               = Tally.sumZ (map (fun name =>
                                    Z.of_nat (List.length (Tally.agedIn now name tasks)))
                                 (map fst gs))).
    { induction gs as [|[name g] gs IH]; intros H; [reflexivity|].
      cbn [flat_map map fst snd]. rewrite map_app, sumZ_app.
      rewrite IH by (intros n' g' Hin'; apply H; right; exact Hin').
      pose proof (H name g (or_introl eq_refl)) as Hc.
      destruct (closeGroup_shape st g) as [[-> H0]|(g' & -> & _ & H2 & _)].
      - unfold Tally.sumZ. cbn [map fold_right]. lia.
      - unfold Tally.sumZ. cbn [map fold_right]. lia. }
    apply Hsum. intros name g Hin. apply (Hgroups name g Hin).
Qed.

(** ** What the analytics are handed *)

Section AnalyticsInput.
Import TasksHandler.

Lemma analytics_filterTasks_all (tasks : list TaskDetail) (req : Analytics.AnalyticsRequest) :
  filterTasks tasks (Analytics.tasksParams req) = tasks.
Proof.
  unfold filterTasks. induction tasks as [|t ts IH]; [reflexivity|].
  cbn [filter]. change (shouldIncludeTask t (Analytics.tasksParams req)) with true.
  cbv iota. rewrite IH. reflexivity.
Qed.

End AnalyticsInput.

(** X20.  The analytics ask the tasks handler for 500 tasks sorted by
    creation, and of the tasks it collects they are handed a prefix of
    at most 100 in that order (newest creation stamp first): exactly the
    first hundred when their encoding fits the size ceiling.  Tasks
    beyond it are not analysed, whatever the time range. *)
Theorem analytics_see_the_newest_hundred :
  forall (json : Encoder) (now : Time) (req : Analytics.AnalyticsRequest)
         (collected : list TaskDetail),
    let sorted := TasksHandler.sortTasks collected "created" in
    StronglySorted
      (fun x y => String.leb (Created (Dates y)) (Created (Dates x)) = true) sorted
    /\ Permutation sorted collected
    /\ match Analytics.analysedTasks json now req collected with
       | Ok tasks =>
           (exists k, (k <= 100)%nat /\ tasks = firstn k sorted)
           /\ (forall text,
                 Marshal json (TasksHandler.testResponse (firstn 100 sorted)) = Some text ->
                 len text <= MaxResponseSize -> tasks = firstn 100 sorted)
       | Err _ => exists response, MarshalIndent json response = None
       | Panic => False
       end.
Proof.
  intros json now req collected sorted.
  split; [|split].
  { subst sorted. rewrite sortTasks_created.
    apply (StronglySorted_weaken _ (fun u v => TasksHandler.lessCreated v u = false)).
    - intros x y H. unfold TasksHandler.lessCreated in H.
      rewrite leb_not_lt, H. reflexivity.
    - apply GoSortFacts.Slice_sorted;
        [exact lessCreated_irrefl | exact lessCreated_trans | exact lessCreated_negtrans]. }
  { apply sortTasks_perm. }
  set (kept := firstn 100 sorted).
  unfold Analytics.analysedTasks, TasksHandler.Handle. cbv zeta.
  rewrite analytics_filterTasks_all.
  change (SummaryMode (Analytics.tasksParams req)) with false.
  change (SortBy (Analytics.tasksParams req)) with "created".
  change (TasksHandler.capLimit false (Limit (Analytics.tasksParams req))) with 100.
  fold sorted. cbv iota.
  unfold TasksHandler.applyResponseSizeLimits. rewrite cutTo_spec by lia.
  change (Z.to_nat 100) with 100%nat. fold kept.
  pose proof (sizeLoop_spec json kept (List.length kept) (Nat.le_refl _)) as Hloop.
  assert (Hfull : forall text,
             Marshal json (TasksHandler.testResponse kept) = Some text ->
             len text <= MaxResponseSize ->
             fst (fst (TasksHandler.sizeLoop json kept (List.length kept))) = kept).
  { intros text Em Hfit. destruct (List.length kept) as [|n] eqn:En.
    - apply length_zero_iff_nil in En. rewrite En. reflexivity.
    - cbn [TasksHandler.sizeLoop]. cbv zeta. rewrite <- En, firstn_all, Em.
      rewrite (proj2 (Z.leb_le _ _) Hfit).
      destruct (List.length kept <? List.length kept)%nat; reflexivity. }
  destruct (TasksHandler.sizeLoop json kept (List.length kept)) as [[out tr] at_].
  cbn [fst] in Hfull.
  destruct Hloop as ((k & Hk & Hout) & _).
  match goal with
  | |- context [MarshalIndent json ?r] =>
      destruct (MarshalIndent json r) eqn:Eenc; [|exists r; exact Eenc]
  end.
  cbn [Tasks]. split.
  - exists (Nat.min k 100). split; [lia|].
    rewrite Hout. unfold kept. apply firstn_firstn.
  - exact Hfull.
Qed.

(** ** Period keys *)

Section PeriodKeys.
Import GoTimeInv GoTimeFacts GoTimeLayouts Analytics Tally.

Lemma digitChar_inj (j k : Z) :
  0 <= j <= 9 -> 0 <= k <= 9 -> digitChar j = digitChar k -> j = k.
Proof.
  intros Hj Hk E.
  destruct (digitChar_digit j Hj) as [_ <-]. destruct (digitChar_digit k Hk) as [_ <-].
  rewrite E. reflexivity.
Qed.

Lemma yearHour_inj (y y' h h' : Z) :
  0 <= y < 10000 -> 0 <= y' < 10000 -> 0 <= h < 100 -> 0 <= h' < 100 ->
  (fourDigits y "" ++ "-W" ++ twoDigits h "")%string
  = (fourDigits y' "" ++ "-W" ++ twoDigits h' "")%string ->
  y = y' /\ h = h'.
Proof.
  intros Hy Hy' Hh Hh' E. unfold fourDigits, twoDigits in E. cbn [String.append] in E.
  injection E as E1 E2 E3 E4 E5 E6.
  apply digitChar_inj in E1; [|Z.to_euclidean_division_equations; lia..].
  apply digitChar_inj in E2; [|Z.to_euclidean_division_equations; lia..].
  apply digitChar_inj in E3; [|Z.to_euclidean_division_equations; lia..].
  apply digitChar_inj in E4; [|Z.to_euclidean_division_equations; lia..].
  apply digitChar_inj in E5; [|Z.to_euclidean_division_equations; lia..].
  apply digitChar_inj in E6; [|Z.to_euclidean_division_equations; lia..].
  split; Z.to_euclidean_division_equations; lia.
Qed.

Lemma formatYearHour_fields (t : Time) :
  fourDigitYear t ->
  formatYearHour t = (fourDigits (yearOf t) "" ++ "-W" ++ twoDigits (hourOf t) "")%string
  /\ 0 <= yearOf t < 10000 /\ 0 <= hourOf t < 24.
Proof.
  intros H. unfold formatYearHour, yearOf, hourOf.
  pose proof (civilFromDays_year _ (fourDigitYear_day t H)) as Y.
  pose proof (Clock_of_spec t) as C.
  unfold Date_of.
  destruct (civilFromDays (wallSec t / secondsPerDay)) as [[y m] d].
  destruct (Clock_of t) as [[hh mm] ss]. cbn [fst].
  destruct C as (Hh & _).
  rewrite (appendInt_4 y), (appendInt_2 hh) by lia.
  repeat split; lia.
Qed.

End PeriodKeys.

(** X21.  For the ranges of 30, 60 and 90 days the period key is written
    with the layout "2006-W15", which the time package reads as the year
    followed by the hour of the day: two instants share a period exactly
    when they show the same year and the same hour of the day, whatever
    their days and months. *)
Theorem week_periods_are_hours_of_the_day :
  forall (t u : Time) (timeRange : string),
    GoTimeInv.fourDigitYear t -> GoTimeInv.fourDigitYear u ->
    timeRange = "30_days" \/ timeRange = "60_days" \/ timeRange = "90_days" ->
    (Analytics.getPeriodKey t timeRange = Analytics.getPeriodKey u timeRange
     <-> Tally.yearOf t = Tally.yearOf u /\ Tally.hourOf t = Tally.hourOf u)
    /\ String.length (Analytics.getPeriodKey t timeRange) = 8%nat.
Proof.
  intros t u timeRange Ht Hu Hr.
  assert (Hk : forall x, Analytics.getPeriodKey x timeRange = GoTimeLayouts.formatYearHour x).
  { intros x. destruct Hr as [-> | [-> | ->]]; reflexivity. }
  rewrite !Hk.
  destruct (formatYearHour_fields t Ht) as (Ft & Yt & Ct).
  destruct (formatYearHour_fields u Hu) as (Fu & Yu & Cu).
  rewrite Ft, Fu. split; [split|reflexivity].
  - intros E. apply yearHour_inj in E; [exact E|lia..].
  - intros [-> ->]. reflexivity.
Qed.

(* ================================================================== *)
(** * Kanboard timestamps *)
(* ================================================================== *)

Section Timestamps.
Import GoTimeInv GoTimeFacts StrConv Kanboard.

Lemma lastByte_snoc (s : string) (c : ascii) : lastByte (s ++ String c "") = Some c.
Proof.
  induction s as [|a s IH]; [reflexivity|].
  cbn [String.append lastByte]. rewrite IH.
  destruct (s ++ String c "")%string eqn:E; [|reflexivity].
  destruct s; discriminate E.
Qed.

Lemma dropLast_snoc (s : string) (c : ascii) : dropLast (s ++ String c "") = s.
Proof.
  induction s as [|a s IH]; [reflexivity|].
  cbn [String.append dropLast]. rewrite IH.
  destruct (s ++ String c "")%string eqn:E; [|reflexivity].
  destruct s; discriminate E.
Qed.

Lemma unquote_quoted (s : string) :
  unquote (String quote (s ++ String quote "")) = s.
Proof.
  unfold unquote.
  change (lastByte (String quote (s ++ String quote "")))
    with (lastByte ((String quote s) ++ String quote "")).
  rewrite lastByte_snoc, dropLast_snoc, Ascii.eqb_refl.
  destruct s; reflexivity.
Qed.

Lemma Itoa_first (n : Z) :
  exists c rest, Itoa n = String c rest /\ Ascii.eqb c quote = false.
Proof.
  unfold Itoa, itoa. destruct (Z.ltb_spec n 0) as [Hn|Hn].
  - eexists _, _. split; reflexivity.
  - destruct (digits_value n Hn) as (_ & _ & c & rest & Hc & Hd).
    exists c, rest. split; [exact Hc|].
    destruct (Ascii.eqb_spec c quote) as [->|]; [discriminate Hd|reflexivity].
Qed.

Lemma unquote_Itoa (n : Z) : unquote (Itoa n) = Itoa n.
Proof.
  destruct (Itoa_first n) as (c & rest & -> & Hq).
  unfold unquote. rewrite Hq, andb_false_r. reflexivity.
Qed.

Lemma UnmarshalJSON_number (rfc3339 : string -> option Time) (n : Z) :
  n <> 0 -> minInt <= n <= maxInt ->
  forall data, unquote data = Itoa n -> UnmarshalJSON rfc3339 data = Unix n.
Proof.
  intros Hn Hr data Hd. unfold UnmarshalJSON. cbv zeta. rewrite Hd.
  pose proof (Atoi_Itoa n Hr) as Ha.
  destruct (String.eqb_spec (Itoa n) "") as [E|_].
  { rewrite E in Ha. discriminate Ha. }
  destruct (String.eqb_spec (Itoa n) "0") as [E|_].
  { rewrite E in Ha. cbv in Ha. congruence. }
  cbn [orb]. unfold ParseInt. rewrite Ha. reflexivity.
Qed.

End Timestamps.

(** X22.  A Kanboard timestamp, decimal seconds since 1970 other than 0,
    quoted or not, is read as that instant in UTC; when the instant
    shows a four-digit year and is not the zero time the stamp written
    for it in a task record reads back as the same instant, whatever the
    RFC 3339 parser does.  The texts "", "0" and their quoted forms are
    read as the zero time, for which the record shows no stamp; "00" is
    read as the instant 0 and shows 1970-01-01T00:00:00Z. *)
Theorem kanboard_timestamp_round_trip :
  forall (rfc3339 : string -> option Time) (n : Z),
    n <> 0 -> n <> unixOfYearOne ->
    GoTimeInv.firstStampSecond <= n <= GoTimeInv.lastStampSecond ->
    Kanboard.UnmarshalJSON rfc3339 (StrConv.Itoa n) = Unix n
    /\ Kanboard.UnmarshalJSON
         rfc3339 (String Kanboard.quote (StrConv.Itoa n ++ String Kanboard.quote ""))
       = Unix n
    /\ Parse LayoutStamp
             (TasksHandler.formatKanboardTime
                (Kanboard.UnmarshalJSON rfc3339 (StrConv.Itoa n)))
       = Some (Unix n)
    /\ (forall data,
          In data [""; "0"; String Kanboard.quote (String Kanboard.quote "");
                   String Kanboard.quote ("0" ++ String Kanboard.quote "")] ->
          Kanboard.UnmarshalJSON rfc3339 data = zeroTime
          /\ TasksHandler.formatKanboardTime (Kanboard.UnmarshalJSON rfc3339 data) = "")
    /\ TasksHandler.formatKanboardTime (Kanboard.UnmarshalJSON rfc3339 "00")
       = "1970-01-01T00:00:00Z".
Proof.
  intros rfc3339 n Hn Hz Hr.
  assert (Hint : StrConv.minInt <= n <= StrConv.maxInt).
  { unfold GoTimeInv.firstStampSecond, GoTimeInv.lastStampSecond in Hr.
    unfold StrConv.minInt, StrConv.maxInt. lia. }
  assert (H1 : Kanboard.UnmarshalJSON rfc3339 (StrConv.Itoa n) = Unix n).
  { apply UnmarshalJSON_number; [exact Hn|exact Hint|apply unquote_Itoa]. }
  split; [exact H1|]. split.
  { apply UnmarshalJSON_number; [exact Hn|exact Hint|apply unquote_quoted]. }
  split.
  { rewrite H1. unfold TasksHandler.formatKanboardTime.
    assert (Hnz : IsZero (Unix n) = false).
    { unfold IsZero, Unix. cbn [unixSec nsec].
      destruct (Z.eqb_spec n unixOfYearOne); [contradiction|reflexivity]. }
    rewrite Hnz.
    assert (Hy : GoTimeInv.fourDigitYear (Unix n)).
    { unfold GoTimeInv.fourDigitYear, wallSec, Unix. cbn [unixSec zoneOffset]. lia. }
    rewrite (GoTimeFacts.Parse_Format_stamp _ Hy).
    unfold wallSec, Unix. cbn [unixSec zoneOffset]. rewrite Z.add_0_r. reflexivity. }
  split.
  { intros data Hin. cbn [In] in Hin.
    destruct Hin as [<-|[<-|[<-|[<-|[]]]]]; split; reflexivity. }
  reflexivity.
Qed.

(** ** Two readings of a boolean *)

Section Booleans.

Lemma not_zero_and_one (x : float) :
  PrimFloat.eqb x 0 = true -> PrimFloat.eqb x 1 = false.
Proof.
  rewrite !FloatAxioms.eqb_spec.
  change (FloatOps.Prim2SF 0) with (SpecFloat.S754_zero false).
  destruct (FloatOps.Prim2SF x) as [s|s| |s m e]; intros H.
  - reflexivity.
  - destruct s; discriminate H.
  - discriminate H.
  - destruct s; discriminate H.
Qed.

End Booleans.

(** X23.  The overview reads the field [is_active] of a raw project with
    [getBool], the models read theirs with [KanboardBool]: a field that is
    absent or null is false; on a boolean and on a string the two agree
    (true for "1" and "true" only); whenever [getBool] is true so is
    [KanboardBool]; they differ exactly on a number that is neither 0
    nor 1, which [KanboardBool] takes as true and [getBool] as false. *)
Theorem getBool_against_KanboardBool :
  forall (data : list (string * Kanboard.Value)) (key : string),
    match GoMap.lookup data key with
    | None => Kanboard.getBool data key = false /\ Kanboard.getString data key = ""
    | Some v =>
        (Kanboard.getBool data key = true -> Kanboard.KanboardBool v = true)
        /\ (Kanboard.getBool data key <> Kanboard.KanboardBool v
            <-> exists x, v = Kanboard.Number x
                          /\ PrimFloat.eqb x 0 = false /\ PrimFloat.eqb x 1 = false)
        /\ (forall s, v = Kanboard.Str s ->
              Kanboard.getString data key = s
              /\ (Kanboard.getBool data key = true <-> s = "1" \/ s = "true"))
        /\ (v = Kanboard.Null ->
            Kanboard.getBool data key = false /\ Kanboard.getString data key = "")
    end.
Proof.
  intros data key. unfold Kanboard.getBool, Kanboard.getString.
  destruct (GoMap.lookup data key) as [v|]; [|split; reflexivity].
  destruct v as [|b|x|s| |]; cbn [Kanboard.KanboardBool].
  - split; [discriminate|]. split; [|split; [discriminate|split; reflexivity]].
    split; [congruence|]. intros (x & E & _). discriminate E.
  - split; [tauto|]. split; [|split; discriminate].
    split; [congruence|]. intros (x & E & _). discriminate E.
  - pose proof (not_zero_and_one x) as Hx.
    split.
    { intros H1. destruct (PrimFloat.eqb x 0); [|reflexivity].
      rewrite Hx in H1 by reflexivity. discriminate H1. }
    split; [|split; discriminate].
    split.
    + intros Hd. exists x. split; [reflexivity|].
      destruct (PrimFloat.eqb x 0); [rewrite Hx in Hd by reflexivity; now contradiction Hd|].
      destruct (PrimFloat.eqb x 1); [now contradiction Hd|]. split; reflexivity.
    + intros (y & E & H0 & H1). injection E as <-. rewrite H0, H1. discriminate.
  - split; [tauto|]. split; [|split; [|discriminate]].
    + split; [congruence|]. intros (x & E & _). discriminate E.
    + intros s' E. injection E as <-. split; [reflexivity|].
      rewrite orb_true_iff, !String.eqb_eq. reflexivity.
  - split; [discriminate|]. split; [|split; discriminate].
    split; [congruence|]. intros (x & E & _). discriminate E.
  - split; [discriminate|]. split; [|split; discriminate].
    split; [congruence|]. intros (x & E & _). discriminate E.
Qed.

(* ================================================================== *)
(** * The overview *)
(* ================================================================== *)

Section Partition.
Import GoMap Tally.
Variable A : Type.
Variable keyOf : A -> option string.

Lemma count_key_once (keys : list string) (k0 : string) :
  NoDup keys -> In k0 keys ->
  List.length (filter (fun k => String.eqb k0 k) keys) = 1%nat.
Proof.
  induction keys as [|k keys IH]; intros Hn Hin; [destruct Hin|].
  inversion Hn as [|? ? Hnot Hrest]; subst. cbn [filter].
  destruct (String.eqb_spec k0 k) as [E|N].
  - subst k. cbn [List.length]. f_equal.
    assert (Hnone : forall l, ~ In k0 l -> filter (fun k => String.eqb k0 k) l = []).
    { intros l. induction l as [|a l IHl]; intros H; [reflexivity|].
      cbn [filter]. destruct (String.eqb_spec k0 a) as [->|_].
      - exfalso. apply H. left. reflexivity.
      - apply IHl. intros H'. apply H. right. exact H'. }
    rewrite (Hnone keys Hnot). reflexivity.
  - apply IH; [exact Hrest|]. destruct Hin as [E|Hin]; [congruence|exact Hin].
Qed.

Lemma sum_members_cons (keys : list string) (x : A) (l : list A) :
  sumZ (map (fun k => Z.of_nat (List.length (members keyOf k (x :: l)))) keys)
  = sumZ (map (fun k => Z.of_nat (List.length (members keyOf k l))) keys)
    + Z.of_nat (List.length (filter (fun k => hasKey keyOf k x) keys)).
Proof.
  unfold sumZ. induction keys as [|k keys IH]; [reflexivity|].
  cbn [map fold_right filter]. rewrite IH. unfold members at 1. cbn [filter].
  fold (members keyOf k l).
  destruct (hasKey keyOf k x); cbn [List.length]; lia.
Qed.

Lemma members_partition (keys : list string) (l : list A) :
  NoDup keys ->
  (forall x k, In x l -> keyOf x = Some k -> In k keys) ->
  sumZ (map (fun k => Z.of_nat (List.length (members keyOf k l))) keys)
  = Z.of_nat (List.length
                (filter (fun x => match keyOf x with Some _ => true | None => false end) l)).
Proof.
  intros Hn. induction l as [|x l IH]; intros Hk.
  - cbn [filter List.length]. clear. unfold sumZ.
    induction keys as [|k keys IHk]; [reflexivity|].
    cbn [map fold_right]. rewrite IHk. reflexivity.
  - rewrite sum_members_cons.
    rewrite IH by (intros y k Hy; apply Hk; right; exact Hy).
    cbn [filter]. unfold hasKey.
    destruct (keyOf x) as [k0|] eqn:Ex.
    + rewrite (count_key_once keys k0 Hn (Hk x k0 (or_introl eq_refl) Ex)).
      cbn [List.length]. lia.
    + assert (E : filter (fun _ : string => false) keys = []).
      { clear. induction keys as [|k keys IHk]; [reflexivity|exact IHk]. }
      rewrite E. cbn [List.length]. lia.
Qed.

End Partition.

Section TaskCounts.
Import GoTimeInv GoTimeFacts GoMap OverviewHandler Tally.

Lemma itoa_inj (a b : Z) : itoa a = itoa b -> a = b.
Proof.
  unfold itoa. intros E.
  destruct (Z.ltb_spec a 0) as [Ha|Ha]; destruct (Z.ltb_spec b 0) as [Hb|Hb].
  - injection E as E.
    destruct (digits_value (- a) ltac:(lia)) as (_ & Va & _).
    destruct (digits_value (- b) ltac:(lia)) as (_ & Vb & _).
    rewrite E in Va. lia.
  - destruct (digits_value b Hb) as (_ & _ & c & rest & Hc & Hd).
    rewrite Hc in E. injection E as <- _. discriminate Hd.
  - destruct (digits_value a Ha) as (_ & _ & c & rest & Hc & Hd).
    rewrite Hc in E. injection E as -> _. discriminate Hd.
  - destruct (digits_value a Ha) as (_ & Va & _).
    destruct (digits_value b Hb) as (_ & Vb & _).
    rewrite E in Va. lia.
Qed.

Lemma fold_left_map_list (X Y S : Type) (f : S -> Y -> S) (g : X -> Y) (l : list X) (s : S) :
  fold_left f (map g l) s = fold_left (fun s x => f s (g x)) l s.
Proof. revert s. induction l as [|x l IH]; intros s; [reflexivity|]. apply IH. Qed.

Lemma fold_left_ext_list (X S : Type) (f g : S -> X -> S) (l : list X) (s : S) :
  (forall s x, f s x = g s x) -> fold_left f l s = fold_left g l s.
Proof.
  intros H. revert s. induction l as [|x l IH]; intros s; [reflexivity|].
  cbn [fold_left]. rewrite H. apply IH.
Qed.

Lemma getProjectTaskCounts_group (tasks : list Task) (columns : list ColumnInfo) :
  getProjectTaskCounts tasks columns
  = group (countKey columns) (fun _ => 0) countBump (map inl columns ++ map inr tasks).
Proof.
  unfold getProjectTaskCounts, group. cbv zeta.
  rewrite fold_left_app, !fold_left_map_list.
  erewrite (fold_left_ext_list Task); [reflexivity|].
  intros s task. unfold visit, countKey, countedUnder.
  destruct (columnOf columns task); reflexivity.
Qed.

Lemma members_counted (columns cols : list ColumnInfo) (title : string) (tasks : list Task) :
  members (countKey columns) title (map inl cols ++ map inr tasks)
  = map inl (filter (fun col => String.eqb (ColumnInfo_Title col) title) cols)
    ++ map inr (inTitle columns title tasks).
Proof.
  unfold members, inTitle, members. rewrite filter_app. f_equal.
  - induction cols as [|c cs IH]; [reflexivity|].
    cbn [map filter].
    assert (Hk : hasKey (countKey columns) title (inl c)
                 = String.eqb (ColumnInfo_Title c) title) by reflexivity.
    rewrite Hk.
    destruct (String.eqb (ColumnInfo_Title c) title); cbn [map]; rewrite IH; reflexivity.
  - induction tasks as [|t ts IH]; [reflexivity|].
    cbn [map filter].
    assert (Hk : hasKey (countKey columns) title (inr t)
                 = hasKey (countedUnder columns) title t) by reflexivity.
    rewrite Hk.
    destruct (hasKey (countedUnder columns) title t); cbn [map]; rewrite IH; reflexivity.
Qed.

Lemma fold_countBump (cs : list ColumnInfo) (ts : list Task) (n : Z) :
  fold_left (fun v x => countBump x v) (map inl cs ++ map inr ts) n
  = (match cs with [] => n | _ => 0 end) + Z.of_nat (List.length ts).
Proof.
  rewrite fold_left_app.
  assert (Hc : fold_left (fun v x => countBump x v) (map inl cs) n
               = match cs with [] => n | _ => 0 end).
  { revert n. induction cs as [|c cs IH]; intros n; [reflexivity|].
    cbn [map fold_left countBump]. rewrite IH. destruct cs; reflexivity. }
  rewrite Hc. generalize (match cs with [] => n | _ => 0 end). clear.
  induction ts as [|t ts IH]; intros n; cbn [map fold_left List.length countBump].
  - lia.
  - rewrite IH. lia.
Qed.

Lemma entryOf_counted (cs : list ColumnInfo) (ts : list Task) :
  entryOf (fun _ => 0) countBump (map inl cs ++ map inr ts)
  = match cs, ts with
    | [], [] => None
    | _, _ => Some (Z.of_nat (List.length ts))
    end.
Proof.
  unfold entryOf.
  destruct (map inl cs ++ map inr ts) as [|first rest] eqn:E.
  - destruct cs; [|discriminate E]. destruct ts; [reflexivity|discriminate E].
  - rewrite <- E, fold_countBump.
    destruct cs; [destruct ts; [discriminate E|]|]; f_equal; lia.
Qed.

Lemma countedUnder_title (columns : list ColumnInfo) (task : Task) (title : string) :
  countedUnder columns task = Some title -> In title (map ColumnInfo_Title columns).
Proof.
  unfold countedUnder, columnOf. cbv zeta.
  destruct (find _ columns) as [col|] eqn:E; [|discriminate].
  intros H. injection H as <-. apply find_some in E. apply in_map. tauto.
Qed.

Lemma title_filter (columns : list ColumnInfo) (title : string) :
  filter (fun col => String.eqb (ColumnInfo_Title col) title) columns <> []
  <-> In title (map ColumnInfo_Title columns).
Proof.
  induction columns as [|c cs IH]; cbn [filter map In]; [tauto|].
  destruct (String.eqb_spec (ColumnInfo_Title c) title) as [E|N].
  - split; [intros _; left; exact E|discriminate].
  - rewrite IH. tauto.
Qed.

Lemma counts_lookup (tasks : list Task) (columns : list ColumnInfo) (title : string) :
  lookup (getProjectTaskCounts tasks columns) title
  = if in_dec string_dec title (map ColumnInfo_Title columns)
    then Some (Z.of_nat (List.length (inTitle columns title tasks)))
    else None.
Proof.
  rewrite getProjectTaskCounts_group, group_lookup, members_counted, entryOf_counted.
  destruct (in_dec string_dec title (map ColumnInfo_Title columns)) as [Y|N].
  - apply title_filter in Y.
    destruct (filter _ columns); [contradiction|reflexivity].
  - assert (Hc : filter (fun col => String.eqb (ColumnInfo_Title col) title) columns = []).
    { destruct (filter _ columns) eqn:E; [reflexivity|].
      exfalso. apply N. apply title_filter. rewrite E. discriminate. }
    rewrite Hc.
    destruct (inTitle columns title tasks) as [|t ts] eqn:Et; [reflexivity|].
    exfalso. apply N.
    assert (Hin : In t (inTitle columns title tasks)) by (rewrite Et; left; reflexivity).
    apply filter_In in Hin. destruct Hin as [_ Hk]. unfold hasKey in Hk.
    destruct (countedUnder columns t) as [k|] eqn:Ek; [|discriminate Hk].
    apply String.eqb_eq in Hk. subst k. exact (countedUnder_title columns t title Ek).
Qed.

Lemma columnOf_infos (cols : list Models.Column) (task : Task) :
  columnOf (columnInfos cols) task
  = match find (fun col => Column_ID col =? Task_ColumnID task) cols with
    | Some col => Some {| ColumnInfo_ID := itoa (Column_ID col);
                          ColumnInfo_Title := Column_Title col |}
    | None => None
    end.
Proof.
  unfold columnOf, columnInfos. cbv zeta.
  induction cols as [|c cs IH]; [reflexivity|].
  cbn [map find ColumnInfo_ID].
  destruct (String.eqb_spec (itoa (Column_ID c)) (itoa (Task_ColumnID task))) as [E|N].
  - apply itoa_inj in E. rewrite (proj2 (Z.eqb_eq _ _) E). reflexivity.
  - destruct (Z.eqb_spec (Column_ID c) (Task_ColumnID task)) as [E|_]; [congruence|].
    exact IH.
Qed.

End TaskCounts.

(** X24.  The task counts of a project have one entry per column title.
    A task is counted under the title of the first column whose id is
    the id of its column (for columns as fetched: the first with that
    integer id), so columns that share a title share a count, and a task
    whose column is not among the project's columns is counted nowhere:
    the counts add up to the number of tasks in a listed column. *)
Theorem task_counts_by_column_title :
  forall (tasks : list Task) (columns : list OverviewHandler.ColumnInfo),
    NoDup (map fst (OverviewHandler.getProjectTaskCounts tasks columns))
    /\ (forall title,
          In title (map fst (OverviewHandler.getProjectTaskCounts tasks columns))
          <-> In title (map OverviewHandler.ColumnInfo_Title columns))
    /\ (forall title n,
          In (title, n) (OverviewHandler.getProjectTaskCounts tasks columns)
          <-> In title (map OverviewHandler.ColumnInfo_Title columns)
              /\ n = Z.of_nat (List.length (Tally.inTitle columns title tasks)))
    /\ Tally.sumZ (map snd (OverviewHandler.getProjectTaskCounts tasks columns))
       = Z.of_nat (List.length (filter (Tally.listed columns) tasks))
    /\ (forall (fetched : list Models.Column) (task : Task),
          OverviewHandler.columnOf (OverviewHandler.columnInfos fetched) task
          = match find (fun col => Column_ID col =? Task_ColumnID task) fetched with
            | Some col =>
                Some {| OverviewHandler.ColumnInfo_ID := itoa (Column_ID col);
                        OverviewHandler.ColumnInfo_Title := Column_Title col |}
            | None => None
            end).
Proof.
  intros tasks columns.
  assert (Hn : NoDup (map fst (OverviewHandler.getProjectTaskCounts tasks columns))).
  { rewrite getProjectTaskCounts_group. apply group_NoDup. }
  assert (Hkeys : forall title,
             In title (map fst (OverviewHandler.getProjectTaskCounts tasks columns))
             <-> In title (map OverviewHandler.ColumnInfo_Title columns)).
  { intros title.
    pose proof (lookup_None _ (OverviewHandler.getProjectTaskCounts tasks columns) title) as L.
    rewrite counts_lookup in L.
    destruct (in_dec string_dec title (map OverviewHandler.ColumnInfo_Title columns))
      as [Y|N].
    - split; [intros _; exact Y|]. intros _.
      destruct (in_dec string_dec title
                       (map fst (OverviewHandler.getProjectTaskCounts tasks columns)))
        as [Y'|N']; [exact Y'|].
      apply L in N'. discriminate N'.
    - split; [|contradiction]. intros Hin. exfalso.
      apply (proj1 L eq_refl). exact Hin. }
  assert (Hentry : forall title n,
             In (title, n) (OverviewHandler.getProjectTaskCounts tasks columns)
             <-> In title (map OverviewHandler.ColumnInfo_Title columns)
                 /\ n = Z.of_nat (List.length (Tally.inTitle columns title tasks))).
  { intros title n. rewrite (In_lookup _ _ title n Hn), counts_lookup.
    destruct (in_dec string_dec title (map OverviewHandler.ColumnInfo_Title columns))
      as [Y|N].
    - split; [intros E; injection E as <-; split; [exact Y|reflexivity]|].
      intros [_ ->]. reflexivity.
    - split; [discriminate|]. intros [Y _]. contradiction. }
  split; [exact Hn|]. split; [exact Hkeys|]. split; [exact Hentry|]. split.
  - assert (Hvals : map snd (OverviewHandler.getProjectTaskCounts tasks columns)
                    = map (fun title =>
                             Z.of_nat (List.length (Tally.inTitle columns title tasks)))
                          (map fst (OverviewHandler.getProjectTaskCounts tasks columns))).
    { rewrite map_map. apply map_ext_in. intros [title n] Hin. cbn [fst snd].
      apply Hentry in Hin. tauto. }
    rewrite Hvals. unfold Tally.inTitle.
    rewrite (members_partition Task (Tally.countedUnder columns) _ tasks Hn).
    + f_equal. f_equal. apply filter_ext. intros task.
      unfold Tally.countedUnder, Tally.listed.
      destruct (OverviewHandler.columnOf columns task); reflexivity.
    + intros task title _ Hk. apply Hkeys.
      exact (countedUnder_title columns task title Hk).
  - intros fetched task. apply columnOf_infos.
Qed.

Section Summary.
Import GoMap OverviewHandler Tally.

Lemma fold_counts (entries : list (string * Z)) (summary : OverviewSummary) :
  fold_left
    (fun summary entry =>
       {| TotalProjects := TotalProjects summary;
          ActiveProjects := ActiveProjects summary;
          InactiveProjects := InactiveProjects summary;
          Overview_TotalTasks := Overview_TotalTasks summary + snd entry |})
    entries summary
  = {| TotalProjects := TotalProjects summary;
       ActiveProjects := ActiveProjects summary;
       InactiveProjects := InactiveProjects summary;
       Overview_TotalTasks := Overview_TotalTasks summary + sumZ (map snd entries) |}.
Proof.
  revert summary. induction entries as [|e es IH]; intros summary.
  - cbn. destruct summary; cbn. f_equal. lia.
  - cbn [fold_left]. rewrite IH. cbn [TotalProjects ActiveProjects InactiveProjects
      Overview_TotalTasks map]. unfold sumZ. cbn [fold_right]. f_equal. lia.
Qed.

Lemma calculateSummary_fold (it : Iteration) (includeTaskCounts : bool)
    (projects : list ProjectOverview) (summary : OverviewSummary) :
  visitsAll it ->
  fold_left
    (fun summary project =>
       let summary :=
         if Overview_IsActive project
         then {| TotalProjects := TotalProjects summary;
                 ActiveProjects := ActiveProjects summary + 1;
                 InactiveProjects := InactiveProjects summary;
                 Overview_TotalTasks := Overview_TotalTasks summary |}
         else {| TotalProjects := TotalProjects summary;
                 ActiveProjects := ActiveProjects summary;
                 InactiveProjects := InactiveProjects summary + 1;
                 Overview_TotalTasks := Overview_TotalTasks summary |} in
       if includeTaskCounts then
         fold_left
           (fun summary entry =>
              {| TotalProjects := TotalProjects summary;
                 ActiveProjects := ActiveProjects summary;
                 InactiveProjects := InactiveProjects summary;
                 Overview_TotalTasks := Overview_TotalTasks summary + snd entry |})
           (range it _ (TaskCounts project)) summary
       else summary)
    projects summary
  = {| TotalProjects := TotalProjects summary;
       ActiveProjects :=
         ActiveProjects summary
         + Z.of_nat (List.length (filter Overview_IsActive projects));
       InactiveProjects :=
         InactiveProjects summary
         + Z.of_nat (List.length
                       (filter (fun project => negb (Overview_IsActive project)) projects));
       Overview_TotalTasks :=
         Overview_TotalTasks summary
         + (if includeTaskCounts then allCounts projects else 0) |}.
Proof.
  intros Hit. revert summary. induction projects as [|p ps IH]; intros summary.
  - cbn [fold_left filter List.length]. unfold allCounts, sumZ. cbn [map fold_right].
    destruct summary; cbn. destruct includeTaskCounts; f_equal; lia.
  - cbn [fold_left]. cbv zeta. rewrite IH. clear IH.
    cbn [filter].
    assert (Hsum : sumZ (map snd (range it Z (TaskCounts p)))
                   = sumZ (map snd (TaskCounts p))).
    { apply sumZ_perm. apply Permutation_map. apply Hit. }
    destruct includeTaskCounts.
    + rewrite fold_counts, Hsum.
      destruct (Overview_IsActive p);
        cbn [TotalProjects ActiveProjects InactiveProjects Overview_TotalTasks negb
             List.length];
        unfold allCounts, sumZ; cbn [map fold_right]; f_equal; lia.
    + destruct (Overview_IsActive p);
        cbn [TotalProjects ActiveProjects InactiveProjects Overview_TotalTasks negb
             List.length]; f_equal; lia.
Qed.

End Summary.

(** X25.  The overview's summary counts the projects it is given, active
    and inactive ones adding up to the total, and, when task counts are
    asked for, adds up all their task counts whatever order the maps are
    walked in, and nothing otherwise.  Unless inactive projects are
    asked for [Handle] passes the active ones only, so that the summary
    shows no inactive project. *)
Theorem overview_summary_counts :
  forall (it : GoMap.Iteration) (projects : list OverviewHandler.ProjectOverview)
         (includeTaskCounts : bool) (req : OverviewHandler.OverviewRequest),
    GoMap.visitsAll it ->
    (let summary := OverviewHandler.calculateSummary it projects includeTaskCounts in
     OverviewHandler.TotalProjects summary = Z.of_nat (List.length projects)
     /\ OverviewHandler.ActiveProjects summary
        = Z.of_nat (List.length (filter OverviewHandler.Overview_IsActive projects))
     /\ OverviewHandler.ActiveProjects summary + OverviewHandler.InactiveProjects summary
        = OverviewHandler.TotalProjects summary
     /\ OverviewHandler.Overview_TotalTasks summary
        = if includeTaskCounts then Tally.allCounts projects else 0)
    /\ (OverviewHandler.IncludeInactiveProjects req = false ->
        let summary :=
          OverviewHandler.calculateSummary
            it (OverviewHandler.shown req projects) includeTaskCounts in
        OverviewHandler.InactiveProjects summary = 0
        /\ OverviewHandler.TotalProjects summary = OverviewHandler.ActiveProjects summary
        /\ OverviewHandler.TotalProjects summary
           = Z.of_nat (List.length (filter OverviewHandler.Overview_IsActive projects))
        /\ forall project, In project (OverviewHandler.shown req projects)
             <-> In project projects /\ OverviewHandler.Overview_IsActive project = true).
Proof.
  intros it projects includeTaskCounts req Hit.
  assert (Hlen : forall ps : list OverviewHandler.ProjectOverview,
             (List.length (filter OverviewHandler.Overview_IsActive ps)
              + List.length (filter (fun p => negb (OverviewHandler.Overview_IsActive p)) ps)
              = List.length ps)%nat).
  { induction ps as [|p ps IH]; [reflexivity|]. cbn [filter].
    destruct (OverviewHandler.Overview_IsActive p); cbn [negb List.length]; lia. }
  split.
  - cbv zeta. unfold OverviewHandler.calculateSummary.
    rewrite (calculateSummary_fold it includeTaskCounts projects _ Hit).
    cbn [OverviewHandler.TotalProjects OverviewHandler.ActiveProjects
         OverviewHandler.InactiveProjects OverviewHandler.Overview_TotalTasks].
    pose proof (Hlen projects). repeat split; lia.
  - intros Hreq. cbv zeta. unfold OverviewHandler.shown. rewrite Hreq. cbn [negb].
    unfold OverviewHandler.calculateSummary.
    rewrite (calculateSummary_fold it includeTaskCounts _ _ Hit).
    cbn [OverviewHandler.TotalProjects OverviewHandler.ActiveProjects
         OverviewHandler.InactiveProjects OverviewHandler.Overview_TotalTasks].
    set (active := filter OverviewHandler.Overview_IsActive projects).
    assert (Hall : filter OverviewHandler.Overview_IsActive active = active).
    { unfold active. clear. induction projects as [|p ps IH]; [reflexivity|].
      cbn [filter]. destruct (OverviewHandler.Overview_IsActive p) eqn:E; [|exact IH].
      cbn [filter]. rewrite E, IH. reflexivity. }
    pose proof (Hlen active) as Ha. rewrite Hall in Ha.
    rewrite Hall. split; [lia|]. split; [lia|]. split; [lia|].
    intros project. unfold active. rewrite filter_In. reflexivity.
Qed.

(* ================================================================== *)
(** * The burndown chart *)
(* ================================================================== *)

Section Burndown.
Import Analytics Tally.

Lemma instant_Add (t : Time) (d : Z) : instant (Add t d) = instant t + d.
Proof.
  unfold Add. cbv zeta. unfold instant at 1. cbn [unixSec nsec].
  rewrite (Z.mul_comm ((instant t + d) / nsPerSecond)).
  symmetry. apply Z.div_mod. unfold nsPerSecond. lia.
Qed.

Lemma zoneOffset_Add (t : Time) (d : Z) : zoneOffset (Add t d) = zoneOffset t.
Proof. reflexivity. Qed.

Lemma Add_Add (t : Time) (a b : Z) : Add (Add t a) b = Add t (a + b).
Proof.
  unfold Add at 1 3. cbv zeta. rewrite instant_Add, zoneOffset_Add, Z.add_assoc.
  reflexivity.
Qed.

Lemma getTimeRangeStart_normal (clock : Time) (timeRange : string) :
  Add (getTimeRangeStart clock timeRange) 0 = getTimeRangeStart clock timeRange.
Proof.
  assert (H : forall y m d, Add (AddDate clock y m d) 0 = AddDate clock y m d).
  { intros y m d. unfold AddDate.
    destruct (Date_of clock) as [[y0 m0] d0]. destruct (Clock_of clock) as [[hh mm] ss].
    unfold Date. cbv zeta.
    match goal with
    | |- Add (mkTime (?total / _) _ ?off) 0 = _ =>
        set (T := total); set (O := off)
    end.
    unfold Add. cbv zeta. unfold instant. cbn [unixSec nsec zoneOffset].
    rewrite Z.add_0_r, (Z.mul_comm (T / nsPerSecond)),
      <- (Z.div_mod T nsPerSecond) by (unfold nsPerSecond; lia).
    reflexivity. }
  unfold getTimeRangeStart.
  repeat match goal with |- context [if ?c then _ else _] => destruct c end; apply H.
Qed.

Lemma notAfter_le (date : Time) (stamp : Time) :
  Before stamp date || Equal stamp date = (instant stamp <=? instant date).
Proof.
  unfold Before, Equal.
  destruct (Z.ltb_spec (instant stamp) (instant date));
    destruct (Z.eqb_spec (instant stamp) (instant date));
    destruct (Z.leb_spec (instant stamp) (instant date)); cbn [orb]; try reflexivity; lia.
Qed.

Lemma burndownInterval_pos (timeRange : string) : 0 < burndownInterval timeRange.
Proof.
  unfold burndownInterval, nsPerHour, nsPerSecond.
  repeat match goal with |- context [if ?c then _ else _] => destruct c end; lia.
Qed.

Lemma datesLoop_spec (now : Time) (interval : Z) (fuel : nat) :
  0 < interval ->
  forall date,
    Add date 0 = date ->
    burndownRounds date now interval <= Z.of_nat fuel ->
    datesLoop fuel date now interval
    = map (dateAt date interval) (seq 0 (Z.to_nat (burndownRounds date now interval))).
Proof.
  intros Hi. induction fuel as [|fuel IH]; intros date Hn Hf.
  - assert (Hr : burndownRounds date now interval = 0).
    { unfold burndownRounds in *.
      destruct (Z.leb_spec (instant date) (instant now)); [|reflexivity].
      assert (0 <= (instant now - instant date) / interval)
        by (apply Z.div_pos; lia). lia. }
    rewrite Hr. reflexivity.
  - cbn [datesLoop]. rewrite notAfter_le.
    unfold burndownRounds in Hf |- *.
    destruct (Z.leb_spec (instant date) (instant now)) as [Hle|Hgt]; [|reflexivity].
    assert (Hq : 0 <= (instant now - instant date) / interval)
      by (apply Z.div_pos; lia).
    assert (Hnext : burndownRounds (Add date interval) now interval
                    = (instant now - instant date) / interval).
    { unfold burndownRounds. rewrite instant_Add.
      destruct (Z.leb_spec (instant date + interval) (instant now)) as [H1|H1].
      - assert (E : (instant now - instant date) / interval
                    = (instant now - (instant date + interval)) / interval + 1).
        { rewrite <- Z.div_add by lia. f_equal. lia. }
        lia.
      - symmetry. apply Z.div_small. lia. }
    rewrite (IH (Add date interval)).
    + rewrite Hnext.
      replace (Z.to_nat ((instant now - instant date) / interval + 1))
        with (S (Z.to_nat ((instant now - instant date) / interval))) by lia.
      cbn [seq map]. f_equal.
      * unfold dateAt. cbn [Z.of_nat Z.mul]. symmetry. exact Hn.
      * rewrite <- seq_shift, map_map. apply map_ext. intros k.
        unfold dateAt. rewrite Add_Add. f_equal. lia.
    + rewrite Add_Add, Z.add_0_r. reflexivity.
    + rewrite Hnext. lia.
Qed.

Lemma countOf_length (p : TaskDetail -> bool) (tasks : list TaskDetail) :
  countOf p tasks = Z.of_nat (List.length (filter p tasks)).
Proof.
  unfold countOf.
  assert (H : forall n, fold_left (fun n task => if p task then n + 1 else n) tasks n
                        = n + Z.of_nat (List.length (filter p tasks))).
  { induction tasks as [|t ts IH]; intros n; cbn [fold_left filter].
    - cbn. lia.
    - rewrite IH. destruct (p t); cbn [List.length]; lia. }
  rewrite H. lia.
Qed.

Lemma filter_length_mono (T : Type) (p q : T -> bool) (l : list T) :
  (forall x, p x = true -> q x = true) ->
  (List.length (filter p l) <= List.length (filter q l))%nat.
Proof.
  intros H. induction l as [|x l IH]; [reflexivity|].
  cbn [filter]. destruct (p x) eqn:E.
  - rewrite (H x E). cbn [List.length]. lia.
  - destruct (q x); cbn [List.length]; lia.
Qed.

Lemma notAfter_mono (stamp : string) (date date' : Time) :
  instant date <= instant date' ->
  notAfter stamp date = true -> notAfter stamp date' = true.
Proof.
  intros Hle. unfold notAfter. destruct (String.eqb stamp ""); [discriminate|].
  destruct (Parse LayoutStamp stamp) as [parsed|]; [|discriminate].
  rewrite !notAfter_le, !Z.leb_le. lia.
Qed.

Lemma burndown_fold (truncate : float -> Z) (tasks : list TaskDetail) (total n : Z)
    (start : Time) (interval : Z) (m : nat) :
  forall i0 : nat,
    fold_left (burndownStep truncate tasks total n)
              (map (dateAt start interval) (seq i0 m))
              (Z.of_nat i0, map (entryAt truncate tasks total n start interval) (seq 0 i0))
    = (Z.of_nat (i0 + m),
       map (entryAt truncate tasks total n start interval) (seq 0 (i0 + m))).
Proof.
  induction m as [|m IH]; intros i0.
  - rewrite Nat.add_0_r. reflexivity.
  - cbn [seq map fold_left].
    assert (Hstep : burndownStep truncate tasks total n
                      (Z.of_nat i0,
                       map (entryAt truncate tasks total n start interval) (seq 0 i0))
                      (dateAt start interval i0)
                    = (Z.of_nat (S i0),
                       map (entryAt truncate tasks total n start interval) (seq 0 (S i0)))).
    { unfold burndownStep. cbv zeta. f_equal; [lia|].
      rewrite seq_S, map_app. cbn [map Nat.add]. f_equal. f_equal.
      unfold entryAt at 3. cbv zeta. fold (remainingAt tasks total (dateAt start interval i0)).
      f_equal.
      rewrite length_map, length_seq.
      destruct i0 as [|j].
      - reflexivity.
      - destruct (Z.ltb_spec 0 (Z.of_nat (S j))) as [_|N]; [|lia].
        destruct (Nat.ltb_spec 0 (S j)) as [_|N]; [|lia]. cbn [andb].
        replace (Z.to_nat (Z.of_nat (S j) - 1)) with j by lia.
        rewrite nth_error_map.
        assert (Hnth : nth_error (seq 0 (S j)) j = Some j).
        { rewrite nth_error_seq. destruct (Nat.ltb_spec j (S j)); [reflexivity|lia]. }
        rewrite Hnth. cbn [option_map entryAt RemainingTasks].
        fold (remainingAt tasks total (dateAt start interval j)).
        set (x := remainingAt tasks total (dateAt start interval (S j))
                  - (remainingAt tasks total (dateAt start interval j)
                     - remainingAt tasks total (dateAt start interval (S j)))
                    * (n - Z.of_nat (S j) - 1)).
        destruct (Z.ltb_spec x 0); lia. }
    rewrite Hstep, (IH (S i0)). f_equal; [lia|]. f_equal. f_equal. lia.
Qed.

End Burndown.

(** X26.  The burndown chart has one entry for the start of the time
    range and for every whole interval after it up to now (a day for the
    ranges of 7 to 60 days, a week otherwise), and none when the start
    is after now.  The entry of a date shows the tasks completed by it
    (in a completed column, last modified at or before the date), which
    never decrease from one entry to the next, and as remaining the
    baseline plus the tasks created by the date less the completed ones,
    where the baseline counts the tasks created at or before the start:
    these are counted again among the tasks created by each date.  Among
    tasks created since the start the baseline counts the ones created
    at that very instant.  After the first entry the trend projection is
    never negative. *)
Theorem burndown_chart_by_date :
  forall (truncate : float -> Z) (clock now : Time) (tasks : list TaskDetail)
         (timeRange : string),
    let start := Analytics.getTimeRangeStart clock timeRange in
    let interval := Analytics.burndownInterval timeRange in
    let rounds := Tally.burndownRounds start now interval in
    let total := Z.of_nat (List.length (filter (Analytics.createdBy start) tasks)) in
    let entry := Tally.entryAt truncate tasks total rounds start interval in
    Analytics.generateBurndownData truncate clock now tasks timeRange
    = map entry (seq 0 (Z.to_nat rounds))
    /\ (forall k : nat,
          instant (Tally.dateAt start interval k) = instant start + Z.of_nat k * interval
          /\ (instant (Tally.dateAt start interval k) <= instant now
              <-> Z.of_nat k < rounds))
    /\ (forall k : nat,
          Analytics.Burndown_CompletedTasks (entry k)
          = Z.of_nat (List.length
                        (filter (Analytics.completedBy (Tally.dateAt start interval k)) tasks))
          /\ Analytics.RemainingTasks (entry k)
             = total
               + Z.of_nat (List.length
                             (filter (Analytics.createdBy (Tally.dateAt start interval k))
                                     tasks))
               - Analytics.Burndown_CompletedTasks (entry k)
          /\ total
             <= Z.of_nat (List.length
                            (filter (Analytics.createdBy (Tally.dateAt start interval k))
                                    tasks))
          /\ Analytics.Burndown_CompletedTasks (entry k)
             <= Analytics.Burndown_CompletedTasks (entry (S k))
          /\ 0 <= Analytics.TrendProjection (entry (S k)))
    /\ (forall task : TaskDetail,
          Analytics.createdSince start task = true ->
          Analytics.createdBy start task = true ->
          exists created,
            Parse LayoutStamp (Created (Dates task)) = Some created
            /\ instant created = instant start).
Proof.
  intros truncate clock now tasks timeRange start interval rounds total entry.
  pose proof (burndownInterval_pos timeRange) as Hi. fold interval in Hi.
  assert (Hr0 : 0 <= rounds).
  { unfold rounds, Tally.burndownRounds.
    destruct (Z.leb_spec (instant start) (instant now)); [|lia].
    assert (0 <= (instant now - instant start) / interval) by (apply Z.div_pos; lia). lia. }
  assert (Hdate : forall k : nat,
             instant (Tally.dateAt start interval k)
             = instant start + Z.of_nat k * interval).
  { intros k. unfold Tally.dateAt. apply instant_Add. }
  assert (Hmono : forall j k : nat,
             (j <= k)%nat ->
             instant (Tally.dateAt start interval j)
             <= instant (Tally.dateAt start interval k)).
  { intros j k Hjk. rewrite !Hdate. nia. }
  split; [|split; [|split]].
  - unfold Analytics.generateBurndownData. cbv zeta. fold start interval.
    rewrite (datesLoop_spec now interval _ Hi start).
    + fold rounds. destruct (Z.to_nat rounds) as [|m] eqn:Em; [reflexivity|].
      assert (Hn : Z.of_nat (List.length (map (Tally.dateAt start interval) (seq 0 (S m))))
                   = rounds).
      { rewrite length_map, length_seq. lia. }
      rewrite Hn, countOf_length. fold total.
      change (map (Tally.dateAt start interval) (seq 0 (S m)))
        with (Tally.dateAt start interval 0
              :: map (Tally.dateAt start interval) (seq 1 m)) at 1.
      cbv iota.
      change (0, @nil Analytics.BurndownData)
        with (Z.of_nat 0,
              map (Tally.entryAt truncate tasks total rounds start interval) (seq 0 0)).
      rewrite (burndown_fold truncate tasks total rounds start interval (S m) 0%nat).
      reflexivity.
    + apply getTimeRangeStart_normal.
    + unfold Tally.burndownRounds, Analytics.roundsBetween.
      destruct (Z.leb_spec (instant start) (instant now)); [|lia].
      assert (0 <= (instant now - instant start) / interval) by (apply Z.div_pos; lia).
      lia.
  - intros k. split; [apply Hdate|]. rewrite Hdate.
    unfold rounds, Tally.burndownRounds.
    destruct (Z.leb_spec (instant start) (instant now)) as [Hle|Hgt].
    + split; intros H.
      * assert (Z.of_nat k <= (instant now - instant start) / interval)
          by (apply Z.div_le_lower_bound; lia). lia.
      * assert (Hk : Z.of_nat k <= (instant now - instant start) / interval) by lia.
        pose proof (Z.mul_div_le (instant now - instant start) interval Hi).
        nia.
    + split; intros H; nia.
  - intros k.
    assert (Hc : forall j : nat,
               Analytics.Burndown_CompletedTasks (entry j)
               = Z.of_nat (List.length
                             (filter (Analytics.completedBy (Tally.dateAt start interval j))
                                     tasks))).
    { intros j. unfold entry, Tally.entryAt. cbn [Analytics.Burndown_CompletedTasks].
      apply countOf_length. }
    split; [apply Hc|]. split.
    { rewrite Hc. unfold entry, Tally.entryAt. cbn [Analytics.RemainingTasks].
      unfold Tally.remainingAt. rewrite !countOf_length. reflexivity. }
    split.
    { unfold total. apply inj_le. apply filter_length_mono. intros task.
      unfold Analytics.createdBy. apply notAfter_mono.
      rewrite Hdate. nia. }
    split.
    { rewrite !Hc. apply inj_le. apply filter_length_mono. intros task.
      unfold Analytics.completedBy. rewrite !andb_true_iff. intros [H1 H2].
      split; [exact H1|]. revert H2. apply notAfter_mono. apply Hmono. lia. }
    unfold entry, Tally.entryAt. cbn [Analytics.TrendProjection]. cbv zeta. lia.
  - intros task Hs Hb. unfold Analytics.createdSince in Hs.
    unfold Analytics.createdBy, Analytics.notAfter in Hb.
    destruct (String.eqb (Created (Dates task)) ""); [discriminate|].
    destruct (Parse LayoutStamp (Created (Dates task))) as [created|]; [|discriminate].
    exists created. split; [reflexivity|].
    rewrite notAfter_le in Hb. apply Z.leb_le in Hb.
    unfold After, Analytics.Equal in Hs.
    destruct (Z.ltb_spec (instant start) (instant created));
      destruct (Z.eqb_spec (instant created) (instant start)); cbn [orb] in Hs;
      try discriminate; lia.
Qed.

(** ** Project health *)

Section Health.
Import GoMap Analytics Tally.

Lemma fold_addToStats (ts : list TaskDetail) (stats : ProjectStats) :
  fold_left (fun v x => addToStats x v) ts stats
  = {| totalTasks := totalTasks stats + Z.of_nat (List.length ts);
       completedTasks :=
         completedTasks stats
         + Z.of_nat (List.length (filter AnalyticsHandler.isTaskCompleted ts));
       overdueTasks := overdueTasks stats + Z.of_nat (List.length (filter IsOverdue ts));
       onTimeTasks :=
         onTimeTasks stats
         + Z.of_nat (List.length
                       (filter (fun task => AnalyticsHandler.isTaskCompleted task
                                            && onTime task) ts));
       totalHours := fold_left addEstimate ts (totalHours stats);
       spentHours := fold_left addSpent ts (spentHours stats) |}.
Proof.
  revert stats. induction ts as [|t ts IH]; intros stats.
  - cbn [fold_left List.length filter]. destruct stats; cbn. f_equal; lia.
  - cbn [fold_left]. rewrite IH. unfold addToStats.
    cbn [totalTasks completedTasks overdueTasks onTimeTasks totalHours spentHours
         filter List.length].
    destruct (AnalyticsHandler.isTaskCompleted t); destruct (IsOverdue t);
      destruct (onTime t); cbn [andb List.length]; f_equal; lia.
Qed.

Lemma fold_keep (T V : Type) (ts : list T) (v : V) :
  fold_left (fun v (_ : T) => v) ts v = v.
Proof. induction ts as [|t ts IH]; [reflexivity|exact IH]. Qed.

Lemma health_entry (tasks : list TaskDetail) (id : string) (metric : ProjectHealthMetric) :
  In (id, metric) (group healthKey newHealth (fun _ metric => metric) tasks) ->
  exists first rest,
    inProject id tasks = first :: rest
    /\ ProjectInfo_ID (Project first) = id
    /\ metric = newHealth first
    /\ lookup (group healthKey newStats addToStats tasks) id
       = Some (statsOf (first :: rest)).
Proof.
  intros Hin. apply group_In in Hin. rewrite group_lookup. unfold inProject.
  destruct (members healthKey id tasks) as [|first rest] eqn:Em; [discriminate Hin|].
  assert (Hf : In first (members healthKey id tasks)) by (rewrite Em; left; reflexivity).
  apply filter_In in Hf. destruct Hf as [_ Hk]. unfold hasKey, healthKey in Hk.
  apply String.eqb_eq in Hk.
  exists first, rest. split; [reflexivity|]. split; [exact Hk|]. split.
  - unfold entryOf in Hin. rewrite (fold_keep TaskDetail) in Hin. congruence.
  - unfold entryOf. rewrite (fold_addToStats (first :: rest)). unfold newStats, statsOf.
    cbn [totalTasks completedTasks overdueTasks onTimeTasks totalHours spentHours].
    rewrite !Z.add_0_l. reflexivity.
Qed.

Lemma rateAll_ok (projectStats : list (string * ProjectStats))
    (entries : list (string * ProjectHealthMetric))
    (rated : string * ProjectHealthMetric -> ProjectHealthMetric) :
  (forall entry, In entry entries ->
     exists stats, lookup projectStats (fst entry) = Some stats
                   /\ rated entry = rateHealth (snd entry) stats) ->
  rateAll projectStats entries = Ok (map rated entries).
Proof.
  induction entries as [|[k m] es IH]; intros H; [reflexivity|].
  cbn [rateAll map].
  destruct (H (k, m) (or_introl eq_refl)) as (stats & Hl & Hr). cbn [fst snd] in Hl, Hr.
  rewrite Hl, IH by (intros e He; apply H; right; exact He).
  rewrite Hr. reflexivity.
Qed.

Lemma utilisation_capped (metric : ProjectHealthMetric) (stats : ProjectStats) :
  PrimFloat.ltb 100 (TeamUtilisation metric) = false ->
  PrimFloat.ltb 100 (TeamUtilisation (rateHealth metric stats)) = false.
Proof.
  intros H. unfold rateHealth. cbv zeta. cbn [TeamUtilisation].
  destruct (PrimFloat.ltb 0 (totalHours stats)); [|exact H].
  destruct (PrimFloat.ltb 100 (spentHours stats / totalHours stats * 100)) eqn:E;
    [reflexivity|exact E].
Qed.

End Health.

(** X27.  The project health analysis never fails on its second map, and
    whatever order the maps are walked in it holds one entry per project
    id among the tasks.  The entry carries the project name of the first
    task of the project and is rated on the counts of the project's own
    tasks: all of them, the ones in a completed column, the overdue
    ones, the completed ones last modified no later than due, and the
    sums of their estimated and spent hours.  Its team utilisation is
    never above 100. *)
Theorem project_health_by_project :
  forall (it : GoMap.Iteration) (tasks : list TaskDetail),
    GoMap.visitsAll it ->
    exists health : list Analytics.ProjectHealthMetric,
      Analytics.analyseProjectHealth it tasks = Ok health
      /\ NoDup (map Analytics.Health_ProjectID health)
      /\ (forall entry : Analytics.ProjectHealthMetric,
            In entry health
            <-> exists first rest,
                  Tally.inProject (Analytics.Health_ProjectID entry) tasks = first :: rest
                  /\ entry = Tally.healthOf first (first :: rest))
      /\ (forall entry : Analytics.ProjectHealthMetric,
            In entry health ->
            PrimFloat.ltb 100 (Analytics.TeamUtilisation entry) = false).
Proof.
  intros it tasks Hit.
  set (projectMap := GoMap.group Analytics.healthKey Analytics.newHealth
                                 (fun _ metric => metric) tasks).
  set (projectStats := GoMap.group Analytics.healthKey Analytics.newStats
                                   Analytics.addToStats tasks).
  set (rated := fun entry : string * Analytics.ProjectHealthMetric =>
                  match GoMap.lookup projectStats (fst entry) with
                  | Some stats => Analytics.rateHealth (snd entry) stats
                  | None => snd entry
                  end).
  assert (Hentry : forall id metric,
             In (id, metric) projectMap ->
             exists first rest,
               Tally.inProject id tasks = first :: rest
               /\ ProjectInfo_ID (Project first) = id
               /\ rated (id, metric) = Tally.healthOf first (first :: rest)).
  { intros id metric Hin.
    destruct (health_entry tasks id metric Hin) as (first & rest & Hm & Hid & -> & Hl).
    exists first, rest. split; [exact Hm|]. split; [exact Hid|].
    unfold rated. cbn [fst snd]. fold projectStats in Hl. rewrite Hl. reflexivity. }
  assert (Hok : Analytics.rateAll projectStats (GoMap.range it _ projectMap)
                = Ok (map rated (GoMap.range it _ projectMap))).
  { apply rateAll_ok. intros [id metric] Hin.
    apply (Permutation_in _ (Hit _ projectMap)) in Hin.
    destruct (health_entry tasks id metric Hin) as (first & rest & _ & _ & _ & Hl).
    fold projectStats in Hl. exists (Tally.statsOf (first :: rest)).
    split; [exact Hl|]. unfold rated. cbn [fst snd]. rewrite Hl. reflexivity. }
  exists (GoSort.Slice Analytics.lessHealth (map rated (GoMap.range it _ projectMap))).
  assert (Hperm : Permutation
                    (GoSort.Slice Analytics.lessHealth
                                  (map rated (GoMap.range it _ projectMap)))
                    (map rated projectMap)).
  { etransitivity; [apply GoSortFacts.Slice_perm|]. apply Permutation_map. apply Hit. }
  assert (Hids : map Analytics.Health_ProjectID (map rated projectMap) = map fst projectMap).
  { rewrite map_map. apply map_ext_in. intros [id metric] Hin.
    destruct (Hentry id metric Hin) as (first & rest & _ & Hid & ->). exact Hid. }
  split.
  { unfold Analytics.analyseProjectHealth. cbv zeta.
    fold projectMap projectStats. rewrite Hok. reflexivity. }
  split.
  { apply (Permutation_NoDup (Permutation_map _ (Permutation_sym Hperm))).
    rewrite Hids. apply group_NoDup. }
  assert (Hmem : forall entry,
             In entry (GoSort.Slice Analytics.lessHealth
                                    (map rated (GoMap.range it _ projectMap)))
             <-> exists first rest,
                   Tally.inProject (Analytics.Health_ProjectID entry) tasks = first :: rest
                   /\ entry = Tally.healthOf first (first :: rest)).
  { intros entry. split.
    - intros Hin. apply (Permutation_in _ Hperm) in Hin.
      apply in_map_iff in Hin. destruct Hin as ([id metric] & <- & Hin).
      destruct (Hentry id metric Hin) as (first & rest & Hm & Hid & ->).
      exists first, rest. split; [|reflexivity].
      change (Analytics.Health_ProjectID (Tally.healthOf first (first :: rest)))
        with (ProjectInfo_ID (Project first)).
      rewrite Hid. exact Hm.
    - intros (first & rest & Hm & ->).
      change (Analytics.Health_ProjectID (Tally.healthOf first (first :: rest)))
        with (ProjectInfo_ID (Project first)) in Hm.
      apply (Permutation_in _ (Permutation_sym Hperm)).
      apply in_map_iff.
      exists (ProjectInfo_ID (Project first), Analytics.newHealth first).
      assert (Hin : In (ProjectInfo_ID (Project first), Analytics.newHealth first)
                       projectMap).
      { apply group_In. unfold Tally.inProject in Hm. rewrite Hm.
        unfold GoMap.entryOf. rewrite (fold_keep TaskDetail). reflexivity. }
      split; [|exact Hin].
      destruct (Hentry _ _ Hin) as (first' & rest' & Hm' & _ & ->).
      rewrite Hm in Hm'. injection Hm' as <- <-. reflexivity. }
  split; [exact Hmem|].
  intros entry Hin. apply Hmem in Hin. destruct Hin as (first & rest & _ & ->).
  unfold Tally.healthOf. apply utilisation_capped. reflexivity.
Qed.

(* ================================================================== *)
(** * The further properties at concrete inputs *)
(* ================================================================== *)

Lemma inOrder_visitsAll : GoMap.visitsAll GoMap.inOrder.
Proof. intros V m. apply Permutation_refl. Qed.

Lemma summary_mode_response_witness :
  SummaryMode (Spec.listAll true 2) = true
  /\ match TasksHandler.Handle Spec.tinyEncoder Spec.someInstant
                               (Spec.listAll true 2) Spec.mixedTasks with
     | Ok (response, _) =>
         TaskSummaries response
         = map TasksHandler.summaryOf
               (firstn (Z.to_nat (Z.min (Limit (Spec.listAll true 2)) 100))
                       (TasksHandler.sortTasks
                          (TasksHandler.filterTasks Spec.mixedTasks (Spec.listAll true 2))
                          (SortBy (Spec.listAll true 2))))
         /\ Tasks response = []
         /\ Truncated response = false
         /\ TruncatedAt response = 0
         /\ TotalTasks (Summary response)
            = Z.of_nat (List.length
                          (TasksHandler.filterTasks Spec.mixedTasks (Spec.listAll true 2)))
     | Err _ => exists response, MarshalIndent Spec.tinyEncoder response = None
     | Panic => Limit (Spec.listAll true 2) < 0
     end.
Proof.
  split; [reflexivity|].
  apply (summary_mode_response Spec.tinyEncoder Spec.someInstant
                               (Spec.listAll true 2) Spec.mixedTasks).
  reflexivity.
Defined.

Lemma detail_mode_without_tasks_witness :
  SummaryMode (Spec.listAll false 0) = false
  /\ 0 <= Limit (Spec.listAll false 0)
  /\ Limit (Spec.listAll false 0) = 0
  /\ match TasksHandler.Handle Spec.tinyEncoder Spec.someInstant
                               (Spec.listAll false 0) Spec.mixedTasks with
     | Ok (response, _) =>
         Tasks response = [] /\ Truncated response = true /\ TruncatedAt response = 0
     | Err _ => exists response, MarshalIndent Spec.tinyEncoder response = None
     | Panic => False
     end.
Proof.
  split; [reflexivity|]. split; [discriminate|]. split; [reflexivity|].
  apply (detail_mode_without_tasks Spec.tinyEncoder Spec.someInstant
                                   (Spec.listAll false 0) Spec.mixedTasks).
  - reflexivity.
  - discriminate.
  - right. reflexivity.
Defined.

Lemma summary_counters_witness :
  TasksHandler.collectTasks Spec.someInstant [(Spec.board, Samples.fetched)]
                            "https://kb.example" false
  = Some Samples.collectedOnce
  /\ instant Spec.someInstant <= instant Spec.someInstant
  /\ (let s := TasksHandler.calculateTasksSummary Spec.someInstant Samples.collectedOnce in
      TotalTasks s = Z.of_nat (List.length Samples.collectedOnce)
      /\ 0 <= OverdueTasks s <= TotalTasks s
      /\ 0 <= DueThisWeek s <= TotalTasks s
      /\ 0 <= UnassignedTasks s <= TotalTasks s
      /\ OverdueTasks s + DueThisWeek s <= TotalTasks s).
Proof.
  assert (H : TasksHandler.collectTasks Spec.someInstant [(Spec.board, Samples.fetched)]
                                        "https://kb.example" false
              = Some Samples.collectedOnce) by reflexivity.
  split; [exact H|]. split; [apply Z.le_refl|].
  apply (summary_counters Spec.someInstant Spec.someInstant
                          [(Spec.board, Samples.fetched)] "https://kb.example" false
                          Samples.collectedOnce Samples.collectedOnce).
  - exact H.
  - intros d Hd. exact Hd.
  - apply Z.le_refl.
Defined.

Lemma team_workloads_tally_witness :
  GoMap.visitsAll GoMap.inOrder
  /\ NoDup (map PrioritiesAnalysis.Workload_UserID
                (PrioritiesAnalysis.analyseTeamWorkloads
                   Samples.plainPrinter GoMap.inOrder Samples.team))
  /\ (exists workload,
        In workload (PrioritiesAnalysis.analyseTeamWorkloads
                       Samples.plainPrinter GoMap.inOrder Samples.team)
        /\ PrioritiesAnalysis.Workload_UserID workload = "7"
        /\ PrioritiesAnalysis.AssignedTasks workload = 2).
Proof.
  split; [exact inOrder_visitsAll|].
  destruct (team_workloads_tally Samples.plainPrinter GoMap.inOrder Samples.team
                                 inOrder_visitsAll) as (Hn & Hids & Hw).
  split; [exact Hn|].
  assert (Hin : In "7" (map PrioritiesAnalysis.Workload_UserID
                            (PrioritiesAnalysis.analyseTeamWorkloads
                               Samples.plainPrinter GoMap.inOrder Samples.team))).
  { apply Hids. exists (Samples.task 1 "Review" (Some Samples.alice)
                                      "2024-01-01T00:00:00Z" "2024-01-02T00:00:00Z" 30 true),
                       Samples.alice.
    split; [left; reflexivity|]. split; reflexivity. }
  apply in_map_iff in Hin. destruct Hin as (workload & Hid & Hin).
  exists workload. split; [exact Hin|]. split; [exact Hid|].
  destruct (Hw workload Hin) as (first & rest & u & Hm & _ & ->).
  rewrite Hid in Hm.
  cbn [PrioritiesAnalysis.rate Tally.tallyOf PrioritiesAnalysis.AssignedTasks].
  rewrite <- Hm. reflexivity.
Defined.

Lemma bottlenecks_are_the_stuck_columns_witness :
  GoMap.visitsAll GoMap.inOrder
  /\ In (Tally.bottleneckFor Samples.today "Alpha" "Review" Samples.team)
        (PrioritiesAnalysis.findBottlenecks GoMap.inOrder Samples.team Samples.today)
  /\ PrioritiesAnalysis.StuckTasks
       (Tally.bottleneckFor Samples.today "Alpha" "Review" Samples.team) = 3.
Proof.
  split; [exact inOrder_visitsAll|]. split; [|vm_compute; reflexivity].
  destruct (bottlenecks_are_the_stuck_columns GoMap.inOrder Samples.team Samples.today
              inOrder_visitsAll) as [_ H].
  apply (proj2 (H (Tally.bottleneckFor Samples.today "Alpha" "Review" Samples.team))).
  exists "Alpha", "Review". split; [reflexivity|]. split.
  - apply Nat.leb_le. vm_compute. reflexivity.
  - vm_compute. reflexivity.
Defined.

Lemma recommendations_follow_the_analysis_witness :
  GoMap.visitsAll GoMap.inOrder
  /\ exists personal,
       PrioritiesAnalysis.generateRecommendations
         Samples.plainPrinter
         (PrioritiesAnalysis.analyseWorkload Samples.plainPrinter GoMap.inOrder Samples.team
                                             Samples.request Samples.today Samples.today)
         Samples.team
       = personal
         ++ map (PrioritiesAnalysis.processRecommendation Samples.plainPrinter)
                (PrioritiesAnalysis.findBottlenecks GoMap.inOrder Samples.team Samples.today)
       /\ (List.length personal <= 3)%nat.
Proof.
  split; [exact inOrder_visitsAll|].
  destruct (recommendations_follow_the_analysis
              Samples.plainPrinter GoMap.inOrder Samples.team Samples.team Samples.request
              Samples.today Samples.today inOrder_visitsAll) as (personal & E & L & _).
  exists personal. split; [exact E|exact L].
Defined.

Lemma analytics_time_range_witness :
  GoTimeInv.fourDigitYear Samples.newYear
  /\ Created (Dates (Samples.task 1 "Review" None "2024-01-01T00:00:00Z" "" 0 false))
     = Format Samples.newYear LayoutStamp
  /\ Analytics.createdSince
       (Analytics.getTimeRangeStart Samples.today "30_days")
       (Samples.task 1 "Review" None "2024-01-01T00:00:00Z" "" 0 false) = true.
Proof.
  assert (H3 : GoTimeInv.fourDigitYear Samples.newYear).
  { unfold GoTimeInv.fourDigitYear. cbn. split; discriminate. }
  assert (H4 : Created (Dates (Samples.task 1 "Review" None "2024-01-01T00:00:00Z" ""
                                            0 false))
               = Format Samples.newYear LayoutStamp) by reflexivity.
  destruct (analytics_time_range Samples.today Samples.newYear "30_days"
              (Samples.task 1 "Review" None "2024-01-01T00:00:00Z" "" 0 false)
              Samples.team H3 H4) as (Hc & _).
  split; [exact H3|]. split; [exact H4|].
  rewrite Hc. reflexivity.
Defined.

Lemma completion_trends_by_period_witness :
  GoMap.visitsAll GoMap.inOrder
  /\ StronglySorted
       (fun x y => GoString.lt (Analytics.Trend_Period x) (Analytics.Trend_Period y) = true)
       (Analytics.analyseCompletionTrends GoMap.inOrder Samples.team "7_days")
  /\ In (Tally.trendOf "2024-01-04"
           (Tally.createdIn "7_days" "2024-01-04" Samples.team))
        (Analytics.analyseCompletionTrends GoMap.inOrder Samples.team "7_days").
Proof.
  split; [exact inOrder_visitsAll|].
  destruct (completion_trends_by_period GoMap.inOrder Samples.team "7_days"
                                        inOrder_visitsAll) as (Hs & Hm & _).
  split; [exact Hs|].
  apply (proj2 (Hm (Tally.trendOf "2024-01-04"
                      (Tally.createdIn "7_days" "2024-01-04" Samples.team)))).
  split; [vm_compute; discriminate|vm_compute; reflexivity].
Defined.

Lemma velocity_by_period_witness :
  GoMap.visitsAll GoMap.inOrder
  /\ StronglySorted
       (fun x y => GoString.lt (Analytics.Velocity_Period x)
                               (Analytics.Velocity_Period y) = true)
       (Analytics.analyseVelocity GoMap.inOrder Samples.team "7_days")
  /\ In (Tally.velocityOf "2024-01-09"
           (Tally.completedIn "7_days" "2024-01-09" Samples.team))
        (Analytics.analyseVelocity GoMap.inOrder Samples.team "7_days").
Proof.
  split; [exact inOrder_visitsAll|].
  destruct (velocity_by_period GoMap.inOrder Samples.team "7_days"
                               inOrder_visitsAll) as (Hs & Hm & _).
  split; [exact Hs|].
  apply (proj2 (Hm (Tally.velocityOf "2024-01-09"
                      (Tally.completedIn "7_days" "2024-01-09" Samples.team)))).
  split; [vm_compute; discriminate|vm_compute; reflexivity].
Defined.

Lemma task_aging_counts_witness :
  GoMap.visitsAll GoMap.inOrder
  /\ Tally.sumZ (map Analytics.Aging_TaskCount
                     (Analytics.analyseTaskAging GoMap.inOrder Samples.team Samples.today))
     = 3.
Proof.
  split; [exact inOrder_visitsAll|].
  destruct (task_aging_counts GoMap.inOrder Samples.team Samples.today inOrder_visitsAll)
    as (_ & _ & _ & Hsum).
  rewrite Hsum. reflexivity.
Defined.

Lemma week_periods_are_hours_of_the_day_witness :
  GoTimeInv.fourDigitYear Samples.newYear
  /\ GoTimeInv.fourDigitYear Samples.today
  /\ Analytics.getPeriodKey Samples.newYear "30_days"
     = Analytics.getPeriodKey Samples.today "30_days".
Proof.
  assert (H1 : GoTimeInv.fourDigitYear Samples.newYear).
  { unfold GoTimeInv.fourDigitYear. cbn. split; discriminate. }
  assert (H2 : GoTimeInv.fourDigitYear Samples.today).
  { unfold GoTimeInv.fourDigitYear. cbn. split; discriminate. }
  split; [exact H1|]. split; [exact H2|].
  apply (proj1 (week_periods_are_hours_of_the_day Samples.newYear Samples.today "30_days"
                  H1 H2 (or_introl eq_refl))).
  split; reflexivity.
Defined.

Lemma kanboard_timestamp_round_trip_witness :
  1704067200 <> 0 /\ 1704067200 <> unixOfYearOne
  /\ GoTimeInv.firstStampSecond <= 1704067200 <= GoTimeInv.lastStampSecond
  /\ Kanboard.UnmarshalJSON (fun _ => None) (StrConv.Itoa 1704067200) = Samples.newYear
  /\ Parse LayoutStamp
           (TasksHandler.formatKanboardTime
              (Kanboard.UnmarshalJSON (fun _ => None) (StrConv.Itoa 1704067200)))
     = Some Samples.newYear.
Proof.
  assert (H1 : 1704067200 <> 0) by discriminate.
  assert (H2 : 1704067200 <> unixOfYearOne) by discriminate.
  assert (H3 : GoTimeInv.firstStampSecond <= 1704067200 <= GoTimeInv.lastStampSecond)
    by (split; discriminate).
  destruct (kanboard_timestamp_round_trip (fun _ => None) 1704067200 H1 H2 H3)
    as (Ha & _ & Hb & _).
  split; [exact H1|]. split; [exact H2|]. split; [exact H3|].
  split; [exact Ha|exact Hb].
Defined.

Lemma overview_summary_counts_witness :
  GoMap.visitsAll GoMap.inOrder
  /\ OverviewHandler.Overview_TotalTasks
       (OverviewHandler.calculateSummary GoMap.inOrder Samples.overviews true) = 7
  /\ OverviewHandler.InactiveProjects
       (OverviewHandler.calculateSummary
          GoMap.inOrder
          (OverviewHandler.shown
             {| OverviewHandler.IncludeTaskCounts := true;
                OverviewHandler.IncludeInactiveProjects := false |} Samples.overviews)
          true) = 0.
Proof.
  split; [exact inOrder_visitsAll|].
  destruct (overview_summary_counts
              GoMap.inOrder Samples.overviews true
              {| OverviewHandler.IncludeTaskCounts := true;
                 OverviewHandler.IncludeInactiveProjects := false |}
              inOrder_visitsAll) as ((_ & _ & _ & Ht) & Hs).
  split; [rewrite Ht; reflexivity|].
  apply (Hs eq_refl).
Defined.

Lemma project_health_by_project_witness :
  GoMap.visitsAll GoMap.inOrder
  /\ exists health,
       Analytics.analyseProjectHealth GoMap.inOrder Samples.team = Ok health
       /\ NoDup (map Analytics.Health_ProjectID health)
       /\ In (Tally.healthOf
                (Samples.task 1 "Review" (Some Samples.alice)
                              "2024-01-01T00:00:00Z" "2024-01-02T00:00:00Z" 30 true)
                Samples.team) health.
Proof.
  split; [exact inOrder_visitsAll|].
  destruct (project_health_by_project GoMap.inOrder Samples.team inOrder_visitsAll)
    as (health & Hok & Hn & Hm & _).
  exists health. split; [exact Hok|]. split; [exact Hn|].
  apply (proj2 (Hm (Tally.healthOf
                      (Samples.task 1 "Review" (Some Samples.alice)
                                    "2024-01-01T00:00:00Z" "2024-01-02T00:00:00Z" 30 true)
                      Samples.team))).
  eexists _, _. split; reflexivity.
Defined.
